(** * PandemicProfiler: the forecasting engine of [Model/covid_prediction_model.py]

    A shallow embedding of [COVIDPredictionModel] and of the fragment of
    pandas, scikit-learn and Prophet its methods call, followed by the
    properties of the engine.

    Conventions of the embedding.
    - A [DataFrame] is column oriented, as in pandas: a row count and an
      ordered list of named, typed columns.
    - Floating-point numbers are idealised as exact rationals ([Q]);
      equality of computed numbers is [Qeq].
    - A column of dtype [int64] is a numeric column whose values are
      integers. Sums are exact: the wrap-around of 64-bit additions is not
      part of the embedding, and what is stated of the value of such a sum
      holds where no addition leaves the range ([no_wrap]).
    - A [datetime64] value is an integer count of nanoseconds since the
      epoch; [None] in a datetime column is [NaT], in a numeric column [NaN].
    - Python objects that are mutated in place live in a store; a Python
      variable holding a frame is a location of that store.
    - What the external libraries compute numerically (string parsing, the
      sort permutation, the fitted models) is a parameter of the
      development, see [Pandas] and [Learners]. *)

From Stdlib Require Import ZArith QArith Qround Lia Ascii String Sorting.Sorted.
From stdpp Require Import base option list gmap strings sorting.

Local Open Scope string_scope.
Local Open Scope list_scope.

(** ** Values, columns and frames *)

(** A Python scalar held in an [object] column. *)
Inductive Cell :=
| CNum (q : Q)
| CStr (s : string)
| CDate (t : Z)
| CNull.

(** A pandas Series, by dtype. *)
Inductive Series :=
| SDatetime (v : list (option Z))
| SNumeric (v : list (option Q))
| SObject (v : list Cell).

Record DataFrame := mkFrame {
  nrows : nat;
  columns : list (string * Series)
}.

Definition series_len (s : Series) : nat :=
  match s with
  | SDatetime v => length v
  | SNumeric v => length v
  | SObject v => length v
  end.

(** Every column has one value per row. *)
Definition wf_frame (df : DataFrame) : Prop :=
  Forall (fun c => series_len (snd c) = nrows df) (columns df).

(** ** Python exceptions and results *)

Inductive PyExn :=
| KeyError (key : string)
| TypeError (msg : string)
| ValueError (msg : string)
| NotFittedError (msg : string)
| PyException (msg : string).

Inductive result (A : Type) :=
| Returned (a : A)
| Raised (e : PyExn).
Arguments Returned {A} a.
Arguments Raised {A} e.

Definition is_returned {A} (r : result A) : bool :=
  match r with Returned _ => true | Raised _ => false end.

(** ** Positional helpers *)

(** [l[p]] for a list of positions (numpy [take]); positions out of range
    are skipped. *)
Definition take_pos {A} (p : list nat) (l : list A) : list A :=
  omap (fun i => l !! i) p.

(** [l[mask]] for a boolean mask. *)
Fixpoint filter_mask {A} (m : list bool) (l : list A) : list A :=
  match m, l with
  | b :: m', x :: l' => if b then x :: filter_mask m' l' else filter_mask m' l'
  | _, _ => []
  end.

Definition series_take (p : list nat) (s : Series) : Series :=
  match s with
  | SDatetime v => SDatetime (take_pos p v)
  | SNumeric v => SNumeric (take_pos p v)
  | SObject v => SObject (take_pos p v)
  end.

Definition series_filter (m : list bool) (s : Series) : Series :=
  match s with
  | SDatetime v => SDatetime (filter_mask m v)
  | SNumeric v => SNumeric (filter_mask m v)
  | SObject v => SObject (filter_mask m v)
  end.

(** The values of a series as Python scalars. *)
Definition series_cells (s : Series) : list Cell :=
  match s with
  | SDatetime v => map (fun o => match o with Some t => CDate t | None => CNull end) v
  | SNumeric v => map (fun o => match o with Some q => CNum q | None => CNull end) v
  | SObject v => v
  end.

Definition cell_isna (c : Cell) : bool :=
  match c with CNull => true | _ => false end.

(** [s.notna()] *)
Definition series_notna (s : Series) : list bool :=
  map (fun c => negb (cell_isna c)) (series_cells s).

(** Equality of Python scalars as [==] computes it elementwise: a missing
    value equals nothing, numbers compare by value. *)
Definition cell_eqb (a b : Cell) : bool :=
  match a, b with
  | CNum p, CNum q => Qeq_bool p q
  | CStr s, CStr t => String.eqb s t
  | CDate s, CDate t => Z.eqb s t
  | _, _ => false
  end.

(** ** Frame operations *)

Fixpoint alist_get {V} (k : string) (l : list (string * V)) : option V :=
  match l with
  | [] => None
  | (k', v) :: l' => if String.eqb k k' then Some v else alist_get k l'
  end.

(** Assignment to a key: replaced in place when present, appended otherwise
    (the column order of [df[c] = v]). *)
Fixpoint alist_set {V} (k : string) (v : V) (l : list (string * V)) : list (string * V) :=
  match l with
  | [] => [(k, v)]
  | (k', v') :: l' =>
      if String.eqb k k' then (k, v) :: l' else (k', v') :: alist_set k v l'
  end.

(** [c in df.columns] *)
Definition has_column (c : string) (df : DataFrame) : bool :=
  match alist_get c (columns df) with Some _ => true | None => false end.

(** [df[c]] *)
Definition getitem (c : string) (df : DataFrame) : result Series :=
  match alist_get c (columns df) with
  | Some s => Returned s
  | None => Raised (KeyError c)
  end.

(** [df[c] = s] for a series aligned with the frame. *)
Definition setitem (c : string) (s : Series) (df : DataFrame) : DataFrame :=
  mkFrame (nrows df) (alist_set c s (columns df)).

(** [df[c] = q] for a scalar, broadcast over the rows. *)
Definition setitem_scalar (c : string) (q : Q) (df : DataFrame) : DataFrame :=
  setitem c (SNumeric (replicate (nrows df) (Some q))) df.

(** [df[mask]] *)
Definition frame_filter (m : list bool) (df : DataFrame) : DataFrame :=
  mkFrame (length (filter_mask m (seq 0 (nrows df))))
          (map (fun c => (fst c, series_filter m (snd c))) (columns df)).

(** [df.take(p)] *)
Definition frame_take (p : list nat) (df : DataFrame) : DataFrame :=
  mkFrame (length p)
          (map (fun c => (fst c, series_take p (snd c))) (columns df)).

(** [df.dropna(subset=[c])] *)
Definition dropna (c : string) (df : DataFrame) : result DataFrame :=
  match getitem c df with
  | Returned s => Returned (frame_filter (series_notna s) df)
  | Raised e => Raised e
  end.

(** ** The pandas parameters

    What pandas computes from the text of a cell, and the permutation its
    sort returns, are parameters. [argsort] is the permutation behind
    [sort_values] and behind the key order of [groupby]; numpy's default
    sort is not stable, so all that is known of it on a datetime column is
    that it is a permutation putting the keys in order, [NaT] last. *)

Definition key_le (a b : option Z) : Prop :=
  match a, b with
  | Some x, Some y => (x <= y)%Z
  | _, None => True
  | None, Some _ => False
  end.

Class Pandas := {
  (** [pd.to_numeric] on a [str] *)
  parse_number : string -> option Q;
  (** [pd.to_datetime] on a [str] and on a number *)
  parse_datetime : string -> option Z;
  datetime_of_number : Q -> option Z;
  (** the sum of the values of an [object] column *)
  sum_objects : list Cell -> result (option Q);
  argsort : Series -> result (list nat);
  argsort_datetime : forall ks,
    exists p, argsort (SDatetime ks) = Returned p
              /\ Permutation p (seq 0 (length ks))
              /\ Sorted key_le (take_pos p ks)
}.

Section PandasOps.
Context `{Pandas}.

(** [pd.api.types.is_datetime64_any_dtype(s)] *)
Definition is_datetime64_any_dtype (s : Series) : bool :=
  match s with SDatetime _ => true | _ => false end.

Definition to_datetime_cell (c : Cell) : option Z :=
  match c with
  | CDate t => Some t
  | CStr s => parse_datetime s
  | CNum q => datetime_of_number q
  | CNull => None
  end.

(** [pd.to_datetime(s, errors='coerce')]: what does not parse becomes [NaT]. *)
Definition to_datetime_coerce (s : Series) : Series :=
  match s with
  | SDatetime v => SDatetime v
  | _ => SDatetime (map to_datetime_cell (series_cells s))
  end.

Definition iNaT : Z := (- 2 ^ 63)%Z.

Definition to_numeric_cell (c : Cell) : option Q :=
  match c with
  | CNum q => Some q
  | CStr s => parse_number s
  | CDate _ => None
  | CNull => None
  end.

(** [pd.to_numeric(s, errors='coerce')]: what is not a number becomes [NaN];
    a datetime column is read as its integer nanoseconds. *)
Definition to_numeric_coerce (s : Series) : list (option Q) :=
  match s with
  | SNumeric v => v
  | SDatetime v =>
      map (fun o => Some (inject_Z (match o with Some t => t | None => iNaT end))) v
  | SObject v => map to_numeric_cell v
  end.

(** [.fillna(q)] on a numeric series *)
Definition fillna (q : Q) (v : list (option Q)) : list (option Q) :=
  map (fun o => Some (match o with Some x => x | None => q end)) v.

(** [df.sort_values(c)] *)
Definition sort_values (c : string) (df : DataFrame) : result DataFrame :=
  match getitem c df with
  | Raised e => Raised e
  | Returned s =>
      match argsort s with
      | Raised e => Raised e
      | Returned p => Returned (frame_take p df)
      end
  end.

End PandasOps.

(** ** Calendar fields of a timestamp *)

Definition ns_per_day : Z := 86400000000000%Z.

Definition days_of_ns (t : Z) : Z := (t / ns_per_day)%Z.

(** Year, month and day of the proleptic Gregorian calendar for a day count
    since 1970-01-01. *)
Definition civil_of_days (days : Z) : Z * Z * Z :=
  let z := (days + 719468)%Z in
  let era := (z / 146097)%Z in
  let doe := (z - era * 146097)%Z in
  let yoe := ((doe - doe / 1460 + doe / 36524 - doe / 146096) / 365)%Z in
  let doy := (doe - (365 * yoe + yoe / 4 - yoe / 100))%Z in
  let mp := ((5 * doy + 2) / 153)%Z in
  let d := (doy - (153 * mp + 2) / 5 + 1)%Z in
  let m := (if (mp <? 10)%Z then mp + 3 else mp - 9)%Z in
  let y := (yoe + era * 400 + (if (m <=? 2)%Z then 1 else 0))%Z in
  (y, m, d).

Definition dt_year (t : Z) : Z := fst (fst (civil_of_days (days_of_ns t))).
Definition dt_month (t : Z) : Z := snd (fst (civil_of_days (days_of_ns t))).
Definition dt_day (t : Z) : Z := snd (civil_of_days (days_of_ns t)).
(** Monday is 0; 1970-01-01 was a Thursday. *)
Definition dt_dayofweek (t : Z) : Z := ((days_of_ns t + 3) mod 7)%Z.

(** [s.dt.field]: only a datetime series has the accessor. *)
Definition dt_accessor (field : Z -> Z) (s : Series) : result Series :=
  match s with
  | SDatetime v => Returned (SNumeric (map (option_map (fun t => inject_Z (field t))) v))
  | _ => Raised (PyException "AttributeError: Can only use .dt accessor with datetimelike values")
  end.

(** ** Rolling mean

    [x.rolling(window, min_periods).mean()] as pandas computes it: one pass
    that keeps the count and the sum of the observations in the window,
    removing the value that leaves the window and adding the one that
    enters; [NaN] values are not counted. (The sign counter by which pandas
    clips rounding noise has no effect in exact arithmetic and is left
    out.) *)

Record RollState := mkRoll {
  nobs : nat;
  sum_x : Q
}.

Definition add_mean (v : option Q) (st : RollState) : RollState :=
  match v with
  | Some x => mkRoll (S (nobs st)) (sum_x st + x)%Q
  | None => st
  end.

Definition remove_mean (v : option Q) (st : RollState) : RollState :=
  match v with
  | Some x => mkRoll (pred (nobs st)) (sum_x st - x)%Q
  | None => st
  end.

Definition calc_mean (minp : nat) (st : RollState) : option Q :=
  if (minp <=? nobs st)%nat && (0 <? nobs st)%nat
  then Some (sum_x st / inject_Z (Z.of_nat (nobs st)))%Q
  else None.

Fixpoint roll_mean_loop (window minp : nat) (values : list (option Q))
    (i : nat) (todo : list (option Q)) (st : RollState) : list (option Q) :=
  match todo with
  | [] => []
  | v :: todo' =>
      let st1 :=
        if (window <=? i)%nat then
          match values !! (i - window)%nat with
          | Some old => remove_mean old st
          | None => st
          end
        else st in
      let st2 := add_mean v st1 in
      calc_mean minp st2 :: roll_mean_loop window minp values (S i) todo' st2
  end.

Definition roll_mean (window minp : nat) (values : list (option Q)) : list (option Q) :=
  roll_mean_loop window minp values 0 values (mkRoll 0 0).

(** ** Group-wise transform

    [df.groupby(key)[col].transform(f)]: the rows are split by key (rows
    whose key is missing belong to no group), [f] is applied to the values
    of each group in row order, and each result is put back at the rows of
    its group; rows of no group get [NaN]. *)

Definition group_positions (k : Cell) (keys : list Cell) : list nat :=
  filter_mask (map (cell_eqb k) keys) (seq 0 (length keys)).

(** The distinct keys, in order of first appearance. *)
Definition unique_keys (keys : list Cell) : list Cell :=
  foldl (fun seen k =>
           if cell_isna k || existsb (cell_eqb k) seen then seen
           else seen ++ [k]) [] keys.

(** [out[pos] = xs] *)
Fixpoint scatter {A} (pos : list nat) (xs : list A) (out : list A) : list A :=
  match pos, xs with
  | i :: pos', x :: xs' => scatter pos' xs' (<[i:=x]> out)
  | _, _ => out
  end.

Definition groupby_transform (f : list (option Q) -> list (option Q))
    (keys : list Cell) (vals : list (option Q)) : list (option Q) :=
  foldl (fun out k =>
           let pos := group_positions k keys in
           scatter pos (f (take_pos pos vals)) out)
        (replicate (length vals) None)
        (unique_keys keys).

(** ** The scikit-learn and Prophet parameters

    The numerical content of the estimators is a parameter: how a scaler, a
    forest or a decomposition model is fitted and what it predicts. What the
    embedding fixes is the protocol around them, which is what the engine
    relies on: the fitted-or-not state of each object, the checks made
    before any numerical work, and where the random generator of a call
    comes from ([check_random_state]). [Entropy] is the state of the
    process-wide generator, which differs from one run to the next. *)

Definition Matrix := list (list (option Q)).

Record ProphetConfig := mkProphetConfig {
  yearly_seasonality : bool;
  weekly_seasonality : bool;
  daily_seasonality : bool;
  changepoint_prior_scale : Q
}.

Class Learners := {
  Entropy : Type;
  RandomState : Type;
  (** [np.random.RandomState(seed)] and the process-wide generator *)
  seeded : Z -> RandomState;
  global_random : Entropy -> RandomState;
  (** [StandardScaler]: the fitted mean and scale, and their application *)
  ScalerParams : Type;
  scaler_fit : Matrix -> result ScalerParams;
  scaler_apply : ScalerParams -> Matrix -> result Matrix;
  (** the shuffled train and test positions of [train_test_split] *)
  split_positions : RandomState -> Q -> nat -> result (list nat * list nat);
  (** [RandomForestRegressor]: the fitted trees, and their averaged vote *)
  Forest : Type;
  forest_fit : nat -> RandomState -> Matrix -> list (option Q) -> result Forest;
  forest_predict : Forest -> Matrix -> result (list Q);
  mean_squared_error : list (option Q) -> list Q -> result Q;
  r2_score : list (option Q) -> list Q -> result Q;
  (** [Prophet]: the fitted trend and seasonalities, and for a grid of dates
      the point estimate with its lower and upper bounds at each date (the
      bounds are quantiles of simulated futures, drawn from the process-wide
      generator) *)
  ProphetParams : Type;
  prophet_optimize : ProphetConfig -> Entropy -> list (Z * Q) -> result ProphetParams;
  prophet_forecast_at : ProphetParams -> Entropy -> list Z -> Z -> Q * Q * Q
}.

Section Estimators.
Context `{Pandas} `{Learners}.

(** [sklearn.utils.check_random_state] *)
Definition check_random_state (random_state : option Z) (omega : Entropy) : RandomState :=
  match random_state with
  | Some s => seeded s
  | None => global_random omega
  end.

Record StandardScaler := mkScaler {
  scaler_params : option ScalerParams
}.

Record RandomForestRegressor := mkForest {
  n_estimators : nat;
  random_state : option Z;
  estimators_ : option Forest
}.

Record Prophet := mkProphet {
  config : ProphetConfig;
  (** [history_dates] and the fitted parameters; [None] before [fit] *)
  history : option (list Z * ProphetParams)
}.

Definition not_fitted_msg (cls : string) : string :=
  "This " ++ cls ++ " instance is not fitted yet. Call 'fit' with appropriate arguments before using this estimator.".

Definition numeric_values (s : Series) : result (list (option Q)) :=
  match s with
  | SNumeric v => Returned v
  | _ => Raised (ValueError "could not convert string to float")
  end.

Fixpoint numeric_columns (cols : list (string * Series)) : result (list (list (option Q))) :=
  match cols with
  | [] => Returned []
  | c :: cols' =>
      match numeric_values (snd c), numeric_columns cols' with
      | Returned v, Returned vs => Returned (v :: vs)
      | Raised e, _ => Raised e
      | _, Raised e => Raised e
      end
  end.

(** The rows of a frame as a float array ([check_array] of scikit-learn). *)
Definition frame_values (X : DataFrame) : result Matrix :=
  match numeric_columns (columns X) with
  | Raised e => Raised e
  | Returned cols =>
      Returned (map (fun i => map (fun c => default None (c !! i)) cols)
                    (seq 0 (nrows X)))
  end.

(** [StandardScaler.fit_transform(X)]: the new scaler and the scaled data. *)
Definition scaler_fit_transform (sc : StandardScaler) (X : DataFrame)
    : result (StandardScaler * Matrix) :=
  match frame_values X with
  | Raised e => Raised e
  | Returned Xv =>
      match scaler_fit Xv with
      | Raised e => Raised e
      | Returned p =>
          match scaler_apply p Xv with
          | Raised e => Raised e
          | Returned Xs => Returned (mkScaler (Some p), Xs)
          end
      end
  end.

(** [StandardScaler.transform(X)]: [check_is_fitted] comes first. *)
Definition scaler_transform (sc : StandardScaler) (X : DataFrame) : result Matrix :=
  match scaler_params sc with
  | None => Raised (NotFittedError (not_fitted_msg "StandardScaler"))
  | Some p =>
      match frame_values X with
      | Raised e => Raised e
      | Returned Xv => scaler_apply p Xv
      end
  end.

(** [RandomForestRegressor.fit(X, y)] *)
Definition rf_fit (rf : RandomForestRegressor) (omega : Entropy)
    (X : Matrix) (y : Series) : result RandomForestRegressor :=
  match numeric_values y with
  | Raised e => Raised e
  | Returned yv =>
      match forest_fit (n_estimators rf)
                       (check_random_state (random_state rf) omega) X yv with
      | Raised e => Raised e
      | Returned f => Returned (mkForest (n_estimators rf) (random_state rf) (Some f))
      end
  end.

(** [RandomForestRegressor.predict(X)]: [check_is_fitted] comes first. *)
Definition rf_predict (rf : RandomForestRegressor) (X : Matrix) : result (list Q) :=
  match estimators_ rf with
  | None => Raised (NotFittedError (not_fitted_msg "RandomForestRegressor"))
  | Some f => forest_predict f X
  end.

(** [train_test_split(X, y, test_size, random_state)] *)
Definition train_test_split (X : Matrix) (y : Series) (test_size : Q)
    (random_state : option Z) (omega : Entropy)
    : result (Matrix * Matrix * Series * Series) :=
  match split_positions (check_random_state random_state omega) test_size (length X) with
  | Raised e => Raised e
  | Returned (train, test) =>
      Returned (take_pos train X, take_pos test X, series_take train y, series_take test y)
  end.

(** The two metrics, on a series of targets and an array of predictions. *)
Definition metric (f : list (option Q) -> list Q -> result Q)
    (y_true : Series) (y_pred : list Q) : result Q :=
  match numeric_values y_true with
  | Raised e => Raised e
  | Returned yv => f yv y_pred
  end.

(** [pd.to_datetime(s)] with the default [errors='raise']. *)
Definition to_datetime_strict (s : Series) : result (list Z) :=
  match s with
  | SDatetime v =>
      match mapM id v with
      | Some ds => Returned ds
      | None => Raised (ValueError "Found NaN in column ds.")
      end
  | _ =>
      match mapM to_datetime_cell (series_cells s) with
      | Some ds => Returned ds
      | None => Raised (ValueError "Unknown datetime string format, unable to parse")
      end
  end.

(** The dates of a fitted history in ascending order without repetition. *)
Fixpoint insert_date (d : Z) (l : list Z) : list Z :=
  match l with
  | [] => [d]
  | x :: l' =>
      if (d <? x)%Z then d :: x :: l'
      else if (d =? x)%Z then x :: l'
      else x :: insert_date d l'
  end.

Definition sorted_unique_dates (l : list Z) : list Z := foldr insert_date [] l.

(** [Prophet.fit(df)]: the checks of the library before it optimises. *)
Definition Prophet_fit (m : Prophet) (df : option DataFrame) (omega : Entropy)
    : result Prophet :=
  match history m with
  | Some _ =>
      Raised (PyException "Prophet object can only be fit once. Instantiate a new object.")
  | None =>
      match df with
      | None => Raised (TypeError "argument of type 'NoneType' is not iterable")
      | Some d =>
          match getitem "ds" d, getitem "y" d with
          | Returned ds, Returned y =>
              let keep := series_notna y in
              if (length (filter_mask keep keep) <? 2)%nat
              then Raised (ValueError "Dataframe has less than 2 non-NaN rows.")
              else
                match to_datetime_strict ds, numeric_values y with
                | Returned dates, Returned ys =>
                    let rows :=
                      omap (fun r => match snd r with
                                     | Some q => Some (fst r, q)
                                     | None => None
                                     end) (zip dates ys) in
                    match prophet_optimize (config m) omega rows with
                    | Returned p =>
                        Returned (mkProphet (config m)
                                    (Some (sorted_unique_dates dates, p)))
                    | Raised e => Raised e
                    end
                | Raised e, _ => Raised e
                | _, Raised e => Raised e
                end
          | _, _ =>
              Raised (ValueError "Dataframe must have columns ds and y with the dates and values respectively.")
          end
      end
  end.

(** [Prophet.make_future_dataframe(periods)]: the history dates followed by
    [periods] daily dates after the last one. *)
Definition make_future_dataframe (m : Prophet) (periods : Z) : result (list Z) :=
  match history m with
  | None => Raised (PyException "Model has not been fit.")
  | Some (dates, _) =>
      if (periods + 1 <? 0)%Z
      then Raised (ValueError "Number of periods must be non-negative")
      else
        let last := foldr Z.max (default 0%Z (head dates)) dates in
        Returned (dates ++ map (fun k => (last + Z.of_nat (S k) * ns_per_day)%Z)
                               (seq 0 (Z.to_nat periods)))
  end.

(** [Prophet.predict(future)]: one row per date of the grid. *)
Definition Prophet_predict (m : Prophet) (future : list Z) (omega : Entropy)
    : result DataFrame :=
  match history m with
  | None => Raised (PyException "Model has not been fit.")
  | Some (_, p) =>
      let at_ := prophet_forecast_at p omega future in
      Returned (mkFrame (length future)
        [ ("ds", SDatetime (map Some future));
          ("yhat", SNumeric (map (fun d => Some (fst (fst (at_ d)))) future));
          ("yhat_lower", SNumeric (map (fun d => Some (snd (fst (at_ d)))) future));
          ("yhat_upper", SNumeric (map (fun d => Some (snd (at_ d))) future)) ])
  end.

End Estimators.

(** ** Aggregation by key

    [df.groupby(key).agg({c: 'sum' ...}).reset_index()]: one row per distinct
    key, the keys in sorted order, each named column summed over the rows
    of the key. Rows whose key is missing are dropped. *)

Definition first_positions (keys : list Cell) : list nat :=
  List.filter
    (fun i => match keys !! i with
              | Some k => negb (cell_isna k)
                          && negb (existsb (cell_eqb k) (firstn i keys))
              | None => false
              end)
    (seq 0 (length keys)).

Definition Qsum (l : list Q) : Q := foldr Qplus 0%Q l.

(** The values that are present, [NaN] skipped. *)
Definition present (v : list (option Q)) : list Q := omap id v.

Section Aggregation.
Context `{Pandas}.

(** [s.sum()], in exact arithmetic; for a column of dtype [int64] this is
    the sum numpy computes as long as no addition leaves the 64-bit range
    ([sum_int64_exact]). *)
Definition series_sum (s : Series) : result (option Q) :=
  match s with
  | SNumeric v => Returned (Some (Qsum (present v)))
  | SObject v => sum_objects v
  | SDatetime _ => Raised (TypeError "datetime64 type does not support sum operations")
  end.

Fixpoint group_sums (groups : list (list nat)) (s : Series) : result (list (option Q)) :=
  match groups with
  | [] => Returned []
  | g :: groups' =>
      match series_sum (series_take g s), group_sums groups' s with
      | Returned x, Returned xs => Returned (x :: xs)
      | Raised e, _ => Raised e
      | _, Raised e => Raised e
      end
  end.

Fixpoint agg_columns (groups : list (list nat)) (cs : list string) (df : DataFrame)
    : result (list (string * Series)) :=
  match cs with
  | [] => Returned []
  | c :: cs' =>
      match getitem c df with
      | Raised e => Raised e
      | Returned s =>
          match group_sums groups s, agg_columns groups cs' df with
          | Returned v, Returned rest => Returned ((c, SNumeric v) :: rest)
          | Raised e, _ => Raised e
          | _, Raised e => Raised e
          end
      end
  end.

Definition groupby_sum (key : string) (cs : list string) (df : DataFrame)
    : result DataFrame :=
  match getitem key df with
  | Raised e => Raised e
  | Returned ks =>
      let uniq := series_take (first_positions (series_cells ks)) ks in
      match argsort uniq with
      | Raised e => Raised e
      | Returned p =>
          let sorted := series_take p uniq in
          let groups :=
            map (fun k => group_positions k (series_cells ks)) (series_cells sorted) in
          match agg_columns groups cs df with
          | Raised e => Raised e
          | Returned cols =>
              Returned (mkFrame (series_len sorted) ((key, sorted) :: cols))
          end
      end
  end.

End Aggregation.

(** [df.rename(columns={old: new})] *)
Definition rename_column (old new : string) (df : DataFrame) : DataFrame :=
  mkFrame (nrows df)
    (map (fun c => (if String.eqb (fst c) old then new else fst c, snd c)) (columns df)).

(** [df[[c1; ...]]] *)
Fixpoint select_columns (cs : list string) (df : DataFrame)
    : result (list (string * Series)) :=
  match cs with
  | [] => Returned []
  | c :: cs' =>
      match getitem c df, select_columns cs' df with
      | Returned s, Returned rest => Returned ((c, s) :: rest)
      | Raised e, _ => Raised e
      | _, Raised e => Raised e
      end
  end.

Definition getitems (cs : list string) (df : DataFrame) : result DataFrame :=
  match select_columns cs df with
  | Returned cols => Returned (mkFrame (nrows df) cols)
  | Raised e => Raised e
  end.

(** [str(e)] *)
Definition str_exn (e : PyExn) : string :=
  match e with
  | KeyError k => "'" ++ k ++ "'"
  | TypeError m => m
  | ValueError m => m
  | NotFittedError m => m
  | PyException m => m
  end.

(** ** The engine and its store *)

Section Engine.
Context `{Pandas} `{Learners}.

Record COVIDPredictionModel := mkModel {
  rf_model : RandomForestRegressor;
  prophet_model : Prophet;
  scaler : StandardScaler
}.

(** The state a method runs in: the frames that exist, the engine [self]
    and what has been printed. *)
Record World := mkWorld {
  frames : gmap nat DataFrame;
  self : COVIDPredictionModel;
  stdout : list string
}.

Definition M (A : Type) : Type := World -> World * result A.

Definition ret {A} (a : A) : M A := fun w => (w, Returned a).

Definition bind {A B} (m : M A) (k : A -> M B) : M B :=
  fun w =>
    match m w with
    | (w', Returned a) => k a w'
    | (w', Raised e) => (w', Raised e)
    end.

Definition lift {A} (r : result A) : M A := fun w => (w, r).

Definition raise {A} (e : PyExn) : M A := lift (Raised e).

(** [try: m except Exception as e: handler e] *)
Definition try_except {A} (m : M A) (handler : PyExn -> M A) : M A :=
  fun w =>
    match m w with
    | (w', Raised e) => handler e w'
    | r => r
    end.

Notation "'let*' x ':=' m 'in' k" := (bind m (fun x => k))
  (at level 10, x pattern, m at level 100, k at level 200).
Notation "m ';;' k" := (bind m (fun _ => k))
  (at level 100, k at level 200, right associativity).

Fixpoint for_each {A} (l : list A) (body : A -> M unit) : M unit :=
  match l with
  | [] => ret tt
  | x :: l' => body x ;; for_each l' body
  end.

Definition print (s : string) : M unit :=
  fun w => (mkWorld (frames w) (self w) (stdout w ++ [s]), Returned tt).

(** A new frame object. *)
Definition new_frame (d : DataFrame) : M nat :=
  fun w =>
    let l := fresh (dom (frames w)) in
    (mkWorld (<[l := d]> (frames w)) (self w) (stdout w), Returned l).

Definition read_frame (l : nat) : M DataFrame :=
  fun w =>
    match frames w !! l with
    | Some d => (w, Returned d)
    | None => (w, Raised (PyException "reference to no object"))
    end.

(** A mutation in place of the frame at [l]. *)
Definition update_frame (l : nat) (f : DataFrame -> result DataFrame) : M unit :=
  fun w =>
    match frames w !! l with
    | Some d =>
        match f d with
        | Returned d' => (mkWorld (<[l := d']> (frames w)) (self w) (stdout w), Returned tt)
        | Raised e => (w, Raised e)
        end
    | None => (w, Raised (PyException "reference to no object"))
    end.

(** [df.copy()] *)
Definition copy (l : nat) : M nat :=
  let* d := read_frame l in new_frame d.

Definition getitemM (l : nat) (c : string) : M Series :=
  let* d := read_frame l in lift (getitem c d).

Definition has_columnM (c : string) (l : nat) : M bool :=
  let* d := read_frame l in ret (has_column c d).

Definition setitemM (l : nat) (c : string) (s : Series) : M unit :=
  update_frame l (fun d => Returned (setitem c s d)).

Definition setitem_scalarM (l : nat) (c : string) (q : Q) : M unit :=
  update_frame l (fun d => Returned (setitem_scalar c q d)).

Definition none_subscript_msg : string := "'NoneType' object is not subscriptable".

(** [r[c]] for a reference that may be [None]. *)
Definition subscript (r : option nat) (c : string) : M Series :=
  match r with
  | None => raise (TypeError none_subscript_msg)
  | Some l => getitemM l c
  end.

Definition subscript_list (r : option nat) (cs : list string) : M DataFrame :=
  match r with
  | None => raise (TypeError none_subscript_msg)
  | Some l => let* d := read_frame l in lift (getitems cs d)
  end.

(** [r[mask]] *)
Definition subscript_mask (r : option nat) (m : list bool) : M DataFrame :=
  match r with
  | None => raise (TypeError none_subscript_msg)
  | Some l => let* d := read_frame l in ret (frame_filter m d)
  end.

Definition get_self : M COVIDPredictionModel := fun w => (w, Returned (self w)).

Definition set_self (e : COVIDPredictionModel) : M unit :=
  fun w => (mkWorld (frames w) e (stdout w), Returned tt).

(** ** [COVIDPredictionModel] *)

Definition new_Prophet : Prophet :=
  mkProphet (mkProphetConfig true true true (5 # 100)) None.

(** [__init__] *)
Definition init : COVIDPredictionModel :=
  mkModel (mkForest 100 (Some 42%Z) None) new_Prophet (mkScaler None).

Definition region_column : string := "State/UnionTerritory".

(** The rolling average of one column, group by group. *)
Definition rolling_by_region (df : nat) (col : string) : M Series :=
  let* keys := getitemM df region_column in
  let* vals := getitemM df col in
  let* x := lift (numeric_values vals) in
  ret (SNumeric (groupby_transform (roll_mean 7 1) (series_cells keys) x)).

Definition set_calendar_field (df : nat) (c : string) (field : Z -> Z) : M unit :=
  let* date := getitemM df "Date" in
  let* v := lift (dt_accessor field date) in
  setitemM df c v.

(** The statements of the [try] block that follow the sort: the calendar
    fields, the numeric columns and the rolling averages, on the sorted
    frame [df]. *)
Definition derive_columns (df : nat) : M (option nat) :=
  set_calendar_field df "Day" dt_day ;;
  set_calendar_field df "Month" dt_month ;;
  set_calendar_field df "Year" dt_year ;;
  set_calendar_field df "DayOfWeek" dt_dayofweek ;;
  for_each ["Confirmed"; "Deaths"] (fun col =>
    let* has_col := has_columnM col df in
    if has_col then
      let* c := getitemM df col in
      setitemM df col (SNumeric (fillna 0 (to_numeric_coerce c)))
    else
      print ("Warning: Column " ++ col ++ " not found for rolling average.") ;;
      setitem_scalarM df col 0) ;;
  let* has_region := has_columnM region_column df in
  let* has_confirmed := has_columnM "Confirmed" df in
  (if has_region && has_confirmed then
     let* ma := rolling_by_region df "Confirmed" in
     setitemM df "Confirmed_MA7" ma
   else setitem_scalarM df "Confirmed_MA7" 0) ;;
  let* has_region := has_columnM region_column df in
  let* has_deaths := has_columnM "Deaths" df in
  (if has_region && has_deaths then
     let* ma := rolling_by_region df "Deaths" in
     setitemM df "Death_MA7" ma
   else setitem_scalarM df "Death_MA7" 0) ;;
  ret (Some df).

(** The body of the [try] block of [preprocess_data], for the copy [df]. *)
Definition preprocess_try (df : nat) : M (option nat) :=
  (let* date := getitemM df "Date" in
   if negb (is_datetime64_any_dtype date) then
     let* has_obs := has_columnM "ObservationDate" df in
     if has_obs then
       let* obs := getitemM df "ObservationDate" in
       setitemM df "Date" (to_datetime_coerce obs)
     else
       let* d := getitemM df "Date" in
       setitemM df "Date" (to_datetime_coerce d)
   else ret tt) ;;
  update_frame df (dropna "Date") ;;
  let* sorted := (let* d := read_frame df in lift (sort_values "Date" d)) in
  let* df := new_frame sorted in
  derive_columns df.

Definition preprocess_data (df_input : option nat) : M (option nat) :=
  match df_input with
  | None =>
      print "Input DataFrame is None in preprocess_data" ;;
      ret None
  | Some l =>
      let* df := copy l in
      try_except (preprocess_try df)
        (fun e =>
           print ("Error in preprocess_data: " ++ str_exn e) ;;
           ret None)
  end.

(** [if state:] *)
Definition truthy (state : option string) : bool :=
  match state with
  | Some s => negb (String.eqb s "")
  | None => false
  end.

Definition aggregate_for_prophet (d : DataFrame) : M (option nat) :=
  let* agg := lift (groupby_sum "Date" ["Confirmed"; "Deaths"] d) in
  let* prophet_df := new_frame (rename_column "Confirmed" "y" (rename_column "Date" "ds" agg)) in
  ret (Some prophet_df).

Definition prepare_prophet_data (df_input : option nat) (state : option string)
    : M (option nat) :=
  match df_input with
  | None =>
      print "Input DataFrame is None in prepare_prophet_data" ;;
      ret None
  | Some l =>
      let* df := copy l in
      let* d := read_frame df in
      if truthy state then
        if has_column region_column d then
          let* col := lift (getitem region_column d) in
          let mask := map (cell_eqb (CStr (default "" state))) (series_cells col) in
          aggregate_for_prophet (frame_filter mask d)
        else
          print ("State column 'State/UnionTerritory' not found for filtering state "
                   ++ default "" state) ;;
          ret None
      else aggregate_for_prophet d
  end.

Definition features : list string :=
  ["Day"; "Month"; "Year"; "DayOfWeek"; "Confirmed_MA7"; "Death_MA7"].

(** A reference that may be [None], read for a library call. *)
Definition deref (r : option nat) : M (option DataFrame) :=
  match r with
  | None => ret None
  | Some l => let* d := read_frame l in ret (Some d)
  end.

Definition train_models (df : option nat) (omega : Entropy)
    : M (Matrix * Series) :=
  let* processed_df := preprocess_data df in
  let* X := subscript_list processed_df features in
  let* y := subscript processed_df "Confirmed" in
  let* me := get_self in
  let* (sc, X_scaled) := lift (scaler_fit_transform (scaler me) X) in
  set_self (mkModel (rf_model me) (prophet_model me) sc) ;;
  let* (X_train, X_test, y_train, y_test) :=
    lift (train_test_split X_scaled y (2 # 10) (Some 42%Z) omega) in
  let* me := get_self in
  let* rf := lift (rf_fit (rf_model me) omega X_train y_train) in
  set_self (mkModel rf (prophet_model me) (scaler me)) ;;
  let* prophet_df := prepare_prophet_data df None in
  let* pdf := deref prophet_df in
  let* me := get_self in
  let* pm := lift (Prophet_fit (prophet_model me) pdf omega) in
  set_self (mkModel (rf_model me) pm (scaler me)) ;;
  ret (X_test, y_test).

Definition forecast_columns : list string := ["ds"; "yhat"; "yhat_lower"; "yhat_upper"].

Record Predictions := mkPredictions {
  rf_predictions : list Q;
  prophet_forecast : DataFrame
}.

Definition predict (df : option nat) (days_to_predict : Z) (omega : Entropy)
    : M Predictions :=
  let* processed_df := preprocess_data df in
  let* X := subscript_list processed_df features in
  let* me := get_self in
  let* X_scaled := lift (scaler_transform (scaler me) X) in
  let* rf_preds := lift (rf_predict (rf_model me) X_scaled) in
  let* future_dates := lift (make_future_dataframe (prophet_model me) days_to_predict) in
  let* forecast := lift (Prophet_predict (prophet_model me) future_dates omega) in
  let* selected := lift (getitems forecast_columns forecast) in
  ret (mkPredictions rf_preds selected).

Record Evaluation := mkEvaluation {
  rf_mse : Q;
  rf_r2 : Q
}.

Definition evaluate_models (X_test : Matrix) (y_test : Series) : M Evaluation :=
  let* me := get_self in
  let* rf_preds := lift (rf_predict (rf_model me) X_test) in
  let* mse := lift (metric mean_squared_error y_test rf_preds) in
  let* r2 := lift (metric r2_score y_test rf_preds) in
  ret (mkEvaluation mse r2).

Definition get_state_predictions (df : option nat) (state : string)
    (days_to_predict : Z) (omega : Entropy) : M DataFrame :=
  let* col := subscript df region_column in
  let* selected := subscript_mask df (map (cell_eqb (CStr state)) (series_cells col)) in
  let* state_df := new_frame selected in
  let* prophet_df := prepare_prophet_data (Some state_df) (Some state) in
  let* pdf := deref prophet_df in
  let state_prophet := new_Prophet in
  let* state_prophet := lift (Prophet_fit state_prophet pdf omega) in
  let* future_dates := lift (make_future_dataframe state_prophet days_to_predict) in
  let* state_forecast := lift (Prophet_predict state_prophet future_dates omega) in
  lift (getitems forecast_columns state_forecast).

End Engine.

(** ** Two facts on positions and sorted lists *)

Lemma take_pos_cons {A} (i : nat) (p : list nat) (l : list A) :
  take_pos (i :: p) l
  = match l !! i with Some x => x :: take_pos p l | None => take_pos p l end.
Proof. reflexivity. Qed.

Lemma Sorted_weaken {A} (R1 R2 : A -> A -> Prop) (l : list A) :
  (forall x y, R1 x y -> R2 x y) -> Sorted R1 l -> Sorted R2 l.
Proof.
  intros HR. induction 1 as [|x l _ IH Hhd]; constructor; [exact IH|].
  destruct Hhd; constructor; auto.
Qed.

(** ** A reference instance of the libraries

    A small executable instance of the parameters, on which the embedding
    runs: decimal literals and ISO dates are parsed, the sort is a merge
    sort, the scaler centres each column, the forest predicts the mean of
    its training targets, and the decomposition model continues the last
    observation with a band of fixed half-width. *)

Module Reference.

Definition digit_of (c : Ascii.ascii) : option Z :=
  let n := Z.of_nat (Ascii.nat_of_ascii c) in
  if ((48 <=? n) && (n <=? 57))%Z then Some (n - 48)%Z else None.

Fixpoint digits_acc (acc : Z) (s : string) : option Z :=
  match s with
  | EmptyString => Some acc
  | String c s' =>
      match digit_of c with
      | Some d => digits_acc (10 * acc + d)%Z s'
      | None => None
      end
  end.

Definition natural (s : string) : option Z :=
  match s with
  | EmptyString => None
  | _ => digits_acc 0 s
  end.

(** An optionally signed integer literal. *)
Definition ref_parse_number (s : string) : option Q :=
  match s with
  | String "-"%char s' => option_map (fun n => inject_Z (- n)) (natural s')
  | _ => option_map inject_Z (natural s)
  end.

Definition days_of_civil (y m d : Z) : Z :=
  let y' := (if (m <=? 2)%Z then y - 1 else y)%Z in
  let era := (y' / 400)%Z in
  let yoe := (y' - era * 400)%Z in
  let mp := ((m + 9) mod 12)%Z in
  let doy := ((153 * mp + 2) / 5 + d - 1)%Z in
  let doe := (yoe * 365 + yoe / 4 - yoe / 100 + doy)%Z in
  (era * 146097 + doe - 719468)%Z.

(** A date written [YYYY-MM-DD]. *)
Definition ref_parse_datetime (s : string) : option Z :=
  match natural (substring 0 4 s), natural (substring 5 2 s), natural (substring 8 2 s) with
  | Some y, Some m, Some d =>
      if (String.length s =? 10)%nat
         && String.eqb (substring 4 1 s) "-" && String.eqb (substring 7 1 s) "-"
         && (1 <=? m)%Z && (m <=? 12)%Z && (1 <=? d)%Z && (d <=? 31)%Z
      then Some (days_of_civil y m d * ns_per_day)%Z
      else None
  | _, _, _ => None
  end.

Definition ref_datetime_of_number (q : Q) : option Z := Some (Qfloor q).

Definition ref_sum_objects (v : list Cell) : result (option Q) :=
  match mapM (fun c => match c with
                       | CNum q => Some (Some q)
                       | CNull => Some None
                       | _ => None
                       end) v with
  | Some xs => Returned (Some (Qsum (present xs)))
  | None => Raised (TypeError "unsupported operand type(s) for +")
  end.

(** The order of the keys of a sort, missing values last. *)
Definition key_leb {A} (leb : A -> A -> bool) (a b : option A) : bool :=
  match a, b with
  | Some x, Some y => leb x y
  | _, None => true
  | None, Some _ => false
  end.

Definition pair_le {A} (leb : A -> A -> bool) (a b : option A * nat) : Prop :=
  key_leb leb (fst a) (fst b) = true.

#[local] Instance pair_le_dec {A} (leb : A -> A -> bool) : RelDecision (pair_le leb) :=
  fun a b => decide (key_leb leb (fst a) (fst b) = true).

Definition argsort_by {A} (leb : A -> A -> bool) (ks : list (option A)) : list nat :=
  map snd (merge_sort (pair_le leb) (zip ks (seq 0 (length ks)))).

Definition ref_argsort (s : Series) : result (list nat) :=
  match s with
  | SDatetime ks => Returned (argsort_by Z.leb ks)
  | SNumeric v => Returned (argsort_by Qle_bool v)
  | SObject v =>
      match mapM (fun c => match c with
                           | CStr x => Some (Some x)
                           | CNull => Some None
                           | _ => None
                           end) v with
      | Some ks => Returned (argsort_by String.leb ks)
      | None => Raised (TypeError "'<' not supported between instances")
      end
  end.

Section ArgsortLaw.
Context {A : Type} (leb : A -> A -> bool).
Hypothesis leb_total : forall x y, leb x y = true \/ leb y x = true.

Lemma pair_le_total : Total (pair_le leb).
Proof.
  intros [a i] [b j]. unfold pair_le. simpl.
  destruct a as [x|], b as [y|]; simpl; auto.
Qed.

Lemma argsort_by_perm (ks : list (option A)) :
  Permutation (argsort_by leb ks) (seq 0 (length ks)).
Proof.
  unfold argsort_by.
  rewrite (merge_sort_Permutation (pair_le leb)).
  change (map snd ?l) with (l.*2).
  rewrite snd_zip; [reflexivity | by rewrite length_seq].
Qed.

Lemma take_pos_indexed (ks : list (option A)) (l : list (option A * nat)) :
  Forall (fun a => ks !! snd a = Some (fst a)) l ->
  take_pos (map snd l) ks = map fst l.
Proof.
  induction 1 as [|[k i] l Hk _ IH]; [reflexivity|].
  cbn [map fst snd] in *. rewrite take_pos_cons, Hk. by rewrite IH.
Qed.

Lemma zip_seq_indexed (ks : list (option A)) :
  Forall (fun a => ks !! snd a = Some (fst a)) (zip ks (seq 0 (length ks))).
Proof.
  apply Forall_forall. intros [k i] Hin.
  apply list_elem_of_lookup in Hin as [n Hn].
  apply lookup_zip_with_Some in Hn as (x & y & Heq & Hx & Hy).
  inversion Heq; subst. apply lookup_seq in Hy as [-> _]. exact Hx.
Qed.

Lemma argsort_by_take (ks : list (option A)) :
  take_pos (argsort_by leb ks) ks
  = map fst (merge_sort (pair_le leb) (zip ks (seq 0 (length ks)))).
Proof.
  apply take_pos_indexed.
  rewrite (merge_sort_Permutation (pair_le leb)). apply zip_seq_indexed.
Qed.

Lemma argsort_by_sorted (ks : list (option A)) :
  Sorted (fun a b => key_leb leb a b = true) (take_pos (argsort_by leb ks) ks).
Proof.
  rewrite argsort_by_take.
  pose proof pair_le_total as Htot.
  apply (Sorted_fmap fst (pair_le leb)); [by intros x y|].
  apply (Sorted_merge_sort (pair_le leb)).
Qed.

End ArgsortLaw.

Lemma ref_argsort_datetime (ks : list (option Z)) :
  exists p, ref_argsort (SDatetime ks) = Returned p
            /\ Permutation p (seq 0 (length ks))
            /\ Sorted key_le (take_pos p ks).
Proof.
  exists (argsort_by Z.leb ks). split; [reflexivity|]. split.
  - apply argsort_by_perm.
  - eapply Sorted_weaken; [| apply argsort_by_sorted; intros x y; lia].
    intros [x|] [y|]; simpl; try done. intros Hxy. by apply Z.leb_le.
Qed.

Definition pandas : Pandas := {|
  parse_number := ref_parse_number;
  parse_datetime := ref_parse_datetime;
  datetime_of_number := ref_datetime_of_number;
  sum_objects := ref_sum_objects;
  argsort := ref_argsort;
  argsort_datetime := ref_argsort_datetime
|}.

End Reference.

Module ReferenceLearners.

Definition column (X : Matrix) (j : nat) : list (option Q) :=
  map (fun row => default None (row !! j)) X.

Definition Qmean (v : list Q) : Q :=
  (Qsum v / inject_Z (Z.of_nat (length v)))%Q.

Definition ref_scaler_fit (X : Matrix) : result (list Q) :=
  match X with
  | [] => Raised (ValueError "Found array with 0 sample(s) while a minimum of 1 is required.")
  | row :: _ => Returned (map (fun j => Qred (Qmean (present (column X j)))) (seq 0 (length row)))
  end.

Definition ref_scaler_apply (means : list Q) (X : Matrix) : result Matrix :=
  Returned (map (fun row =>
                   zip_with (fun m x => option_map (fun v => Qred (v - m)) x) means row) X).

Definition ref_split_positions (rng : Z) (test_size : Q) (n : nat)
    : result (list nat * list nat) :=
  let n_test := Z.to_nat (Qceiling (test_size * inject_Z (Z.of_nat n))) in
  if (n - n_test =? 0)%nat
  then Raised (ValueError "the resulting train set will be empty")
  else
    let perm := rotate (Z.to_nat (rng mod Z.of_nat n)) (seq 0 n) in
    Returned (drop n_test perm, take n_test perm).

Definition ref_forest_fit (n : nat) (rng : Z) (X : Matrix) (y : list (option Q))
    : result Q :=
  match present y with
  | [] => Raised (ValueError "Found array with 0 sample(s) while a minimum of 1 is required.")
  | v => Returned (Qred (Qmean v))
  end.

Definition ref_forest_predict (f : Q) (X : Matrix) : result (list Q) :=
  Returned (map (fun _ => f) X).

Definition squared_errors (y : list (option Q)) (p : list Q) : list Q :=
  zip_with (fun a b => ((a - b) * (a - b))%Q) (present y) p.

Definition ref_mean_squared_error (y : list (option Q)) (p : list Q) : result Q :=
  Returned (Qred (Qmean (squared_errors y p))).

Definition ref_r2_score (y : list (option Q)) (p : list Q) : result Q :=
  let m := Qmean (present y) in
  let total := Qsum (map (fun a => ((a - m) * (a - m))%Q) (present y)) in
  Returned (Qred (1 - Qsum (squared_errors y p) / total)).

(** The last observation of the history. *)
Definition ref_prophet_optimize (cfg : ProphetConfig) (omega : nat)
    (rows : list (Z * Q)) : result Q :=
  match last rows with
  | Some r => Returned (snd r)
  | None => Raised (ValueError "Dataframe has no rows.")
  end.

(** The last observation, with a band of half-width [band] around it. *)
Definition ref_prophet_forecast_at (band : Q) (p : Q) (omega : nat)
    (grid : list Z) (d : Z) : Q * Q * Q :=
  (p, Qred (p - band), Qred (p + band)).

Definition learners (band : Q) : Learners := {|
  Entropy := nat;
  RandomState := Z;
  seeded := fun s => s;
  global_random := Z.of_nat;
  ScalerParams := list Q;
  scaler_fit := ref_scaler_fit;
  scaler_apply := ref_scaler_apply;
  split_positions := ref_split_positions;
  Forest := Q;
  forest_fit := ref_forest_fit;
  forest_predict := ref_forest_predict;
  mean_squared_error := ref_mean_squared_error;
  r2_score := ref_r2_score;
  ProphetParams := Q;
  prophet_optimize := ref_prophet_optimize;
  prophet_forecast_at := ref_prophet_forecast_at band
|}.

End ReferenceLearners.

(** * Properties *)

(** ** The calendar and the group-wise transform on examples *)

Example civil_2020_03_15 :
  civil_of_days 18336 = (2020, 3, 15)%Z /\ dt_dayofweek (18336 * ns_per_day) = 6%Z.
Proof. split; reflexivity. Qed.

Example groupby_transform_ex :
  groupby_transform (roll_mean 7 1)
    [CStr "A"; CStr "B"; CNull; CStr "A"] [Some 1; Some 10; Some 5; Some 3]%Q
  = [Some (1 / 1); Some (10 / 1); None; Some ((1 + 3) / 2)]%Q.
Proof. reflexivity. Qed.

(** ** The transformation of [preprocess_data] as a function on frames

    The body of the [try] block of [preprocess_data] mutates one frame
    statement by statement. [preprocess_pipeline] is the same sequence as a
    function from the copied input to the returned frame;
    [preprocess_data_run] below shows that the method computes it. *)

Definition rbind {A B} (r : result A) (k : A -> result B) : result B :=
  match r with
  | Returned a => k a
  | Raised e => Raised e
  end.

Section Pipeline.
Context `{Pandas}.

Definition parse_dates (d : DataFrame) : result DataFrame :=
  rbind (getitem "Date" d) (fun date =>
    if negb (is_datetime64_any_dtype date) then
      if has_column "ObservationDate" d then
        rbind (getitem "ObservationDate" d) (fun obs =>
          Returned (setitem "Date" (to_datetime_coerce obs) d))
      else
        rbind (getitem "Date" d) (fun date' =>
          Returned (setitem "Date" (to_datetime_coerce date') d))
    else Returned d).

Definition calendar_field (c : string) (field : Z -> Z) (d : DataFrame) : result DataFrame :=
  rbind (getitem "Date" d) (fun date =>
    rbind (dt_accessor field date) (fun v => Returned (setitem c v d))).

Definition coerce_numeric (col : string) (d : DataFrame) : result DataFrame :=
  if has_column col d then
    rbind (getitem col d) (fun c =>
      Returned (setitem col (SNumeric (fillna 0 (to_numeric_coerce c))) d))
  else Returned (setitem_scalar col 0 d).

Definition rolling_series (col : string) (d : DataFrame) : result Series :=
  rbind (getitem region_column d) (fun keys =>
    rbind (getitem col d) (fun vals =>
      rbind (numeric_values vals) (fun x =>
        Returned (SNumeric (groupby_transform (roll_mean 7 1) (series_cells keys) x))))).

Definition add_rolling (col ma : string) (d : DataFrame) : result DataFrame :=
  if has_column region_column d && has_column col d then
    rbind (rolling_series col d) (fun s => Returned (setitem ma s d))
  else Returned (setitem_scalar ma 0 d).

Definition preprocess_pipeline (d : DataFrame) : result DataFrame :=
  rbind (parse_dates d) (fun d =>
  rbind (dropna "Date" d) (fun d =>
  rbind (sort_values "Date" d) (fun d =>
  rbind (calendar_field "Day" dt_day d) (fun d =>
  rbind (calendar_field "Month" dt_month d) (fun d =>
  rbind (calendar_field "Year" dt_year d) (fun d =>
  rbind (calendar_field "DayOfWeek" dt_dayofweek d) (fun d =>
  rbind (coerce_numeric "Confirmed" d) (fun d =>
  rbind (coerce_numeric "Deaths" d) (fun d =>
  rbind (add_rolling "Confirmed" "Confirmed_MA7" d) (fun d =>
  add_rolling "Deaths" "Death_MA7" d)))))))))).

End Pipeline.

(** ** Running the methods: which frames a computation touches *)

Section Running.
Context `{Pandas} `{Learners}.

(** [m] mutates the frame at [l] as [f] does and returns [a], and touches
    nothing else: the engine and the other frames are as before. When a
    statement raises, the frame at [l] is still there. *)
Definition mutates {A} (a : A) (l : nat) (f : DataFrame -> result DataFrame)
    (m : M A) : Prop :=
  forall w d, frames w !! l = Some d ->
    self (fst (m w)) = self w
    /\ (forall l0, l0 <> l -> frames (fst (m w)) !! l0 = frames w !! l0)
    /\ match f d with
       | Returned d' => frames (fst (m w)) !! l = Some d' /\ snd (m w) = Returned a
       | Raised e => snd (m w) = Raised e /\ is_Some (frames (fst (m w)) !! l)
       end.

Lemma mutates_update_frame l f : mutates tt l f (update_frame l f).
Proof.
  intros w d Hd. unfold update_frame. rewrite Hd.
  destruct (f d) as [d'|e]; simpl.
  - split; [done|]. split; [|by rewrite lookup_insert_eq].
    intros l0 Hl0. by rewrite lookup_insert_ne.
  - rewrite Hd. eauto.
Qed.

Lemma mutates_bind {A} (a : A) l f g m1 (m2 : M A) :
  mutates tt l f m1 -> mutates a l g m2 ->
  mutates a l (fun d => rbind (f d) g) (bind m1 (fun _ => m2)).
Proof.
  intros H1 H2 w d Hd. destruct (H1 w d Hd) as (Hs & Hfr & Hres).
  unfold bind. destruct (m1 w) as [w1 r1]. simpl in *.
  destruct (f d) as [d'|e]; simpl.
  - destruct Hres as [Hl ->]. destruct (H2 w1 d' Hl) as (Hs2 & Hfr2 & Hres2).
    split; [congruence|]. split; [|exact Hres2].
    intros l0 Hl0. rewrite Hfr2 by done. by apply Hfr.
  - destruct Hres as [-> Hsome]. simpl. auto.
Qed.

Lemma mutates_ret {A} (a : A) l : mutates a l Returned (ret a).
Proof. intros w d Hd. simpl. auto. Qed.

Ltac run_mutates :=
  intros w d Hd;
  repeat match goal with
         | |- context [frames ?w !! ?l] =>
             match goal with Hd : frames w !! l = Some _ |- _ => rewrite Hd end
         | |- context [match ?r with Returned _ => _ | Raised _ => _ end] =>
             destruct r eqn:?; simpl
         | |- context [if ?b then _ else _] => destruct b eqn:?; simpl
         end;
  simpl; rewrite ?lookup_insert_eq;
  repeat split; eauto; try congruence;
  try (intros l0 Hl0; by rewrite lookup_insert_ne).

Lemma mutates_set_calendar_field l c field :
  mutates tt l (calendar_field c field) (set_calendar_field l c field).
Proof.
  unfold set_calendar_field, calendar_field, getitemM, setitemM, update_frame,
    read_frame, lift, bind, rbind.
  run_mutates.
Qed.

Lemma mutates_parse_dates l :
  mutates tt l parse_dates
    (bind (getitemM l "Date") (fun date =>
       if negb (is_datetime64_any_dtype date) then
         bind (has_columnM "ObservationDate" l) (fun has_obs =>
           if has_obs then
             bind (getitemM l "ObservationDate") (fun obs =>
               setitemM l "Date" (to_datetime_coerce obs))
           else
             bind (getitemM l "Date") (fun d =>
               setitemM l "Date" (to_datetime_coerce d)))
       else ret tt)).
Proof.
  unfold parse_dates, has_columnM, getitemM, setitemM, update_frame,
    read_frame, lift, bind, rbind, ret.
  run_mutates.
Qed.

Lemma mutates_coerce_numeric l col :
  mutates tt l (coerce_numeric col)
    (bind (has_columnM col l) (fun has_col =>
       if has_col then
         bind (getitemM l col) (fun c =>
           setitemM l col (SNumeric (fillna 0 (to_numeric_coerce c))))
       else
         bind (print ("Warning: Column " ++ col ++ " not found for rolling average."))
           (fun _ => setitem_scalarM l col 0))).
Proof.
  unfold coerce_numeric, has_columnM, getitemM, setitemM, setitem_scalarM,
    update_frame, read_frame, lift, bind, rbind, ret, print.
  run_mutates.
Qed.

(** The statements of the [try] block after the sort, on the sorted frame. *)
Definition after_sort (d : DataFrame) : result DataFrame :=
  rbind (calendar_field "Day" dt_day d) (fun d =>
  rbind (calendar_field "Month" dt_month d) (fun d =>
  rbind (calendar_field "Year" dt_year d) (fun d =>
  rbind (calendar_field "DayOfWeek" dt_dayofweek d) (fun d =>
  rbind (coerce_numeric "Confirmed" d) (fun d =>
  rbind (coerce_numeric "Deaths" d) (fun d =>
  rbind (add_rolling "Confirmed" "Confirmed_MA7" d) (fun d =>
  add_rolling "Deaths" "Death_MA7" d))))))).

Lemma mutates_then l f m w d :
  mutates tt l f m -> frames w !! l = Some d ->
  exists w1, self w1 = self w
    /\ (forall l0, l0 <> l -> frames w1 !! l0 = frames w !! l0)
    /\ match f d with
       | Returned d' =>
           frames w1 !! l = Some d'
           /\ forall A (K : M A), bind m (fun _ => K) w = K w1
       | Raised e =>
           is_Some (frames w1 !! l)
           /\ forall A (K : M A), bind m (fun _ => K) w = (w1, Raised e)
       end.
Proof.
  intros Hm Hd. destruct (Hm w d Hd) as (Hs & Hfr & Hres).
  exists (fst (m w)). split; [done|]. split; [done|].
  unfold bind. destruct (m w) as [w1 r1]. simpl in *.
  destruct (f d) as [d'|e].
  - destruct Hres as [Hl ->]. done.
  - destruct Hres as [-> ?]. done.
Qed.

Lemma mutates_ext {A} (a : A) l f g m :
  (forall d, f d = g d) -> mutates a l f m -> mutates a l g m.
Proof. intros Hfg Hm w d Hd. rewrite <- Hfg. by apply Hm. Qed.

Lemma mutates_has_column {A} (a : A) l c
    (g : bool -> DataFrame -> result DataFrame) (m : bool -> M A) :
  (forall b, mutates a l (g b) (m b)) ->
  mutates a l (fun d => g (has_column c d) d) (bind (has_columnM c l) m).
Proof.
  intros Hm w d Hd. unfold has_columnM, bind, read_frame, ret. rewrite Hd.
  by apply Hm.
Qed.

Lemma mutates_if {A} (a : A) l (b : bool) f1 f2 (m1 m2 : M A) :
  mutates a l f1 m1 -> mutates a l f2 m2 ->
  mutates a l (fun d => if b then f1 d else f2 d) (if b then m1 else m2).
Proof. by destruct b. Qed.

Lemma mutates_rolling l col ma :
  mutates tt l (fun d => rbind (rolling_series col d) (fun s => Returned (setitem ma s d)))
    (bind (rolling_by_region l col) (fun s => setitemM l ma s)).
Proof.
  unfold rolling_series, rolling_by_region, getitemM, setitemM, update_frame,
    read_frame, lift, bind, rbind, ret.
  run_mutates.
Qed.

Lemma mutates_setitem_scalar l c q :
  mutates tt l (fun d => Returned (setitem_scalar c q d)) (setitem_scalarM l c q).
Proof. apply mutates_update_frame. Qed.

Lemma mutates_derive_columns l : mutates (Some l) l after_sort (derive_columns l).
Proof.
  unfold derive_columns. cbn [for_each].
  eapply mutates_ext; cycle 1.
  - repeat (apply mutates_bind; [apply mutates_set_calendar_field|]).
    apply mutates_bind.
    { apply mutates_bind; [apply mutates_coerce_numeric|].
      apply mutates_bind; [apply mutates_coerce_numeric|]. apply mutates_ret. }
    apply mutates_has_column; intros b1. apply mutates_has_column; intros b2.
    apply mutates_bind.
    { apply mutates_if; [apply mutates_rolling | apply mutates_setitem_scalar]. }
    apply mutates_has_column; intros b3. apply mutates_has_column; intros b4.
    apply mutates_bind.
    { apply mutates_if; [apply mutates_rolling | apply mutates_setitem_scalar]. }
    apply mutates_ret.
  - intros d. unfold after_sort, add_rolling. cbv beta.
    repeat match goal with
           | |- context [rbind ?r _] =>
               match r with
               | rbind _ _ => fail 1
               | _ => destruct r eqn:?; cbn [rbind]; cbv beta
               end
           | |- context [if ?b then _ else _] => destruct b eqn:?; cbn [rbind]; cbv beta
           end; congruence.
Qed.

Lemma fresh_not_old (w w1 : World) l l0 :
  (forall l', l' <> l -> frames w1 !! l' = frames w !! l') ->
  is_Some (frames w1 !! l) ->
  (l0 ∈ dom (frames w)) -> l0 <> fresh (dom (frames w1)).
Proof.
  intros Hfr Hl Hin ->. apply (is_fresh (dom (frames w1))).
  apply elem_of_dom. destruct (decide (fresh (dom (frames w1)) = l)) as [->|Hne].
  - done.
  - rewrite Hfr by done. by apply elem_of_dom.
Qed.

Lemma preprocess_try_run w l d :
  frames w !! l = Some d ->
  self (fst (preprocess_try l w)) = self w
  /\ (forall l0, (l0 ∈ dom (frames w)) -> l0 <> l ->
        frames (fst (preprocess_try l w)) !! l0 = frames w !! l0)
  /\ match preprocess_pipeline d with
     | Returned out =>
         exists l2, snd (preprocess_try l w) = Returned (Some l2)
                    /\ (l2 ∉ dom (frames w))
                    /\ frames (fst (preprocess_try l w)) !! l2 = Some out
     | Raised e => snd (preprocess_try l w) = Raised e
     end.
Proof.
  intros Hd. unfold preprocess_try, preprocess_pipeline.
  destruct (mutates_then l _ _ w d (mutates_parse_dates l) Hd)
    as (w1 & Hs1 & Hfr1 & Hres1).
  destruct (parse_dates d) as [d1|e]; cbn [rbind];
    [destruct Hres1 as [Hd1 ->] | destruct Hres1 as [_ ->]; by auto].
  destruct (mutates_then l _ _ w1 d1 (mutates_update_frame l (dropna "Date")) Hd1)
    as (w2 & Hs2 & Hfr2 & Hres2).
  assert (Hfr12 : forall l0, l0 <> l -> frames w2 !! l0 = frames w !! l0).
  { intros l0 Hl0. rewrite Hfr2 by done. by apply Hfr1. }
  destruct (dropna "Date" d1) as [d2|e]; cbn [rbind];
    [destruct Hres2 as [Hd2 ->] | destruct Hres2 as [_ ->]; simpl;
       split; [congruence | by auto]].
  cbv [bind read_frame lift new_frame]. rewrite Hd2. cbv beta iota.
  destruct (sort_values "Date" d2) as [d3|e]; cbn [rbind]; cbv beta iota;
    [| simpl; split; [congruence | split; [intros; by apply Hfr12 | done]]].
  set (l2 := fresh (dom (frames w2))).
  set (w3 := mkWorld (<[l2 := d3]> (frames w2)) (self w2) (stdout w2)).
  assert (Hd3 : frames w3 !! l2 = Some d3) by apply lookup_insert_eq.
  destruct (mutates_derive_columns l2 w3 d3 Hd3) as (Hs4 & Hfr4 & Hres4).
  assert (Hold : forall l0, (l0 ∈ dom (frames w)) -> l0 <> l2).
  { intros l0 Hin. subst l2. eapply fresh_not_old; eauto. }
  split; [simpl in Hs4; congruence|]. split.
  - intros l0 Hin Hl0. rewrite Hfr4 by auto. subst w3. simpl.
    rewrite lookup_insert_ne by (apply not_eq_sym; auto). by apply Hfr12.
  - change (rbind (calendar_field "Day" dt_day d3) _) with (after_sort d3).
    destruct (after_sort d3) as [out|e].
    + destruct Hres4 as [Hout Hret]. exists l2. split; [done|]. split; [|done].
      intros Hin. by apply (Hold l2).
    + by destruct Hres4.
Qed.

(** What a call of [preprocess_data] on an existing frame does: the
    engine and every frame that existed are as before, and the result is a
    new frame holding [preprocess_pipeline] of the input, or [None] when
    the pipeline raises. *)
Lemma preprocess_data_run w l d :
  frames w !! l = Some d ->
  self (fst (preprocess_data (Some l) w)) = self w
  /\ (forall l0, (l0 ∈ dom (frames w)) ->
        frames (fst (preprocess_data (Some l) w)) !! l0 = frames w !! l0)
  /\ match preprocess_pipeline d with
     | Returned out =>
         exists l2, snd (preprocess_data (Some l) w) = Returned (Some l2)
                    /\ (l2 ∉ dom (frames w))
                    /\ frames (fst (preprocess_data (Some l) w)) !! l2 = Some out
     | Raised e =>
         snd (preprocess_data (Some l) w) = Returned None
         /\ last (stdout (fst (preprocess_data (Some l) w)))
            = Some ("Error in preprocess_data: " ++ str_exn e)%string
     end.
Proof.
  intros Hd. unfold preprocess_data, copy.
  cbv [bind read_frame new_frame try_except print ret]. rewrite Hd. cbv beta iota.
  set (l1 := fresh (dom (frames w))).
  set (w1 := mkWorld (<[l1 := d]> (frames w)) (self w) (stdout w)).
  assert (Hl1 : l1 ∉ dom (frames w)) by apply is_fresh.
  assert (Hd1 : frames w1 !! l1 = Some d) by apply lookup_insert_eq.
  destruct (preprocess_try_run w1 l1 d Hd1) as (Hs & Hfr & Hres).
  destruct (preprocess_try l1 w1) as [w2 r] eqn:Hrun. simpl in Hs, Hfr, Hres.
  assert (Hframe : forall l0, (l0 ∈ dom (frames w)) -> frames w2 !! l0 = frames w !! l0).
  { intros l0 Hin. assert (l0 <> l1) by (intros ->; done).
    rewrite Hfr; [by apply lookup_insert_ne | | done].
    subst w1; simpl. rewrite dom_insert_L. set_solver. }
  destruct (preprocess_pipeline d) as [out|e].
  - destruct Hres as (l2 & -> & Hl2 & Hout). simpl.
    split; [done|]. split; [done|]. exists l2. split; [done|]. split; [|done].
    intros Hin. apply Hl2. subst w1; simpl. rewrite dom_insert_L. set_solver.
  - rewrite Hres. simpl. rewrite last_snoc. auto.
Qed.

Lemma preprocess_data_None w :
  preprocess_data None w
  = (mkWorld (frames w) (self w)
       (stdout w ++ ["Input DataFrame is None in preprocess_data"]),
     Returned None).
Proof. reflexivity. Qed.

End Running.

(** ** Columns of a frame through the frame operations *)

Lemma alist_get_set {V} (k k' : string) (v : V) (l : list (string * V)) :
  alist_get k (alist_set k' v l) = if String.eqb k k' then Some v else alist_get k l.
Proof.
  induction l as [|[k0 v0] l IH]; simpl.
  - destruct (String.eqb k k'); reflexivity.
  - destruct (String.eqb k' k0) eqn:E0; simpl.
    + apply String.eqb_eq in E0 as ->.
      destruct (String.eqb k k0); reflexivity.
    + rewrite IH. destruct (String.eqb k k0) eqn:E1; [|reflexivity].
      apply String.eqb_eq in E1 as ->. rewrite String.eqb_sym, E0. reflexivity.
Qed.

Lemma alist_get_map {V W} (f : V -> W) (k : string) (l : list (string * V)) :
  alist_get k (map (fun c => (fst c, f (snd c))) l) = option_map f (alist_get k l).
Proof.
  induction l as [|[k0 v0] l IH]; simpl; [reflexivity|].
  destruct (String.eqb k k0); [reflexivity | exact IH].
Qed.

Lemma getitem_setitem c c' s d :
  getitem c (setitem c' s d) = if String.eqb c c' then Returned s else getitem c d.
Proof.
  unfold getitem, setitem. simpl. rewrite alist_get_set.
  destruct (String.eqb c c'); reflexivity.
Qed.

Lemma has_column_getitem c d :
  has_column c d = is_returned (getitem c d).
Proof. unfold has_column, getitem. destruct (alist_get c (columns d)); reflexivity. Qed.

Lemma getitem_frame_filter c m d :
  getitem c (frame_filter m d) = rbind (getitem c d) (fun s => Returned (series_filter m s)).
Proof.
  unfold getitem, frame_filter. simpl. rewrite alist_get_map.
  destruct (alist_get c (columns d)); reflexivity.
Qed.

Lemma getitem_frame_take c p d :
  getitem c (frame_take p d) = rbind (getitem c d) (fun s => Returned (series_take p s)).
Proof.
  unfold getitem, frame_take. simpl. rewrite alist_get_map.
  destruct (alist_get c (columns d)); reflexivity.
Qed.

(** ** The explicit result of the pipeline *)

Section PipelineFacts.
Context `{Pandas}.

(** The column the dates are read from: [ObservationDate] when [Date] is
    not yet a datetime column and [ObservationDate] exists, else [Date]. *)
Definition date_source (d : DataFrame) (date : Series) : Series :=
  if negb (is_datetime64_any_dtype date) then
    match alist_get "ObservationDate" (columns d) with
    | Some obs => obs
    | None => date
    end
  else date.

Definition datetime_values (s : Series) : list (option Z) :=
  match to_datetime_coerce s with
  | SDatetime v => v
  | _ => []
  end.

Lemma to_datetime_coerce_values s : to_datetime_coerce s = SDatetime (datetime_values s).
Proof. unfold datetime_values. destruct s; reflexivity. Qed.

(** The frame after the dates are parsed. *)
Definition with_dates (d : DataFrame) (date : Series) : DataFrame :=
  if negb (is_datetime64_any_dtype date)
  then setitem "Date" (to_datetime_coerce (date_source d date)) d
  else d.

Lemma parse_dates_explicit d date :
  getitem "Date" d = Returned date ->
  parse_dates d = Returned (with_dates d date)
  /\ getitem "Date" (with_dates d date)
     = Returned (SDatetime (datetime_values (date_source d date))).
Proof.
  intros Hdate. unfold parse_dates, with_dates, date_source. rewrite Hdate. cbn [rbind].
  destruct (is_datetime64_any_dtype date) eqn:Hdt; cbn [negb].
  - split; [reflexivity|]. rewrite Hdate. destruct date; try discriminate. reflexivity.
  - unfold has_column, getitem at 1.
    destruct (alist_get "ObservationDate" (columns d)) as [obs|]; cbn [rbind].
    + split; [reflexivity|]. rewrite getitem_setitem. simpl.
      by rewrite to_datetime_coerce_values.
    + split; [reflexivity|]. rewrite getitem_setitem. simpl.
      by rewrite to_datetime_coerce_values.
Qed.

Lemma parse_dates_missing d e :
  getitem "Date" d = Raised e -> parse_dates d = Raised e.
Proof. intros Hd. unfold parse_dates. by rewrite Hd. Qed.

(** The dates that are kept and the rows they come from. *)
Definition kept_mask (v : list (option Z)) : list bool := map (fun o => bool_decide (is_Some o)) v.

Lemma series_notna_datetime v : series_notna (SDatetime v) = kept_mask v.
Proof.
  unfold series_notna, kept_mask. simpl. rewrite map_map.
  apply map_ext. intros [t|]; reflexivity.
Qed.

Lemma dropna_datetime d v :
  getitem "Date" d = Returned (SDatetime v) ->
  dropna "Date" d = Returned (frame_filter (kept_mask v) d)
  /\ getitem "Date" (frame_filter (kept_mask v) d)
     = Returned (SDatetime (filter_mask (kept_mask v) v)).
Proof.
  intros Hd. unfold dropna. rewrite Hd, series_notna_datetime.
  split; [reflexivity|]. rewrite getitem_frame_filter, Hd. reflexivity.
Qed.

Definition calendar_column (field : Z -> Z) (ks : list (option Z)) : Series :=
  SNumeric (map (option_map (fun t => inject_Z (field t))) ks).

(** A count column after coercion: the numbers of the column with the
    invalid and missing ones replaced by 0, or all 0 when the column is
    absent. *)
Definition numeric_column (col : string) (d : DataFrame) : list (option Q) :=
  match alist_get col (columns d) with
  | Some c => fillna 0 (to_numeric_coerce c)
  | None => replicate (nrows d) (Some 0%Q)
  end.

(** The rolling average of the values [x] by the region column of [d], or
    all 0 when [d] has no region column. *)
Definition rolling_column (d : DataFrame) (x : list (option Q)) : list (option Q) :=
  match alist_get region_column (columns d) with
  | Some keys => groupby_transform (roll_mean 7 1) (series_cells keys) x
  | None => replicate (nrows d) (Some 0%Q)
  end.

(** The frame [derive_columns] leaves, from the sorted frame [d] whose
    dates are [ks]. *)
Definition derived (d : DataFrame) (ks : list (option Z)) : DataFrame :=
  let confirmed := numeric_column "Confirmed" d in
  let deaths := numeric_column "Deaths" d in
  setitem "Death_MA7" (SNumeric (rolling_column d deaths))
    (setitem "Confirmed_MA7" (SNumeric (rolling_column d confirmed))
      (setitem "Deaths" (SNumeric deaths)
        (setitem "Confirmed" (SNumeric confirmed)
          (setitem "DayOfWeek" (calendar_column dt_dayofweek ks)
            (setitem "Year" (calendar_column dt_year ks)
              (setitem "Month" (calendar_column dt_month ks)
                (setitem "Day" (calendar_column dt_day ks) d))))))).

Lemma calendar_field_explicit c field d ks :
  getitem "Date" d = Returned (SDatetime ks) ->
  calendar_field c field d = Returned (setitem c (calendar_column field ks) d).
Proof. intros Hd. unfold calendar_field. rewrite Hd. reflexivity. Qed.

Lemma coerce_numeric_explicit col d :
  coerce_numeric col d = Returned (setitem col (SNumeric (numeric_column col d)) d).
Proof.
  unfold coerce_numeric, numeric_column, has_column, getitem, setitem_scalar.
  destruct (alist_get col (columns d)); reflexivity.
Qed.

Lemma add_rolling_explicit col ma d x :
  getitem col d = Returned (SNumeric x) ->
  add_rolling col ma d = Returned (setitem ma (SNumeric (rolling_column d x)) d).
Proof.
  intros Hx. unfold add_rolling, rolling_series, rolling_column, setitem_scalar.
  rewrite Hx, (has_column_getitem col), Hx. cbn [is_returned rbind numeric_values].
  unfold has_column, getitem.
  destruct (alist_get region_column (columns d)); reflexivity.
Qed.

Lemma numeric_column_setitem col c s d :
  String.eqb col c = false ->
  numeric_column col (setitem c s d) = numeric_column col d.
Proof. intros Hne. unfold numeric_column, setitem. simpl. by rewrite alist_get_set, Hne. Qed.

Lemma rolling_column_setitem c s d x :
  String.eqb region_column c = false ->
  rolling_column (setitem c s d) x = rolling_column d x.
Proof. intros Hne. unfold rolling_column, setitem. simpl. by rewrite alist_get_set, Hne. Qed.

Lemma after_sort_explicit d ks :
  getitem "Date" d = Returned (SDatetime ks) ->
  after_sort d = Returned (derived d ks).
Proof.
  intros Hd. unfold after_sort, derived.
  rewrite (calendar_field_explicit _ _ _ ks) by exact Hd. cbn [rbind].
  rewrite (calendar_field_explicit _ _ _ ks)
    by (rewrite !getitem_setitem; exact Hd). cbn [rbind].
  rewrite (calendar_field_explicit _ _ _ ks)
    by (rewrite !getitem_setitem; exact Hd). cbn [rbind].
  rewrite (calendar_field_explicit _ _ _ ks)
    by (rewrite !getitem_setitem; exact Hd). cbn [rbind].
  rewrite coerce_numeric_explicit. cbn [rbind].
  rewrite coerce_numeric_explicit. cbn [rbind].
  rewrite !numeric_column_setitem by reflexivity.
  erewrite add_rolling_explicit by (rewrite !getitem_setitem; reflexivity). cbn [rbind].
  erewrite add_rolling_explicit by (rewrite !getitem_setitem; reflexivity).
  rewrite !rolling_column_setitem by reflexivity.
  reflexivity.
Qed.

(** The dates of the input, parsed, with the rows they are kept from. *)
Definition input_dates (d : DataFrame) (date : Series) : list (option Z) :=
  datetime_values (date_source d date).

Definition kept_dates (d : DataFrame) (date : Series) : list (option Z) :=
  filter_mask (kept_mask (input_dates d date)) (input_dates d date).

(** The frame that is sorted: dates parsed, rows without a date dropped. *)
Definition dated_rows (d : DataFrame) (date : Series) : DataFrame :=
  frame_filter (kept_mask (input_dates d date)) (with_dates d date).

Lemma preprocess_pipeline_explicit d date :
  getitem "Date" d = Returned date ->
  exists p,
    argsort (SDatetime (kept_dates d date)) = Returned p
    /\ Permutation p (seq 0 (length (kept_dates d date)))
    /\ Sorted key_le (take_pos p (kept_dates d date))
    /\ preprocess_pipeline d
       = Returned (derived (frame_take p (dated_rows d date))
                           (take_pos p (kept_dates d date))).
Proof.
  intros Hdate. destruct (parse_dates_explicit d date Hdate) as [Hparse Hd1].
  destruct (dropna_datetime _ _ Hd1) as [Hdrop Hd2].
  destruct (argsort_datetime (kept_dates d date)) as (p & Hp & Hperm & Hsorted).
  exists p. split; [exact Hp|]. split; [exact Hperm|]. split; [exact Hsorted|].
  unfold kept_dates, dated_rows, input_dates in *.
  unfold preprocess_pipeline. rewrite Hparse. cbn [rbind]. rewrite Hdrop. cbn [rbind].
  unfold sort_values. rewrite Hd2, Hp. cbn [rbind].
  apply (after_sort_explicit (frame_take p _)). rewrite getitem_frame_take, Hd2.
  reflexivity.
Qed.

Lemma preprocess_pipeline_missing d e :
  getitem "Date" d = Raised e -> preprocess_pipeline d = Raised e.
Proof. intros Hd. unfold preprocess_pipeline. by rewrite (parse_dates_missing d e Hd). Qed.

End PipelineFacts.

(** ** What [preprocess_data] returns *)

Section Preprocessing.
Context `{Pandas} `{Learners}.

(** [preprocess_data] on the frame at [l] returns the new frame [out]. *)
Definition preprocesses_to (w : World) (l : nat) (out : DataFrame) : Prop :=
  exists l', snd (preprocess_data (Some l) w) = Returned (Some l')
             /\ frames (fst (preprocess_data (Some l) w)) !! l' = Some out.

Lemma preprocesses_to_explicit w l d out :
  frames w !! l = Some d ->
  preprocesses_to w l out ->
  exists date p,
    getitem "Date" d = Returned date
    /\ Permutation p (seq 0 (length (kept_dates d date)))
    /\ Sorted key_le (take_pos p (kept_dates d date))
    /\ out = derived (frame_take p (dated_rows d date))
                     (take_pos p (kept_dates d date)).
Proof.
  intros Hd (l' & Hret & Hout).
  destruct (preprocess_data_run w l d Hd) as (_ & _ & Hres).
  destruct (getitem "Date" d) as [date|e] eqn:Hdate.
  - destruct (preprocess_pipeline_explicit d date Hdate) as (p & _ & Hperm & Hsorted & Hpipe).
    rewrite Hpipe in Hres. destruct Hres as (l2 & Hret2 & _ & Hout2).
    rewrite Hret in Hret2. injection Hret2 as <-.
    rewrite Hout in Hout2. injection Hout2 as ->.
    exists date, p. auto.
  - rewrite (preprocess_pipeline_missing d e Hdate) in Hres.
    destruct Hres as [Hnone _]. rewrite Hret in Hnone. discriminate.
Qed.

Lemma preprocesses_to_intro w l d date :
  frames w !! l = Some d ->
  getitem "Date" d = Returned date ->
  exists out, preprocesses_to w l out.
Proof.
  intros Hd Hdate.
  destruct (preprocess_data_run w l d Hd) as (_ & _ & Hres).
  destruct (preprocess_pipeline_explicit d date Hdate) as (p & _ & _ & _ & Hpipe).
  rewrite Hpipe in Hres. destruct Hres as (l2 & Hret2 & _ & Hout2).
  eexists. exists l2. eauto.
Qed.

End Preprocessing.

(** ** Lists of present values *)

Lemma filter_mask_kept (v : list (option Z)) :
  Forall is_Some (filter_mask (kept_mask v) v).
Proof.
  induction v as [|[t|] v IH]; simpl; [constructor | | exact IH].
  constructor; [by eexists | exact IH].
Qed.

Lemma take_pos_Forall {A} (P : A -> Prop) (p : list nat) (l : list A) :
  Forall P l -> Forall P (take_pos p l).
Proof.
  intros Hl. induction p as [|i p IH]; [constructor|].
  rewrite take_pos_cons. destruct (l !! i) as [x|] eqn:Hi; [|exact IH].
  constructor; [|exact IH]. exact (Forall_lookup_1 _ _ _ _ Hl Hi).
Qed.

Lemma all_present {A} (l : list (option A)) :
  Forall is_Some l -> exists xs, l = map Some xs.
Proof.
  induction 1 as [|o l [x ->] _ [xs ->]]; [by exists []|]. by exists (x :: xs).
Qed.

Lemma Sorted_key_le_present (ds : list Z) :
  Sorted key_le (map Some ds) -> Sorted Z.le ds.
Proof.
  induction ds as [|x ds IH]; [constructor|]. simpl. intros Hs.
  apply Sorted_inv in Hs as [Hs Hhd]. constructor; [by apply IH|].
  destruct ds; [constructor|]. simpl in Hhd. apply HdRel_inv in Hhd. by constructor.
Qed.

(** Taking a list at a permutation of its positions permutes it. *)
Lemma take_pos_all {A} (l : list A) (s : nat) (pre : list A) :
  length pre = s ->
  take_pos (seq s (length l)) (pre ++ l) = l.
Proof.
  revert s pre. induction l as [|x l IH]; intros s pre Hs; [reflexivity|].
  cbn [length seq]. rewrite take_pos_cons.
  rewrite lookup_app_r by lia. replace (s - length pre)%nat with 0%nat by lia.
  cbn [lookup list_lookup]. f_equal.
  specialize (IH (S s) (pre ++ [x])). rewrite <- app_assoc in IH. apply IH.
  rewrite length_app. simpl. lia.
Qed.

Lemma take_pos_Permutation {A} (p : list nat) (l : list A) :
  Permutation p (seq 0 (length l)) -> Permutation (take_pos p l) l.
Proof.
  intros Hp. unfold take_pos. rewrite Hp.
  exact (eq_ind _ (fun k => Permutation k l) (reflexivity l) _
           (eq_sym (take_pos_all l 0 [] eq_refl))).
Qed.

Lemma Sorted_le_NoDup_lt (ds : list Z) :
  Sorted Z.le ds -> NoDup ds -> Sorted Z.lt ds.
Proof.
  induction ds as [|x ds IH]; [constructor|]. intros Hs Hnd.
  apply Sorted_inv in Hs as [Hs Hhd]. apply NoDup_cons in Hnd as [Hx Hnd].
  constructor; [by apply IH|].
  destruct ds as [|y ds]; [constructor|]. apply HdRel_inv in Hhd. constructor.
  assert (x <> y) by (intros ->; apply Hx; by left). lia.
Qed.

(** ** Example data *)

Module Example.

Definition P : Pandas := Reference.pandas.
Definition L : Learners := ReferenceLearners.learners 1.

(** A store holding one frame, at location 0, and a new engine. *)
Definition world (d : DataFrame) : World (H0 := L) :=
  mkWorld (H0 := L) {[ 0%nat := d ]} (init (H0 := L)) [].

(** Two regions reporting on the same two days. *)
Definition two_regions : DataFrame := mkFrame 4
  [ ("Date", SObject [CStr "2020-03-02"; CStr "2020-03-01";
                      CStr "2020-03-01"; CStr "2020-03-02"]);
    ("State/UnionTerritory", SObject [CStr "Kerala"; CStr "Kerala"; CStr "Goa"; CStr "Goa"]);
    ("Confirmed", SNumeric [Some 3%Q; Some 1%Q; Some 10%Q; Some 12%Q]);
    ("Deaths", SNumeric [Some 0%Q; Some 0%Q; Some 1%Q; Some 1%Q]) ].

Definition preprocessed (d : DataFrame) : result (option nat) :=
  snd (preprocess_data (H := P) (H0 := L) (Some 0%nat) (world d)).

Definition preprocessed_frame (d : DataFrame) (l : nat) : option DataFrame :=
  frames (fst (preprocess_data (H := P) (H0 := L) (Some 0%nat) (world d))) !! l.

Lemma wf_two_regions : wf_frame two_regions.
Proof. repeat constructor. Qed.

Definition two_regions_out : DataFrame := mkFrame 4
  [ ("Date", SDatetime [Some 1583020800000000000%Z; Some 1583020800000000000%Z;
                        Some 1583107200000000000%Z; Some 1583107200000000000%Z]);
    ("State/UnionTerritory", SObject [CStr "Kerala"; CStr "Goa"; CStr "Kerala"; CStr "Goa"]);
    ("Confirmed", SNumeric [Some 1%Q; Some 10%Q; Some 3%Q; Some 12%Q]);
    ("Deaths", SNumeric [Some 0%Q; Some 1%Q; Some 0%Q; Some 1%Q]);
    ("Day", SNumeric [Some 1%Q; Some 1%Q; Some 2%Q; Some 2%Q]);
    ("Month", SNumeric [Some 3%Q; Some 3%Q; Some 3%Q; Some 3%Q]);
    ("Year", SNumeric [Some 2020%Q; Some 2020%Q; Some 2020%Q; Some 2020%Q]);
    ("DayOfWeek", SNumeric [Some 6%Q; Some 6%Q; Some 0%Q; Some 0%Q]);
    ("Confirmed_MA7", SNumeric [Some 1%Q; Some 10%Q; Some (4 # 2); Some (22 # 2)]);
    ("Death_MA7", SNumeric [Some 0%Q; Some 1%Q; Some (0 # 2); Some (2 # 2)]) ].

Lemma two_regions_preprocessed :
  preprocesses_to (H := P) (world two_regions) 0 two_regions_out.
Proof. exists 2%nat. split; vm_compute; reflexivity. Qed.

End Example.

(** ** The dates of the preprocessed series (claim C3) *)

Section Dates.
Context `{Pandas} `{Learners}.

(** C3, as amended: for every input frame that [preprocess_data] accepts,
    the dates of the returned frame are all present and in ascending order;
    they are the dates of the input rows that have one, each as often as it
    occurs there, so equal dates stay next to each other and none is
    removed.  The order is strict when the dated rows of the input have
    pairwise different dates. *)
Theorem preprocess_dates_ascending w l d out :
  frames w !! l = Some d ->
  preprocesses_to w l out ->
  exists date ds,
    getitem "Date" d = Returned date
    /\ getitem "Date" out = Returned (SDatetime (map Some ds))
    /\ Sorted Z.le ds
    /\ Permutation (map Some ds) (kept_dates d date)
    /\ (NoDup (kept_dates d date) -> Sorted Z.lt ds).
Proof.
  intros Hd Hout.
  destruct (preprocesses_to_explicit w l d out Hd Hout)
    as (date & p & Hdate & Hperm & Hsorted & ->).
  destruct (all_present (take_pos p (kept_dates d date))) as [ds Hds].
  { apply take_pos_Forall, filter_mask_kept. }
  assert (Hle : Sorted Z.le ds).
  { apply Sorted_key_le_present. by rewrite <- Hds. }
  assert (Hall : Permutation (map Some ds) (kept_dates d date)).
  { rewrite <- Hds. by apply take_pos_Permutation. }
  exists date, ds. split; [exact Hdate|]. split; [|split; [exact Hle|split; [exact Hall|]]].
  - unfold derived. rewrite !getitem_setitem. cbn [String.eqb Ascii.eqb Bool.eqb].
    rewrite getitem_frame_take. unfold dated_rows.
    destruct (parse_dates_explicit d date Hdate) as [_ Hd1].
    destruct (dropna_datetime _ _ Hd1) as [_ Hd2].
    unfold kept_dates, input_dates in *.
    rewrite Hd2. cbn [rbind series_take]. by rewrite Hds.
  - intros Hnd. apply Sorted_le_NoDup_lt; [exact Hle|].
    rewrite <- Hall in Hnd. exact (NoDup_fmap_1 Some ds Hnd).
Qed.

End Dates.

(** C3 as stated fails: two regions that report on the same day give the
    output the same date twice, so the dates are not strictly increasing. *)
Lemma preprocess_dates_repeat :
  exists out ds,
    preprocesses_to (H := Example.P) (Example.world Example.two_regions) 0 out
    /\ getitem "Date" out = Returned (SDatetime (map Some ds))
    /\ ~ Sorted Z.lt ds.
Proof.
  eexists.
  exists [1583020800000000000; 1583020800000000000;
          1583107200000000000; 1583107200000000000]%Z.
  split; [|split].
  - exact Example.two_regions_preprocessed.
  - reflexivity.
  - intros Hs. apply Sorted_inv in Hs as [_ Hhd]. apply HdRel_inv in Hhd. lia.
Qed.

Lemma preprocess_dates_ascending_witness :
  exists date ds,
    getitem "Date" Example.two_regions = Returned date
    /\ getitem "Date" Example.two_regions_out = Returned (SDatetime (map Some ds))
    /\ Sorted Z.le ds
    /\ Permutation (map Some ds) (kept_dates (H := Example.P) Example.two_regions date)
    /\ (NoDup (kept_dates (H := Example.P) Example.two_regions date) -> Sorted Z.lt ds).
Proof.
  apply (preprocess_dates_ascending (H := Example.P)
           (Example.world Example.two_regions) 0%nat Example.two_regions).
  - reflexivity.
  - exact Example.two_regions_preprocessed.
Defined.

(** ** Columns other than the date through the sort *)

Lemma take_pos_map {A B} (f : A -> B) (p : list nat) (l : list A) :
  take_pos p (map f l) = map f (take_pos p l).
Proof.
  induction p as [|i p IH]; [reflexivity|].
  rewrite !take_pos_cons, IH. change (map f l) with (f <$> l).
  rewrite list_lookup_fmap. destruct (l !! i); reflexivity.
Qed.

Lemma filter_mask_map {A B} (f : A -> B) (m : list bool) (l : list A) :
  filter_mask m (map f l) = map f (filter_mask m l).
Proof.
  revert l. induction m as [|b m IH]; intros [|x l]; simpl; try reflexivity.
  destruct b; simpl; by rewrite IH.
Qed.

Section Columns.
Context `{Pandas}.

Lemma to_numeric_coerce_take p s :
  to_numeric_coerce (series_take p s) = take_pos p (to_numeric_coerce s).
Proof. destruct s; simpl; by rewrite ?take_pos_map. Qed.

Lemma to_numeric_coerce_filter m s :
  to_numeric_coerce (series_filter m s) = filter_mask m (to_numeric_coerce s).
Proof. destruct s; simpl; by rewrite ?filter_mask_map. Qed.

Lemma getitem_with_dates col d date :
  String.eqb col "Date" = false ->
  getitem col (with_dates d date) = getitem col d.
Proof.
  intros Hne. unfold with_dates. destruct (negb (is_datetime64_any_dtype date)); [|done].
  by rewrite getitem_setitem, Hne.
Qed.

Lemma getitem_sorted col d date p :
  String.eqb col "Date" = false ->
  getitem col (frame_take p (dated_rows d date))
  = rbind (getitem col d) (fun c =>
      Returned (series_take p (series_filter (kept_mask (input_dates d date)) c))).
Proof.
  intros Hne. unfold dated_rows.
  rewrite getitem_frame_take, getitem_frame_filter, getitem_with_dates by done.
  destruct (getitem col d); reflexivity.
Qed.

Lemma numeric_column_sorted col d date p :
  String.eqb col "Date" = false ->
  numeric_column col (frame_take p (dated_rows d date))
  = match getitem col d with
    | Returned c =>
        take_pos p (filter_mask (kept_mask (input_dates d date))
                      (fillna 0 (to_numeric_coerce c)))
    | Raised _ => replicate (length p) (Some 0%Q)
    end.
Proof.
  intros Hne. pose proof (getitem_sorted col d date p Hne) as Hget.
  unfold numeric_column. unfold getitem in Hget.
  destruct (alist_get col (columns (frame_take p (dated_rows d date)))) as [c'|];
    unfold getitem; destruct (alist_get col (columns d)) as [c|];
    simpl in Hget; try discriminate; [|reflexivity].
  injection Hget as ->. unfold fillna.
  by rewrite to_numeric_coerce_take, to_numeric_coerce_filter, filter_mask_map, take_pos_map.
Qed.

Lemma getitem_derived_confirmed d ks :
  getitem "Confirmed" (derived d ks) = Returned (SNumeric (numeric_column "Confirmed" d)).
Proof. unfold derived. by rewrite !getitem_setitem. Qed.

Lemma getitem_derived_deaths d ks :
  getitem "Deaths" (derived d ks) = Returned (SNumeric (numeric_column "Deaths" d)).
Proof. unfold derived. by rewrite !getitem_setitem. Qed.

Lemma getitem_derived_confirmed_ma7 d ks :
  getitem "Confirmed_MA7" (derived d ks)
  = Returned (SNumeric (rolling_column d (numeric_column "Confirmed" d))).
Proof. unfold derived. by rewrite !getitem_setitem. Qed.

Lemma getitem_derived_death_ma7 d ks :
  getitem "Death_MA7" (derived d ks)
  = Returned (SNumeric (rolling_column d (numeric_column "Deaths" d))).
Proof. unfold derived. by rewrite !getitem_setitem. Qed.

Lemma getitem_derived_region d ks :
  getitem region_column (derived d ks) = getitem region_column d.
Proof. unfold derived. by rewrite !getitem_setitem. Qed.

Lemma nrows_derived d ks : nrows (derived d ks) = nrows d.
Proof. reflexivity. Qed.

End Columns.

(** ** Missing columns (claim C4) *)

Section MissingColumns.
Context `{Pandas} `{Learners}.

Lemma has_column_sorted col d date p :
  String.eqb col "Date" = false ->
  has_column col (frame_take p (dated_rows d date)) = has_column col d.
Proof.
  intros Hne. rewrite !has_column_getitem, getitem_sorted by done.
  destruct (getitem col d); reflexivity.
Qed.

Lemma rolling_column_no_region d x :
  has_column region_column d = false ->
  rolling_column d x = replicate (nrows d) (Some 0%Q).
Proof.
  unfold has_column, rolling_column.
  destruct (alist_get region_column (columns d)); [discriminate | reflexivity].
Qed.

(** C4, as amended: a missing column never makes [preprocess_data] fail with
    a structured error. Without a [Date] column the call returns [None];
    with one it returns a frame whatever else is missing: a missing
    [Confirmed] column is filled with 0, and without the region column both
    rolling averages are 0. *)
Theorem preprocess_missing_column w l d :
  frames w !! l = Some d ->
  (has_column "Date" d = false ->
     snd (preprocess_data (Some l) w) = Returned None)
  /\ (has_column "Date" d = true ->
      exists out, preprocesses_to w l out
        /\ (has_column "Confirmed" d = false ->
            getitem "Confirmed" out
            = Returned (SNumeric (replicate (nrows out) (Some 0%Q))))
        /\ (has_column region_column d = false ->
            getitem "Confirmed_MA7" out
            = Returned (SNumeric (replicate (nrows out) (Some 0%Q)))
            /\ getitem "Death_MA7" out
               = Returned (SNumeric (replicate (nrows out) (Some 0%Q))))).
Proof.
  intros Hd. split.
  - rewrite has_column_getitem. intros Hno.
    destruct (getitem "Date" d) as [?|e] eqn:Hdate; [discriminate|].
    destruct (preprocess_data_run w l d Hd) as (_ & _ & Hres).
    rewrite (preprocess_pipeline_missing d e Hdate) in Hres. by destruct Hres.
  - rewrite has_column_getitem. intros Hyes.
    destruct (getitem "Date" d) as [date|] eqn:Hdate; [|discriminate].
    destruct (preprocesses_to_intro w l d date Hd Hdate) as [out Hout].
    exists out. split; [exact Hout|].
    destruct (preprocesses_to_explicit w l d out Hd Hout)
      as (date' & p & Hdate' & _ & _ & ->).
    rewrite Hdate in Hdate'. injection Hdate' as <-.
    rewrite nrows_derived. split.
    + rewrite has_column_getitem. intros Hno.
      rewrite getitem_derived_confirmed, numeric_column_sorted by reflexivity.
      destruct (getitem "Confirmed" d); [discriminate | reflexivity].
    + intros Hno.
      rewrite getitem_derived_confirmed_ma7, getitem_derived_death_ma7.
      rewrite !rolling_column_no_region; [done | |];
        by rewrite has_column_sorted.
Qed.

End MissingColumns.

(** A frame without the [Confirmed] column. *)
Definition no_confirmed : DataFrame := mkFrame 2
  [ ("Date", SObject [CStr "2020-03-01"; CStr "2020-03-02"]);
    ("State/UnionTerritory", SObject [CStr "Goa"; CStr "Goa"]);
    ("Deaths", SNumeric [Some 0%Q; Some 1%Q]) ].

(** C4 as stated fails: for an input without the [Confirmed] column
    [preprocess_data] returns a frame, with a [Confirmed] column of 0. *)
Lemma preprocess_without_confirmed :
  Example.preprocessed no_confirmed = Returned (Some 2%nat)
  /\ Example.preprocessed_frame no_confirmed 2 = Some (mkFrame 2
       [ ("Date", SDatetime [Some 1583020800000000000%Z; Some 1583107200000000000%Z]);
         ("State/UnionTerritory", SObject [CStr "Goa"; CStr "Goa"]);
         ("Deaths", SNumeric [Some 0%Q; Some 1%Q]);
         ("Day", SNumeric [Some 1%Q; Some 2%Q]);
         ("Month", SNumeric [Some 3%Q; Some 3%Q]);
         ("Year", SNumeric [Some 2020%Q; Some 2020%Q]);
         ("DayOfWeek", SNumeric [Some 6%Q; Some 0%Q]);
         ("Confirmed", SNumeric [Some 0%Q; Some 0%Q]);
         ("Confirmed_MA7", SNumeric [Some 0%Q; Some (0 # 2)]);
         ("Death_MA7", SNumeric [Some 0%Q; Some (1 # 2)]) ]).
Proof. split; vm_compute; reflexivity. Qed.

Lemma preprocess_missing_column_witness :
  (has_column "Date" no_confirmed = false ->
     Example.preprocessed no_confirmed = Returned None)
  /\ (has_column "Date" no_confirmed = true ->
      exists out, preprocesses_to (H := Example.P) (Example.world no_confirmed) 0 out
        /\ (has_column "Confirmed" no_confirmed = false ->
            getitem "Confirmed" out
            = Returned (SNumeric (replicate (nrows out) (Some 0%Q))))
        /\ (has_column region_column no_confirmed = false ->
            getitem "Confirmed_MA7" out
            = Returned (SNumeric (replicate (nrows out) (Some 0%Q)))
            /\ getitem "Death_MA7" out
               = Returned (SNumeric (replicate (nrows out) (Some 0%Q))))).
Proof.
  apply (preprocess_missing_column (H := Example.P) (Example.world no_confirmed) 0%nat).
  reflexivity.
Defined.

(** ** Coercion of the counts (claim C6) *)

Lemma filter_mask_Forall {A} (P : A -> Prop) (m : list bool) (l : list A) :
  Forall P l -> Forall P (filter_mask m l).
Proof.
  intros Hl. revert m. induction Hl as [|x l Hx _ IH]; intros [|b m]; simpl;
    try constructor. destruct b; [constructor|]; auto.
Qed.

Lemma fillna_present (q : Q) (v : list (option Q)) : Forall is_Some (fillna q v).
Proof.
  unfold fillna. apply Forall_forall. intros x Hx.
  apply list_elem_of_In, in_map_iff in Hx as (o & <- & _). by eexists.
Qed.


Section Counts.
Context `{Pandas} `{Learners}.


End Counts.




(** ** [preprocess_data] does not raise and does not touch its input
    (claim C10) *)

Section NoRaise.
Context `{Pandas} `{Learners}.

(** C10: [preprocess_data] returns to its caller for every input, [None] or
    a frame of the store. For [None] it prints and returns [None]; when a
    statement of the [try] block raises it prints the error and returns
    [None]; otherwise it returns a frame that did not exist before. In
    every case the engine and all the frames that existed, the input among
    them, are left as they were. *)
Theorem preprocess_data_never_raises w input :
  (forall l, input = Some l -> is_Some (frames w !! l)) ->
  exists r,
    snd (preprocess_data input w) = Returned r
    /\ (input = None ->
        r = None
        /\ stdout (fst (preprocess_data input w))
           = stdout w ++ ["Input DataFrame is None in preprocess_data"])
    /\ (forall l d e, input = Some l -> frames w !! l = Some d ->
          preprocess_pipeline d = Raised e ->
          r = None
          /\ last (stdout (fst (preprocess_data input w)))
             = Some ("Error in preprocess_data: " ++ str_exn e)%string)
    /\ (forall l', r = Some l' -> frames w !! l' = None)
    /\ (forall l0 d0, frames w !! l0 = Some d0 ->
          frames (fst (preprocess_data input w)) !! l0 = Some d0)
    /\ self (fst (preprocess_data input w)) = self w.
Proof.
  intros Hin. destruct input as [l|].
  - destruct (Hin l eq_refl) as [d Hd].
    destruct (preprocess_data_run w l d Hd) as (Hself & Hframes & Hres).
    assert (Hkeep : forall l0 d0, frames w !! l0 = Some d0 ->
              frames (fst (preprocess_data (Some l) w)) !! l0 = Some d0).
    { intros l0 d0 Hl0. rewrite Hframes; [done|]. apply elem_of_dom. by eexists. }
    destruct (preprocess_pipeline d) as [out|e] eqn:Hpipe.
    + destruct Hres as (l2 & Hret & Hnew & Hout). exists (Some l2).
      split; [done|]. split; [done|]. split; [|split; [|split]]; try done.
      * intros l0 d0 e [= <-] Hd0. rewrite Hd in Hd0. injection Hd0 as <-.
        rewrite Hpipe. discriminate.
      * intros l' [= <-]. by apply not_elem_of_dom.
    + destruct Hres as [Hret Hlast]. exists None.
      split; [done|]. split; [done|]. split; [|split; [|split]]; try done.
      intros l0 d0 e0 [= <-] Hd0. rewrite Hd in Hd0. injection Hd0 as <-.
      rewrite Hpipe. intros [= <-]. done.
  - exists None. rewrite preprocess_data_None. simpl.
    split; [done|]. split; [done|]. split; [|split; [|split]]; done.
Qed.

End NoRaise.

(** A frame without the [Date] column. *)
Definition no_date : DataFrame := mkFrame 1
  [ ("State/UnionTerritory", SObject [CStr "Goa"]);
    ("Confirmed", SNumeric [Some 4%Q]) ].

Example preprocess_no_date :
  Example.preprocessed no_date = Returned None
  /\ stdout (fst (preprocess_data (H := Example.P) (Some 0%nat) (Example.world no_date)))
     = ["Error in preprocess_data: 'Date'"]
  /\ Example.preprocessed_frame no_date 0 = Some no_date.
Proof. repeat split; vm_compute; reflexivity. Qed.

Lemma preprocess_data_never_raises_witness :
  exists r,
    Example.preprocessed no_date = Returned r
    /\ (forall l0 d0, frames (Example.world no_date) !! l0 = Some d0 ->
          frames (fst (preprocess_data (H := Example.P) (Some 0%nat)
                         (Example.world no_date))) !! l0 = Some d0).
Proof.
  destruct (preprocess_data_never_raises (H := Example.P)
              (Example.world no_date) (Some 0%nat))
    as (r & Hr & _ & _ & _ & Hkeep & _).
  - intros l [= <-]. vm_compute. eauto.
  - exists r. auto.
Defined.

(** ** The rolling mean is the mean of the window *)

(** The observations in the window that ends before position [i]: the last
    [min i window] of the first [i] values. *)
Definition window_before (window : nat) (values : list (option Q)) (i : nat)
    : list (option Q) :=
  drop (i - window) (take i values).

Lemma present_app (l1 l2 : list (option Q)) :
  present (l1 ++ l2) = present l1 ++ present l2.
Proof. unfold present. apply omap_app. Qed.

Lemma Qsum_app (l1 l2 : list Q) : (Qsum (l1 ++ l2) == Qsum l1 + Qsum l2)%Q.
Proof.
  induction l1 as [|x l1 IH]; simpl; [ring|]. rewrite IH. ring.
Qed.

Lemma window_before_step (window : nat) (values : list (option Q)) (i : nat) v :
  (0 < window)%nat ->
  values !! i = Some v ->
  window_before window values (S i)
  = (if (window <=? i)%nat then drop 1 (window_before window values i)
     else window_before window values i) ++ [v].
Proof.
  intros Hw Hv. unfold window_before.
  rewrite (take_S_r _ _ _ Hv).
  assert (Hlen : length (take i values) = i).
  { rewrite length_take. apply lookup_lt_Some in Hv. lia. }
  destruct (Nat.leb_spec window i) as [Hle|Hlt].
  - rewrite drop_drop. replace (S i - window)%nat with (i - window + 1)%nat by lia.
    rewrite drop_app_le by lia. reflexivity.
  - replace (S i - window)%nat with 0%nat by lia.
    replace (i - window)%nat with 0%nat by lia. reflexivity.
Qed.

Lemma window_before_head (window : nat) (values : list (option Q)) (i : nat) :
  (0 < window)%nat -> (window <= i)%nat -> (i <= length values)%nat ->
  exists old, values !! (i - window)%nat = Some old
              /\ window_before window values i
                 = old :: drop 1 (window_before window values i).
Proof.
  intros Hw Hle Hi. unfold window_before.
  destruct (values !! (i - window)%nat) as [old|] eqn:Hold.
  - exists old. split; [reflexivity|].
    assert (Hin : take i values !! (i - window)%nat = Some old).
    { rewrite lookup_take_lt by lia. exact Hold. }
    rewrite (drop_S _ _ _ Hin) at 1. rewrite drop_drop. do 2 f_equal. lia.
  - apply lookup_ge_None in Hold. lia.
Qed.

(** The state of the pass describes the window [l]. *)
Definition describes (st : RollState) (l : list (option Q)) : Prop :=
  nobs st = length (present l) /\ (sum_x st == Qsum (present l))%Q.

Lemma describes_add st l v :
  describes st l -> describes (add_mean v st) (l ++ [v]).
Proof.
  intros [Hn Hs]. unfold describes. rewrite present_app, length_app, Qsum_app.
  destruct v as [x|]; simpl.
  - split; [lia|]. rewrite Hs. ring.
  - split; [lia|]. rewrite Hs. ring.
Qed.

Lemma describes_remove st old l :
  describes st (old :: l) -> describes (remove_mean old st) l.
Proof.
  intros [Hn Hs]. unfold describes. destruct old as [x|]; simpl in *.
  - split; [lia|]. rewrite Hs. ring.
  - done.
Qed.

Lemma roll_mean_loop_spec (window minp : nat) (values : list (option Q)) :
  (0 < window)%nat ->
  forall todo done st,
    values = done ++ todo ->
    describes st (window_before window values (length done)) ->
    forall j, (j < length todo)%nat ->
      exists st',
        roll_mean_loop window minp values (length done) todo st !! j
        = Some (calc_mean minp st')
        /\ describes st' (window_before window values (S (length done + j))).
Proof.
  intros Hw. induction todo as [|v todo IH]; intros done st Hvalues Hst j Hj;
    [simpl in Hj; lia|].
  assert (Hv : values !! length done = Some v).
  { rewrite Hvalues. by rewrite list_lookup_middle. }
  set (st1 := if (window <=? length done)%nat
              then match values !! (length done - window)%nat with
                   | Some old => remove_mean old st
                   | None => st
                   end
              else st).
  assert (Hst2 : describes (add_mean v st1)
                   (window_before window values (S (length done)))).
  { rewrite (window_before_step window values (length done) v Hw Hv).
    apply describes_add. subst st1.
    destruct (Nat.leb_spec window (length done)) as [Hle|Hlt]; [|exact Hst].
    destruct (window_before_head window values (length done) Hw Hle)
      as (old & Hold & Hhead).
    { rewrite Hvalues, length_app. lia. }
    rewrite Hold. apply describes_remove. by rewrite <- Hhead. }
  destruct j as [|j]; simpl.
  - exists (add_mean v st1). split; [reflexivity|].
    by rewrite Nat.add_0_r.
  - destruct (IH (done ++ [v]) (add_mean v st1)) with (j := j) as (st' & Hget & Hdesc).
    + by rewrite <- app_assoc.
    + rewrite length_app. simpl. by rewrite Nat.add_1_r.
    + simpl in Hj. lia.
    + exists st'. rewrite length_app in Hget, Hdesc. simpl in Hget, Hdesc.
      rewrite Nat.add_1_r in Hget, Hdesc. split; [exact Hget|].
      by replace (S (length done + S j)) with (S (S (length done) + j)) by lia.
Qed.

Lemma roll_mean_spec (window minp : nat) (values : list (option Q)) i :
  (0 < window)%nat -> (i < length values)%nat ->
  exists st,
    roll_mean window minp values !! i = Some (calc_mean minp st)
    /\ describes st (window_before window values (S i)).
Proof.
  intros Hw Hi. unfold roll_mean.
  apply (roll_mean_loop_spec window minp values Hw values [] (mkRoll 0 0) eq_refl);
    [|exact Hi].
  unfold describes, window_before. simpl. split; [reflexivity|]. reflexivity.
Qed.

Lemma roll_mean_length (window minp : nat) (values : list (option Q)) :
  length (roll_mean window minp values) = length values.
Proof.
  unfold roll_mean. generalize (mkRoll 0 0) as st. generalize 0%nat as i.
  generalize values at 1 as all.
  induction values as [|v values IH]; intros all i st; simpl; [reflexivity|].
  by rewrite IH.
Qed.

(** The last [min (i+1) 7] of the first [i+1] observations, and their mean. *)
Definition window (xs : list Q) (i : nat) : list Q :=
  drop (S i - 7) (take (S i) xs).

Definition window_mean (xs : list Q) (i : nat) : Q :=
  (Qsum (window xs i) / inject_Z (Z.of_nat (length (window xs i))))%Q.

Lemma window_length (xs : list Q) (i : nat) :
  (i < length xs)%nat -> length (window xs i) = Nat.min (S i) 7.
Proof. intros Hi. unfold window. rewrite length_drop, length_take. lia. Qed.

Lemma present_map_Some (l : list Q) : present (map Some l) = l.
Proof. induction l as [|x l IH]; simpl; [reflexivity|]. unfold present in *. simpl. by rewrite IH. Qed.

Lemma window_before_present (xs : list Q) (i : nat) :
  present (window_before 7 (map Some xs) (S i)) = window xs i.
Proof.
  unfold window_before, window. change (map Some xs) with (Some <$> xs).
  rewrite <- fmap_take, <- fmap_drop. apply present_map_Some.
Qed.

Lemma roll_mean_present (xs : list Q) (i : nat) :
  (i < length xs)%nat ->
  exists m, roll_mean 7 1 (map Some xs) !! i = Some (Some m)
            /\ (m == window_mean xs i)%Q.
Proof.
  intros Hi.
  destruct (roll_mean_spec 7 1 (map Some xs) i) as (st & Hget & Hn & Hs);
    [lia | by rewrite length_map |].
  rewrite window_before_present in Hn, Hs.
  pose proof (window_length xs i Hi) as Hlen.
  exists (sum_x st / inject_Z (Z.of_nat (nobs st)))%Q. split.
  - rewrite Hget. unfold calc_mean.
    replace (1 <=? nobs st)%nat with true by (symmetry; apply Nat.leb_le; lia).
    replace (0 <? nobs st)%nat with true by (symmetry; apply Nat.ltb_lt; lia).
    reflexivity.
  - unfold window_mean. rewrite Hs, Hn. reflexivity.
Qed.

Lemma Qsum_replicate (n : nat) (v : Q) :
  (Qsum (replicate n v) == inject_Z (Z.of_nat n) * v)%Q.
Proof.
  induction n as [|n IH]; [simpl; ring|].
  cbn [replicate Qsum foldr]. fold (Qsum (replicate n v)). rewrite IH.
  rewrite Nat2Z.inj_succ. unfold Z.succ. rewrite inject_Z_plus. ring.
Qed.

Lemma window_replicate (n : nat) (v : Q) (i : nat) :
  (i < n)%nat -> window (replicate n v) i = replicate (Nat.min (S i) 7) v.
Proof.
  intros Hi. unfold window. rewrite take_replicate, drop_replicate. f_equal. lia.
Qed.

Lemma window_mean_constant (n : nat) (v : Q) (i : nat) :
  (i < n)%nat -> (window_mean (replicate n v) i == v)%Q.
Proof.
  intros Hi. unfold window_mean. rewrite (window_replicate n v i Hi).
  rewrite Qsum_replicate, length_replicate. field.
  assert (0 < Z.of_nat (Nat.min (S i) 7))%Z by lia.
  intros Hz. unfold Qeq, inject_Z in Hz. cbn [Qnum Qden] in Hz. lia.
Qed.

Lemma window_mean_single (x : Q) : (window_mean [x] 0 == x)%Q.
Proof. unfold window_mean, window. simpl. field. Qed.

(** ** Groups of rows *)

Lemma cell_eqb_refl k : cell_isna k = false -> cell_eqb k k = true.
Proof.
  destruct k; simpl; intros; try discriminate.
  - apply Qeq_bool_refl.
  - apply String.eqb_refl.
  - apply Z.eqb_refl.
Qed.

Lemma cell_eqb_sym a b : cell_eqb a b = cell_eqb b a.
Proof.
  destruct a, b; simpl; try reflexivity.
  - apply Qeq_bool_comm.
  - apply String.eqb_sym.
  - apply Z.eqb_sym.
Qed.

Lemma cell_eqb_trans a b c :
  cell_eqb a b = true -> cell_eqb b c = true -> cell_eqb a c = true.
Proof.
  destruct a, b, c; simpl; try discriminate.
  - apply Qeq_bool_trans.
  - intros ->%String.eqb_eq ->%String.eqb_eq. apply String.eqb_refl.
  - intros ->%Z.eqb_eq ->%Z.eqb_eq. apply Z.eqb_refl.
Qed.

Lemma cell_eqb_notna a b : cell_eqb a b = true -> cell_isna a = false /\ cell_isna b = false.
Proof. destruct a, b; simpl; try discriminate; auto. Qed.

(** Equal keys have the same rows. *)
Lemma cell_eqb_same a b c : cell_eqb a b = true -> cell_eqb a c = cell_eqb b c.
Proof.
  intros Hab. destruct (cell_eqb b c) eqn:Hbc.
  - by apply (cell_eqb_trans a b c).
  - destruct (cell_eqb a c) eqn:Hac; [|reflexivity].
    rewrite <- Hbc. symmetry. apply (cell_eqb_trans b a c); [|done].
    by rewrite cell_eqb_sym.
Qed.

Lemma filter_mask_sublist {A} (m : list bool) (l : list A) :
  sublist (filter_mask m l) l.
Proof.
  revert l. induction m as [|b m IH]; intros [|x l]; simpl;
    try apply sublist_nil_l.
  destruct b; [by apply sublist_skip | by apply sublist_cons].
Qed.

Lemma filter_mask_seq_elem (m : list bool) (s i : nat) :
  i ∈ filter_mask m (seq s (length m)) <-> (s <= i)%nat /\ m !! (i - s)%nat = Some true.
Proof.
  revert s. induction m as [|b m IH]; intros s; simpl.
  - split; [by intros ?%elem_of_nil | by intros [_ ?]].
  - assert (Hrest : i ∈ filter_mask m (seq (S s) (length m))
                    <-> (s < i)%nat /\ m !! (i - S s)%nat = Some true).
    { rewrite IH. split; intros [? ?]; split; auto; lia. }
    destruct (decide (i = s)) as [->|Hne].
    + rewrite Nat.sub_diag. simpl. destruct b.
      * split; [intros _; split; [lia | done] | intros _; apply elem_of_cons; by left].
      * rewrite Hrest. split; [intros [? _]; lia | intros [_ ?]; discriminate].
    + assert (Hi : (s <= i)%nat -> (i - s)%nat = S (i - S s)) by lia.
      destruct b.
      * rewrite elem_of_cons, Hrest. split.
        -- intros [?|[? Hm]]; [done|]. split; [lia|]. rewrite Hi by lia. exact Hm.
        -- intros [? Hm]. right. split; [lia|]. rewrite Hi in Hm by lia. exact Hm.
      * rewrite Hrest. split.
        -- intros [? Hm]. split; [lia|]. rewrite Hi by lia. exact Hm.
        -- intros [? Hm]. split; [lia|]. rewrite Hi in Hm by lia. exact Hm.
Qed.

Lemma elem_of_group_positions k keys i :
  i ∈ group_positions k keys
  <-> exists k', keys !! i = Some k' /\ cell_eqb k k' = true.
Proof.
  unfold group_positions.
  rewrite <- (length_map (cell_eqb k) keys), filter_mask_seq_elem, Nat.sub_0_r.
  change (map (cell_eqb k) keys) with (cell_eqb k <$> keys).
  rewrite list_lookup_fmap. split.
  - intros [_ Hi]. destruct (keys !! i) as [k'|]; [|discriminate].
    exists k'. split; [done|]. by injection Hi.
  - intros (k' & -> & Hk). split; [lia|]. simpl. by rewrite Hk.
Qed.

Lemma group_positions_NoDup k keys : NoDup (group_positions k keys).
Proof.
  unfold group_positions. eapply sublist_NoDup; [apply NoDup_seq|].
  apply filter_mask_sublist.
Qed.

Lemma group_positions_bound k keys :
  Forall (fun i => (i < length keys)%nat) (group_positions k keys).
Proof.
  apply Forall_forall. intros i (k' & Hi & _)%elem_of_group_positions.
  by apply lookup_lt_Some in Hi.
Qed.

Lemma group_positions_same k k' keys :
  cell_eqb k k' = true -> group_positions k keys = group_positions k' keys.
Proof.
  intros Hk. unfold group_positions. f_equal. apply map_ext. intros c.
  by apply cell_eqb_same.
Qed.

Lemma group_positions_disjoint k k' keys i :
  cell_eqb k k' = false ->
  i ∈ group_positions k keys -> i ∉ group_positions k' keys.
Proof.
  intros Hne (c & Hc & Hkc)%elem_of_group_positions
    (c' & Hc' & Hkc')%elem_of_group_positions.
  rewrite Hc in Hc'. injection Hc' as <-.
  assert (cell_eqb k k' = true); [|congruence].
  apply (cell_eqb_trans k c k'); [done|]. by rewrite cell_eqb_sym.
Qed.

Lemma scatter_length {A} (pos : list nat) (xs out : list A) :
  length (scatter pos xs out) = length out.
Proof.
  revert xs out. induction pos as [|i pos IH]; intros [|x xs] out; simpl; try reflexivity.
  by rewrite IH, length_insert.
Qed.

Lemma scatter_lookup_other {A} (pos : list nat) (xs out : list A) (i : nat) :
  i ∉ pos -> scatter pos xs out !! i = out !! i.
Proof.
  revert xs out. induction pos as [|j pos IH]; intros [|x xs] out Hi; simpl; try reflexivity.
  apply not_elem_of_cons in Hi as [Hne Hi].
  rewrite IH by done. by apply list_lookup_insert_ne.
Qed.

Lemma take_pos_length {A} (p : list nat) (l : list A) :
  Forall (fun i => (i < length l)%nat) p -> length (take_pos p l) = length p.
Proof.
  induction 1 as [|i p Hi _ IH]; [reflexivity|].
  rewrite take_pos_cons. destruct (lookup_lt_is_Some_2 l i Hi) as [x ->].
  simpl. by rewrite IH.
Qed.

Lemma take_pos_ext {A} (p : list nat) (l l' : list A) :
  (forall i, i ∈ p -> l !! i = l' !! i) -> take_pos p l = take_pos p l'.
Proof.
  induction p as [|i p IH]; intros Hl; [reflexivity|].
  rewrite !take_pos_cons, <- (Hl i) by (apply elem_of_cons; by left).
  rewrite IH; [reflexivity|]. intros j Hj. apply Hl, elem_of_cons. by right.
Qed.

Lemma scatter_take {A} (pos : list nat) (xs out : list A) :
  NoDup pos ->
  Forall (fun i => (i < length out)%nat) pos ->
  length xs = length pos ->
  take_pos pos (scatter pos xs out) = xs.
Proof.
  intros Hnd. revert xs out.
  induction Hnd as [|i pos Hi _ IH]; intros xs out Hb Hlen.
  - by destruct xs.
  - destruct xs as [|x xs]; [discriminate|]. simpl in Hlen.
    apply Forall_cons in Hb as [Hib Hb]. cbn [scatter]. rewrite take_pos_cons.
    rewrite scatter_lookup_other by done.
    rewrite list_lookup_insert_eq by done. f_equal.
    apply IH; [|lia]. by rewrite length_insert.
Qed.

(** The keys are told apart by [cell_eqb]. *)
Inductive Distinct : list Cell -> Prop :=
| Distinct_nil : Distinct []
| Distinct_cons u l :
    Forall (fun u' => cell_eqb u u' = false) l -> Distinct l -> Distinct (u :: l).

Lemma Distinct_snoc l k :
  Distinct l -> Forall (fun u => cell_eqb k u = false) l -> Distinct (l ++ [k]).
Proof.
  induction 1 as [|u l Hu Hl IH]; intros Hk; simpl.
  - constructor; constructor.
  - apply Forall_cons in Hk as [Hku Hk]. constructor; [|by apply IH].
    apply Forall_app. split; [exact Hu|]. constructor; [|constructor].
    by rewrite cell_eqb_sym.
Qed.

Lemma existsb_false_Forall k (l : list Cell) :
  existsb (cell_eqb k) l = false -> Forall (fun u => cell_eqb k u = false) l.
Proof.
  induction l as [|u l IH]; simpl; [constructor|].
  intros [Hu Hl]%orb_false_iff. constructor; auto.
Qed.

Definition unique_step (seen : list Cell) (k : Cell) : list Cell :=
  if cell_isna k || existsb (cell_eqb k) seen then seen else seen ++ [k].

Lemma unique_fold_spec keys : forall seen,
  Distinct seen -> Forall (fun u => cell_isna u = false) seen ->
  Distinct (foldl unique_step seen keys)
  /\ Forall (fun u => cell_isna u = false) (foldl unique_step seen keys)
  /\ (forall u, u ∈ seen -> u ∈ foldl unique_step seen keys)
  /\ (forall k, k ∈ keys -> cell_isna k = false ->
        exists u, u ∈ foldl unique_step seen keys /\ cell_eqb u k = true).
Proof.
  induction keys as [|k keys IH]; intros seen Hd Hna; simpl.
  - split; [done|]. split; [done|]. split; [done|]. by intros k ?%elem_of_nil.
  - assert (Hstep : Distinct (unique_step seen k)
                    /\ Forall (fun u => cell_isna u = false) (unique_step seen k)
                    /\ (forall u, u ∈ seen -> u ∈ unique_step seen k)
                    /\ (cell_isna k = false ->
                        exists u, u ∈ unique_step seen k /\ cell_eqb u k = true)).
    { unfold unique_step. destruct (cell_isna k) eqn:Hk; simpl.
      { split; [done|]. split; [done|]. split; [done|]. discriminate. }
      destruct (existsb (cell_eqb k) seen) eqn:Hex.
      - split; [done|]. split; [done|]. split; [done|]. intros _.
        apply existsb_exists in Hex as (u & Hu & Hku).
        exists u. split; [by apply list_elem_of_In|]. by rewrite cell_eqb_sym.
      - split; [apply Distinct_snoc; [done | by apply existsb_false_Forall]|].
        split; [apply Forall_app; split; [done | by constructor]|].
        split; [intros u Hu; apply elem_of_app; by left|]. intros _.
        exists k. split; [apply elem_of_app; right; by apply list_elem_of_singleton|].
        by apply cell_eqb_refl. }
    destruct Hstep as (Hd' & Hna' & Hsub & Hk).
    destruct (IH (unique_step seen k) Hd' Hna') as (H1 & H2 & H3 & H4).
    split; [done|]. split; [done|]. split; [by auto|].
    intros k0 [->|Hk0]%elem_of_cons Hna0.
    + destruct (Hk Hna0) as (u & Hu & Huk). exists u. auto.
    + by apply H4.
Qed.

Lemma unique_keys_spec keys :
  Distinct (unique_keys keys)
  /\ (forall k, k ∈ keys -> cell_isna k = false ->
        exists u, u ∈ unique_keys keys /\ cell_eqb u k = true).
Proof.
  destruct (unique_fold_spec keys [] Distinct_nil ltac:(constructor)) as (H1 & _ & _ & H4).
  split; [exact H1 | exact H4].
Qed.

Section GroupTransform.
Variable f : list (option Q) -> list (option Q).
Variable keys : list Cell.
Variable vals : list (option Q).
Hypothesis f_length : forall x, length (f x) = length x.
Hypothesis keys_vals : length keys = length vals.

Let put (out : list (option Q)) (k : Cell) : list (option Q) :=
  scatter (group_positions k keys) (f (take_pos (group_positions k keys) vals)) out.

Lemma groupby_fold (U : list Cell) : forall out,
  Distinct U -> length out = length vals ->
  (forall i, (forall u, u ∈ U -> i ∉ group_positions u keys) ->
     foldl put out U !! i = out !! i)
  /\ (forall u, u ∈ U ->
        take_pos (group_positions u keys) (foldl put out U)
        = f (take_pos (group_positions u keys) vals)).
Proof.
  induction U as [|u0 U IH]; intros out Hd Hlen.
  - split; [done|]. by intros u ?%elem_of_nil.
  - inversion Hd as [|? ? Hu0 HdU]; subst. simpl.
    assert (Hlen1 : length (put out u0) = length vals).
    { unfold put. by rewrite scatter_length. }
    destruct (IH (put out u0) HdU Hlen1) as [Ha Hb].
    split.
    + intros i Hi. rewrite Ha by (intros u Hu; apply Hi, elem_of_cons; by right).
      unfold put. apply scatter_lookup_other, Hi, elem_of_cons. by left.
    + intros u [->|Hu]%elem_of_cons; [|by apply Hb].
      rewrite (take_pos_ext _ _ (put out u0)).
      * unfold put. apply scatter_take.
        -- apply group_positions_NoDup.
        -- rewrite Hlen, <- keys_vals. apply group_positions_bound.
        -- rewrite f_length. apply take_pos_length.
           rewrite <- keys_vals. apply group_positions_bound.
      * intros i Hi. apply Ha. intros u Hu.
        apply (group_positions_disjoint u0 u); [|done].
        rewrite Forall_forall in Hu0. by apply Hu0.
Qed.

(** The rows of a group hold what [f] returns on the values of the group. *)
Lemma groupby_transform_group (k : Cell) :
  cell_isna k = false ->
  take_pos (group_positions k keys) (groupby_transform f keys vals)
  = f (take_pos (group_positions k keys) vals).
Proof.
  intros Hk. destruct (group_positions k keys) as [|i pos] eqn:Hpos.
  - change (take_pos [] ?l) with (@nil (option Q)).
    symmetry. apply length_zero_iff_nil. by rewrite f_length.
  - assert (Hi : i ∈ group_positions k keys) by (rewrite Hpos; apply elem_of_cons; by left).
    apply elem_of_group_positions in Hi as (c & Hc & Hkc).
    destruct (unique_keys_spec keys) as [Hd Hcover].
    destruct (Hcover c) as (u & Hu & Huc).
    { apply list_elem_of_lookup. by exists i. }
    { by apply cell_eqb_notna in Hkc as [_ ?]. }
    assert (Hku : cell_eqb k u = true).
    { apply (cell_eqb_trans k c u); [done|]. by rewrite cell_eqb_sym. }
    rewrite <- Hpos, (group_positions_same k u keys Hku).
    unfold groupby_transform.
    apply (groupby_fold (unique_keys keys) (replicate (length vals) None));
      [exact Hd | by rewrite length_replicate | exact Hu].
Qed.

End GroupTransform.

(** ** Lengths of the columns of the sorted frame *)

Lemma filter_mask_length {A B} (m : list bool) (l : list A) (l' : list B) :
  length l = length l' -> length (filter_mask m l) = length (filter_mask m l').
Proof.
  revert l l'. induction m as [|b m IH]; intros [|x l] [|y l'] Hlen; simpl in *;
    try reflexivity; try discriminate.
  injection Hlen as Hlen. destruct b; simpl; by rewrite (IH l l').
Qed.

Lemma series_cells_length s : length (series_cells s) = series_len s.
Proof. destruct s; simpl; by rewrite ?length_map. Qed.

Lemma wf_getitem d c s : wf_frame d -> getitem c d = Returned s -> series_len s = nrows d.
Proof.
  unfold wf_frame, getitem. destruct d as [n cols]. simpl.
  induction cols as [|[c0 s0] cols IH]; simpl; [intros _; discriminate|].
  intros [Hc0 Hwf]%Forall_cons.
  destruct (String.eqb c c0); [|by apply IH]. by intros [= <-].
Qed.

Section SortedLengths.
Context `{Pandas}.

Lemma to_numeric_coerce_length s : length (to_numeric_coerce s) = series_len s.
Proof. destruct s; simpl; by rewrite ?length_map. Qed.

Lemma datetime_values_length s : length (datetime_values s) = series_len s.
Proof.
  unfold datetime_values, to_datetime_coerce.
  destruct s; cbn [series_cells series_len]; by rewrite ?length_map.
Qed.

Lemma input_dates_length d date :
  wf_frame d -> getitem "Date" d = Returned date ->
  length (input_dates d date) = nrows d.
Proof.
  intros Hwf Hdate. unfold input_dates, date_source. rewrite datetime_values_length.
  destruct (negb (is_datetime64_any_dtype date)); [|by apply (wf_getitem d "Date")].
  destruct (alist_get "ObservationDate" (columns d)) as [obs|] eqn:Hobs;
    [|by apply (wf_getitem d "Date")].
  apply (wf_getitem d "ObservationDate"); [done|]. unfold getitem. by rewrite Hobs.
Qed.

(** A column of length [nrows d] has one value per position of [p] once it
    is cut to the dated rows and sorted. *)
Lemma sorted_length {A} d date p (X : list A) :
  wf_frame d -> getitem "Date" d = Returned date ->
  Permutation p (seq 0 (length (kept_dates d date))) ->
  length X = nrows d ->
  length (take_pos p (filter_mask (kept_mask (input_dates d date)) X)) = length p.
Proof.
  intros Hwf Hdate Hperm HX. apply take_pos_length.
  rewrite (filter_mask_length _ X (input_dates d date))
    by (by rewrite input_dates_length).
  fold (kept_dates d date). rewrite Hperm. apply Forall_seq. intros; lia.
Qed.

Lemma numeric_column_present col d : Forall is_Some (numeric_column col d).
Proof.
  unfold numeric_column. destruct (alist_get col (columns d)).
  - apply fillna_present.
  - apply Forall_replicate. by eexists.
Qed.

End SortedLengths.

(** ** The rolling averages by region (claim C5) *)

(** The values of a column at the rows of region [k], in row order. *)
Definition group_values {A} (k : Cell) (keys : Series) (vals : list A) : list A :=
  take_pos (group_positions k (series_cells keys)) vals.

Section RollingByRegion.
Context `{Pandas} `{Learners}.

Lemma rolling_column_region d keys x :
  getitem region_column d = Returned keys ->
  rolling_column d x = groupby_transform (roll_mean 7 1) (series_cells keys) x.
Proof.
  unfold getitem, rolling_column.
  destruct (alist_get region_column (columns d)); [|discriminate]. by intros [= ->].
Qed.

(** C5: in the output of [preprocess_data] on a well-formed frame, for every
    region [k] the rolling average at the [i]-th row of the region is the
    mean of the last [min (i+1) 7] observations of that region up to that
    row, and of no other region; so on a constant series it is that
    constant, and for a single observation it is the observation. This holds
    for [Confirmed_MA7] over [Confirmed] and for [Death_MA7] over [Deaths]. *)
Theorem preprocess_rolling_mean w l d out keys k col ma :
  wf_frame d ->
  frames w !! l = Some d ->
  preprocesses_to w l out ->
  (col = "Confirmed" /\ ma = "Confirmed_MA7") \/ (col = "Deaths" /\ ma = "Death_MA7") ->
  getitem region_column out = Returned keys ->
  cell_isna k = false ->
  exists vals mas xs,
    getitem col out = Returned (SNumeric vals)
    /\ getitem ma out = Returned (SNumeric mas)
    /\ group_values k keys vals = map Some xs
    /\ length (group_values k keys mas) = length xs
    /\ (forall i, (i < length xs)%nat ->
          exists m, group_values k keys mas !! i = Some (Some m)
                    /\ (m == window_mean xs i)%Q
                    /\ length (window xs i) = Nat.min (i + 1) 7)
    /\ (forall v, xs = replicate (length xs) v ->
          forall i, (i < length xs)%nat ->
            exists m, group_values k keys mas !! i = Some (Some m) /\ (m == v)%Q)
    /\ (forall x, xs = [x] ->
          exists m, group_values k keys mas = [Some m] /\ (m == x)%Q).
Proof.
  intros Hwf Hd Hout Hcol Hkeys Hk.
  destruct (preprocesses_to_explicit w l d out Hd Hout)
    as (date & p & Hdate & Hperm & _ & ->).
  set (d3 := frame_take p (dated_rows d date)) in *.
  rewrite getitem_derived_region in Hkeys.
  set (vals := numeric_column col d3).
  assert (Hvals : getitem col (derived d3 (take_pos p (kept_dates d date)))
                  = Returned (SNumeric vals)
                  /\ getitem ma (derived d3 (take_pos p (kept_dates d date)))
                     = Returned (SNumeric (rolling_column d3 vals))).
  { subst vals. destruct Hcol as [[-> ->] | [-> ->]].
    - by rewrite getitem_derived_confirmed, getitem_derived_confirmed_ma7.
    - by rewrite getitem_derived_deaths, getitem_derived_death_ma7. }
  destruct Hvals as [Hgetcol Hgetma].
  rewrite (rolling_column_region d3 keys vals Hkeys) in Hgetma.
  assert (Hlen : length (series_cells keys) = length vals).
  { rewrite series_cells_length. subst vals d3.
    assert (Hne : String.eqb col "Date" = false) by (by destruct Hcol as [[-> _] | [-> _]]).
    rewrite numeric_column_sorted by exact Hne.
    rewrite getitem_sorted in Hkeys by reflexivity.
    destruct (getitem region_column d) as [keys0|] eqn:Hkeys0; [|discriminate].
    simpl in Hkeys. injection Hkeys as <-.
    assert (Hk0 : length (series_cells keys0) = nrows d).
    { rewrite series_cells_length. by apply (wf_getitem d region_column). }
    transitivity (length p).
    - rewrite <- series_cells_length.
      destruct keys0; simpl in *; rewrite ?length_map in *;
        try rewrite take_pos_map, filter_mask_map, length_map;
        by apply (sorted_length d date p).
    - symmetry. destruct (getitem col d) as [c|] eqn:Hc; [|by rewrite length_replicate].
      apply (sorted_length d date p); try done.
      unfold fillna. rewrite length_map, to_numeric_coerce_length.
      by apply (wf_getitem d col). }
  destruct (all_present (group_values k keys vals)) as [xs Hxs].
  { apply take_pos_Forall. subst vals. apply numeric_column_present. }
  assert (Hmas : group_values k keys
                   (groupby_transform (roll_mean 7 1) (series_cells keys) vals)
                 = roll_mean 7 1 (map Some xs)).
  { unfold group_values in *. rewrite <- Hxs.
    apply groupby_transform_group; [apply roll_mean_length | exact Hlen | exact Hk]. }
  exists vals, (groupby_transform (roll_mean 7 1) (series_cells keys) vals), xs.
  split; [exact Hgetcol|]. split; [exact Hgetma|]. split; [exact Hxs|].
  rewrite Hmas. split; [by rewrite roll_mean_length, length_map|].
  split; [|split].
  - intros i Hi. destruct (roll_mean_present xs i Hi) as (m & Hm & Hmean).
    exists m. split; [exact Hm|]. split; [exact Hmean|].
    rewrite window_length by exact Hi. f_equal. lia.
  - intros v Hv i Hi. destruct (roll_mean_present xs i Hi) as (m & Hm & Hmean).
    exists m. split; [exact Hm|]. rewrite Hmean, Hv.
    apply window_mean_constant. exact Hi.
  - intros x ->. destruct (roll_mean_present [x] 0) as (m & Hm & Hmean); [simpl; lia|].
    exists m. split; [|by rewrite Hmean, window_mean_single].
    pose proof (roll_mean_length 7 1 (map Some [x])) as Hl.
    destruct (roll_mean 7 1 (map Some [x])) as [|y [|? ?]]; try discriminate.
    simpl in Hm. by injection Hm as ->.
Qed.

End RollingByRegion.

Lemma preprocess_rolling_mean_witness :
  exists vals mas xs,
    getitem "Confirmed" Example.two_regions_out = Returned (SNumeric vals)
    /\ getitem "Confirmed_MA7" Example.two_regions_out = Returned (SNumeric mas)
    /\ group_values (CStr "Goa")
         (SObject [CStr "Kerala"; CStr "Goa"; CStr "Kerala"; CStr "Goa"]) vals
       = map Some xs
    /\ (forall i, (i < length xs)%nat ->
          exists m, group_values (CStr "Goa")
                      (SObject [CStr "Kerala"; CStr "Goa"; CStr "Kerala"; CStr "Goa"]) mas
                    !! i = Some (Some m)
                    /\ (m == window_mean xs i)%Q).
Proof.
  destruct (preprocess_rolling_mean (H := Example.P)
              (Example.world Example.two_regions) 0%nat Example.two_regions
              Example.two_regions_out
              (SObject [CStr "Kerala"; CStr "Goa"; CStr "Kerala"; CStr "Goa"])
              (CStr "Goa") "Confirmed" "Confirmed_MA7")
    as (vals & mas & xs & Hvals & Hmas & Hxs & _ & Hmean & _).
  - exact Example.wf_two_regions.
  - reflexivity.
  - exact Example.two_regions_preprocessed.
  - left. split; reflexivity.
  - reflexivity.
  - reflexivity.
  - exists vals, mas, xs. split; [exact Hvals|]. split; [exact Hmas|].
    split; [exact Hxs|]. intros i Hi. destruct (Hmean i Hi) as (m & Hm & Hq & _).
    exists m. auto.
Defined.

Example rolling_mean_goa :
  group_values (CStr "Goa")
    (SObject [CStr "Kerala"; CStr "Goa"; CStr "Kerala"; CStr "Goa"])
    [Some 1%Q; Some 10%Q; Some (4 # 2); Some (22 # 2)]
  = [Some 10%Q; Some (22 # 2)].
Proof. reflexivity. Qed.

(** ** Running the forecasting methods *)

Section Forecasting.
Context `{Pandas} `{Learners}.

(** The frame handed to the decomposition model, as a function of the
    input frame: what [prepare_prophet_data] computes from it. *)
Definition aggregate (d : DataFrame) : result (option DataFrame) :=
  rbind (groupby_sum "Date" ["Confirmed"; "Deaths"] d) (fun agg =>
    Returned (Some (rename_column "Confirmed" "y" (rename_column "Date" "ds" agg)))).

Definition region_mask (state : string) (col : Series) : list bool :=
  map (cell_eqb (CStr state)) (series_cells col).

Definition prophet_frame (d : DataFrame) (state : option string)
    : result (option DataFrame) :=
  if truthy state then
    if has_column region_column d then
      rbind (getitem region_column d) (fun col =>
        aggregate (frame_filter (region_mask (default "" state) col) d))
    else Returned None
  else aggregate d.

(** Fit [m] on a frame and forecast [days] days past its history. *)
Definition forecast_with (m : Prophet) (pdf : option DataFrame) (days : Z)
    (omega : Entropy) : result DataFrame :=
  rbind (Prophet_fit m pdf omega) (fun fitted =>
    rbind (make_future_dataframe fitted days) (fun future =>
      rbind (Prophet_predict fitted future omega) (getitems forecast_columns))).

(** The forecast of one region from the input frame [d]. *)
Definition state_forecast (d : DataFrame) (state : string) (days : Z)
    (omega : Entropy) : result DataFrame :=
  rbind (getitem region_column d) (fun col =>
    rbind (prophet_frame (frame_filter (region_mask state col) d) (Some state))
      (fun pdf => forecast_with new_Prophet pdf days omega)).

Lemma lookup_insert_fresh (m : gmap nat DataFrame) (x d0 : DataFrame) (l0 : nat) :
  m !! l0 = Some d0 -> <[fresh (dom m) := x]> m !! l0 = Some d0.
Proof.
  intros Hl0. rewrite lookup_insert_ne; [done|]. intros <-.
  apply (is_fresh (dom m)). apply elem_of_dom. by eexists.
Qed.

Lemma prepare_prophet_data_run w l d state :
  frames w !! l = Some d ->
  forall A (K : option DataFrame -> M A),
  exists w',
    self w' = self w
    /\ (forall l0 d0, frames w !! l0 = Some d0 -> frames w' !! l0 = Some d0)
    /\ bind (prepare_prophet_data (Some l) state) (fun r => bind (deref r) K) w
       = match prophet_frame d state with
         | Returned pdf => K pdf w'
         | Raised e => (w', Raised e)
         end.
Proof.
  intros Hd A K.
  unfold prepare_prophet_data, prophet_frame, aggregate_for_prophet,
    aggregate, copy, deref, region_mask.
  assert (Hkeep1 : forall (x : DataFrame) l0 d0, frames w !! l0 = Some d0 ->
            <[fresh (dom (frames w)) := x]> (frames w) !! l0 = Some d0).
  { intros x l0 d0 Hl0. by apply lookup_insert_fresh. }
  assert (Hkeep2 : forall (x y : DataFrame) l0 d0, frames w !! l0 = Some d0 ->
            <[fresh (dom (<[fresh (dom (frames w)) := x]> (frames w))) := y]>
              (<[fresh (dom (frames w)) := x]> (frames w)) !! l0 = Some d0).
  { intros x y l0 d0 Hl0. apply lookup_insert_fresh. by apply Hkeep1. }
  cbv [bind read_frame new_frame lift ret print]. rewrite Hd. cbv beta iota.
  cbn [frames self stdout]. rewrite lookup_insert_eq. cbv beta iota.
  destruct (truthy state).
  - rewrite (has_column_getitem region_column d).
    destruct (getitem region_column d) as [col|e]; cbn [is_returned rbind].
    + destruct (groupby_sum "Date" ["Confirmed"; "Deaths"] _) as [agg|e];
        cbn [rbind frames self stdout]; rewrite ?lookup_insert_eq;
        (eexists; split; [|split]; [| |reflexivity]; [done | intros l0 d0 Hl0; cbn [frames]; by auto]).
    + eexists; split; [|split]; [| |reflexivity]; [done | intros l0 d0 Hl0; cbn [frames]; by auto].
  - destruct (groupby_sum "Date" ["Confirmed"; "Deaths"] d) as [agg|e];
      cbn [rbind frames self stdout]; rewrite ?lookup_insert_eq;
      (eexists; split; [|split]; [| |reflexivity]; [done | intros l0 d0 Hl0; cbn [frames]; by auto]).
Qed.

Lemma bind_subscript {A} w l d c (K : Series -> M A) :
  frames w !! l = Some d ->
  bind (subscript (Some l) c) K w
  = match getitem c d with
    | Returned s => K s w
    | Raised e => (w, Raised e)
    end.
Proof.
  intros Hd. unfold subscript, getitemM. cbv [bind read_frame lift]. by rewrite Hd.
Qed.

Lemma bind_subscript_list {A} w l d cs (K : DataFrame -> M A) :
  frames w !! l = Some d ->
  bind (subscript_list (Some l) cs) K w
  = match getitems cs d with
    | Returned s => K s w
    | Raised e => (w, Raised e)
    end.
Proof.
  intros Hd. unfold subscript_list. cbv [bind read_frame lift]. by rewrite Hd.
Qed.

Lemma bind_subscript_mask {A} w l d m (K : DataFrame -> M A) :
  frames w !! l = Some d ->
  bind (subscript_mask (Some l) m) K w = K (frame_filter m d) w.
Proof.
  intros Hd. unfold subscript_mask. cbv [bind read_frame ret]. by rewrite Hd.
Qed.

Lemma bind_lift {A B} (r : result A) (K : A -> M B) w :
  bind (lift r) K w
  = match r with
    | Returned a => K a w
    | Raised e => (w, Raised e)
    end.
Proof. reflexivity. Qed.

Lemma forecast_with_run m pdf days omega w :
  bind (lift (Prophet_fit m pdf omega)) (fun fitted =>
    bind (lift (make_future_dataframe fitted days)) (fun future =>
      bind (lift (Prophet_predict fitted future omega)) (fun forecast =>
        lift (getitems forecast_columns forecast)))) w
  = (w, forecast_with m pdf days omega).
Proof.
  unfold forecast_with. cbv [bind lift].
  destruct (Prophet_fit m pdf omega) as [fitted|]; [|reflexivity]. cbn [rbind].
  destruct (make_future_dataframe fitted days) as [future|]; [|reflexivity]. cbn [rbind].
  destruct (Prophet_predict fitted future omega); reflexivity.
Qed.

(** What a call of [get_state_predictions] on an existing frame does: the
    result is [state_forecast] of the frame, and the engine and every frame
    that existed are as before. *)
Lemma get_state_predictions_run w l d state days omega :
  frames w !! l = Some d ->
  snd (get_state_predictions (Some l) state days omega w)
  = state_forecast d state days omega
  /\ self (fst (get_state_predictions (Some l) state days omega w)) = self w
  /\ (forall l0 d0, frames w !! l0 = Some d0 ->
        frames (fst (get_state_predictions (Some l) state days omega w)) !! l0
        = Some d0).
Proof.
  intros Hd.
  assert (Hrun : exists w',
            get_state_predictions (Some l) state days omega w
            = (w', state_forecast d state days omega)
            /\ self w' = self w
            /\ (forall l0 d0, frames w !! l0 = Some d0 -> frames w' !! l0 = Some d0)).
  { unfold get_state_predictions, state_forecast.
    rewrite (bind_subscript w l d _ _ Hd).
    destruct (getitem region_column d) as [col|e]; [|by eauto]. cbn [rbind].
    rewrite (bind_subscript_mask w l d _ _ Hd).
    fold (region_mask state col).
    set (state_df := frame_filter (region_mask state col) d).
    unfold bind at 1. unfold new_frame at 1. cbv beta iota.
    set (w1 := mkWorld (<[fresh (dom (frames w)) := state_df]> (frames w))
                 (self w) (stdout w)).
    destruct (prepare_prophet_data_run w1 (fresh (dom (frames w))) state_df (Some state)
                (lookup_insert_eq _ _ _) _
                (fun pdf => bind (lift (Prophet_fit new_Prophet pdf omega)) (fun fitted =>
                   bind (lift (make_future_dataframe fitted days)) (fun future =>
                     bind (lift (Prophet_predict fitted future omega)) (fun forecast =>
                       lift (getitems forecast_columns forecast))))))
      as (w' & Hself & Hkeep & Hrun).
    rewrite Hrun. exists w'.
    assert (Hkeep' : forall l0 d0, frames w !! l0 = Some d0 -> frames w' !! l0 = Some d0).
    { intros l0 d0 Hl0. apply Hkeep. subst w1. cbn [frames]. by apply lookup_insert_fresh. }
    destruct (prophet_frame state_df (Some state)) as [pdf|e]; cbn [rbind].
    - rewrite forecast_with_run. split; [done|]. split; [exact Hself | done].
    - split; [done|]. split; [exact Hself | done]. }
  destruct Hrun as (w' & -> & Hself & Hkeep). auto.
Qed.

(** The ensemble's prediction for a query frame: the fitted scaler, then the
    fitted forest (the first half of [predict]). *)
Definition ensemble_predictions (e : COVIDPredictionModel) (X : DataFrame)
    : result (list Q) :=
  rbind (scaler_transform (scaler e) X) (rf_predict (rf_model e)).

(** The aggregate forecast of the engine [e]. *)
Definition aggregate_forecast (e : COVIDPredictionModel) (days : Z) (omega : Entropy)
    : result DataFrame :=
  rbind (make_future_dataframe (prophet_model e) days) (fun future =>
    rbind (Prophet_predict (prophet_model e) future omega) (getitems forecast_columns)).

(** The result of [predict] as a function of the input frame and the engine. *)
Definition predictions_of (e : COVIDPredictionModel) (d : DataFrame) (days : Z)
    (omega : Entropy) : result Predictions :=
  match preprocess_pipeline d with
  | Raised _ => Raised (TypeError none_subscript_msg)
  | Returned out =>
      rbind (getitems features out) (fun X =>
        rbind (ensemble_predictions e X) (fun rf_preds =>
          rbind (aggregate_forecast e days omega) (fun forecast =>
            Returned (mkPredictions rf_preds forecast))))
  end.

Lemma predict_run w l d days omega :
  frames w !! l = Some d ->
  snd (predict (Some l) days omega w) = predictions_of (self w) d days omega
  /\ self (fst (predict (Some l) days omega w)) = self w
  /\ (forall l0 d0, frames w !! l0 = Some d0 ->
        frames (fst (predict (Some l) days omega w)) !! l0 = Some d0).
Proof.
  intros Hd.
  destruct (preprocess_data_run w l d Hd) as (Hself & Hframes & Hres).
  assert (Hkeep : forall l0 d0, frames w !! l0 = Some d0 ->
            frames (fst (preprocess_data (Some l) w)) !! l0 = Some d0).
  { intros l0 d0 Hl0. rewrite Hframes; [done|]. apply elem_of_dom. by eexists. }
  assert (Hrun : exists w',
            predict (Some l) days omega w = (w', predictions_of (self w) d days omega)
            /\ self w' = self w
            /\ (forall l0 d0, frames w !! l0 = Some d0 -> frames w' !! l0 = Some d0)).
  { unfold predict, predictions_of, ensemble_predictions, aggregate_forecast.
    unfold bind at 1.
    destruct (preprocess_data (Some l) w) as [w1 r1]. cbn [fst snd] in *.
    exists w1. split; [|by auto].
    destruct (preprocess_pipeline d) as [out|e].
    - destruct Hres as (l2 & -> & _ & Hout).
      rewrite (bind_subscript_list w1 l2 out _ _ Hout).
      destruct (getitems features out) as [X|]; [|reflexivity]. cbn [rbind].
      cbv [bind get_self lift ret]. rewrite Hself.
      destruct (scaler_transform (scaler (self w)) X) as [Xs|]; [|reflexivity].
      cbn [rbind].
      destruct (rf_predict (rf_model (self w)) Xs) as [preds|]; [|reflexivity].
      cbn [rbind].
      destruct (make_future_dataframe (prophet_model (self w)) days) as [future|];
        [|reflexivity]. cbn [rbind].
      destruct (Prophet_predict (prophet_model (self w)) future omega) as [fc|];
        [|reflexivity]. cbn [rbind].
      destruct (getitems forecast_columns fc); reflexivity.
    - destruct Hres as [-> _]. reflexivity. }
  destruct Hrun as (w' & -> & ? & ?). auto.
Qed.

Lemma evaluate_models_run X y w :
  snd (evaluate_models X y w)
  = rbind (rf_predict (rf_model (self w)) X) (fun preds =>
      rbind (metric mean_squared_error y preds) (fun mse =>
        rbind (metric r2_score y preds) (fun r2 => Returned (mkEvaluation mse r2))))
  /\ fst (evaluate_models X y w) = w.
Proof.
  unfold evaluate_models. cbv [bind get_self lift ret].
  destruct (rf_predict (rf_model (self w)) X) as [preds|]; [|by auto]. cbn [rbind].
  destruct (metric mean_squared_error y preds); [|by auto]. cbn [rbind].
  destruct (metric r2_score y preds); by auto.
Qed.

End Forecasting.

(** ** Structured errors

    The specification names structured errors; the code raises Python
    exceptions. [model_error_of] reads an exception of the code as the
    structured model error it stands for: the [NotFittedError] of
    scikit-learn is [NotFitted], and no exception the code or its libraries
    raise stands for the two others. *)

Inductive ModelError := NotFitted | InsufficientHistory | FitFailure.

Definition model_error_of (e : PyExn) : option ModelError :=
  match e with
  | NotFittedError _ => Some NotFitted
  | _ => None
  end.

(** ** An untrained engine (claim C8) *)

Section Untrained.
Context `{Pandas} `{Learners}.

Lemma getitems_features_derived d ks :
  is_returned (getitems features (derived d ks)) = true.
Proof.
  unfold getitems, features, derived. cbn [select_columns].
  rewrite !getitem_setitem. reflexivity.
Qed.

(** C8, as amended: on an engine that was never trained, [evaluate_models]
    fails with [NotFitted] for every argument, [predict] fails with
    [NotFitted] for every input frame that has a [Date] column (raised by
    the scaler's [transform], which is reached first), and [transform] on
    the unfitted scaler fails with [NotFitted]. *)
Theorem untrained_engine_not_fitted w :
  self w = init ->
  (forall X y, exists e,
      snd (evaluate_models X y w) = Raised e /\ model_error_of e = Some NotFitted)
  /\ (forall l d days omega,
        frames w !! l = Some d -> has_column "Date" d = true ->
        exists e, snd (predict (Some l) days omega w) = Raised e
                  /\ model_error_of e = Some NotFitted)
  /\ (forall X, exists e,
        scaler_transform (scaler init) X = Raised e
        /\ model_error_of e = Some NotFitted).
Proof.
  intros Hinit. split; [|split].
  - intros X y. destruct (evaluate_models_run X y w) as [-> _].
    rewrite Hinit. eexists. split; reflexivity.
  - intros l d days omega Hd Hdate.
    destruct (predict_run w l d days omega Hd) as (-> & _ & _).
    rewrite has_column_getitem in Hdate.
    destruct (getitem "Date" d) as [date|] eqn:Hgd; [|discriminate].
    destruct (preprocess_pipeline_explicit d date Hgd) as (p & _ & _ & _ & Hpipe).
    unfold predictions_of. rewrite Hpipe.
    pose proof (getitems_features_derived (frame_take p (dated_rows d date))
                  (take_pos p (kept_dates d date))) as HX.
    destruct (getitems features _) as [X|]; [|discriminate]. cbn [rbind].
    rewrite Hinit. eexists. split; reflexivity.
  - intros X. eexists. split; reflexivity.
Qed.

End Untrained.

(** C8 as stated fails: on an untrained engine, [predict] on a frame without
    a [Date] column (or on [None]) fails before it reaches the scaler, with
    the [TypeError] of subscripting the [None] that [preprocess_data]
    returned. *)
Lemma untrained_predict_type_error :
  snd (predict (H := Example.P) (Some 0%nat) 30 (0%nat : Entropy (Learners := Example.L))
         (Example.world no_date))
  = Raised (TypeError "'NoneType' object is not subscriptable")
  /\ snd (predict (H := Example.P) None 30 (0%nat : Entropy (Learners := Example.L))
            (Example.world no_date))
     = Raised (TypeError "'NoneType' object is not subscriptable")
  /\ model_error_of (TypeError "'NoneType' object is not subscriptable") <> Some NotFitted.
Proof. split; [|split]; [vm_compute; reflexivity | vm_compute; reflexivity | discriminate]. Qed.

Lemma untrained_engine_not_fitted_witness :
  (forall X y, exists e,
      snd (evaluate_models (H0 := Example.L) X y (Example.world Example.two_regions))
      = Raised e /\ model_error_of e = Some NotFitted)
  /\ (exists e,
        snd (predict (H := Example.P) (Some 0%nat) 30
               (0%nat : Entropy (Learners := Example.L))
               (Example.world Example.two_regions)) = Raised e
        /\ model_error_of e = Some NotFitted).
Proof.
  destruct (untrained_engine_not_fitted (H := Example.P)
              (Example.world Example.two_regions) eq_refl)
    as (Heval & Hpredict & _).
  split; [exact Heval|].
  apply (Hpredict 0%nat Example.two_regions); reflexivity.
Defined.

(** ** A forecast for one region (claims C9 and C2) *)

Section RegionForecast.
Context `{Pandas} `{Learners}.

(** C9: a call of [get_state_predictions] leaves the engine as it was (the
    aggregate decomposition model, the ensemble and the scaler) and every
    frame that existed; its result is the forecast of a model that is new
    for the call ([new_Prophet], unfitted), fitted on the aggregated series
    of the region, and so does not depend on what the engine holds. *)
Theorem get_state_predictions_fresh_model w l d state days omega :
  frames w !! l = Some d ->
  self (fst (get_state_predictions (Some l) state days omega w)) = self w
  /\ (forall l0 d0, frames w !! l0 = Some d0 ->
        frames (fst (get_state_predictions (Some l) state days omega w)) !! l0
        = Some d0)
  /\ snd (get_state_predictions (Some l) state days omega w)
     = rbind (getitem region_column d) (fun col =>
         rbind (prophet_frame (frame_filter (region_mask state col) d) (Some state))
           (fun series => forecast_with new_Prophet series days omega))
  /\ history new_Prophet = None
  /\ (forall e out,
        snd (get_state_predictions (Some l) state days omega
               (mkWorld (frames w) e out))
        = snd (get_state_predictions (Some l) state days omega w)).
Proof.
  intros Hd.
  destruct (get_state_predictions_run w l d state days omega Hd) as (Hres & Hself & Hkeep).
  split; [exact Hself|]. split; [exact Hkeep|]. split; [exact Hres|].
  split; [reflexivity|]. intros e out.
  destruct (get_state_predictions_run (mkWorld (frames w) e out) l d state days omega Hd)
    as (Hres' & _ & _).
  by rewrite Hres, Hres'.
Qed.

End RegionForecast.

(** ** A region without observations *)

Definition no_observations (state : string) (col : Series) : Prop :=
  Forall (fun c => cell_eqb (CStr state) c = false) (series_cells col).

(** A frame without rows: every column is empty. *)
Definition all_empty (d : DataFrame) : Prop :=
  Forall (fun c => series_cells (snd c) = []) (columns d).

Lemma filter_mask_none {A} (m : list bool) (l : list A) :
  Forall (fun b => b = false) m -> filter_mask m l = [].
Proof.
  intros Hm. revert l. induction Hm as [|b m -> _ IH]; intros [|x l]; simpl; auto.
Qed.

Lemma filter_mask_nil {A} (m : list bool) : filter_mask m (@nil A) = [].
Proof. by destruct m. Qed.

Lemma take_pos_nil {A} (p : list nat) : take_pos p (@nil A) = [].
Proof. induction p as [|i p IH]; [reflexivity|]. by rewrite take_pos_cons. Qed.

Lemma series_cells_filter m s :
  series_cells (series_filter m s) = filter_mask m (series_cells s).
Proof. destruct s; simpl; by rewrite ?filter_mask_map. Qed.

Lemma series_cells_take p s :
  series_cells (series_take p s) = take_pos p (series_cells s).
Proof. destruct s; simpl; by rewrite ?take_pos_map. Qed.

Lemma region_mask_none state col :
  no_observations state col -> Forall (fun b => b = false) (region_mask state col).
Proof.
  unfold no_observations, region_mask. intros Hno.
  apply Forall_forall. intros b Hb.
  apply list_elem_of_In, in_map_iff in Hb as (c & <- & Hc).
  rewrite Forall_forall in Hno. by apply Hno, list_elem_of_In.
Qed.

Lemma all_empty_frame_filter m d :
  (Forall (fun b => b = false) m \/ all_empty d) -> all_empty (frame_filter m d).
Proof.
  intros Hm. unfold all_empty, frame_filter. cbn [columns].
  apply Forall_forall. intros c Hc.
  apply list_elem_of_In, in_map_iff in Hc as ([c0 s0] & <- & Hc0). cbn [snd fst].
  rewrite series_cells_filter. destruct Hm as [Hm|Hd].
  - by apply filter_mask_none.
  - unfold all_empty in Hd. rewrite Forall_forall in Hd.
    pose proof (Hd (c0, s0) ltac:(by apply list_elem_of_In)) as Hs. cbn [snd] in Hs.
    rewrite Hs. apply filter_mask_nil.
Qed.

Lemma all_empty_getitem d c s :
  all_empty d -> getitem c d = Returned s -> series_cells s = [].
Proof.
  unfold all_empty, getitem. destruct d as [n cols]. cbn [columns].
  induction cols as [|[c0 s0] cols IH]; simpl; [intros _; discriminate|].
  intros [Hc0 Hd]%Forall_cons.
  destruct (String.eqb c c0); [|by apply IH]. by intros [= <-].
Qed.

Section NoObservations.
Context `{Pandas} `{Learners}.

Definition too_few_rows : PyExn := ValueError "Dataframe has less than 2 non-NaN rows.".

Lemma Prophet_fit_no_rows pdf ds omega :
  getitem "ds" pdf = Returned ds ->
  getitem "y" pdf = Returned (SNumeric []) ->
  Prophet_fit new_Prophet (Some pdf) omega = Raised too_few_rows.
Proof. intros Hds Hy. unfold Prophet_fit. cbn [history new_Prophet]. by rewrite Hds, Hy. Qed.

(** The aggregate of a frame without rows has no rows, and the fit of a new
    model on it is refused by the library. *)
Lemma empty_region_forecast d0 days omega :
  all_empty d0 ->
  exists e,
    rbind (aggregate d0) (fun pdf => forecast_with new_Prophet pdf days omega) = Raised e
    /\ (forall ks c1 c2,
          getitem "Date" d0 = Returned (SDatetime ks) ->
          getitem "Confirmed" d0 = Returned c1 ->
          getitem "Deaths" d0 = Returned c2 ->
          e = too_few_rows).
Proof.
  intros Hempty. unfold aggregate, groupby_sum.
  destruct (getitem "Date" d0) as [keys|e] eqn:Hkeys;
    [|exists e; split; [reflexivity | intros; discriminate]].
  pose proof (all_empty_getitem d0 "Date" keys Hempty Hkeys) as Hcells.
  rewrite Hcells. change (first_positions []) with (@nil nat).
  assert (Huniq : series_cells (series_take [] keys) = []).
  { by rewrite series_cells_take. }
  destruct (argsort (series_take [] keys)) as [p|e] eqn:Hsort.
  - assert (Hsorted : series_cells (series_take p (series_take [] keys)) = []).
    { by rewrite series_cells_take, Huniq, take_pos_nil. }
    rewrite Hsorted. cbn [map agg_columns].
    destruct (getitem "Confirmed" d0) as [c1|e1];
      [|exists e1; split; [reflexivity | intros; discriminate]].
    destruct (getitem "Deaths" d0) as [c2|e2];
      [|exists e2; split; [reflexivity | intros; discriminate]].
    cbn [group_sums rbind]. exists too_few_rows. split; [|done].
    unfold forecast_with. erewrite Prophet_fit_no_rows; reflexivity.
  - exists e. split; [reflexivity|]. intros ks c1 c2 [= ->].
    destruct (argsort_datetime (take_pos [] ks)) as (p & Hp & _).
    cbn [series_take] in Hsort. rewrite Hp in Hsort. discriminate.
Qed.

(** C2, as amended: for a region with no observation in the input,
    [get_state_predictions] returns nothing: it raises an exception to its
    caller, which is not [InsufficientHistory]; when the input has a
    datetime [Date] column and the [Confirmed] and [Deaths] columns, it is
    the [ValueError] by which the library refuses a frame of fewer than 2
    rows. No other length of history is refused: for a region whose
    aggregated series has 2 or more rows, all with a date and a value, the
    result is what the library's optimisation and prediction give. *)
Theorem no_observations_raises w l d col state days omega :
  frames w !! l = Some d ->
  getitem region_column d = Returned col ->
  (no_observations state col ->
     exists e,
       snd (get_state_predictions (Some l) state days omega w) = Raised e
       /\ model_error_of e <> Some InsufficientHistory
       /\ (forall ks c1 c2,
             getitem "Date" d = Returned (SDatetime ks) ->
             getitem "Confirmed" d = Returned c1 ->
             getitem "Deaths" d = Returned c2 ->
             e = too_few_rows))
  /\ (forall series dates ys,
        prophet_frame (frame_filter (region_mask state col) d) (Some state)
        = Returned (Some series) ->
        getitem "ds" series = Returned (SDatetime (map Some dates)) ->
        getitem "y" series = Returned (SNumeric (map Some ys)) ->
        length dates = length ys ->
        (2 <= length ys)%nat ->
        snd (get_state_predictions (Some l) state days omega w)
        = rbind (prophet_optimize (config new_Prophet) omega (zip dates ys)) (fun p =>
            let fitted :=
              mkProphet (config new_Prophet) (Some (sorted_unique_dates dates, p)) in
            rbind (make_future_dataframe fitted days) (fun future =>
              rbind (Prophet_predict fitted future omega)
                    (getitems forecast_columns)))).
Proof.
  intros Hd Hcol.
  destruct (get_state_predictions_run w l d state days omega Hd) as (-> & _ & _).
  unfold state_forecast. rewrite Hcol. cbn [rbind]. split.
  - intros Hno. pose proof (region_mask_none state col Hno) as Hmask.
    set (m := region_mask state col) in *.
    assert (Hcase : exists d0,
              prophet_frame (frame_filter m d) (Some state) = aggregate d0
              /\ all_empty d0
              /\ (forall c s, getitem c d = Returned s ->
                    exists s0, getitem c d0 = Returned s0
                               /\ is_datetime64_any_dtype s0 = is_datetime64_any_dtype s)).
    { unfold prophet_frame. destruct (truthy (Some state)).
      - rewrite has_column_getitem, getitem_frame_filter, Hcol. cbn [rbind is_returned].
        eexists. split; [reflexivity|]. split.
        + apply all_empty_frame_filter. right. apply all_empty_frame_filter. by left.
        + intros c s Hs. rewrite !getitem_frame_filter, Hs. cbn [rbind].
          eexists. split; [reflexivity|]. by destruct s.
      - eexists. split; [reflexivity|]. split.
        + apply all_empty_frame_filter. by left.
        + intros c s Hs. rewrite getitem_frame_filter, Hs. cbn [rbind].
          eexists. split; [reflexivity|]. by destruct s. }
    destruct Hcase as (d0 & -> & Hempty & Hschema).
    destruct (empty_region_forecast d0 days omega Hempty) as (e & He & Hspecific).
    exists e. split; [exact He|]. split; [by destruct e|].
    intros ks c1 c2 Hdate Hc1 Hc2.
    destruct (Hschema _ _ Hdate) as (s0 & Hs0 & Hdt).
    destruct (Hschema _ _ Hc1) as (s1 & Hs1 & _).
    destruct (Hschema _ _ Hc2) as (s2 & Hs2 & _).
    destruct s0 as [ks0| |]; try discriminate. by apply (Hspecific ks0 s1 s2).
  - intros series dates ys -> Hds Hy Hlen Hmany. cbn [rbind].
    unfold forecast_with, Prophet_fit. cbn [history new_Prophet].
    rewrite Hds, Hy.
    assert (Hkeep : series_notna (SNumeric (map Some ys)) = replicate (length ys) true).
    { unfold series_notna. cbn [series_cells]. rewrite !map_map. cbn [cell_isna negb].
      clear. induction ys as [|y ys IH]; simpl; [reflexivity|]. by rewrite IH. }
    rewrite Hkeep.
    assert (Hcount : forall n, length (filter_mask (replicate n true) (replicate n true)) = n).
    { induction n as [|n IH]; simpl; [reflexivity|]. by rewrite IH. }
    rewrite Hcount. replace (length ys <? 2)%nat with false
      by (symmetry; apply Nat.ltb_ge; lia).
    cbn [to_datetime_strict numeric_values].
    assert (Hdates : mapM id (map Some dates) = Some dates).
    { clear. induction dates as [|x dates IH]; [reflexivity|].
      simpl in *. by rewrite IH. }
    rewrite Hdates.
    assert (Hrows : omap (fun r : Z * option Q =>
                            match snd r with
                            | Some q => Some (fst r, q)
                            | None => None
                            end) (zip dates (map Some ys)) = zip dates ys).
    { clear. revert ys. induction dates as [|x dates IH]; intros [|y ys];
        try reflexivity. cbn [zip zip_with map omap snd fst]. simpl. f_equal. apply IH. }
    rewrite Hrows. destruct (prophet_optimize _ _ _); reflexivity.
Qed.

End NoObservations.

(** The two regions of [Example.two_regions], with the dates already parsed. *)
Definition dated_regions : DataFrame := mkFrame 4
  [ ("Date", SDatetime [Some 1583107200000000000%Z; Some 1583020800000000000%Z;
                        Some 1583020800000000000%Z; Some 1583107200000000000%Z]);
    ("State/UnionTerritory", SObject [CStr "Kerala"; CStr "Kerala"; CStr "Goa"; CStr "Goa"]);
    ("Confirmed", SNumeric [Some 3%Q; Some 1%Q; Some 10%Q; Some 12%Q]);
    ("Deaths", SNumeric [Some 0%Q; Some 0%Q; Some 1%Q; Some 1%Q]) ].

Definition region_forecast (d : DataFrame) (state : string) (days : Z) : result DataFrame :=
  snd (get_state_predictions (H := Example.P) (Some 0%nat) state days
         (0%nat : Entropy (Learners := Example.L)) (Example.world d)).

(** C2 as stated fails: for a region that is not in the data the call fails
    with the library's [ValueError], not with [InsufficientHistory]; and a
    region with two days of history is not flagged but forecast. *)
Lemma region_without_observations_value_error :
  region_forecast dated_regions "Ladakh" 30 = Raised too_few_rows
  /\ model_error_of too_few_rows <> Some InsufficientHistory
  /\ is_returned (region_forecast dated_regions "Goa" 30) = true.
Proof. split; [|split]; [vm_compute; reflexivity | discriminate | vm_compute; reflexivity]. Qed.

Lemma no_observations_raises_witness :
  exists e,
    region_forecast dated_regions "Ladakh" 30 = Raised e
    /\ model_error_of e <> Some InsufficientHistory
    /\ e = too_few_rows.
Proof.
  destruct (no_observations_raises (H := Example.P) (Example.world dated_regions) 0%nat
              dated_regions
              (SObject [CStr "Kerala"; CStr "Kerala"; CStr "Goa"; CStr "Goa"])
              "Ladakh" 30 (0%nat : Entropy (Learners := Example.L)))
    as [Hnone _].
  - reflexivity.
  - reflexivity.
  - destruct Hnone as (e & He & Hclass & Hspecific).
    + repeat constructor.
    + exists e. split; [exact He|]. split; [exact Hclass|].
      by eapply Hspecific.
Defined.

Lemma get_state_predictions_fresh_model_witness :
  self (fst (get_state_predictions (H := Example.P) (Some 0%nat) "Goa" 30
               (0%nat : Entropy (Learners := Example.L)) (Example.world dated_regions)))
  = init
  /\ frames (fst (get_state_predictions (H := Example.P) (Some 0%nat) "Goa" 30
                    (0%nat : Entropy (Learners := Example.L))
                    (Example.world dated_regions))) !! 0%nat
     = Some dated_regions.
Proof.
  destruct (get_state_predictions_fresh_model (H := Example.P)
              (Example.world dated_regions) 0%nat dated_regions "Goa" 30
              (0%nat : Entropy (Learners := Example.L)) eq_refl)
    as (Hself & Hkeep & _).
  split; [exact Hself|]. by apply Hkeep.
Defined.

(** ** The forecast result (claim C1) *)






Section ForecastResults.
Context `{Pandas} `{Learners}.











End ForecastResults.




(** ** Training twice (claim C7) *)

Section Determinism.
Context `{Pandas} `{Learners}.

Lemma preprocess_data_self df w : self (fst (preprocess_data df w)) = self w.
Proof.
  destruct df as [l|]; [|reflexivity].
  destruct (frames w !! l) as [d|] eqn:Hd.
  - by destruct (preprocess_data_run w l d Hd) as (? & _).
  - unfold preprocess_data, copy. cbv [bind read_frame]. by rewrite Hd.
Qed.

Lemma prepare_prophet_data_self df state w :
  self (fst (prepare_prophet_data df state w)) = self w.
Proof.
  destruct df as [l|]; [|reflexivity].
  unfold prepare_prophet_data, aggregate_for_prophet, copy.
  cbv [bind read_frame new_frame lift ret print].
  destruct (frames w !! l) as [d|]; [|reflexivity]. cbv beta iota.
  cbn [frames self stdout]. rewrite lookup_insert_eq. cbv beta iota.
  destruct (truthy state).
  - destruct (has_column region_column d); [|reflexivity].
    destruct (getitem region_column d); [|reflexivity].
    destruct (groupby_sum _ _ _); reflexivity.
  - destruct (groupby_sum _ _ _); reflexivity.
Qed.

(** The end of [train_models]: the decomposition model is fitted and stored;
    the ensemble and the scaler are not touched. *)
Lemma train_tail_keeps_ensemble {A} df omega (held_out : A) w w' r' :
  bind (prepare_prophet_data df None) (fun prophet_df =>
    bind (deref prophet_df) (fun pdf =>
      bind get_self (fun me =>
        bind (lift (Prophet_fit (prophet_model me) pdf omega)) (fun pm =>
          bind (set_self (mkModel (rf_model me) pm (scaler me))) (fun _ =>
            ret held_out))))) w = (w', r') ->
  rf_model (self w') = rf_model (self w)
  /\ scaler (self w') = scaler (self w)
  /\ (forall r, r' = Returned r -> r = held_out).
Proof.
  unfold bind at 1.
  pose proof (prepare_prophet_data_self df None w) as Hself.
  destruct (prepare_prophet_data df None w) as [w1 [prophet_df|e]]; cbn [fst] in Hself;
    [|intros [= <- <-]; rewrite Hself; by auto].
  unfold deref. destruct prophet_df as [l|].
  - cbv [bind read_frame get_self set_self lift ret].
    destruct (frames w1 !! l) as [d|]; [|intros [= <- <-]; rewrite Hself; by auto].
    cbv beta iota.
    destruct (Prophet_fit (prophet_model (self w1)) (Some d) omega);
      intros [= <- <-]; cbn [self rf_model scaler]; rewrite Hself;
      (split; [done|]; split; [done|]; intros r; (discriminate || by intros [= <-])).
  - cbv [bind read_frame get_self set_self lift ret].
    destruct (Prophet_fit (prophet_model (self w1)) None omega);
      intros [= <- <-]; cbn [self rf_model scaler]; rewrite Hself;
      (split; [done|]; split; [done|]; intros r; (discriminate || by intros [= <-])).
Qed.

Lemma subscript_list_world r cs w : fst (subscript_list r cs w) = w.
Proof.
  destruct r as [l|]; [|reflexivity]. unfold subscript_list.
  cbv [bind read_frame lift]. by destruct (frames w !! l).
Qed.

Lemma subscript_world r c w : fst (subscript r c w) = w.
Proof.
  destruct r as [l|]; [|reflexivity]. unfold subscript, getitemM.
  cbv [bind read_frame lift]. by destruct (frames w !! l).
Qed.

Lemma bind_read {A B} (m : M A) (K : A -> M B) w :
  fst (m w) = w ->
  bind m K w
  = match snd (m w) with
    | Returned a => K a w
    | Raised e => (w, Raised e)
    end.
Proof. unfold bind. destruct (m w) as [w1 r]. cbn [fst snd]. by intros ->. Qed.

(** The end of [train_models], from the held-out split on. *)
Definition train_tail (df : option nat) (omega : Entropy) (held_out : Matrix * Series)
    : M (Matrix * Series) :=
  bind (prepare_prophet_data df None) (fun prophet_df =>
    bind (deref prophet_df) (fun pdf =>
      bind get_self (fun me =>
        bind (lift (Prophet_fit (prophet_model me) pdf omega)) (fun pm =>
          bind (set_self (mkModel (rf_model me) pm (scaler me))) (fun _ =>
            ret held_out))))).

Lemma train_tail_ensemble df omega held_out w :
  rf_model (self (fst (train_tail df omega held_out w))) = rf_model (self w)
  /\ scaler (self (fst (train_tail df omega held_out w))) = scaler (self w)
  /\ (forall r, snd (train_tail df omega held_out w) = Returned r -> r = held_out).
Proof.
  destruct (train_tail df omega held_out w) as [w' r'] eqn:Hrun.
  unfold train_tail in Hrun. by apply train_tail_keeps_ensemble in Hrun.
Qed.

(** [train_models] on a new engine, step by step: the generator of the
    process ([omega]) is used by the decomposition model only; the split and
    the forest draw from generators seeded with 42. *)
Lemma train_models_steps w df omega :
  self w = init ->
  train_models df omega w
  = match preprocess_data df w with
    | (w1, Raised e) => (w1, Raised e)
    | (w1, Returned processed) =>
      match snd (subscript_list processed features w1) with
      | Raised e => (w1, Raised e)
      | Returned X =>
        match snd (subscript processed "Confirmed" w1) with
        | Raised e => (w1, Raised e)
        | Returned y =>
          match scaler_fit_transform (scaler init) X with
          | Raised e => (w1, Raised e)
          | Returned (sc, X_scaled) =>
            let w2 := mkWorld (frames w1)
                        (mkModel (rf_model init) (prophet_model init) sc) (stdout w1) in
            match split_positions (seeded 42) (2 # 10) (length X_scaled) with
            | Raised e => (w2, Raised e)
            | Returned (train, test) =>
              match numeric_values (series_take train y) with
              | Raised e => (w2, Raised e)
              | Returned yv =>
                match forest_fit 100 (seeded 42) (take_pos train X_scaled) yv with
                | Raised e => (w2, Raised e)
                | Returned f =>
                    train_tail df omega
                      (take_pos test X_scaled, series_take test y)
                      (mkWorld (frames w1)
                         (mkModel (mkForest 100 (Some 42%Z) (Some f))
                                  (prophet_model init) sc)
                         (stdout w1))
                end
              end
            end
          end
        end
      end
    end.
Proof.
  intros Hinit. unfold train_models. unfold bind at 1.
  pose proof (preprocess_data_self df w) as Hself. rewrite Hinit in Hself.
  destruct (preprocess_data df w) as [w1 [processed|e]]; [|reflexivity].
  cbn [fst] in Hself.
  rewrite bind_read by apply subscript_list_world.
  destruct (snd (subscript_list processed features w1)) as [X|e]; [|reflexivity].
  rewrite bind_read by apply subscript_world.
  destruct (snd (subscript processed "Confirmed" w1)) as [y|e]; [|reflexivity].
  unfold bind at 1. cbv [get_self]. rewrite Hself.
  rewrite bind_lift.
  destruct (scaler_fit_transform (scaler init) X) as [[sc X_scaled]|e]; [|reflexivity].
  unfold bind at 1. cbv [set_self]. rewrite bind_lift.
  unfold train_test_split. cbn [check_random_state].
  destruct (split_positions (seeded 42) (2 # 10) (length X_scaled)) as [[train test]|e];
    [|reflexivity].
  unfold bind at 1. cbn [self]. rewrite bind_lift.
  unfold rf_fit. cbn [rf_model init n_estimators random_state check_random_state].
  destruct (numeric_values (series_take train y)) as [yv|e]; [|reflexivity].
  destruct (forest_fit 100 (seeded 42) (take_pos train X_scaled) yv) as [f|e];
    [|reflexivity].
  reflexivity.
Qed.

(** C7: two engines new from [__init__] that are trained on the same data
    hold the same ensemble whatever the state of the process-wide random
    generator of each run: the same fitted forest and the same fitted
    scaler, hence the same ensemble predictions on every query, and the
    same held-out split. *)
Theorem train_models_same_ensemble w df omega1 omega2 :
  self w = init ->
  rf_model (self (fst (train_models df omega1 w)))
  = rf_model (self (fst (train_models df omega2 w)))
  /\ scaler (self (fst (train_models df omega1 w)))
     = scaler (self (fst (train_models df omega2 w)))
  /\ (forall X,
        ensemble_predictions (self (fst (train_models df omega1 w))) X
        = ensemble_predictions (self (fst (train_models df omega2 w))) X)
  /\ (forall t1 t2,
        snd (train_models df omega1 w) = Returned t1 ->
        snd (train_models df omega2 w) = Returned t2 -> t1 = t2).
Proof.
  intros Hinit.
  assert (Hmain :
    rf_model (self (fst (train_models df omega1 w)))
    = rf_model (self (fst (train_models df omega2 w)))
    /\ scaler (self (fst (train_models df omega1 w)))
       = scaler (self (fst (train_models df omega2 w)))
    /\ (forall t1 t2,
          snd (train_models df omega1 w) = Returned t1 ->
          snd (train_models df omega2 w) = Returned t2 -> t1 = t2)).
  { rewrite !train_models_steps by exact Hinit.
    destruct (preprocess_data df w) as [w1 [processed|e]];
      [|split; [done|]; split; [done|]; intros; discriminate].
    destruct (snd (subscript_list processed features w1)) as [X|e];
      [|split; [done|]; split; [done|]; intros; discriminate].
    destruct (snd (subscript processed "Confirmed" w1)) as [y|e];
      [|split; [done|]; split; [done|]; intros; discriminate].
    destruct (scaler_fit_transform (scaler init) X) as [[sc X_scaled]|e];
      [|split; [done|]; split; [done|]; intros; discriminate].
    cbv zeta.
    destruct (split_positions (seeded 42) (2 # 10) (length X_scaled)) as [[train test]|e];
      [|split; [done|]; split; [done|]; intros; discriminate].
    destruct (numeric_values (series_take train y)) as [yv|e];
      [|split; [done|]; split; [done|]; intros; discriminate].
    destruct (forest_fit 100 (seeded 42) (take_pos train X_scaled) yv) as [f|e];
      [|split; [done|]; split; [done|]; intros; discriminate].
    match goal with
    | |- context [train_tail df omega1 ?held ?w3] =>
        destruct (train_tail_ensemble df omega1 held w3) as (Ha1 & Ha2 & Ha3);
        destruct (train_tail_ensemble df omega2 held w3) as (Hb1 & Hb2 & Hb3)
    end.
    split; [congruence|]. split; [congruence|].
    intros t1 t2 H1 H2. rewrite (Ha3 t1 H1), (Hb3 t2 H2). reflexivity. }
  destruct Hmain as (Hrf & Hsc & Hsplit).
  split; [exact Hrf|]. split; [exact Hsc|]. split; [|exact Hsplit].
  intros X. unfold ensemble_predictions. by rewrite Hrf, Hsc.
Qed.

End Determinism.

Lemma train_models_same_ensemble_witness :
  rf_model (self (fst (train_models (H := Example.P) (Some 0%nat)
                         (0%nat : Entropy (Learners := Example.L))
                         (Example.world Example.two_regions))))
  = rf_model (self (fst (train_models (H := Example.P) (Some 0%nat)
                           (7%nat : Entropy (Learners := Example.L))
                           (Example.world Example.two_regions))))
  /\ forall X,
       ensemble_predictions
         (self (fst (train_models (H := Example.P) (Some 0%nat)
                       (0%nat : Entropy (Learners := Example.L))
                       (Example.world Example.two_regions)))) X
       = ensemble_predictions
           (self (fst (train_models (H := Example.P) (Some 0%nat)
                         (7%nat : Entropy (Learners := Example.L))
                         (Example.world Example.two_regions)))) X.
Proof.
  destruct (train_models_same_ensemble (H := Example.P)
              (Example.world Example.two_regions) (Some 0%nat)
              (0%nat : Entropy (Learners := Example.L))
              (7%nat : Entropy (Learners := Example.L)) eq_refl)
    as (Hrf & _ & Hpred & _).
  split; [exact Hrf | exact Hpred].
Defined.

(** The engine trained on the example holds a fitted forest and a fitted
    scaler, and answers a query. *)
Example trained_engine_predicts :
  option_map rf_predictions
    (match snd (bind (train_models (H := Example.P) (Some 0%nat)
                        (0%nat : Entropy (Learners := Example.L)))
                  (fun _ => predict (H := Example.P) (Some 0%nat) 1
                              (0%nat : Entropy (Learners := Example.L)))
                  (Example.world Example.two_regions)) with
     | Returned out => Some out
     | Raised _ => None
     end)
  = Some [23 # 3; 23 # 3; 23 # 3; 23 # 3]%Q.
Proof. vm_compute. reflexivity. Qed.


(** * Further properties of the engine *)

(** ** Rows through [preprocess_data] *)

(** The columns [preprocess_data] writes. *)
Definition written_columns : list string :=
  ["Date"; "Day"; "Month"; "Year"; "DayOfWeek";
   "Confirmed"; "Deaths"; "Confirmed_MA7"; "Death_MA7"].

Section RowsIntact.
Context `{Pandas} `{Learners}.

Lemma getitem_derived_other c d ks :
  existsb (String.eqb c) written_columns = false ->
  getitem c (derived d ks) = getitem c d.
Proof.
  intros Hc. unfold written_columns in Hc. cbn [existsb] in Hc.
  repeat (apply orb_false_elim in Hc as [? Hc]).
  unfold derived. rewrite !getitem_setitem.
  repeat match goal with Hne : String.eqb c _ = false |- _ => rewrite Hne; clear Hne end.
  reflexivity.
Qed.

Lemma getitem_derived_date d ks : getitem "Date" (derived d ks) = getitem "Date" d.
Proof. unfold derived. by rewrite !getitem_setitem. Qed.

Lemma getitem_date_sorted d date p :
  getitem "Date" d = Returned date ->
  getitem "Date" (frame_take p (dated_rows d date))
  = Returned (SDatetime (take_pos p (kept_dates d date))).
Proof.
  intros Hdate. rewrite getitem_frame_take. unfold dated_rows.
  destruct (parse_dates_explicit d date Hdate) as [_ Hd1].
  destruct (dropna_datetime _ _ Hd1) as [_ Hd2].
  unfold kept_dates, input_dates. by rewrite Hd2.
Qed.

(** X1: every row of the output is a row of the input: one permutation [p] of
    the rows that have a date gives the dates of the output and, for every
    column the method does not write, the values of the output. A column
    that is absent stays absent. *)
Theorem preprocess_rows_intact w l d out :
  frames w !! l = Some d ->
  preprocesses_to w l out ->
  exists date p,
    getitem "Date" d = Returned date
    /\ Permutation p (seq 0 (length (kept_dates d date)))
    /\ getitem "Date" out = Returned (SDatetime (take_pos p (kept_dates d date)))
    /\ forall c, existsb (String.eqb c) written_columns = false ->
         getitem c out
         = rbind (getitem c d) (fun s =>
             Returned (series_take p (series_filter (kept_mask (input_dates d date)) s))).
Proof.
  intros Hd Hout.
  destruct (preprocesses_to_explicit w l d out Hd Hout)
    as (date & p & Hdate & Hperm & _ & ->).
  exists date, p. split; [exact Hdate|]. split; [exact Hperm|]. split.
  - rewrite getitem_derived_date. by apply getitem_date_sorted.
  - intros c Hc. rewrite getitem_derived_other by exact Hc.
    apply getitem_sorted. unfold written_columns in Hc. cbn [existsb] in Hc.
    by apply orb_false_elim in Hc as [? _].
Qed.

End RowsIntact.

Lemma preprocess_rows_intact_witness :
  exists date p,
    getitem "Date" Example.two_regions = Returned date
    /\ Permutation p (seq 0 (length (kept_dates (H := Example.P) Example.two_regions date)))
    /\ getitem region_column Example.two_regions_out
       = rbind (getitem region_column Example.two_regions) (fun s =>
           Returned (series_take p
             (series_filter (kept_mask (input_dates (H := Example.P) Example.two_regions date)) s))).
Proof.
  destruct (preprocess_rows_intact (H := Example.P)
              (Example.world Example.two_regions) 0%nat Example.two_regions
              Example.two_regions_out eq_refl Example.two_regions_preprocessed)
    as (date & p & Hdate & Hperm & _ & Hcols).
  exists date, p. split; [exact Hdate|]. split; [exact Hperm|].
  apply Hcols. reflexivity.
Defined.

(** ** The source of the dates *)

Section DateSource.
Context `{Pandas} `{Learners}.

(** The dates that [pd.to_datetime(..., errors='coerce')] reads from a
    column, without the rows it cannot read. *)
Definition parsed_dates (s : Series) : list (option Z) :=
  filter_mask (kept_mask (datetime_values s)) (datetime_values s).

(** X2: where the dates of the output come from. A [Date] column of datetime
    dtype is taken as it is. Otherwise the dates are parsed from
    [ObservationDate] when the frame has that column, and what [Date] holds
    is not looked at; only without it are they parsed from [Date]. *)
Theorem preprocess_date_source w l d out date :
  frames w !! l = Some d ->
  preprocesses_to w l out ->
  getitem "Date" d = Returned date ->
  exists ds,
    getitem "Date" out = Returned (SDatetime ds)
    /\ (is_datetime64_any_dtype date = true -> Permutation ds (parsed_dates date))
    /\ (is_datetime64_any_dtype date = false ->
        (forall obs, getitem "ObservationDate" d = Returned obs ->
           Permutation ds (parsed_dates obs))
        /\ (has_column "ObservationDate" d = false ->
            Permutation ds (parsed_dates date))).
Proof.
  intros Hd Hout Hdate.
  destruct (preprocesses_to_explicit w l d out Hd Hout)
    as (date' & p & Hdate' & Hperm & _ & ->).
  rewrite Hdate in Hdate'. injection Hdate' as <-.
  exists (take_pos p (kept_dates d date)). split.
  - unfold derived. rewrite !getitem_setitem. cbn [String.eqb Ascii.eqb Bool.eqb].
    rewrite getitem_frame_take. unfold dated_rows.
    destruct (parse_dates_explicit d date Hdate) as [_ Hd1].
    destruct (dropna_datetime _ _ Hd1) as [_ Hd2].
    unfold kept_dates, input_dates. by rewrite Hd2.
  - assert (Hall : Permutation (take_pos p (kept_dates d date))
                     (parsed_dates (date_source d date))).
    { by apply take_pos_Permutation. }
    revert Hall. generalize (take_pos p (kept_dates d date)). intros ds.
    unfold date_source. clear. intros Hall. split.
    + intros Hdt. rewrite Hdt in Hall. exact Hall.
    + intros Hdt. rewrite Hdt in Hall. cbn [negb] in Hall. split.
      * intros obs Hobs. unfold getitem in Hobs.
        destruct (alist_get "ObservationDate" (columns d)); [|discriminate].
        by injection Hobs as ->.
      * intros Hno. unfold has_column in Hno.
        by destruct (alist_get "ObservationDate" (columns d)).
Qed.

End DateSource.

(** ** The feature matrix *)

Section FeatureMatrix.
Context `{Pandas} `{Learners}.

(** X3: the frame [preprocess_data] returns always has the six feature columns
    and the target, all numeric: [processed_df[features]] and
    [processed_df['Confirmed']] do not raise, and the array scikit-learn
    reads from the features has one row per row of the frame and six
    columns. *)
Theorem preprocess_feature_matrix w l d out :
  frames w !! l = Some d ->
  preprocesses_to w l out ->
  exists X Xv y,
    getitems features out = Returned X
    /\ getitem "Confirmed" out = Returned (SNumeric y)
    /\ frame_values X = Returned Xv
    /\ length Xv = nrows out
    /\ Forall (fun row => length row = 6%nat) Xv.
Proof.
  intros Hd Hout.
  destruct (preprocesses_to_explicit w l d out Hd Hout)
    as (date & p & Hdate & Hperm & _ & ->).
  unfold getitems, features, derived. cbn [select_columns].
  rewrite !getitem_setitem. cbn [String.eqb Ascii.eqb Bool.eqb].
  unfold calendar_column.
  eexists. eexists. eexists. split; [reflexivity|]. split; [reflexivity|].
  unfold frame_values. cbn [columns numeric_columns snd numeric_values nrows].
  split; [reflexivity|]. split.
  - by rewrite length_map, length_seq.
  - apply Forall_forall. intros row Hrow.
    apply list_elem_of_In, in_map_iff in Hrow as (i & <- & _). reflexivity.
Qed.

End FeatureMatrix.

Lemma preprocess_feature_matrix_witness :
  exists X Xv y,
    getitems features Example.two_regions_out = Returned X
    /\ getitem "Confirmed" Example.two_regions_out = Returned (SNumeric y)
    /\ frame_values X = Returned Xv
    /\ length Xv = 4%nat.
Proof.
  destruct (preprocess_feature_matrix (H := Example.P)
              (Example.world Example.two_regions) 0%nat Example.two_regions
              Example.two_regions_out eq_refl Example.two_regions_preprocessed)
    as (X & Xv & y & HX & Hy & HXv & Hlen & _).
  exists X, Xv, y. auto.
Defined.

(** ** What [prepare_prophet_data] returns *)

Section Preparing.
Context `{Pandas} `{Learners}.

(** A call of [prepare_prophet_data] on an existing frame: the engine and
    every frame that existed are as before, and the result is
    [prophet_frame] of the input in a new frame. *)
Lemma prepare_prophet_data_result w l d state :
  frames w !! l = Some d ->
  self (fst (prepare_prophet_data (Some l) state w)) = self w
  /\ (forall l0 d0, frames w !! l0 = Some d0 ->
        frames (fst (prepare_prophet_data (Some l) state w)) !! l0 = Some d0)
  /\ match prophet_frame d state with
     | Returned (Some pdf) =>
         exists l', snd (prepare_prophet_data (Some l) state w) = Returned (Some l')
                    /\ frames w !! l' = None
                    /\ frames (fst (prepare_prophet_data (Some l) state w)) !! l' = Some pdf
     | Returned None =>
         snd (prepare_prophet_data (Some l) state w) = Returned None
         /\ last (stdout (fst (prepare_prophet_data (Some l) state w)))
            = Some ("State column 'State/UnionTerritory' not found for filtering state "
                      ++ default "" state)%string
     | Raised e => snd (prepare_prophet_data (Some l) state w) = Raised e
     end.
Proof.
  intros Hd.
  assert (Hrun : exists w' r,
    prepare_prophet_data (Some l) state w = (w', r)
    /\ self w' = self w
    /\ (forall l0 d0, frames w !! l0 = Some d0 -> frames w' !! l0 = Some d0)
    /\ match prophet_frame d state with
       | Returned (Some pdf) =>
           exists l', r = Returned (Some l') /\ frames w !! l' = None
                      /\ frames w' !! l' = Some pdf
       | Returned None =>
           r = Returned None
           /\ last (stdout w')
              = Some ("State column 'State/UnionTerritory' not found for filtering state "
                        ++ default "" state)%string
       | Raised e => r = Raised e
       end).
  { set (l1 := fresh (dom (frames w))).
    set (fr1 := <[l1 := d]> (frames w)).
    assert (Hkeep1 : forall l0 d0, frames w !! l0 = Some d0 -> fr1 !! l0 = Some d0).
    { intros l0 d0 Hl0. by apply lookup_insert_fresh. }
    assert (Hl2 : frames w !! fresh (dom fr1) = None).
    { apply not_elem_of_dom. intros Hin.
      apply (is_fresh (dom fr1)). unfold fr1 at 2. rewrite dom_insert_L.
      by apply elem_of_union_r. }
    assert (Hkeep2 : forall (x : DataFrame) l0 d0, frames w !! l0 = Some d0 ->
              <[fresh (dom fr1) := x]> fr1 !! l0 = Some d0).
    { intros x l0 d0 Hl0. apply lookup_insert_fresh. by apply Hkeep1. }
    unfold prepare_prophet_data, prophet_frame, aggregate_for_prophet,
      aggregate, copy, region_mask.
    cbv [bind read_frame new_frame lift ret print]. rewrite Hd. cbv beta iota.
    cbn [frames self stdout]. fold l1. fold fr1.
    unfold fr1 at 1. rewrite lookup_insert_eq. cbv beta iota.
    destruct (truthy state).
    - rewrite (has_column_getitem region_column d).
      destruct (getitem region_column d) as [col|e]; cbn [is_returned rbind].
      + destruct (groupby_sum "Date" ["Confirmed"; "Deaths"] _) as [agg|e];
          cbn [rbind]; eexists; eexists; (split; [reflexivity|]);
          cbn [frames self stdout]; (split; [done|]); (split; [by auto|]).
        * eexists. split; [reflexivity|]. split; [exact Hl2 | apply lookup_insert_eq].
        * done.
      + eexists. eexists. split; [reflexivity|]. cbn [frames self stdout].
        split; [done|]. split; [by auto|]. split; [done | apply last_snoc].
    - destruct (groupby_sum "Date" ["Confirmed"; "Deaths"] d) as [agg|e];
        cbn [rbind]; eexists; eexists; (split; [reflexivity|]);
        cbn [frames self stdout]; (split; [done|]); (split; [by auto|]).
      + eexists. split; [reflexivity|]. split; [exact Hl2 | apply lookup_insert_eq].
      + done. }
  destruct Hrun as (w' & r & -> & Hself & Hkeep & Hres). cbn [fst snd]. auto.
Qed.

End Preparing.

(** ** Aggregation by date *)

Lemma elem_of_take_pos {A} (p : list nat) (l : list A) (x : A) :
  x ∈ take_pos p l <-> exists i, i ∈ p /\ l !! i = Some x.
Proof. unfold take_pos. apply list_elem_of_omap. Qed.

Lemma take_pos_NoDup {A} (p : list nat) (l : list A) :
  NoDup p ->
  (forall i j x, i ∈ p -> j ∈ p -> l !! i = Some x -> l !! j = Some x -> i = j) ->
  NoDup (take_pos p l).
Proof.
  induction 1 as [|i p Hi Hp IH]; intros Hinj; [constructor|].
  rewrite take_pos_cons.
  assert (Hrest : NoDup (take_pos p l)).
  { apply IH. intros a b x Ha Hb. apply Hinj; by right. }
  destruct (l !! i) as [x|] eqn:Hx; [|exact Hrest].
  constructor; [|exact Hrest].
  intros (j & Hj & Hjx)%elem_of_take_pos. apply Hi.
  rewrite (Hinj i j x); [done | by left | by right | done | done].
Qed.

(** The position of the first row of each key. *)
Lemma elem_of_first_positions (keys : list Cell) (i : nat) :
  i ∈ first_positions keys
  <-> exists k, keys !! i = Some k /\ cell_isna k = false
                /\ forall j k', (j < i)%nat -> keys !! j = Some k' -> cell_eqb k k' = false.
Proof.
  unfold first_positions. rewrite list_elem_of_In, filter_In, <- list_elem_of_In, elem_of_seq.
  split.
  - intros [_ Hi]. destruct (keys !! i) as [k|]; [|discriminate].
    apply andb_true_iff in Hi as [Hna Hnew].
    apply negb_true_iff in Hna. apply negb_true_iff, existsb_false_Forall in Hnew.
    exists k. split; [done|]. split; [done|]. intros j k' Hj Hk'.
    apply (Forall_lookup_1 _ _ j k' Hnew). change (firstn i keys) with (take i keys).
    by rewrite lookup_take_lt.
  - intros (k & Hk & Hna & Hnew). split.
    + apply lookup_lt_Some in Hk. lia.
    + rewrite Hk, Hna. cbn [negb andb]. apply negb_true_iff.
      destruct (existsb (cell_eqb k) (firstn i keys)) eqn:Hex; [|reflexivity].
      apply existsb_exists in Hex as (k' & Hin & Heq).
      apply list_elem_of_In in Hin. change (firstn i keys) with (take i keys) in Hin.
      apply list_elem_of_lookup in Hin as [j Hj].
      apply lookup_take_Some in Hj as [Hj Hlt]. by rewrite (Hnew j k') in Heq.
Qed.

Lemma list_filter_NoDup {A} (f : A -> bool) (l : list A) :
  NoDup l -> NoDup (List.filter f l).
Proof.
  induction 1 as [|x l Hx Hl IH]; simpl; [constructor|].
  destruct (f x); [|exact IH]. constructor; [|exact IH].
  intros Hin. apply Hx. apply list_elem_of_In in Hin. apply filter_In in Hin as [Hin _].
  by apply list_elem_of_In.
Qed.

Lemma first_positions_NoDup keys : NoDup (first_positions keys).
Proof. unfold first_positions. apply list_filter_NoDup, NoDup_seq. Qed.

Definition date_cell (o : option Z) : Cell :=
  match o with Some t => CDate t | None => CNull end.

Lemma series_cells_datetime ks : series_cells (SDatetime ks) = map date_cell ks.
Proof. reflexivity. Qed.

Lemma cell_eqb_date a b :
  cell_eqb (date_cell a) (date_cell b) = true <-> is_Some a /\ a = b.
Proof.
  destruct a as [s|], b as [t|]; simpl.
  - rewrite Z.eqb_eq. split; [intros ->; split; [by eexists | done] | by intros [_ [= ->]]].
  - split; [discriminate | by intros [_ [=]]].
  - split; [discriminate | intros [[? [=]] _]].
  - split; [discriminate | intros [[? [=]] _]].
Qed.

(** The distinct dates of a datetime column, in order of first appearance:
    each date that is present occurs once, [NaT] does not occur. *)
Definition first_dates (ks : list (option Z)) : list (option Z) :=
  take_pos (first_positions (map date_cell ks)) ks.

Lemma lookup_date_cell ks i k :
  map date_cell ks !! i = Some k <-> exists o, ks !! i = Some o /\ k = date_cell o.
Proof.
  change (map date_cell ks) with (date_cell <$> ks). rewrite list_lookup_fmap.
  destruct (ks !! i) as [o|]; simpl; split.
  - intros [= <-]. by exists o.
  - by intros (o' & [= <-] & ->).
  - discriminate.
  - by intros (? & ? & _).
Qed.

Lemma elem_of_first_dates ks o :
  o ∈ first_dates ks <-> is_Some o /\ o ∈ ks.
Proof.
  unfold first_dates. rewrite elem_of_take_pos. split.
  - intros (i & Hi & Ho). apply elem_of_first_positions in Hi as (k & Hk & Hna & _).
    apply lookup_date_cell in Hk as (o' & Ho' & ->). rewrite Ho in Ho'. injection Ho' as <-.
    split; [|by eapply list_elem_of_lookup_2].
    destruct o; [by eexists | discriminate].
  - intros [[t ->] Hin].
    destruct (list_find_elem_of (fun x => x = Some t) ks (Some t) Hin eq_refl)
      as [[i x] Hfind].
    apply list_find_Some in Hfind as (Hi & -> & Hmin).
    exists i. split; [|exact Hi]. apply elem_of_first_positions.
    exists (CDate t). split; [apply lookup_date_cell; by exists (Some t)|].
    split; [reflexivity|]. intros j k' Hj Hk'.
    apply lookup_date_cell in Hk' as (o' & Ho' & ->).
    destruct (cell_eqb (CDate t) (date_cell o')) eqn:Heq; [|reflexivity].
    apply (cell_eqb_date (Some t) o') in Heq as [_ <-]. by destruct (Hmin j (Some t)).
Qed.

Lemma first_dates_NoDup ks : NoDup (first_dates ks).
Proof.
  unfold first_dates. apply take_pos_NoDup; [apply first_positions_NoDup|].
  intros i j x Hi Hj Hxi Hxj.
  apply elem_of_first_positions in Hi as (ki & Hki & Hnai & Hmini).
  apply elem_of_first_positions in Hj as (kj & Hkj & Hnaj & Hminj).
  apply lookup_date_cell in Hki as (oi & Hoi & ->).
  apply lookup_date_cell in Hkj as (oj & Hoj & ->).
  rewrite Hxi in Hoi. injection Hoi as <-. rewrite Hxj in Hoj. injection Hoj as <-.
  assert (Heq : cell_eqb (date_cell x) (date_cell x) = true).
  { apply cell_eqb_date. split; [|done]. destruct x; [by eexists | discriminate]. }
  destruct (lt_eq_lt_dec i j) as [[Hlt | ->] | Hlt]; [| done |].
  - rewrite (Hminj i (date_cell x)) in Heq; [discriminate | done |].
    apply lookup_date_cell. by exists x.
  - rewrite (Hmini j (date_cell x)) in Heq; [discriminate | done |].
    apply lookup_date_cell. by exists x.
Qed.

Section AggregateByDate.
Context `{Pandas}.

Lemma group_sums_numeric groups c :
  group_sums groups (SNumeric c)
  = Returned (map (fun g => Some (Qsum (present (take_pos g c)))) groups).
Proof.
  induction groups as [|g groups IH]; [reflexivity|].
  cbn [group_sums series_take series_sum map]. by rewrite IH.
Qed.

(** The sums of one column that [groupby('Date').agg(...)] puts in the row
    of date [t]. *)
Definition date_total (ks : list (option Z)) (c : list (option Q)) (t : Z) : Q :=
  Qsum (present (group_values (CDate t) (SDatetime ks) c)).

(** The aggregate of a frame whose dates are of datetime dtype has one row
    for each date that is present, the dates in strictly ascending order, and
    in [y] the sum of [Confirmed] over the rows of the date. *)
Lemma aggregate_by_date d ks pdf :
  getitem "Date" d = Returned (SDatetime ks) ->
  aggregate d = Returned (Some pdf) ->
  exists ds,
    getitem "ds" pdf = Returned (SDatetime (map Some ds))
    /\ nrows pdf = length ds
    /\ Sorted Z.lt ds
    /\ (forall t, t ∈ ds <-> Some t ∈ ks)
    /\ (forall c, getitem "Confirmed" d = Returned (SNumeric c) ->
          getitem "y" pdf = Returned (SNumeric (map (fun t => Some (date_total ks c t)) ds))).
Proof.
  intros Hdate. unfold aggregate, groupby_sum. rewrite Hdate.
  cbn [series_take]. rewrite !series_cells_datetime. fold (first_dates ks).
  destruct (argsort_datetime (first_dates ks)) as (p & -> & Hperm & Hsorted).
  cbn [series_take series_len].
  apply take_pos_Permutation in Hperm as Hall.
  destruct (all_present (take_pos p (first_dates ks))) as [ds Hds].
  { rewrite Hall. apply Forall_forall. intros o Ho. by apply elem_of_first_dates in Ho as [? _]. }
  rewrite Hds in *.
  assert (Hlt : Sorted Z.lt ds).
  { apply Sorted_le_NoDup_lt; [by apply Sorted_key_le_present|].
    apply (NoDup_fmap_1 Some). change (NoDup (map Some ds)). rewrite Hall.
    apply first_dates_NoDup. }
  assert (Hmem : forall t, t ∈ ds <-> Some t ∈ ks).
  { intros t. rewrite <- (list_elem_of_fmap_inj Some). change (Some <$> ds) with (map Some ds).
    rewrite Hall, elem_of_first_dates. split; [by intros [_ ?] | intros ?; split; [by eexists | done]]. }
  cbn [agg_columns].
  destruct (getitem "Confirmed" d) as [sc|]; [|discriminate].
  destruct (group_sums _ sc) as [vc|] eqn:Hvc; [|discriminate].
  destruct (getitem "Deaths" d) as [sd|]; [|discriminate].
  destruct (group_sums _ sd) as [vd|]; [|discriminate].
  cbn [rbind]. intros [= <-]. exists ds.
  split; [reflexivity|]. split; [cbn [rename_column nrows]; by rewrite length_map|].
  split; [exact Hlt|]. split; [exact Hmem|].
  intros c [= ->]. rewrite group_sums_numeric in Hvc. injection Hvc as <-.
  unfold getitem, rename_column. cbn. do 2 f_equal.
  rewrite !map_map. reflexivity.
Qed.

End AggregateByDate.

From Stdlib Require Import Qabs.

(** ** Integer columns

    A column of dtype [int64] is a numeric column whose values are integers.
    numpy adds such values in 64-bit two's complement: a sum that leaves the
    range wraps around, where the sums of the embedding are exact. The two
    agree when no addition can leave the range, which is so when the
    absolute values add up to less than [2^63]. *)

Definition wrap_int64 (z : Z) : Z := ((z + 2 ^ 63) mod 2 ^ 64 - 2 ^ 63)%Z.

(** The sum of an [int64] array, one wrapping addition per value. *)
Definition sum_int64 (zs : list Z) : Z :=
  foldl (fun acc z => wrap_int64 (acc + z)) 0%Z zs.

Example sum_int64_wraps : sum_int64 [2 ^ 62; 2 ^ 62]%Z = (- 2 ^ 63)%Z.
Proof. reflexivity. Qed.

(** The values can be added in 64 bits without wrap-around. *)
Definition no_wrap (v : list Q) : Prop :=
  (Qsum (map Qabs v) < inject_Z (2 ^ 63))%Q.

Definition Zsum (l : list Z) : Z := foldr Z.add 0%Z l.

Lemma wrap_int64_small z : (- 2 ^ 63 <= z < 2 ^ 63)%Z -> wrap_int64 z = z.
Proof.
  unfold wrap_int64. change (2 ^ 64)%Z with (2 * 2 ^ 63)%Z.
  generalize (2 ^ 63)%Z. intros b Hz. rewrite Z.mod_small; lia.
Qed.

Lemma Zsum_abs_nonneg l : (0 <= Zsum (map Z.abs l))%Z.
Proof.
  induction l as [|z l IH]; [done|]. cbn [map Zsum foldr]. fold (Zsum (map Z.abs l)). lia.
Qed.

Lemma sum_int64_from (zs : list Z) (acc : Z) :
  (Z.abs acc + Zsum (map Z.abs zs) < 2 ^ 63)%Z ->
  foldl (fun acc z => wrap_int64 (acc + z)) acc zs = (acc + Zsum zs)%Z.
Proof.
  generalize (wrap_int64_small). generalize (2 ^ 63)%Z. intros b Hwrap. revert acc.
  induction zs as [|z zs IH]; intros acc Hsmall; cbn [foldl Zsum foldr map] in *; [lia|].
  fold (Zsum zs). fold (Zsum (map Z.abs zs)) in Hsmall.
  pose proof (Zsum_abs_nonneg zs) as Hpos.
  rewrite Hwrap by lia. rewrite IH by lia. lia.
Qed.

Lemma Qsum_inject (zs : list Z) : (Qsum (map inject_Z zs) == inject_Z (Zsum zs))%Q.
Proof.
  induction zs as [|z zs IH]; [reflexivity|].
  cbn [map Qsum Zsum foldr]. fold (Qsum (map inject_Z zs)). fold (Zsum zs).
  by rewrite IH, inject_Z_plus.
Qed.

Lemma Qsum_abs_inject (zs : list Z) :
  (Qsum (map Qabs (map inject_Z zs)) == inject_Z (Zsum (map Z.abs zs)))%Q.
Proof. rewrite <- Qsum_inject, !map_map. reflexivity. Qed.

(** Within the range the exact sum is the sum of the 64-bit additions. *)
Lemma sum_int64_exact (zs : list Z) :
  no_wrap (map inject_Z zs) ->
  (Qsum (map inject_Z zs) == inject_Z (sum_int64 zs))%Q.
Proof.
  unfold no_wrap. rewrite Qsum_abs_inject, <- Zlt_Qlt. intros Hsmall.
  unfold sum_int64. rewrite sum_int64_from by (exact Hsmall). by rewrite Qsum_inject.
Qed.

Section PreparedSeries.
Context `{Pandas} `{Learners}.

(** [prepare_prophet_data] on the frame at [l], for the region [state] or
    for all regions, returns the new frame [pdf]. *)
Definition prepares_to (w : World) (l : nat) (state : option string)
    (pdf : DataFrame) : Prop :=
  exists l', snd (prepare_prophet_data (Some l) state w) = Returned (Some l')
             /\ frames (fst (prepare_prophet_data (Some l) state w)) !! l' = Some pdf.

Lemma prepares_to_frame w l d state pdf :
  frames w !! l = Some d ->
  prepares_to w l state pdf ->
  prophet_frame d state = Returned (Some pdf).
Proof.
  intros Hd (l' & Hret & Hpdf).
  destruct (prepare_prophet_data_result w l d state Hd) as (_ & _ & Hres).
  destruct (prophet_frame d state) as [[pdf'|]|e].
  - destruct Hres as (l2 & Hret2 & _ & Hpdf2). rewrite Hret in Hret2.
    injection Hret2 as <-. rewrite Hpdf in Hpdf2. by injection Hpdf2 as ->.
  - destruct Hres as [Hnone _]. rewrite Hret in Hnone. discriminate.
  - rewrite Hret in Hres. discriminate.
Qed.

(** X6: the series handed to the decomposition model: for an input whose dates
    are of datetime dtype, the frame [prepare_prophet_data] returns has one
    row for each date that is present in the input, the dates strictly
    ascending (no date twice, unlike the output of [preprocess_data]). Its
    [y] is the sum of [Confirmed] over all the rows of the date, provided
    the values of each date can be added without leaving the [int64] range;
    for a column of integers it is then the sum that the 64-bit additions
    give. *)
Theorem prepared_series_by_date w l d ks pdf :
  frames w !! l = Some d ->
  getitem "Date" d = Returned (SDatetime ks) ->
  prepares_to w l None pdf ->
  exists ds,
    getitem "ds" pdf = Returned (SDatetime (map Some ds))
    /\ nrows pdf = length ds
    /\ Sorted Z.lt ds
    /\ (forall t, t ∈ ds <-> Some t ∈ ks)
    /\ (forall c, getitem "Confirmed" d = Returned (SNumeric c) ->
          (forall t, t ∈ ds ->
             no_wrap (present (group_values (CDate t) (SDatetime ks) c))) ->
          getitem "y" pdf = Returned (SNumeric (map (fun t => Some (date_total ks c t)) ds))
          /\ forall zs, c = map (fun z => Some (inject_Z z)) zs ->
               forall t, t ∈ ds ->
                 (date_total ks c t
                  == inject_Z (sum_int64 (group_values (CDate t) (SDatetime ks) zs)))%Q).
Proof.
  intros Hd Hdate Hpdf. apply (prepares_to_frame w l d None pdf Hd) in Hpdf.
  destruct (aggregate_by_date d ks pdf Hdate Hpdf) as (ds & Hds & Hn & Hlt & Hmem & Hy).
  exists ds. split; [exact Hds|]. split; [exact Hn|]. split; [exact Hlt|].
  split; [exact Hmem|]. intros c Hc Hrange. split; [by apply Hy|].
  intros zs -> t Ht. specialize (Hrange t Ht). unfold date_total.
  unfold group_values in *.
  rewrite <- (map_map inject_Z Some), take_pos_map, take_pos_map, present_map_Some in *.
  by apply sum_int64_exact.
Qed.

End PreparedSeries.

(** ** Training *)

Section Training.
Context `{Pandas} `{Learners}.

(** The first half of [train_models] on the preprocessed frame [out]: the
    scaler is fitted and stored, then the forest. The engine that is left
    and the held-out split, or the exception. *)
Definition ensemble_fit (e : COVIDPredictionModel) (out : DataFrame) (omega : Entropy)
    : COVIDPredictionModel * result (Matrix * Series) :=
  match getitems features out with
  | Raised x => (e, Raised x)
  | Returned X =>
    match getitem "Confirmed" out with
    | Raised x => (e, Raised x)
    | Returned y =>
      match scaler_fit_transform (scaler e) X with
      | Raised x => (e, Raised x)
      | Returned (sc, X_scaled) =>
        let e1 := mkModel (rf_model e) (prophet_model e) sc in
        match train_test_split X_scaled y (2 # 10) (Some 42%Z) omega with
        | Raised x => (e1, Raised x)
        | Returned (X_train, X_test, y_train, y_test) =>
          match rf_fit (rf_model e) omega X_train y_train with
          | Raised x => (e1, Raised x)
          | Returned rf => (mkModel rf (prophet_model e) sc, Returned (X_test, y_test))
          end
        end
      end
    end
  end.

(** The second half, on the raw input [d]: the decomposition model is
    fitted on its aggregate and stored. *)
Definition decomposition_fit (e : COVIDPredictionModel) (d : DataFrame) (omega : Entropy)
    (held_out : Matrix * Series) : COVIDPredictionModel * result (Matrix * Series) :=
  match rbind (aggregate d) (fun pdf => Prophet_fit (prophet_model e) pdf omega) with
  | Raised x => (e, Raised x)
  | Returned pm => (mkModel (rf_model e) pm (scaler e), Returned held_out)
  end.

(** The engine [train_models] leaves and what it returns, as a function of
    the engine before and of the input frame. *)
Definition trained_of (e : COVIDPredictionModel) (d : DataFrame) (omega : Entropy)
    : COVIDPredictionModel * result (Matrix * Series) :=
  match preprocess_pipeline d with
  | Raised _ => (e, Raised (TypeError none_subscript_msg))
  | Returned out =>
      match ensemble_fit e out omega with
      | (e1, Raised x) => (e1, Raised x)
      | (e1, Returned held_out) => decomposition_fit e1 d omega held_out
      end
  end.

Lemma train_models_run w l d omega :
  frames w !! l = Some d ->
  self (fst (train_models (Some l) omega w)) = fst (trained_of (self w) d omega)
  /\ snd (train_models (Some l) omega w) = snd (trained_of (self w) d omega)
  /\ (forall l0 d0, frames w !! l0 = Some d0 ->
        frames (fst (train_models (Some l) omega w)) !! l0 = Some d0).
Proof.
  intros Hd.
  destruct (preprocess_data_run w l d Hd) as (Hself & Hframes & Hres).
  assert (Hkeep : forall l0 d0, frames w !! l0 = Some d0 ->
            frames (fst (preprocess_data (Some l) w)) !! l0 = Some d0).
  { intros l0 d0 Hl0. rewrite Hframes; [done|]. apply elem_of_dom. by eexists. }
  assert (Hrun : exists w',
            train_models (Some l) omega w = (w', snd (trained_of (self w) d omega))
            /\ self w' = fst (trained_of (self w) d omega)
            /\ (forall l0 d0, frames w !! l0 = Some d0 -> frames w' !! l0 = Some d0)).
  { unfold train_models, trained_of, ensemble_fit, decomposition_fit.
    unfold bind at 1.
    destruct (preprocess_data (Some l) w) as [w1 r1]. cbn [fst snd] in *.
    destruct (preprocess_pipeline d) as [out|e].
    2:{ destruct Hres as [-> _]. exists w1. cbn [fst snd]. auto. }
    destruct Hres as (l2 & -> & _ & Hout).
    rewrite (bind_subscript_list w1 l2 out _ _ Hout).
    destruct (getitems features out) as [X|]; [|exists w1; cbn [fst snd]; by auto].
    rewrite (bind_subscript w1 l2 out _ _ Hout).
    destruct (getitem "Confirmed" out) as [y|]; [|exists w1; cbn [fst snd]; by auto].
    unfold bind at 1. unfold get_self at 1. cbv beta iota. rewrite bind_lift. rewrite Hself.
    destruct (scaler_fit_transform (scaler (self w)) X) as [[sc X_scaled]|];
      [|exists w1; cbn [fst snd]; by auto].
    unfold bind at 1. unfold set_self at 1. cbv beta iota. rewrite bind_lift.
    destruct (train_test_split X_scaled y (2 # 10) (Some 42%Z) omega)
      as [[[[X_train X_test] y_train] y_test]|];
      [|eexists; split; [reflexivity|]; cbn [fst snd self frames];
        split; [reflexivity | exact Hkeep]].
    unfold bind at 1. unfold get_self at 1. cbv beta iota. cbn [self]. rewrite bind_lift.
    cbn [rf_model prophet_model scaler].
    destruct (rf_fit (rf_model (self w)) omega X_train y_train) as [rf|];
      [|eexists; split; [reflexivity|]; cbn [fst snd self frames];
        split; [reflexivity | exact Hkeep]].
    unfold bind at 1. unfold set_self at 1. cbv beta iota. cbn [frames stdout].
    set (w3 := mkWorld (frames w1) (mkModel rf (prophet_model (self w)) sc) (stdout w1)).
    destruct (prepare_prophet_data_run w3 l d None (Hkeep l d Hd) _
                (fun pdf => bind get_self (fun me =>
                   bind (lift (Prophet_fit (prophet_model me) pdf omega)) (fun pm =>
                     bind (set_self (mkModel (rf_model me) pm (scaler me))) (fun _ =>
                       ret (X_test, y_test))))))
      as (w4 & Hself4 & Hkeep4 & Hrun4).
    rewrite Hrun4. change (prophet_frame d None) with (aggregate d).
    assert (Hkeep' : forall l0 d0, frames w !! l0 = Some d0 -> frames w4 !! l0 = Some d0).
    { intros l0 d0 Hl0. apply Hkeep4. by apply Hkeep. }
    subst w3. cbn [self frames] in Hself4.
    destruct (aggregate d) as [pdf|]; cbn [rbind];
      [|exists w4; cbn [fst snd]; split; [done|]; split; [by rewrite Hself4 | done]].
    cbv [bind get_self lift set_self ret]. rewrite Hself4. cbn [self rf_model prophet_model scaler].
    destruct (Prophet_fit (prophet_model (self w)) pdf omega) as [pm|].
    - eexists. split; [reflexivity|]. cbn [fst snd self frames]. split; [done|]. exact Hkeep'.
    - exists w4. cbn [fst snd]. split; [done|]. split; [by rewrite Hself4 | done]. }
  destruct Hrun as (w' & -> & ? & ?). auto.
Qed.

Lemma preprocesses_to_pipeline w l d out :
  frames w !! l = Some d ->
  preprocesses_to w l out ->
  preprocess_pipeline d = Returned out.
Proof.
  intros Hd (l' & Hret & Hout).
  destruct (preprocess_data_run w l d Hd) as (_ & _ & Hres).
  destruct (preprocess_pipeline d) as [out'|e].
  - destruct Hres as (l2 & Hret2 & _ & Hout2). rewrite Hret in Hret2.
    injection Hret2 as <-. rewrite Hout in Hout2. by injection Hout2 as ->.
  - destruct Hres as [Hnone _]. rewrite Hret in Hnone. discriminate.
Qed.

Lemma train_models_None w omega :
  train_models None omega w
  = (mkWorld (frames w) (self w)
       (stdout w ++ ["Input DataFrame is None in preprocess_data"]),
     Raised (TypeError none_subscript_msg)).
Proof. reflexivity. Qed.

(** What the two halves do to the three estimators. *)
Lemma ensemble_fit_cases e out omega :
  prophet_model (fst (ensemble_fit e out omega)) = prophet_model e
  /\ (is_Some (scaler_params (scaler e)) ->
      is_Some (scaler_params (scaler (fst (ensemble_fit e out omega)))))
  /\ (is_Some (estimators_ (rf_model e)) ->
      is_Some (estimators_ (rf_model (fst (ensemble_fit e out omega)))))
  /\ (forall held, snd (ensemble_fit e out omega) = Returned held ->
        is_Some (scaler_params (scaler (fst (ensemble_fit e out omega))))
        /\ is_Some (estimators_ (rf_model (fst (ensemble_fit e out omega))))).
Proof.
  unfold ensemble_fit.
  destruct (getitems features out) as [X|]; [|cbn [fst snd]; by auto].
  destruct (getitem "Confirmed" out) as [y|]; [|cbn [fst snd]; by auto].
  unfold scaler_fit_transform.
  destruct (frame_values X) as [Xv|]; [|cbn [fst snd]; by auto].
  destruct (scaler_fit Xv) as [sp|]; [|cbn [fst snd]; by auto].
  destruct (scaler_apply sp Xv) as [Xs|]; [|cbn [fst snd]; by auto].
  cbv zeta.
  destruct (train_test_split Xs y (2 # 10) (Some 42%Z) omega)
    as [[[[X_train X_test] y_train] y_test]|];
    [|cbn [fst snd prophet_model scaler rf_model scaler_params];
      split; [done|]; split; [by eauto|]; split; [done | discriminate]].
  unfold rf_fit.
  destruct (numeric_values y_train) as [yv|];
    [|cbn [fst snd prophet_model scaler rf_model scaler_params];
      split; [done|]; split; [by eauto|]; split; [done | discriminate]].
  destruct (forest_fit _ _ X_train yv) as [f|];
    cbn [fst snd prophet_model scaler rf_model scaler_params estimators_].
  - split; [done|]. split; [by eauto|]. split; [by eauto|]. by eauto.
  - split; [done|]. split; [by eauto|]. split; [done | discriminate].
Qed.

Lemma Prophet_fit_returned m pdf omega fitted :
  Prophet_fit m pdf omega = Returned fitted ->
  history m = None /\ is_Some (history fitted).
Proof.
  unfold Prophet_fit. destruct (history m); [discriminate|].
  destruct pdf as [d|]; [|discriminate].
  destruct (getitem "ds" d) as [ds|]; [|discriminate].
  destruct (getitem "y" d) as [y|]; [|discriminate].
  destruct (_ <? 2)%nat; [discriminate|].
  destruct (to_datetime_strict ds) as [dates|]; [|discriminate].
  destruct (numeric_values y) as [ys|]; [|discriminate].
  destruct (prophet_optimize _ _ _) as [p|]; [|discriminate].
  intros [= <-]. split; [done | by eexists].
Qed.

Lemma decomposition_fit_cases e d omega held :
  rf_model (fst (decomposition_fit e d omega held)) = rf_model e
  /\ scaler (fst (decomposition_fit e d omega held)) = scaler e
  /\ (is_Some (history (prophet_model e)) ->
      prophet_model (fst (decomposition_fit e d omega held)) = prophet_model e
      /\ exists x, snd (decomposition_fit e d omega held) = Raised x)
  /\ (forall r, snd (decomposition_fit e d omega held) = Returned r ->
        history (prophet_model e) = None
        /\ is_Some (history (prophet_model (fst (decomposition_fit e d omega held)))))
  /\ (forall x, snd (decomposition_fit e d omega held) = Raised x ->
        fst (decomposition_fit e d omega held) = e).
Proof.
  unfold decomposition_fit.
  destruct (aggregate d) as [pdf|x]; cbn [rbind];
    [|cbn [fst snd]; split; [done|]; split; [done|]; split; [by eauto|];
      split; [discriminate | done]].
  destruct (Prophet_fit (prophet_model e) pdf omega) as [pm|x] eqn:Hfit; cbn [fst snd].
  - apply Prophet_fit_returned in Hfit as [Hnone Hsome].
    cbn [rf_model scaler prophet_model].
    split; [done|]. split; [done|]. split.
    + rewrite Hnone. by intros [? [=]].
    + split; [by auto | discriminate].
  - split; [done|]. split; [done|]. split; [by eauto|]. split; [discriminate | done].
Qed.

(** X8: a call of [train_models] that returns leaves the scaler, the forest and
    the decomposition model fitted; and it returns only on an engine whose
    decomposition model had not been fitted before. *)
Theorem train_models_fits_all w l d omega held_out :
  frames w !! l = Some d ->
  snd (train_models (Some l) omega w) = Returned held_out ->
  history (prophet_model (self w)) = None
  /\ is_Some (scaler_params (scaler (self (fst (train_models (Some l) omega w)))))
  /\ is_Some (estimators_ (rf_model (self (fst (train_models (Some l) omega w)))))
  /\ is_Some (history (prophet_model (self (fst (train_models (Some l) omega w))))).
Proof.
  intros Hd Hret.
  destruct (train_models_run w l d omega Hd) as (Hself & Hres & _).
  rewrite Hres in Hret. rewrite Hself. clear Hself Hres.
  unfold trained_of in *.
  destruct (preprocess_pipeline d) as [out|]; [|discriminate].
  destruct (ensemble_fit_cases (self w) out omega) as (Hpm & _ & _ & Hfit).
  destruct (ensemble_fit (self w) out omega) as [e1 [held|x]]; [|discriminate].
  cbn [fst snd] in Hpm, Hfit. destruct (Hfit held eq_refl) as [Hsc Hrf].
  destruct (decomposition_fit_cases e1 d omega held) as (Hrf2 & Hsc2 & _ & Hok & _).
  destruct (Hok _ Hret) as [Hnone Hsome].
  rewrite Hrf2, Hsc2. rewrite <- Hpm. auto.
Qed.

(** X9: an engine whose decomposition model is fitted cannot be trained again:
    every further call of [train_models] raises, whatever the data, and
    leaves that model as it is. *)
Theorem train_models_only_once w df omega :
  is_Some (history (prophet_model (self w))) ->
  (forall l, df = Some l -> is_Some (frames w !! l)) ->
  (exists x, snd (train_models df omega w) = Raised x)
  /\ prophet_model (self (fst (train_models df omega w))) = prophet_model (self w).
Proof.
  intros Hfitted Hin. destruct df as [l|]; [|rewrite train_models_None; by eauto].
  destruct (Hin l eq_refl) as [d Hd].
  destruct (train_models_run w l d omega Hd) as (Hself & Hres & _).
  rewrite Hres, Hself. clear Hself Hres. unfold trained_of.
  destruct (preprocess_pipeline d) as [out|]; [|cbn [fst snd]; by eauto].
  destruct (ensemble_fit_cases (self w) out omega) as (Hpm & _).
  destruct (ensemble_fit (self w) out omega) as [e1 [held|x]]; cbn [fst snd] in *;
    [|by eauto].
  destruct (decomposition_fit_cases e1 d omega held) as (_ & _ & Hno & _).
  rewrite Hpm in Hno. destruct (Hno Hfitted) as [Hsame Hx].
  split; [exact Hx | by rewrite Hsame].
Qed.

Lemma Prophet_fit_too_few m pdf ds y omega :
  history m = None ->
  getitem "ds" pdf = Returned ds ->
  getitem "y" pdf = Returned y ->
  (series_len y < 2)%nat ->
  Prophet_fit m (Some pdf) omega = Raised too_few_rows.
Proof.
  intros Hm Hds Hy Hlen. unfold Prophet_fit. rewrite Hm, Hds, Hy.
  assert (Hfew : (length (filter_mask (series_notna y) (series_notna y)) < 2)%nat).
  { pose proof (sublist_length _ _ (filter_mask_sublist (series_notna y) (series_notna y))).
    unfold series_notna in *. rewrite length_map, series_cells_length in *. lia. }
  apply Nat.ltb_lt in Hfew. by rewrite Hfew.
Qed.

Lemma aggregate_numeric d ks c c' :
  getitem "Date" d = Returned (SDatetime ks) ->
  getitem "Confirmed" d = Returned (SNumeric c) ->
  getitem "Deaths" d = Returned (SNumeric c') ->
  exists pdf, aggregate d = Returned (Some pdf).
Proof.
  intros Hdate Hc Hc'. unfold aggregate, groupby_sum. rewrite Hdate.
  cbn [series_take]. rewrite !series_cells_datetime. fold (first_dates ks).
  destruct (argsort_datetime (first_dates ks)) as (p & -> & _ & _).
  cbn [agg_columns]. rewrite Hc, Hc', !group_sums_numeric. cbn [rbind]. by eexists.
Qed.

(** The input has at most one date. *)
Definition single_date (ks : list (option Z)) : Prop :=
  forall s t, Some s ∈ ks -> Some t ∈ ks -> s = t.

Lemma single_date_aggregate d ks c pdf :
  getitem "Date" d = Returned (SDatetime ks) ->
  getitem "Confirmed" d = Returned (SNumeric c) ->
  single_date ks ->
  aggregate d = Returned (Some pdf) ->
  exists ds y, getitem "ds" pdf = Returned ds /\ getitem "y" pdf = Returned y
               /\ (series_len y < 2)%nat.
Proof.
  intros Hdate Hc Hone Hpdf.
  destruct (aggregate_by_date d ks pdf Hdate Hpdf) as (ds & Hds & _ & Hlt & Hmem & Hy).
  eexists. eexists. split; [exact Hds|]. split; [exact (Hy c Hc)|].
  cbn [series_len]. rewrite length_map.
  destruct ds as [|s [|t ds]]; cbn [length]; [lia | lia |].
  apply Sorted_inv in Hlt as [_ Hhd]. apply HdRel_inv in Hhd.
  assert (s = t); [|lia].
  apply Hone; apply Hmem; [by left | right; by left].
Qed.

(** X10: training is not all or nothing. When every dated row of the input
    falls on one day, the first half of [train_models] can fit the scaler
    and the forest, and the decomposition model then refuses its series of
    fewer than two rows: the call raises that [ValueError], and the engine
    keeps the newly fitted scaler and forest beside a decomposition model
    that is still not fitted. *)
Theorem train_models_partial w l d ks c c' out omega held_out :
  frames w !! l = Some d ->
  history (prophet_model (self w)) = None ->
  getitem "Date" d = Returned (SDatetime ks) ->
  getitem "Confirmed" d = Returned (SNumeric c) ->
  getitem "Deaths" d = Returned (SNumeric c') ->
  single_date ks ->
  preprocesses_to w l out ->
  snd (ensemble_fit (self w) out omega) = Returned held_out ->
  snd (train_models (Some l) omega w) = Raised too_few_rows
  /\ is_Some (scaler_params (scaler (self (fst (train_models (Some l) omega w)))))
  /\ is_Some (estimators_ (rf_model (self (fst (train_models (Some l) omega w)))))
  /\ history (prophet_model (self (fst (train_models (Some l) omega w)))) = None.
Proof.
  intros Hd Hnone Hdate Hc Hc' Hone Hout Hfit.
  apply (preprocesses_to_pipeline w l d out Hd) in Hout.
  destruct (train_models_run w l d omega Hd) as (Hself & Hres & _).
  rewrite Hres, Hself. clear Hself Hres. unfold trained_of. rewrite Hout.
  destruct (ensemble_fit_cases (self w) out omega) as (Hpm & _ & _ & Hfitted).
  destruct (ensemble_fit (self w) out omega) as [e1 [held|x]]; cbn [fst snd] in *;
    [|discriminate].
  destruct (Hfitted held eq_refl) as [Hsc Hrf].
  unfold decomposition_fit.
  destruct (aggregate_numeric d ks c c' Hdate Hc Hc') as [pdf Hpdf].
  destruct (single_date_aggregate d ks c pdf Hdate Hc Hone Hpdf) as (ds & y & Hds & Hy & Hlen).
  rewrite Hpdf. cbn [rbind].
  rewrite (Prophet_fit_too_few _ pdf ds y omega); [| congruence | done | done | done].
  cbn [fst snd]. split; [done|]. split; [done|]. split; [done | congruence].
Qed.

(** X11: without data to train on nothing is fitted: for [None] and for a frame
    without a [Date] column, [preprocess_data] returns [None] and
    [train_models] fails on subscripting it, with a [TypeError], before it
    touches the engine. *)
Theorem train_models_without_dates w df omega :
  df = None \/ (exists l d, df = Some l /\ frames w !! l = Some d
                            /\ has_column "Date" d = false) ->
  snd (train_models df omega w) = Raised (TypeError none_subscript_msg)
  /\ self (fst (train_models df omega w)) = self w.
Proof.
  intros [-> | (l & d & -> & Hd & Hno)]; [by rewrite train_models_None|].
  destruct (train_models_run w l d omega Hd) as (Hself & Hres & _).
  rewrite Hres, Hself. unfold trained_of.
  rewrite has_column_getitem in Hno.
  destruct (getitem "Date" d) as [|e] eqn:Hdate; [discriminate|].
  by rewrite (preprocess_pipeline_missing d e Hdate).
Qed.

End Training.

(** ** Serving *)

Section Serving.
Context `{Pandas} `{Learners}.

Lemma predict_forecast w l d days omega out :
  frames w !! l = Some d ->
  snd (predict (Some l) days omega w) = Returned out ->
  aggregate_forecast (self w) days omega = Returned (prophet_forecast out).
Proof.
  intros Hd Hout.
  destruct (predict_run w l d days omega Hd) as (Hrun & _ & _).
  rewrite Hrun in Hout. unfold predictions_of in Hout.
  destruct (preprocess_pipeline d); [|discriminate].
  destruct (getitems features _); [|discriminate]. cbn [rbind] in Hout.
  destruct (ensemble_predictions (self w) _); [|discriminate]. cbn [rbind] in Hout.
  destruct (aggregate_forecast (self w) days omega) as [fr|]; [|discriminate].
  cbn [rbind] in Hout. by injection Hout as <-.
Qed.

(** X12: [predict], [evaluate_models] and [prepare_prophet_data] only read the
    engine, and [train_models], [predict] and [prepare_prophet_data] work on
    copies of the data: every frame that existed before a call is the same
    after it. *)
Theorem methods_keep_data w l d :
  frames w !! l = Some d ->
  (forall days omega,
     self (fst (predict (Some l) days omega w)) = self w
     /\ forall l0 d0, frames w !! l0 = Some d0 ->
          frames (fst (predict (Some l) days omega w)) !! l0 = Some d0)
  /\ (forall state,
        self (fst (prepare_prophet_data (Some l) state w)) = self w
        /\ forall l0 d0, frames w !! l0 = Some d0 ->
             frames (fst (prepare_prophet_data (Some l) state w)) !! l0 = Some d0)
  /\ (forall omega l0 d0, frames w !! l0 = Some d0 ->
        frames (fst (train_models (Some l) omega w)) !! l0 = Some d0)
  /\ (forall X y, fst (evaluate_models X y w) = w).
Proof.
  intros Hd. split; [|split; [|split]].
  - intros days omega. by destruct (predict_run w l d days omega Hd) as (_ & ? & ?).
  - intros state. by destruct (prepare_prophet_data_result w l d state Hd) as (? & ? & _).
  - intros omega. by destruct (train_models_run w l d omega Hd) as (_ & _ & ?).
  - intros X y. by destruct (evaluate_models_run X y w).
Qed.

End Serving.

(** ** The dates of a forecast *)

(** The last date of a history, and the daily dates after it. *)
Definition latest (dates : list Z) : Z := foldr Z.max (default 0%Z (head dates)) dates.

Definition future_dates (dates : list Z) (days : Z) : list Z :=
  map (fun k => (latest dates + Z.of_nat (S k) * ns_per_day)%Z) (seq 0 (Z.to_nat days)).

Lemma foldr_max_sorted (l : list Z) (b : Z) :
  Sorted Z.le l -> (forall t, t ∈ l -> (b <= t)%Z) ->
  foldr Z.max b l = default b (last l).
Proof.
  intros Hs%Sorted_StronglySorted; [|intros ???; lia].
  induction Hs as [|x l Hl IH Hx]; intros Hb; [reflexivity|].
  cbn [foldr]. rewrite IH by (intros t Ht; apply Hb; by right).
  destruct l as [|y l]; cbn [last default].
  - apply Z.max_l, Hb. by left.
  - change (last (x :: y :: l)) with (last (y :: l)).
    destruct (last (y :: l)) as [z|] eqn:Hz; cbn [default].
    + apply Z.max_r. apply (Forall_forall (Z.le x) (y :: l)); [exact Hx|].
      by apply last_Some_elem_of.
    + by apply last_None in Hz.
Qed.

Lemma latest_sorted (ds : list Z) (t : Z) :
  Sorted Z.lt ds -> last ds = Some t -> latest ds = t.
Proof.
  intros Hs Hlast. unfold latest.
  assert (Hle : Sorted Z.le ds) by (eapply Sorted_weaken; [|exact Hs]; intros; lia).
  rewrite foldr_max_sorted; [by rewrite Hlast | exact Hle |].
  destruct ds as [|x ds]; [by intros ? ?%elem_of_nil|]. simpl.
  apply Sorted_StronglySorted in Hle; [|intros ???; lia].
  apply StronglySorted_inv in Hle as [_ Hx].
  intros t' [->|Ht']%elem_of_cons; [lia|]. by apply (Forall_forall (Z.le x) ds).
Qed.

Lemma latest_upper (dates : list Z) (t : Z) : t ∈ dates -> (t <= latest dates)%Z.
Proof.
  unfold latest. generalize (default 0%Z (head dates)).
  induction dates as [|x dates IH]; intros b Ht; [by apply elem_of_nil in Ht|].
  cbn [foldr]. apply elem_of_cons in Ht as [->|Ht]; [lia|].
  specialize (IH b Ht). lia.
Qed.

Lemma insert_date_least (d : Z) (l : list Z) :
  (forall t, t ∈ l -> (d < t)%Z) -> insert_date d l = d :: l.
Proof.
  destruct l as [|x l]; [reflexivity|]. intros Hd. cbn [insert_date].
  assert (d < x)%Z as Hlt%Z.ltb_lt by (apply Hd; by left). by rewrite Hlt.
Qed.

(** A history that is already in strict order is its own list of dates. *)
Lemma sorted_unique_dates_sorted (ds : list Z) :
  Sorted Z.lt ds -> sorted_unique_dates ds = ds.
Proof.
  intros Hs%Sorted_StronglySorted; [|intros ???; lia].
  induction Hs as [|x l Hl IH Hx]; [reflexivity|].
  unfold sorted_unique_dates in *. cbn [foldr]. rewrite IH.
  apply insert_date_least. intros t Ht. by apply (Forall_forall (Z.lt x) l).
Qed.

Section Horizon.
Context `{Pandas} `{Learners}.

Lemma make_future_dataframe_grid m dates p days grid :
  history m = Some (dates, p) ->
  make_future_dataframe m days = Returned grid ->
  grid = dates ++ future_dates dates days.
Proof.
  intros Hm. unfold make_future_dataframe. rewrite Hm.
  destruct (days + 1 <? 0)%Z; [discriminate|]. by intros [= <-].
Qed.

Lemma future_dates_spec dates days :
  length (future_dates dates days) = Z.to_nat days
  /\ forall k t, future_dates dates days !! k = Some t ->
       t = (latest dates + (Z.of_nat k + 1) * ns_per_day)%Z.
Proof.
  unfold future_dates. split; [by rewrite length_map, length_seq|].
  intros k t. change (map ?f ?l) with (f <$> l). rewrite list_lookup_fmap.
  destruct (seq 0 (Z.to_nat days) !! k) as [i|] eqn:Hi; [|discriminate].
  apply lookup_seq in Hi as [-> _]. cbn [fmap option_fmap option_map].
  intros [= <-]. f_equal. lia.
Qed.

Lemma forecast_frame_dates m dates p days omega fr :
  history m = Some (dates, p) ->
  rbind (make_future_dataframe m days) (fun future =>
    rbind (Prophet_predict m future omega) (getitems forecast_columns)) = Returned fr ->
  getitem "ds" fr = Returned (SDatetime (map Some (dates ++ future_dates dates days)))
  /\ nrows fr = (length dates + Z.to_nat days)%nat.
Proof.
  intros Hm Hfr.
  destruct (make_future_dataframe m days) as [grid|] eqn:Hgrid; [|discriminate].
  apply (make_future_dataframe_grid m dates p days grid Hm) in Hgrid as ->.
  cbn [rbind] in Hfr. unfold Prophet_predict in Hfr. rewrite Hm in Hfr.
  cbn [rbind] in Hfr. injection Hfr as <-.
  split; [reflexivity|]. cbn [nrows]. rewrite length_app.
  by destruct (future_dates_spec dates days) as [-> _].
Qed.

(** X14: the rows of the aggregate forecast: the dates the engine's decomposition
    model was fitted on, followed by exactly [days] dates at one-day steps
    from the last of them; the dates of the frame given to [predict] play no
    part. *)
Theorem predict_forecast_dates w l d dates p days omega out :
  frames w !! l = Some d ->
  history (prophet_model (self w)) = Some (dates, p) ->
  snd (predict (Some l) days omega w) = Returned out ->
  exists future,
    getitem "ds" (prophet_forecast out) = Returned (SDatetime (map Some (dates ++ future)))
    /\ nrows (prophet_forecast out) = (length dates + Z.to_nat days)%nat
    /\ length future = Z.to_nat days
    /\ (forall t, t ∈ dates -> (t <= latest dates)%Z)
    /\ (forall k t, future !! k = Some t ->
          t = (latest dates + (Z.of_nat k + 1) * ns_per_day)%Z).
Proof.
  intros Hd Hm Hout. apply (predict_forecast w l d days omega out Hd) in Hout.
  unfold aggregate_forecast in Hout.
  destruct (forecast_frame_dates _ dates p days omega _ Hm Hout) as [Hds Hn].
  destruct (future_dates_spec dates days) as [Hlen Hstep].
  exists (future_dates dates days). split; [exact Hds|]. split; [exact Hn|].
  split; [exact Hlen|]. split; [|exact Hstep].
  intros t. apply latest_upper.
Qed.

End Horizon.

Section ServedForecast.
Context `{Pandas} `{Learners}.

(** The dates of a forecast of a fitted model do not depend on the state of
    the random generator. *)
Lemma forecast_dates_any_generator m days omega1 omega2 fr1 fr2 :
  rbind (make_future_dataframe m days) (fun future =>
    rbind (Prophet_predict m future omega1) (getitems forecast_columns)) = Returned fr1 ->
  rbind (make_future_dataframe m days) (fun future =>
    rbind (Prophet_predict m future omega2) (getitems forecast_columns)) = Returned fr2 ->
  getitem "ds" fr1 = getitem "ds" fr2 /\ nrows fr1 = nrows fr2.
Proof.
  intros Hfr1 Hfr2.
  destruct (history m) as [[dates p]|] eqn:Hm.
  - destruct (forecast_frame_dates m dates p days omega1 fr1 Hm Hfr1) as [-> ->].
    by destruct (forecast_frame_dates m dates p days omega2 fr2 Hm Hfr2) as [-> ->].
  - unfold make_future_dataframe in Hfr1. rewrite Hm in Hfr1. discriminate.
Qed.

(** X13: the aggregate forecast [predict] returns does not depend on the frame
    it is given: the frame only feeds the predictions of the forest. The
    forecast is that of the engine's decomposition model for the number of
    days and the state [omega] of the process-wide random generator, from
    which the library draws the bounds. So two calls for the same number of
    days on engines with the same decomposition model, as are two calls in
    a row on one engine, return forecasts over the same dates whatever their
    inputs and whatever the generator, and the same forecast when the
    generator is in the same state at both calls. *)
Theorem predict_forecast_ignores_input w1 w2 l1 d1 l2 d2 days omega1 omega2 out1 out2 :
  frames w1 !! l1 = Some d1 ->
  frames w2 !! l2 = Some d2 ->
  prophet_model (self w1) = prophet_model (self w2) ->
  snd (predict (Some l1) days omega1 w1) = Returned out1 ->
  snd (predict (Some l2) days omega2 w2) = Returned out2 ->
  aggregate_forecast (self w1) days omega1 = Returned (prophet_forecast out1)
  /\ aggregate_forecast (self w2) days omega2 = Returned (prophet_forecast out2)
  /\ getitem "ds" (prophet_forecast out1) = getitem "ds" (prophet_forecast out2)
  /\ nrows (prophet_forecast out1) = nrows (prophet_forecast out2)
  /\ (omega1 = omega2 -> prophet_forecast out1 = prophet_forecast out2).
Proof.
  intros Hd1 Hd2 Hsame Hout1 Hout2.
  apply (predict_forecast w1 l1 d1 days omega1 out1 Hd1) in Hout1.
  apply (predict_forecast w2 l2 d2 days omega2 out2 Hd2) in Hout2.
  split; [exact Hout1|]. split; [exact Hout2|].
  unfold aggregate_forecast in Hout1, Hout2. rewrite <- Hsame in Hout2.
  destruct (forecast_dates_any_generator (prophet_model (self w1)) days omega1 omega2
              _ _ Hout1 Hout2) as [Hds Hn].
  split; [exact Hds|]. split; [exact Hn|]. intros <-. congruence.
Qed.

End ServedForecast.

(** ** The rows of one region *)

Lemma filter_mask_all {A} (l : list A) (n : nat) :
  (length l <= n)%nat -> filter_mask (replicate n true) l = l.
Proof.
  revert n. induction l as [|x l IH]; intros [|n] Hn; simpl in *; try reflexivity; [lia|].
  rewrite IH; [done | lia].
Qed.

(** The mask of a test on the values it has selected is all true. *)
Lemma filter_mask_again (f : Cell -> bool) (l : list Cell) :
  map f (filter_mask (map f l) l) = replicate (length (filter_mask (map f l) l)) true.
Proof.
  induction l as [|x l IH]; [reflexivity|]. cbn [map filter_mask].
  destruct (f x) eqn:Hx; [|exact IH]. cbn [map length replicate]. by rewrite Hx, IH.
Qed.

Lemma series_filter_len m s :
  series_len (series_filter m s) = length (filter_mask m (series_cells s)).
Proof. by rewrite <- series_cells_length, series_cells_filter. Qed.

Lemma series_filter_all s n :
  (series_len s <= n)%nat -> series_filter (replicate n true) s = s.
Proof. destruct s; cbn [series_len series_filter]; intros Hn; by rewrite filter_mask_all. Qed.

Section RegionRows.
Context `{Pandas} `{Learners}.

(** The rows of the region [state]: [df[df['State/UnionTerritory'] == state]]. *)
Definition region_rows (state : string) (col : Series) (d : DataFrame) : DataFrame :=
  frame_filter (region_mask state col) d.

(** Selecting the rows of a region among the rows of that region changes
    nothing. *)
Lemma region_rows_again d col state :
  wf_frame d ->
  getitem region_column d = Returned col ->
  frame_filter (region_mask state (series_filter (region_mask state col) col))
    (region_rows state col d)
  = region_rows state col d.
Proof.
  intros Hwf Hcol. unfold region_rows, region_mask.
  rewrite series_cells_filter, filter_mask_again.
  set (m := map (cell_eqb (CStr state)) (series_cells col)).
  set (n := length (filter_mask m (series_cells col))).
  assert (Hrows : length (filter_mask m (seq 0 (nrows d))) = n).
  { apply filter_mask_length. rewrite length_seq, series_cells_length.
    symmetry. by apply (wf_getitem d region_column). }
  unfold frame_filter. cbn [nrows columns]. f_equal.
  - rewrite Hrows. rewrite filter_mask_all; by rewrite length_seq.
  - rewrite map_map. cbn [fst snd].
    apply map_ext_Forall. eapply Forall_impl; [exact Hwf|].
    intros [c s] Hs. cbn [fst snd] in *. f_equal. apply series_filter_all.
    rewrite series_filter_len. subst n.
    erewrite (filter_mask_length m (series_cells s) (series_cells col)); [done|].
    rewrite !series_cells_length, Hs. symmetry. by apply (wf_getitem d region_column).
Qed.

(** The forecast of a region is the forecast of a new model fitted on the
    aggregate of the rows of that region; the second selection of the rows,
    in [prepare_prophet_data], has no effect, and the empty string is a
    region like another. *)
Lemma state_forecast_region d col state days omega :
  wf_frame d ->
  getitem region_column d = Returned col ->
  state_forecast d state days omega
  = rbind (aggregate (region_rows state col d)) (fun pdf =>
      forecast_with new_Prophet pdf days omega).
Proof.
  intros Hwf Hcol. unfold state_forecast. rewrite Hcol. cbn [rbind].
  fold (region_rows state col d). unfold prophet_frame.
  destruct (truthy (Some state)); [|reflexivity].
  rewrite has_column_getitem. unfold region_rows at 1 2.
  rewrite getitem_frame_filter, Hcol. cbn [rbind is_returned default].
  fold (region_rows state col d). by rewrite region_rows_again.
Qed.

(** The dates of the forecast of a model fitted on a frame do not depend on
    the state of the random generator, at the fit or at the forecast. *)
Lemma forecast_with_dates m pdf days omega1 omega2 fr1 fr2 :
  forecast_with m pdf days omega1 = Returned fr1 ->
  forecast_with m pdf days omega2 = Returned fr2 ->
  getitem "ds" fr1 = getitem "ds" fr2 /\ nrows fr1 = nrows fr2.
Proof.
  unfold forecast_with, Prophet_fit.
  destruct (history m); [discriminate|]. destruct pdf as [d|]; [|discriminate].
  destruct (getitem "ds" d) as [ds|]; [|discriminate].
  destruct (getitem "y" d) as [y|]; [|discriminate].
  destruct (_ <? 2)%nat; [discriminate|].
  destruct (to_datetime_strict ds) as [dates|]; [|discriminate].
  destruct (numeric_values y) as [ys|]; [|discriminate].
  destruct (prophet_optimize (config m) omega1 _) as [p1|]; [|discriminate].
  destruct (prophet_optimize (config m) omega2 _) as [p2|]; [|discriminate].
  cbn [rbind]. intros Hfr1 Hfr2.
  destruct (forecast_frame_dates
              (mkProphet (config m) (Some (sorted_unique_dates dates, p1)))
              (sorted_unique_dates dates) p1 days omega1 fr1 eq_refl Hfr1) as [-> ->].
  by destruct (forecast_frame_dates
                 (mkProphet (config m) (Some (sorted_unique_dates dates, p2)))
                 (sorted_unique_dates dates) p2 days omega2 fr2 eq_refl Hfr2) as [-> ->].
Qed.

(** X16: the forecast of a region depends on the rows of that region only, and
    on the state of the process-wide random generator, from which the
    library draws the bounds: two inputs that agree on the rows of the
    region get the same result, whatever their other rows, when the
    generator is in the same state at both calls; whatever the generator,
    their forecasts are over the same dates. *)
Theorem region_forecast_isolated w1 w2 l1 l2 d1 d2 col1 col2 state days omega1 omega2 :
  frames w1 !! l1 = Some d1 ->
  frames w2 !! l2 = Some d2 ->
  getitem region_column d1 = Returned col1 ->
  getitem region_column d2 = Returned col2 ->
  region_rows state col1 d1 = region_rows state col2 d2 ->
  (omega1 = omega2 ->
   snd (get_state_predictions (Some l1) state days omega1 w1)
   = snd (get_state_predictions (Some l2) state days omega2 w2))
  /\ (forall fr1 fr2,
        snd (get_state_predictions (Some l1) state days omega1 w1) = Returned fr1 ->
        snd (get_state_predictions (Some l2) state days omega2 w2) = Returned fr2 ->
        getitem "ds" fr1 = getitem "ds" fr2 /\ nrows fr1 = nrows fr2).
Proof.
  intros Hd1 Hd2 Hcol1 Hcol2 Hrows.
  destruct (get_state_predictions_run w1 l1 d1 state days omega1 Hd1) as (-> & _).
  destruct (get_state_predictions_run w2 l2 d2 state days omega2 Hd2) as (-> & _).
  unfold state_forecast. rewrite Hcol1, Hcol2. cbn [rbind].
  fold (region_rows state col1 d1). fold (region_rows state col2 d2). rewrite Hrows.
  split; [by intros <-|].
  destruct (prophet_frame (region_rows state col2 d2) (Some state)) as [pdf|];
    [|discriminate].
  cbn [rbind]. apply forecast_with_dates.
Qed.

(** X17: without the region column, and without a frame, there is no forecast:
    [get_state_predictions] raises the [KeyError] of its first subscript, or
    the [TypeError] of subscripting [None]. With the column, what it hands
    to the decomposition model is never [None]: the branch of
    [prepare_prophet_data] that reports a missing region column is not
    reached from here. *)
Theorem region_forecast_needs_column w state days omega :
  snd (get_state_predictions None state days omega w) = Raised (TypeError none_subscript_msg)
  /\ (forall l d, frames w !! l = Some d ->
        has_column region_column d = false ->
        snd (get_state_predictions (Some l) state days omega w)
        = Raised (KeyError region_column))
  /\ (forall d col, getitem region_column d = Returned col ->
        prophet_frame (region_rows state col d) (Some state) <> Returned None).
Proof.
  split; [reflexivity|]. split.
  - intros l d Hd Hno.
    destruct (get_state_predictions_run w l d state days omega Hd) as (-> & _).
    unfold state_forecast. rewrite has_column_getitem in Hno. unfold getitem in *.
    by destruct (alist_get region_column (columns d)).
  - intros d col Hcol. unfold prophet_frame, region_rows.
    destruct (truthy (Some state)).
    + rewrite has_column_getitem, getitem_frame_filter, Hcol. cbn [rbind is_returned].
      unfold aggregate. by destruct (groupby_sum _ _ _).
    + unfold aggregate. by destruct (groupby_sum _ _ _).
Qed.

Lemma group_sums_length groups s v :
  group_sums groups s = Returned v -> length v = length groups.
Proof.
  revert v. induction groups as [|g groups IH]; intros v; cbn [group_sums].
  - by intros [= <-].
  - destruct (series_sum (series_take g s)); [|discriminate].
    destruct (group_sums groups s) as [xs|]; [|discriminate].
    intros [= <-]. cbn [length]. by rewrite (IH xs).
Qed.

Lemma aggregate_some d pdf : aggregate d = Returned pdf -> is_Some pdf.
Proof. unfold aggregate. destruct (groupby_sum _ _ _); [|discriminate]. intros [= <-]. by eexists. Qed.

Lemma aggregate_y_length d ks pdf ds :
  getitem "Date" d = Returned (SDatetime ks) ->
  aggregate d = Returned (Some pdf) ->
  getitem "ds" pdf = Returned (SDatetime (map Some ds)) ->
  exists y, getitem "y" pdf = Returned (SNumeric y) /\ length y = length ds.
Proof.
  intros Hdate. unfold aggregate, groupby_sum. rewrite Hdate.
  destruct (argsort _) as [p|]; [|discriminate]. cbn [agg_columns].
  destruct (getitem "Confirmed" d) as [sc|]; [|discriminate].
  destruct (group_sums _ sc) as [vc|] eqn:Hvc; [|discriminate].
  destruct (getitem "Deaths" d) as [sd|]; [|discriminate].
  destruct (group_sums _ sd) as [vd|]; [|discriminate].
  cbn [rbind]. intros [= <-]. cbn. intros [= Hds].
  eexists. split; [reflexivity|]. apply group_sums_length in Hvc. rewrite Hvc.
  cbn [series_take series_cells]. rewrite !length_map.
  apply (f_equal (@length _)) in Hds. by rewrite length_map in Hds.
Qed.

Lemma mapM_present {A} (l : list A) : mapM id (map Some l) = Some l.
Proof. induction l as [|x l IH]; [reflexivity|]. cbn. by rewrite IH. Qed.

(** The dates of the forecast of a model fitted on the aggregate of [d]. *)
Lemma fitted_forecast_dates d ks m pdf fitted days omega omega' fr :
  getitem "Date" d = Returned (SDatetime ks) ->
  aggregate d = Returned pdf ->
  Prophet_fit m pdf omega = Returned fitted ->
  rbind (make_future_dataframe fitted days) (fun future =>
    rbind (Prophet_predict fitted future omega') (getitems forecast_columns)) = Returned fr ->
  exists ds t_last future,
    getitem "ds" fr = Returned (SDatetime (map Some (ds ++ future)))
    /\ nrows fr = (length ds + Z.to_nat days)%nat
    /\ Sorted Z.lt ds
    /\ (forall t, t ∈ ds <-> Some t ∈ ks)
    /\ (2 <= length ds)%nat
    /\ last ds = Some t_last
    /\ length future = Z.to_nat days
    /\ (forall k t, future !! k = Some t ->
          t = (t_last + (Z.of_nat k + 1) * ns_per_day)%Z).
Proof.
  intros Hdate Hagg Hfit Hfr.
  destruct (aggregate_some d pdf Hagg) as [pdf' ->].
  destruct (aggregate_by_date d ks pdf' Hdate Hagg) as (ds & Hds & _ & Hlt & Hmem & _).
  destruct (aggregate_y_length d ks pdf' ds Hdate Hagg Hds) as (y & Hy & Hlen).
  unfold Prophet_fit in Hfit. destruct (history m); [discriminate|].
  rewrite Hds, Hy in Hfit.
  destruct (_ <? 2)%nat eqn:Hfew; [discriminate|]. apply Nat.ltb_ge in Hfew.
  assert (Htwo : (2 <= length ds)%nat).
  { pose proof (sublist_length _ _
      (filter_mask_sublist (series_notna (SNumeric y)) (series_notna (SNumeric y)))) as Hsub.
    unfold series_notna in Hsub, Hfew. cbn [series_cells] in Hsub, Hfew.
    rewrite !length_map in Hsub. lia. }
  cbn [to_datetime_strict numeric_values] in Hfit. rewrite mapM_present in Hfit.
  destruct (prophet_optimize _ _ _) as [p|]; [|discriminate].
  injection Hfit as <-. rewrite (sorted_unique_dates_sorted ds Hlt) in Hfr.
  destruct (forecast_frame_dates (mkProphet (config m) (Some (ds, p))) ds p days omega' fr
              eq_refl Hfr) as [Hout Hn].
  destruct (future_dates_spec ds days) as [Hflen Hstep].
  assert (Hlast : is_Some (last ds)).
  { destruct ds as [|x ds]; [cbn in Htwo; lia|]. destruct (last (x :: ds)) eqn:E; [by eexists|].
    by apply last_None in E. }
  destruct Hlast as [t_last Hlast].
  exists ds, t_last, (future_dates ds days).
  split; [exact Hout|]. split; [exact Hn|]. split; [exact Hlt|]. split; [exact Hmem|].
  split; [exact Htwo|]. split; [exact Hlast|]. split; [exact Hflen|].
  intros k t Hk. rewrite (Hstep k t Hk). by rewrite (latest_sorted ds t_last Hlt Hlast).
Qed.

(** X18: the dates of a region's forecast, for an input whose dates are of
    datetime dtype: every date on which the region has a row, once each and
    in ascending order (at least two, or the model would not fit), followed
    by exactly [days] dates at one-day steps from the last of them. *)
Theorem region_forecast_dates w l d col ks state days omega fr :
  frames w !! l = Some d ->
  wf_frame d ->
  getitem region_column d = Returned col ->
  getitem "Date" d = Returned (SDatetime ks) ->
  snd (get_state_predictions (Some l) state days omega w) = Returned fr ->
  exists ds t_last future,
    getitem "ds" fr = Returned (SDatetime (map Some (ds ++ future)))
    /\ nrows fr = (length ds + Z.to_nat days)%nat
    /\ Sorted Z.lt ds
    /\ (forall t, t ∈ ds <-> Some t ∈ filter_mask (region_mask state col) ks)
    /\ (2 <= length ds)%nat
    /\ last ds = Some t_last
    /\ length future = Z.to_nat days
    /\ (forall k t, future !! k = Some t ->
          t = (t_last + (Z.of_nat k + 1) * ns_per_day)%Z).
Proof.
  intros Hd Hwf Hcol Hdate Hfr.
  destruct (get_state_predictions_run w l d state days omega Hd) as (Hrun & _).
  rewrite Hrun, (state_forecast_region d col state days omega Hwf Hcol) in Hfr.
  destruct (aggregate (region_rows state col d)) as [pdf|] eqn:Hagg; [|discriminate].
  cbn [rbind] in Hfr. unfold forecast_with in Hfr.
  destruct (Prophet_fit new_Prophet pdf omega) as [fitted|] eqn:Hfit; [|discriminate].
  cbn [rbind] in Hfr.
  apply (fitted_forecast_dates (region_rows state col d)
           (filter_mask (region_mask state col) ks) new_Prophet pdf fitted days omega omega fr);
    try done.
  unfold region_rows. by rewrite getitem_frame_filter, Hdate.
Qed.

(** X15: what [predict] serves after training: the forecast of the decomposition
    model that [train_models] fitted on the aggregate by date of the raw
    training frame [d] (all regions summed). For a training frame whose
    dates are of datetime dtype its rows are the distinct dates of [d] in
    ascending order, followed by [days] daily dates after the last one. *)
Theorem trained_forecast_dates w l d ks omega held_out l' d' days omega' out :
  frames w !! l = Some d ->
  getitem "Date" d = Returned (SDatetime ks) ->
  snd (train_models (Some l) omega w) = Returned held_out ->
  frames (fst (train_models (Some l) omega w)) !! l' = Some d' ->
  snd (predict (Some l') days omega' (fst (train_models (Some l) omega w))) = Returned out ->
  exists pdf fitted ds t_last future,
    aggregate d = Returned pdf
    /\ Prophet_fit (prophet_model (self w)) pdf omega = Returned fitted
    /\ prophet_model (self (fst (train_models (Some l) omega w))) = fitted
    /\ getitem "ds" (prophet_forecast out) = Returned (SDatetime (map Some (ds ++ future)))
    /\ Sorted Z.lt ds
    /\ (forall t, t ∈ ds <-> Some t ∈ ks)
    /\ last ds = Some t_last
    /\ length future = Z.to_nat days
    /\ (forall k t, future !! k = Some t ->
          t = (t_last + (Z.of_nat k + 1) * ns_per_day)%Z).
Proof.
  intros Hd Hdate Hret Hd' Hout.
  apply (predict_forecast _ l' d' days omega' out Hd') in Hout.
  destruct (train_models_run w l d omega Hd) as (Hself & Hres & _).
  rewrite Hres in Hret. rewrite Hself in Hout |- *. clear Hself Hres Hd'.
  unfold trained_of in *.
  destruct (preprocess_pipeline d) as [pre|]; [|discriminate].
  destruct (ensemble_fit_cases (self w) pre omega) as (Hpm & _).
  destruct (ensemble_fit (self w) pre omega) as [e1 [held|x]]; [|discriminate].
  cbn [fst snd] in Hpm. unfold decomposition_fit in *. rewrite Hpm in *.
  destruct (aggregate d) as [pdf|] eqn:Hagg; [|discriminate]. cbn [rbind] in *.
  destruct (Prophet_fit (prophet_model (self w)) pdf omega) as [fitted|] eqn:Hfit;
    [|discriminate].
  cbn [fst snd prophet_model] in *. unfold aggregate_forecast in Hout.
  cbn [prophet_model] in Hout.
  destruct (fitted_forecast_dates d ks _ pdf fitted days omega omega' _ Hdate Hagg Hfit Hout)
    as (ds & t_last & future & Hds & _ & Hlt & Hmem & _ & Hlast & Hlen & Hstep).
  exists pdf, fitted, ds, t_last, future. auto 10.
Qed.

End RegionRows.

(** ** What [prepare_prophet_data] does with missing data *)

Section PreparingErrors.
Context `{Pandas} `{Learners}.

Lemma aggregate_without_date d :
  has_column "Date" d = false -> aggregate d = Raised (KeyError "Date").
Proof.
  rewrite has_column_getitem. unfold aggregate, groupby_sum, getitem.
  by destruct (alist_get "Date" (columns d)).
Qed.

Lemma aggregate_without_counts d ks :
  getitem "Date" d = Returned (SDatetime ks) ->
  has_column "Confirmed" d = false
  \/ (exists c, getitem "Confirmed" d = Returned (SNumeric c))
     /\ has_column "Deaths" d = false ->
  exists k, aggregate d = Raised (KeyError k).
Proof.
  intros Hdate Hmiss. unfold aggregate, groupby_sum. rewrite Hdate.
  cbn [series_take]. rewrite !series_cells_datetime. fold (first_dates ks).
  destruct (argsort_datetime (first_dates ks)) as (p & -> & _ & _).
  cbn [agg_columns]. destruct Hmiss as [Hno | [[c Hc] Hno]].
  - rewrite has_column_getitem in Hno. unfold getitem in *.
    destruct (alist_get "Confirmed" (columns d)); [discriminate|]. by eexists.
  - rewrite Hc, group_sums_numeric. rewrite has_column_getitem in Hno. unfold getitem in *.
    destruct (alist_get "Deaths" (columns d)); [discriminate|]. by eexists.
Qed.

Lemma aggregate_filtered_without_counts d ks m :
  getitem "Date" d = Returned (SDatetime ks) ->
  has_column "Confirmed" d = false
  \/ (exists c, getitem "Confirmed" d = Returned (SNumeric c))
     /\ has_column "Deaths" d = false ->
  exists k, aggregate (frame_filter m d) = Raised (KeyError k).
Proof.
  intros Hdate Hmiss.
  apply (aggregate_without_counts (frame_filter m d) (filter_mask m ks)).
  - by rewrite getitem_frame_filter, Hdate.
  - rewrite !has_column_getitem, !getitem_frame_filter.
    rewrite !has_column_getitem in Hmiss.
    destruct Hmiss as [Hno | [[c Hc] Hno]].
    + left. by destruct (getitem "Confirmed" d).
    + right. split; [exists (filter_mask m c); by rewrite Hc|].
      by destruct (getitem "Deaths" d).
Qed.

(** X7: [prepare_prophet_data] returns [None] in two cases only, each with a
    printed message: for the input [None], and for a region asked of a frame
    without the region column; for a frame it returns [None] exactly in the
    second case. Nothing else is caught as it is in [preprocess_data]: a
    frame without [Date] raises [KeyError('Date')] to the caller, and with
    dates of datetime dtype a frame without [Confirmed], or with a numeric
    [Confirmed] and without [Deaths], raises a [KeyError], whether a region
    is asked or not. *)
Theorem prepare_prophet_data_missing w state :
  (snd (prepare_prophet_data None state w) = Returned None
   /\ stdout (fst (prepare_prophet_data None state w))
      = stdout w ++ ["Input DataFrame is None in prepare_prophet_data"])
  /\ (forall l d, frames w !! l = Some d ->
        (snd (prepare_prophet_data (Some l) state w) = Returned None
         <-> truthy state = true /\ has_column region_column d = false)
        /\ (truthy state = true -> has_column region_column d = false ->
            last (stdout (fst (prepare_prophet_data (Some l) state w)))
            = Some ("State column 'State/UnionTerritory' not found for filtering state "
                      ++ default "" state)%string)
        /\ (truthy state = false \/ has_column region_column d = true ->
            has_column "Date" d = false ->
            snd (prepare_prophet_data (Some l) state w) = Raised (KeyError "Date"))
        /\ (truthy state = false \/ has_column region_column d = true ->
            forall ks, getitem "Date" d = Returned (SDatetime ks) ->
            has_column "Confirmed" d = false
            \/ (exists c, getitem "Confirmed" d = Returned (SNumeric c))
               /\ has_column "Deaths" d = false ->
            exists k, snd (prepare_prophet_data (Some l) state w) = Raised (KeyError k))).
Proof.
  split; [done|]. intros l d Hd.
  destruct (prepare_prophet_data_result w l d state Hd) as (_ & _ & Hres).
  assert (Hnone : prophet_frame d state = Returned None
                  <-> truthy state = true /\ has_column region_column d = false).
  { unfold prophet_frame. split.
    - destruct (truthy state).
      + destruct (has_column region_column d); [|done].
        destruct (getitem region_column d) as [col|]; [|discriminate]. cbn [rbind].
        intros Hagg. by destruct (aggregate_some _ _ Hagg).
      + intros Hagg. by destruct (aggregate_some _ _ Hagg).
    - by intros [-> ->]. }
  split; [|split; [|split]].
  - rewrite <- Hnone. destruct (prophet_frame d state) as [[pdf|]|e].
    + destruct Hres as (l' & -> & _). split; discriminate.
    + by destruct Hres as [-> _].
    + rewrite Hres. split; discriminate.
  - intros Hst Hno. destruct Hnone as [_ Hnone]. rewrite (Hnone (conj Hst Hno)) in Hres.
    by destruct Hres.
  - intros Hcase Hno. unfold prophet_frame in Hres.
    assert (Hfiltered : forall m, aggregate (frame_filter m d) = Raised (KeyError "Date")).
    { intros m. apply aggregate_without_date.
      rewrite has_column_getitem, getitem_frame_filter.
      rewrite has_column_getitem in Hno. by destruct (getitem "Date" d). }
    destruct (truthy state).
    + destruct Hcase as [|Hreg]; [discriminate|]. rewrite Hreg in Hres.
      rewrite has_column_getitem in Hreg.
      destruct (getitem region_column d); [|discriminate]. cbn [rbind] in Hres.
      by rewrite Hfiltered in Hres.
    + by rewrite (aggregate_without_date d Hno) in Hres.
  - intros Hcase ks Hdate Hmiss. unfold prophet_frame in Hres.
    destruct (truthy state).
    + destruct Hcase as [|Hreg]; [discriminate|]. rewrite Hreg in Hres.
      rewrite has_column_getitem in Hreg.
      destruct (getitem region_column d) as [col|]; [|discriminate]. cbn [rbind] in Hres.
      destruct (aggregate_filtered_without_counts d ks
                  (region_mask (default "" state) col) Hdate Hmiss) as [k Hk].
      rewrite Hk in Hres. by exists k.
    + destruct (aggregate_without_counts d ks Hdate Hmiss) as [k Hk].
      rewrite Hk in Hres. by exists k.
Qed.

End PreparingErrors.

(** ** The calendar features *)

Lemma civil_of_days_range (days : Z) :
  (1 <= snd (fst (civil_of_days days)) <= 12)%Z
  /\ (1 <= snd (civil_of_days days) <= 31)%Z.
Proof.
  unfold civil_of_days. cbv zeta. cbn [fst snd].
  set (z := (days + 719468)%Z).
  set (doe := (z - z / 146097 * 146097)%Z).
  assert (Hdoe : (0 <= doe <= 146096)%Z) by (subst doe; Z.div_mod_to_equations; lia).
  clearbody doe. clear z.
  set (yoe := ((doe - doe / 1460 + doe / 36524 - doe / 146096) / 365)%Z).
  set (doy := (doe - (365 * yoe + yoe / 4 - yoe / 100))%Z).
  assert (Hdoy : (0 <= doy <= 365)%Z) by (subst doy yoe; Z.div_mod_to_equations; lia).
  clearbody doy. clear yoe.
  set (mp := ((5 * doy + 2) / 153)%Z).
  assert (Hmp : (0 <= mp <= 11)%Z) by (subst mp; Z.div_mod_to_equations; lia).
  assert (Hd : (1 <= doy - (153 * mp + 2) / 5 + 1 <= 31)%Z)
    by (subst mp; Z.div_mod_to_equations; lia).
  clearbody mp. split; [|exact Hd].
  destruct (mp <? 10)%Z eqn:E; [apply Z.ltb_lt in E | apply Z.ltb_ge in E]; lia.
Qed.

(** A calendar column of the output holds the field of each date, and no
    missing value. *)
Definition calendar_values (field : Z -> Z) (ds : list Z) : Series :=
  SNumeric (map (fun t => Some (inject_Z (field t))) ds).

Section CalendarFeatures.
Context `{Pandas} `{Learners}.

(** X4: the calendar features are complete and in range: since the rows
    without a date are dropped before the fields are read, [Day], [Month],
    [Year] and [DayOfWeek] hold a number in every row of the output, the
    field of the date of that row, with the day of the month in 1..31, the
    month in 1..12 and the day of the week in 0..6 (Monday is 0). *)
Theorem preprocess_calendar_features w l d out :
  frames w !! l = Some d ->
  preprocesses_to w l out ->
  exists ds,
    getitem "Date" out = Returned (SDatetime (map Some ds))
    /\ getitem "Day" out = Returned (calendar_values dt_day ds)
    /\ getitem "Month" out = Returned (calendar_values dt_month ds)
    /\ getitem "Year" out = Returned (calendar_values dt_year ds)
    /\ getitem "DayOfWeek" out = Returned (calendar_values dt_dayofweek ds)
    /\ Forall (fun t => (1 <= dt_day t <= 31)%Z /\ (1 <= dt_month t <= 12)%Z
                        /\ (0 <= dt_dayofweek t <= 6)%Z) ds.
Proof.
  intros Hd Hout.
  destruct (preprocesses_to_explicit w l d out Hd Hout)
    as (date & p & Hdate & Hperm & _ & ->).
  destruct (all_present (take_pos p (kept_dates d date))) as [ds Hds].
  { apply take_pos_Forall, filter_mask_kept. }
  exists ds. rewrite Hds.
  assert (Hcal : forall field,
            calendar_column field (map Some ds) = calendar_values field ds).
  { intros field. unfold calendar_column, calendar_values. by rewrite map_map. }
  unfold derived. rewrite !getitem_setitem. cbn [String.eqb Ascii.eqb Bool.eqb].
  rewrite !Hcal. split; [|repeat (split; [reflexivity|])].
  - rewrite getitem_date_sorted by exact Hdate. by rewrite Hds.
  - apply Forall_forall. intros t _. unfold dt_day, dt_month, dt_dayofweek.
    destruct (civil_of_days_range (days_of_ns t)) as [Hm Hday].
    split; [exact Hday|]. split; [exact Hm|].
    pose proof (Z.mod_pos_bound (days_of_ns t + 3) 7). lia.
Qed.

End CalendarFeatures.

(** ** Rows without a region *)

(** A row whose key is missing is in no group, and the transform leaves
    [NaN] there. *)
Lemma groupby_transform_no_group (f : list (option Q) -> list (option Q))
    (keys : list Cell) (vals : list (option Q)) (i : nat) :
  (forall x, length (f x) = length x) ->
  length keys = length vals ->
  keys !! i = Some CNull ->
  groupby_transform f keys vals !! i = Some None.
Proof.
  intros Hf Hlen Hi. unfold groupby_transform.
  destruct (unique_keys_spec keys) as [Hd _].
  destruct (groupby_fold f keys vals Hf Hlen (unique_keys keys)
              (replicate (length vals) None) Hd) as [Hother _];
    [by rewrite length_replicate|].
  rewrite Hother.
  - apply lookup_replicate_2. rewrite <- Hlen. by apply lookup_lt_Some in Hi.
  - intros u _ (c & Hc & Huc)%elem_of_group_positions.
    rewrite Hi in Hc. injection Hc as <-. by destruct u.
Qed.

Section NoRegion.
Context `{Pandas} `{Learners}.

Lemma sorted_columns_length d date p col keys :
  wf_frame d ->
  getitem "Date" d = Returned date ->
  Permutation p (seq 0 (length (kept_dates d date))) ->
  String.eqb col "Date" = false ->
  getitem region_column (frame_take p (dated_rows d date)) = Returned keys ->
  length (series_cells keys) = length (numeric_column col (frame_take p (dated_rows d date))).
Proof.
  intros Hwf Hdate Hperm Hne Hkeys.
  rewrite series_cells_length, numeric_column_sorted by exact Hne.
  rewrite getitem_sorted in Hkeys by reflexivity.
  destruct (getitem region_column d) as [keys0|] eqn:Hkeys0; [|discriminate].
  simpl in Hkeys. injection Hkeys as <-.
  assert (Hk0 : length (series_cells keys0) = nrows d).
  { rewrite series_cells_length. by apply (wf_getitem d region_column). }
  transitivity (length p).
  - rewrite <- series_cells_length.
    destruct keys0; simpl in *; rewrite ?length_map in *;
      try rewrite take_pos_map, filter_mask_map, length_map;
      by apply (sorted_length d date p).
  - symmetry. destruct (getitem col d) as [c|] eqn:Hc; [|by rewrite length_replicate].
    apply (sorted_length d date p); try done.
    unfold fillna. rewrite length_map, to_numeric_coerce_length.
    by apply (wf_getitem d col).
Qed.

(** X5: a row of the output whose region is missing belongs to no region: it is
    kept, and both of its rolling averages are [NaN], neither 0 nor the
    value of the row. *)
Theorem preprocess_missing_region w l d out keys i :
  wf_frame d ->
  frames w !! l = Some d ->
  preprocesses_to w l out ->
  getitem region_column out = Returned keys ->
  series_cells keys !! i = Some CNull ->
  exists confirmed_ma7 death_ma7,
    getitem "Confirmed_MA7" out = Returned (SNumeric confirmed_ma7)
    /\ getitem "Death_MA7" out = Returned (SNumeric death_ma7)
    /\ confirmed_ma7 !! i = Some None
    /\ death_ma7 !! i = Some None.
Proof.
  intros Hwf Hd Hout Hkeys Hi.
  destruct (preprocesses_to_explicit w l d out Hd Hout)
    as (date & p & Hdate & Hperm & _ & ->).
  rewrite getitem_derived_region in Hkeys.
  rewrite getitem_derived_confirmed_ma7, getitem_derived_death_ma7.
  rewrite !(rolling_column_region _ keys _ Hkeys).
  eexists. eexists. split; [reflexivity|]. split; [reflexivity|].
  split; (apply groupby_transform_no_group;
          [apply roll_mean_length
          | by apply (sorted_columns_length d date p)
          | exact Hi]).
Qed.

End NoRegion.

(** A frame whose [Date] column holds no date, beside an [ObservationDate]
    column with one unreadable entry. *)
Definition observed : DataFrame := mkFrame 3
  [ ("Date", SObject [CStr "first"; CStr "second"; CStr "third"]);
    ("ObservationDate", SObject [CStr "2020-03-02"; CStr "2020-03-01"; CStr "03/2020"]);
    ("Confirmed", SNumeric [Some 3%Q; Some 1%Q; Some 7%Q]) ].

Lemma observed_preprocessed :
  exists out, preprocesses_to (H := Example.P) (Example.world observed) 0 out
              /\ getitem "Date" out
                 = Returned (SDatetime [Some 1583020800000000000%Z;
                                        Some 1583107200000000000%Z]).
Proof.
  eexists. split; [exists 2%nat; split; vm_compute; reflexivity|]. reflexivity.
Qed.

Lemma preprocess_date_source_witness :
  exists out ds,
    preprocesses_to (H := Example.P) (Example.world observed) 0 out
    /\ getitem "Date" out = Returned (SDatetime ds)
    /\ Permutation ds
         (parsed_dates (H := Example.P)
            (SObject [CStr "2020-03-02"; CStr "2020-03-01"; CStr "03/2020"])).
Proof.
  destruct observed_preprocessed as (out & Hout & _).
  destruct (preprocess_date_source (H := Example.P) (Example.world observed) 0%nat
              observed out
              (SObject [CStr "first"; CStr "second"; CStr "third"])
              eq_refl Hout eq_refl)
    as (ds & Hds & _ & Hobs).
  exists out, ds. split; [exact Hout|]. split; [exact Hds|].
  destruct (Hobs eq_refl) as [Hfrom _]. by apply Hfrom.
Defined.

Lemma preprocess_calendar_features_witness :
  exists ds,
    getitem "Date" Example.two_regions_out = Returned (SDatetime (map Some ds))
    /\ getitem "DayOfWeek" Example.two_regions_out
       = Returned (calendar_values dt_dayofweek ds)
    /\ Forall (fun t => (1 <= dt_day t <= 31)%Z /\ (1 <= dt_month t <= 12)%Z
                        /\ (0 <= dt_dayofweek t <= 6)%Z) ds.
Proof.
  destruct (preprocess_calendar_features (H := Example.P)
              (Example.world Example.two_regions) 0%nat Example.two_regions
              Example.two_regions_out eq_refl Example.two_regions_preprocessed)
    as (ds & Hdate & _ & _ & _ & Hdow & Hrange).
  exists ds. auto.
Defined.

(** The aggregate by date of [dated_regions]. *)
Definition dated_regions_series : DataFrame := mkFrame 2
  [ ("ds", SDatetime [Some 1583020800000000000%Z; Some 1583107200000000000%Z]);
    ("y", SNumeric [Some 11%Q; Some 15%Q]);
    ("Deaths", SNumeric [Some 1%Q; Some 1%Q]) ].

Lemma dated_regions_prepared :
  prepares_to (H := Example.P) (Example.world dated_regions) 0 None dated_regions_series.
Proof. exists 2%nat. split; vm_compute; reflexivity. Qed.

Lemma prepared_series_by_date_witness :
  exists ds,
    getitem "ds" dated_regions_series = Returned (SDatetime (map Some ds))
    /\ Sorted Z.lt ds
    /\ getitem "y" dated_regions_series
       = Returned (SNumeric (map (fun t =>
           Some (date_total
                   [Some 1583107200000000000%Z; Some 1583020800000000000%Z;
                    Some 1583020800000000000%Z; Some 1583107200000000000%Z]
                   [Some 3%Q; Some 1%Q; Some 10%Q; Some 12%Q] t)) ds))
    /\ forall t, t ∈ ds ->
         (date_total
            [Some 1583107200000000000%Z; Some 1583020800000000000%Z;
             Some 1583020800000000000%Z; Some 1583107200000000000%Z]
            [Some 3%Q; Some 1%Q; Some 10%Q; Some 12%Q] t
          == inject_Z (sum_int64
               (group_values (CDate t)
                  (SDatetime [Some 1583107200000000000%Z; Some 1583020800000000000%Z;
                              Some 1583020800000000000%Z; Some 1583107200000000000%Z])
                  [3; 1; 10; 12]%Z)))%Q.
Proof.
  destruct (prepared_series_by_date (H := Example.P) (Example.world dated_regions) 0%nat
              dated_regions
              [Some 1583107200000000000%Z; Some 1583020800000000000%Z;
               Some 1583020800000000000%Z; Some 1583107200000000000%Z]
              dated_regions_series eq_refl eq_refl dated_regions_prepared)
    as (ds & Hds & _ & Hlt & Hmem & Hy).
  exists ds. split; [exact Hds|]. split; [exact Hlt|].
  destruct (Hy [Some 3%Q; Some 1%Q; Some 10%Q; Some 12%Q] eq_refl) as [Hsum Hint].
  - intros t Ht. apply Hmem in Ht.
    repeat (apply elem_of_cons in Ht as [[= ->]|Ht]; [vm_compute; reflexivity|]).
    by apply elem_of_nil in Ht.
  - split; [exact Hsum|]. exact (Hint [3; 1; 10; 12]%Z eq_refl).
Defined.

(** A frame without the region column and without [Deaths]. *)
Definition no_region : DataFrame := mkFrame 2
  [ ("Date", SDatetime [Some 1583020800000000000%Z; Some 1583107200000000000%Z]);
    ("Confirmed", SNumeric [Some 4%Q; Some 6%Q]) ].

(** A frame with the regions of its rows and without [Deaths]. *)
Definition no_deaths : DataFrame := mkFrame 2
  [ ("Date", SDatetime [Some 1583020800000000000%Z; Some 1583107200000000000%Z]);
    ("State/UnionTerritory", SObject [CStr "Goa"; CStr "Goa"]);
    ("Confirmed", SNumeric [Some 4%Q; Some 6%Q]) ].

Lemma prepare_prophet_data_missing_witness :
  snd (prepare_prophet_data (H := Example.P) (Some 0%nat) (Some "Goa")
         (Example.world no_region)) = Returned None
  /\ snd (prepare_prophet_data (H := Example.P) (Some 0%nat) (Some "Goa")
            (Example.world dated_regions)) <> Returned None
  /\ snd (prepare_prophet_data (H := Example.P) (Some 0%nat) (Some "Goa")
            (Example.world no_date)) = Raised (KeyError "Date")
  /\ (exists k, snd (prepare_prophet_data (H := Example.P) (Some 0%nat) None
                       (Example.world no_region)) = Raised (KeyError k))
  /\ (exists k, snd (prepare_prophet_data (H := Example.P) (Some 0%nat) (Some "Goa")
                       (Example.world no_deaths)) = Raised (KeyError k)).
Proof.
  destruct (prepare_prophet_data_missing (H := Example.P) (Example.world no_region)
              (Some "Goa")) as [_ Hgoa].
  destruct (Hgoa 0%nat no_region eq_refl) as ([_ Hnone] & _ & _ & _).
  destruct (prepare_prophet_data_missing (H := Example.P) (Example.world dated_regions)
              (Some "Goa")) as [_ Hfull].
  destruct (Hfull 0%nat dated_regions eq_refl) as ([Honly _] & _ & _ & _).
  destruct (prepare_prophet_data_missing (H := Example.P) (Example.world no_date)
              (Some "Goa")) as [_ Hdate].
  destruct (Hdate 0%nat no_date eq_refl) as (_ & _ & Hkey & _).
  destruct (prepare_prophet_data_missing (H := Example.P) (Example.world no_region) None)
    as [_ Hall].
  destruct (Hall 0%nat no_region eq_refl) as (_ & _ & _ & Hcounts).
  destruct (prepare_prophet_data_missing (H := Example.P) (Example.world no_deaths)
              (Some "Goa")) as [_ Hregion].
  destruct (Hregion 0%nat no_deaths eq_refl) as (_ & _ & _ & Hdeaths).
  split; [apply Hnone; split; reflexivity|].
  split; [intros Hret; destruct (Honly Hret) as [_ Hno]; discriminate Hno|].
  split; [apply Hkey; [right; reflexivity | reflexivity]|].
  split.
  - apply (Hcounts (or_introl eq_refl)
             [Some 1583020800000000000%Z; Some 1583107200000000000%Z] eq_refl).
    right. split; [eexists; reflexivity | reflexivity].
  - apply (Hdeaths (or_intror eq_refl)
             [Some 1583020800000000000%Z; Some 1583107200000000000%Z] eq_refl).
    right. split; [eexists; reflexivity | reflexivity].
Defined.

(** The store and the engine after training on [dated_regions]. *)
Definition trained : World (H0 := Example.L) :=
  fst (train_models (H := Example.P) (Some 0%nat)
         (0%nat : Entropy (Learners := Example.L)) (Example.world dated_regions)).

Lemma train_models_fits_all_witness :
  is_Some (scaler_params (scaler (self trained)))
  /\ is_Some (estimators_ (rf_model (self trained)))
  /\ is_Some (history (prophet_model (self trained))).
Proof.
  edestruct (train_models_fits_all (H := Example.P) (Example.world dated_regions) 0%nat
               dated_regions (0%nat : Entropy (Learners := Example.L)))
    as (_ & Hsc & Hrf & Hpm); [reflexivity | vm_compute; reflexivity |].
  split; [exact Hsc|]. split; [exact Hrf | exact Hpm].
Defined.

Lemma train_models_only_once_witness :
  exists x, snd (train_models (H := Example.P) (Some 0%nat)
                   (5%nat : Entropy (Learners := Example.L)) trained) = Raised x.
Proof.
  destruct (train_models_only_once (H := Example.P) trained (Some 0%nat)
              (5%nat : Entropy (Learners := Example.L))) as [Hraise _].
  - eexists. vm_compute. reflexivity.
  - intros l [= <-]. eexists. vm_compute. reflexivity.
  - exact Hraise.
Defined.

(** Three regions reporting on one day. *)
Definition one_day : DataFrame := mkFrame 3
  [ ("Date", SDatetime [Some 1583020800000000000%Z; Some 1583020800000000000%Z;
                        Some 1583020800000000000%Z]);
    ("State/UnionTerritory", SObject [CStr "Kerala"; CStr "Goa"; CStr "Delhi"]);
    ("Confirmed", SNumeric [Some 3%Q; Some 1%Q; Some 10%Q]);
    ("Deaths", SNumeric [Some 0%Q; Some 0%Q; Some 1%Q]) ].

Lemma single_date_one_day :
  single_date [Some 1583020800000000000%Z; Some 1583020800000000000%Z;
               Some 1583020800000000000%Z].
Proof.
  intros s t Hs Ht.
  repeat (apply elem_of_cons in Hs as [[= ->]|Hs]); [| | |by apply elem_of_nil in Hs];
    repeat (apply elem_of_cons in Ht as [[= ->]|Ht]); try reflexivity;
    by apply elem_of_nil in Ht.
Qed.

Lemma train_models_partial_witness :
  snd (train_models (H := Example.P) (Some 0%nat)
         (0%nat : Entropy (Learners := Example.L)) (Example.world one_day))
  = Raised too_few_rows
  /\ is_Some (estimators_ (rf_model (self (fst
       (train_models (H := Example.P) (Some 0%nat)
          (0%nat : Entropy (Learners := Example.L)) (Example.world one_day))))))
  /\ history (prophet_model (self (fst
       (train_models (H := Example.P) (Some 0%nat)
          (0%nat : Entropy (Learners := Example.L)) (Example.world one_day))))) = None.
Proof.
  edestruct (train_models_partial (H := Example.P) (Example.world one_day) 0%nat one_day
               [Some 1583020800000000000%Z; Some 1583020800000000000%Z;
                Some 1583020800000000000%Z]
               [Some 3%Q; Some 1%Q; Some 10%Q] [Some 0%Q; Some 0%Q; Some 1%Q])
    as (Hraise & _ & Hrf & Hpm).
  - reflexivity.
  - reflexivity.
  - reflexivity.
  - reflexivity.
  - reflexivity.
  - exact single_date_one_day.
  - exists 2%nat. split; vm_compute; reflexivity.
  - vm_compute. reflexivity.
  - split; [exact Hraise|]. split; [exact Hrf | exact Hpm].
Defined.

Lemma train_models_without_dates_witness :
  snd (train_models (H := Example.P) (Some 0%nat)
         (0%nat : Entropy (Learners := Example.L)) (Example.world no_date))
  = Raised (TypeError none_subscript_msg)
  /\ self (fst (train_models (H := Example.P) (Some 0%nat)
                  (0%nat : Entropy (Learners := Example.L)) (Example.world no_date)))
     = init.
Proof.
  apply (train_models_without_dates (H := Example.P) (Example.world no_date) (Some 0%nat)).
  right. exists 0%nat, no_date. split; [reflexivity|]. split; reflexivity.
Defined.

Lemma methods_keep_data_witness :
  self (fst (predict (H := Example.P) (Some 0%nat) 30
               (0%nat : Entropy (Learners := Example.L)) trained)) = self trained
  /\ frames (fst (train_models (H := Example.P) (Some 0%nat)
                    (0%nat : Entropy (Learners := Example.L))
                    (Example.world dated_regions))) !! 0%nat
     = Some dated_regions.
Proof.
  destruct (methods_keep_data (H := Example.P) trained 0%nat dated_regions)
    as (Hpredict & _ & _ & _); [vm_compute; reflexivity|].
  destruct (methods_keep_data (H := Example.P) (Example.world dated_regions) 0%nat
              dated_regions eq_refl) as (_ & _ & Htrain & _).
  split; [apply Hpredict | by apply Htrain].
Defined.

(** The value a call returned, for the examples. *)
Definition returned {A} (r : result A) (otherwise : A) : A :=
  match r with Returned a => a | Raised _ => otherwise end.

(** What [predict] returns for two days on the trained engine. *)
Definition trained_predictions : Predictions :=
  returned (snd (predict (H := Example.P) (Some 0%nat) 2
                   (0%nat : Entropy (Learners := Example.L)) trained))
           (mkPredictions [] (mkFrame 0 [])).

(** The store after that call, and what a second call returns there, for
    another frame and with the random generator in the state [omega]. *)
Definition served : World (H0 := Example.L) :=
  fst (predict (H := Example.P) (Some 0%nat) 2
         (0%nat : Entropy (Learners := Example.L)) trained).

Definition next_predictions (omega : nat) : Predictions :=
  returned (snd (predict (H := Example.P) (Some 2%nat) 2
                   (omega : Entropy (Learners := Example.L)) served))
           (mkPredictions [] (mkFrame 0 [])).

Lemma trained_frames :
  frames trained !! 0%nat = Some dated_regions
  /\ frames trained !! 2%nat = Some (default (mkFrame 0 []) (frames trained !! 2%nat)).
Proof. split; vm_compute; reflexivity. Qed.

Lemma predict_forecast_ignores_input_witness :
  prophet_forecast trained_predictions = prophet_forecast (next_predictions 0)
  /\ getitem "ds" (prophet_forecast trained_predictions)
     = getitem "ds" (prophet_forecast (next_predictions 7)).
Proof.
  destruct trained_frames as [Hfirst Hsecond].
  destruct (predict_run (H := Example.P) trained 0%nat dated_regions 2
              (0%nat : Entropy (Learners := Example.L)) Hfirst) as (_ & Hself & Hkeep).
  apply Hkeep in Hsecond. fold served in Hself, Hsecond.
  assert (Hmodel : prophet_model (self trained) = prophet_model (self served)).
  { by rewrite Hself. }
  split.
  - destruct (predict_forecast_ignores_input (H := Example.P) trained served
                0%nat dated_regions
                2%nat (default (mkFrame 0 []) (frames trained !! 2%nat)) 2
                (0%nat : Entropy (Learners := Example.L))
                (0%nat : Entropy (Learners := Example.L))
                trained_predictions (next_predictions 0) Hfirst Hsecond Hmodel)
      as (_ & _ & _ & _ & Hsame); [vm_compute; reflexivity ..|].
    exact (Hsame eq_refl).
  - destruct (predict_forecast_ignores_input (H := Example.P) trained served
                0%nat dated_regions
                2%nat (default (mkFrame 0 []) (frames trained !! 2%nat)) 2
                (0%nat : Entropy (Learners := Example.L))
                (7%nat : Entropy (Learners := Example.L))
                trained_predictions (next_predictions 7) Hfirst Hsecond Hmodel)
      as (_ & _ & Hds & _ & _); [vm_compute; reflexivity ..|].
    exact Hds.
Defined.

Lemma predict_forecast_dates_witness :
  exists future,
    getitem "ds" (prophet_forecast trained_predictions)
    = Returned (SDatetime (map Some
        ([1583020800000000000; 1583107200000000000]%Z ++ future)))
    /\ length future = 2%nat.
Proof.
  destruct (predict_forecast_dates (H := Example.P) trained 0%nat dated_regions
              [1583020800000000000; 1583107200000000000]%Z
              (15%Q : ProphetParams (Learners := Example.L)) 2
              (0%nat : Entropy (Learners := Example.L)) trained_predictions)
    as (future & Hds & _ & Hlen & _).
  - vm_compute. reflexivity.
  - vm_compute. reflexivity.
  - vm_compute. reflexivity.
  - exists future. split; [exact Hds | exact Hlen].
Defined.

Lemma trained_forecast_dates_witness :
  exists ds t_last future,
    getitem "ds" (prophet_forecast trained_predictions)
    = Returned (SDatetime (map Some (ds ++ future)))
    /\ Sorted Z.lt ds
    /\ last ds = Some t_last
    /\ length future = Z.to_nat 2.
Proof.
  destruct (trained_forecast_dates (H := Example.P) (Example.world dated_regions) 0%nat
              dated_regions
              [Some 1583107200000000000%Z; Some 1583020800000000000%Z;
               Some 1583020800000000000%Z; Some 1583107200000000000%Z]
              (0%nat : Entropy (Learners := Example.L))
              (returned (snd (train_models (H := Example.P) (Some 0%nat)
                                (0%nat : Entropy (Learners := Example.L))
                                (Example.world dated_regions)))
                        ([], SNumeric []))
              0%nat dated_regions 2
              (0%nat : Entropy (Learners := Example.L)) trained_predictions)
    as (pdf & fitted & ds & t_last & future & _ & _ & _ & Hds & Hlt & _ & Hlast & Hlen & _).
  - reflexivity.
  - reflexivity.
  - vm_compute. reflexivity.
  - vm_compute. reflexivity.
  - vm_compute. reflexivity.
  - exists ds, t_last, future. auto.
Defined.

(** [dated_regions] with other counts for Kerala. *)
Definition dated_regions_revised : DataFrame := mkFrame 4
  [ ("Date", SDatetime [Some 1583107200000000000%Z; Some 1583020800000000000%Z;
                        Some 1583020800000000000%Z; Some 1583107200000000000%Z]);
    ("State/UnionTerritory", SObject [CStr "Kerala"; CStr "Kerala"; CStr "Goa"; CStr "Goa"]);
    ("Confirmed", SNumeric [Some 300%Q; Some 100%Q; Some 10%Q; Some 12%Q]);
    ("Deaths", SNumeric [Some 7%Q; Some 5%Q; Some 1%Q; Some 1%Q]) ].

Lemma region_forecast_isolated_witness :
  snd (get_state_predictions (H := Example.P) (Some 0%nat) "Goa" 30
         (0%nat : Entropy (Learners := Example.L)) (Example.world dated_regions))
  = snd (get_state_predictions (H := Example.P) (Some 0%nat) "Goa" 30
           (0%nat : Entropy (Learners := Example.L)) (Example.world dated_regions_revised))
  /\ forall fr1 fr2,
       snd (get_state_predictions (H := Example.P) (Some 0%nat) "Goa" 30
              (0%nat : Entropy (Learners := Example.L)) (Example.world dated_regions))
       = Returned fr1 ->
       snd (get_state_predictions (H := Example.P) (Some 0%nat) "Goa" 30
              (7%nat : Entropy (Learners := Example.L))
              (Example.world dated_regions_revised))
       = Returned fr2 ->
       getitem "ds" fr1 = getitem "ds" fr2 /\ nrows fr1 = nrows fr2.
Proof.
  split.
  - destruct (region_forecast_isolated (H := Example.P)
                (Example.world dated_regions) (Example.world dated_regions_revised)
                0%nat 0%nat dated_regions dated_regions_revised
                (SObject [CStr "Kerala"; CStr "Kerala"; CStr "Goa"; CStr "Goa"])
                (SObject [CStr "Kerala"; CStr "Kerala"; CStr "Goa"; CStr "Goa"])
                "Goa" 30
                (0%nat : Entropy (Learners := Example.L))
                (0%nat : Entropy (Learners := Example.L))
                eq_refl eq_refl eq_refl eq_refl eq_refl) as [Hsame _].
    exact (Hsame eq_refl).
  - destruct (region_forecast_isolated (H := Example.P)
                (Example.world dated_regions) (Example.world dated_regions_revised)
                0%nat 0%nat dated_regions dated_regions_revised
                (SObject [CStr "Kerala"; CStr "Kerala"; CStr "Goa"; CStr "Goa"])
                (SObject [CStr "Kerala"; CStr "Kerala"; CStr "Goa"; CStr "Goa"])
                "Goa" 30
                (0%nat : Entropy (Learners := Example.L))
                (7%nat : Entropy (Learners := Example.L))
                eq_refl eq_refl eq_refl eq_refl eq_refl) as [_ Hdates].
    exact Hdates.
Defined.

Lemma region_forecast_needs_column_witness :
  snd (get_state_predictions (H := Example.P) (Some 0%nat) "Goa" 30
         (0%nat : Entropy (Learners := Example.L)) (Example.world no_region))
  = Raised (KeyError region_column).
Proof.
  destruct (region_forecast_needs_column (H := Example.P) (Example.world no_region) "Goa" 30
              (0%nat : Entropy (Learners := Example.L))) as (_ & Hkey & _).
  by apply (Hkey 0%nat no_region).
Defined.

Lemma wf_dated_regions : wf_frame dated_regions.
Proof. repeat constructor. Qed.

Lemma region_forecast_dates_witness :
  exists ds t_last future,
    getitem "ds" (returned (region_forecast dated_regions "Goa" 2) (mkFrame 0 []))
    = Returned (SDatetime (map Some (ds ++ future)))
    /\ Sorted Z.lt ds
    /\ (2 <= length ds)%nat
    /\ last ds = Some t_last
    /\ length future = Z.to_nat 2.
Proof.
  destruct (region_forecast_dates (H := Example.P) (Example.world dated_regions) 0%nat
              dated_regions
              (SObject [CStr "Kerala"; CStr "Kerala"; CStr "Goa"; CStr "Goa"])
              [Some 1583107200000000000%Z; Some 1583020800000000000%Z;
               Some 1583020800000000000%Z; Some 1583107200000000000%Z]
              "Goa" 2 (0%nat : Entropy (Learners := Example.L))
              (returned (region_forecast dated_regions "Goa" 2) (mkFrame 0 [])))
    as (ds & t_last & future & Hds & _ & Hlt & _ & Htwo & Hlast & Hlen & _).
  - reflexivity.
  - exact wf_dated_regions.
  - reflexivity.
  - reflexivity.
  - vm_compute. reflexivity.
  - exists ds, t_last, future. auto 7.
Defined.

(** A frame with a row that names no region. *)
Definition unassigned : DataFrame := mkFrame 3
  [ ("Date", SObject [CStr "2020-03-01"; CStr "2020-03-02"; CStr "2020-03-03"]);
    ("State/UnionTerritory", SObject [CStr "Goa"; CNull; CStr "Goa"]);
    ("Confirmed", SNumeric [Some 4%Q; Some 9%Q; Some 6%Q]);
    ("Deaths", SNumeric [Some 0%Q; Some 1%Q; Some 0%Q]) ].

Lemma wf_unassigned : wf_frame unassigned.
Proof. repeat constructor. Qed.

Lemma preprocess_missing_region_witness :
  exists out confirmed_ma7,
    preprocesses_to (H := Example.P) (Example.world unassigned) 0 out
    /\ getitem "Confirmed_MA7" out = Returned (SNumeric confirmed_ma7)
    /\ confirmed_ma7 !! 1%nat = Some None.
Proof.
  assert (Hout : exists out,
            preprocesses_to (H := Example.P) (Example.world unassigned) 0 out
            /\ getitem region_column out = Returned (SObject [CStr "Goa"; CNull; CStr "Goa"])).
  { eexists. split; [exists 2%nat; split; vm_compute; reflexivity|]. reflexivity. }
  destruct Hout as (out & Hout & Hkeys).
  destruct (preprocess_missing_region (H := Example.P) (Example.world unassigned) 0%nat
              unassigned out (SObject [CStr "Goa"; CNull; CStr "Goa"]) 1%nat
              wf_unassigned eq_refl Hout Hkeys eq_refl)
    as (cma & dma & Hc & _ & Hi & _).
  exists out, cma. auto.
Defined.

(** * The prediction service of [backend/app.py]

    The Flask application keeps two globals, the engine [model] and the
    cleaned data [_df]; it loads the data from a CSV file, the engine from a
    joblib file that it writes itself after training, and answers its
    routes from them. What Python and the operating system
    contribute is a parameter ([Runtime]) or part of the state ([files],
    [writable]); the generator states of the training and of the forecast
    are arguments, as for the methods of the engine. The module imports the
    engine as [model.covid_prediction_model]; it is taken to be the engine
    above. *)

From stdpp Require Import pretty.

Class Runtime := {
  (** [int(s)] for a query string, [None] where Python raises [ValueError] *)
  int_of_str : string -> option Z;
  (** [repr(s)] *)
  repr_str : string -> string;
  (** the value [astype(int)] leaves for a float outside the range of int64 *)
  int64_wrap : Q -> Z;
  (** the directory above [backend], and [os.path.join] *)
  project_root : string;
  path_join : string -> string -> string;
  (** what a reader raises on a file of another format *)
  wrong_format : string -> PyExn;
  (** whether the values of an [object] column pass for strings
      ([lib.infer_dtype], as the [.str] accessor consults it) *)
  infers_strings : list Cell -> bool;
  (** [dateutil.parser.parse(s).replace(tzinfo=None)] *)
  parse_date : string -> result Z;
  (** the message of the [TypeError] of sorting values of different types *)
  unorderable : list Cell -> string
}.

(** ** Strings and dates *)

(** [s.lower()], on ASCII letters. (Python maps other letters too; no such
    mapping yields an ASCII letter of ["india"], the only string the
    result is compared with.) *)
Definition lower_char (c : Ascii.ascii) : Ascii.ascii :=
  let n := Ascii.nat_of_ascii c in
  if ((65 <=? n) && (n <=? 90))%nat then Ascii.ascii_of_nat (n + 32) else c.

Fixpoint lower (s : string) : string :=
  match s with
  | EmptyString => EmptyString
  | String c s' => String (lower_char c) (lower s')
  end.

(** [s.str.lower()]: only for a column of strings; a value that is not a
    string becomes [NaN]. *)
Definition str_lower `{Runtime} (s : Series) : result (list Cell) :=
  match s with
  | SObject v =>
      if infers_strings v
      then Returned (map (fun c => match c with CStr x => CStr (lower x) | _ => CNull end) v)
      else Raised (PyException "Can only use .str accessor with string values!")
  | _ => Raised (PyException "Can only use .str accessor with string values!")
  end.

(** [df.empty] *)
Definition frame_empty (d : DataFrame) : bool :=
  (nrows d =? 0)%nat || (length (columns d) =? 0)%nat.

(** [datetime(2020, 1, 22)] and [datetime(2020, 8, 12)] *)
Definition MIN_DATE : Z := (18283 * ns_per_day)%Z.
Definition MAX_DATE : Z := (18486 * ns_per_day)%Z.

(** [(s >= lo) & (s <= hi)] on a datetime column; [NaT] compares false. *)
Definition between (lo hi : Z) (s : Series) : result (list bool) :=
  match s with
  | SDatetime v =>
      Returned (map (fun o => match o with
                              | Some t => (lo <=? t)%Z && (t <=? hi)%Z
                              | None => false
                              end) v)
  | _ => Raised (TypeError "Invalid comparison between dtype=object and datetime")
  end.

(** [s.dt.tz_localize(None)]: the timestamps of the embedding carry no
    time zone. *)
Definition tz_localize_none (s : Series) : result Series :=
  match s with
  | SDatetime v => Returned (SDatetime v)
  | _ => Raised (PyException "Can only use .dt accessor with datetimelike values")
  end.

Definition pad (width : nat) (n : Z) : string :=
  let s := pretty n in
  String.concat "" (replicate (width - String.length s) "0") ++ s.

(** [t.strftime('%Y-%m-%d')] *)
Definition strftime_ymd (t : Z) : string :=
  let '(y, m, d) := civil_of_days (days_of_ns t) in
  pad 4 y ++ "-" ++ pad 2 m ++ "-" ++ pad 2 d.

(** [s.dt.strftime('%Y-%m-%d').tolist()] *)
Definition strftime_list (s : Series) : result (list Cell) :=
  match s with
  | SDatetime v =>
      Returned (map (fun o => match o with
                              | Some t => CStr (strftime_ymd t)
                              | None => CNull
                              end) v)
  | _ => Raised (PyException "Can only use .dt accessor with datetimelike values")
  end.

Section Integers.
Context `{Pandas} `{Runtime}.

(** [float -> int64]: truncation toward zero. *)
Definition astype_int (q : Q) : Z :=
  let z := (Qnum q ÷ Zpos (Qden q))%Z in
  if ((- 2 ^ 63 <=? z) && (z <? 2 ^ 63))%Z then z else int64_wrap q.

(** [pd.to_numeric(s, errors='coerce').fillna(0).astype(int)] *)
Definition to_int_column (s : Series) : Series :=
  SNumeric (map (fun q => option_map (fun x => inject_Z (astype_int x)) q)
                (fillna 0 (to_numeric_coerce s))).

End Integers.

(** ** Sorting

    The order of [sorted] on strings, numbers and dates. *)

Definition string_le (a b : string) : Prop := String.leb a b = true.
Definition number_le (a b : Q) : Prop := Qle_bool a b = true.
Definition date_le (a b : Z) : Prop := (a <= b)%Z.

#[global] Instance string_le_dec : RelDecision string_le :=
  fun a b => decide (String.leb a b = true).
#[global] Instance number_le_dec : RelDecision number_le :=
  fun a b => decide (Qle_bool a b = true).
#[global] Instance date_le_dec : RelDecision date_le := fun a b => Z_le_dec a b.

Definition strings_of (v : list Cell) : option (list string) :=
  mapM (fun c => match c with CStr x => Some x | _ => None end) v.
Definition numbers_of (v : list Cell) : option (list Q) :=
  mapM (fun c => match c with CNum q => Some q | _ => None end) v.
Definition dates_of (v : list Cell) : option (list Z) :=
  mapM (fun c => match c with CDate t => Some t | _ => None end) v.

(** ** The state of the application *)

Section Server.
Context `{Pandas} `{Learners} `{Runtime}.

(** What is at a path: a directory, or a file with what [pd.read_csv] or
    [joblib.load] makes of it. The joblib file of the application is the
    one it writes itself, an engine. *)
Inductive Entry :=
| Directory
| CsvFile (table : result DataFrame)
| JoblibFile (content : result COVIDPredictionModel).

(** The global [model]: [None], or the engine of the store. *)
Inductive ModelRef :=
| NoModel
| EngineModel.

Record Server := mkServer {
  store : World;
  model : ModelRef;
  _df : option nat;
  files : gmap string Entry;
  (** whether the process may create directories and files *)
  writable : bool
}.

Definition App (A : Type) : Type := Server -> Server * result A.

Definition retS {A} (a : A) : App A := fun s => (s, Returned a).

Definition bindS {A B} (m : App A) (k : A -> App B) : App B :=
  fun s =>
    match m s with
    | (s', Returned a) => k a s'
    | (s', Raised e) => (s', Raised e)
    end.

Definition liftS {A} (r : result A) : App A := fun s => (s, r).

(** [try: m except Exception as e: handler e] *)
Definition try_exceptS {A} (m : App A) (handler : PyExn -> App A) : App A :=
  fun s =>
    match m s with
    | (s', Raised e) => handler e s'
    | r => r
    end.

(** A method of the engine or a statement on the frames, run on the store. *)
Definition on_store {A} (m : M A) : App A :=
  fun s =>
    let (w, r) := m (store s) in
    (mkServer w (model s) (_df s) (files s) (writable s), r).

Notation "'let*' x ':=' m 'in' k" := (bindS m (fun x => k))
  (at level 10, x pattern, m at level 100, k at level 200).
Notation "m ';;' k" := (bindS m (fun _ => k))
  (at level 100, k at level 200, right associativity).

Definition printS (line : string) : App unit := on_store (print line).

Definition get_df : App (option nat) := fun s => (s, Returned (_df s)).

Definition set_df (r : option nat) : App unit :=
  fun s => (mkServer (store s) (model s) r (files s) (writable s), Returned tt).

Definition get_model : App ModelRef := fun s => (s, Returned (model s)).

Definition set_model (m : ModelRef) : App unit :=
  fun s => (mkServer (store s) m (_df s) (files s) (writable s), Returned tt).

(** [os.path.exists] *)
Definition path_exists (path : string) : App bool :=
  fun s => (s, Returned (bool_decide (is_Some (files s !! path)))).

Definition no_such_file (path : string) : PyExn :=
  PyException ("[Errno 2] No such file or directory: " ++ repr_str path).
Definition is_a_directory (path : string) : PyExn :=
  PyException ("[Errno 21] Is a directory: " ++ repr_str path).
Definition permission_denied (path : string) : PyExn :=
  PyException ("[Errno 13] Permission denied: " ++ repr_str path).

(** [os.makedirs] *)
Definition makedirs (path : string) : App unit :=
  fun s =>
    if writable s
    then (mkServer (store s) (model s) (_df s) (<[path := Directory]> (files s)) (writable s),
          Returned tt)
    else (s, Raised (permission_denied path)).

(** [pd.read_csv] *)
Definition read_csv (path : string) : App DataFrame :=
  fun s =>
    match files s !! path with
    | Some (CsvFile table) => (s, table)
    | Some (JoblibFile _) => (s, Raised (wrong_format path))
    | Some Directory => (s, Raised (is_a_directory path))
    | None => (s, Raised (no_such_file path))
    end.

(** [joblib.load] *)
Definition joblib_load (path : string) : App COVIDPredictionModel :=
  fun s =>
    match files s !! path with
    | Some (JoblibFile content) => (s, content)
    | Some (CsvFile _) => (s, Raised (wrong_format path))
    | Some Directory => (s, Raised (is_a_directory path))
    | None => (s, Raised (no_such_file path))
    end.

(** [joblib.dump(model, path)] for the global [model], an engine. *)
Definition joblib_dump (path : string) : App unit :=
  fun s =>
    if writable s then
      (mkServer (store s) (model s) (_df s)
         (<[path := JoblibFile (Returned (self (store s)))]> (files s)) (writable s),
       Returned tt)
    else (s, Raised (permission_denied path)).

(** ** [load_data] *)

Definition data_path : string :=
  path_join (path_join project_root "model") "covid_19_data.csv".

Definition required_columns : list string :=
  ["ObservationDate"; "Province/State"; "Confirmed"; "Deaths"; "Recovered"].

(** [f"{names}"] for a list of column names *)
Definition repr_names (names : list string) : string :=
  ("[" ++ String.concat ", " (map repr_str names) ++ "]")%string.

Definition count_columns : list string := ["Confirmed"; "Deaths"; "Cured"].

(** The loop over [numeric_columns]. *)
Fixpoint coerce_counts (cols : list string) (temp_df : DataFrame) : App DataFrame :=
  match cols with
  | [] => retS temp_df
  | col :: cols' =>
      if has_column col temp_df then
        let* c := liftS (getitem col temp_df) in
        coerce_counts cols' (setitem col (to_int_column c) temp_df)
      else
        printS ("Warning: Numeric column '" ++ col
                  ++ "' not found. It will be missing from output.") ;;
        coerce_counts cols' temp_df
  end.

(** [print(message); _df = None; return None] *)
Definition without_data {A} (message : string) : App (option A) :=
  printS message ;; set_df None ;; retS None.

(** From the rows of India on. *)
Definition load_india (temp_df : DataFrame) : App (option nat) :=
  let missing_columns :=
    List.filter (fun col => negb (has_column col temp_df)) required_columns in
  if negb (bool_decide (missing_columns = [])) then
    without_data ("Missing required columns after filtering for India: "
                    ++ repr_names missing_columns)
  else
    let* dated :=
      try_exceptS
        (let* obs := liftS (getitem "ObservationDate" temp_df) in
         retS (Some (setitem "Date" (to_datetime_coerce obs) temp_df)))
        (fun e =>
           without_data ("Error converting ObservationDate to datetime: " ++ str_exn e)) in
    match dated with
    | None => retS None
    | Some temp_df =>
        let* temp_df := liftS (dropna "Date" temp_df) in
        let temp_df := rename_column "Province/State" "State/UnionTerritory" temp_df in
        let* date := liftS (getitem "Date" temp_df) in
        let* naive := liftS (tz_localize_none date) in
        let temp_df := setitem "Date" naive temp_df in
        let* date := liftS (getitem "Date" temp_df) in
        let* in_range := liftS (between MIN_DATE MAX_DATE date) in
        let temp_df := frame_filter in_range temp_df in
        let* renamed :=
          if negb (has_column "Cured" temp_df) && has_column "Recovered" temp_df then
            retS (Some (rename_column "Recovered" "Cured" temp_df))
          else if negb (has_column "Cured" temp_df) && negb (has_column "Recovered" temp_df)
          then without_data "Neither 'Cured' nor 'Recovered' column found."
          else retS (Some temp_df) in
        match renamed with
        | None => retS None
        | Some temp_df =>
            let* temp_df := coerce_counts count_columns temp_df in
            let* l := on_store (new_frame temp_df) in
            set_df (Some l) ;;
            retS (Some l)
        end
    end.

Definition load_data : App (option nat) :=
  let* cached := get_df in
  match cached with
  | Some l => retS (Some l)
  | None =>
      try_exceptS
        (let* present := path_exists data_path in
         if negb present then
           printS ("Data file not found at: " ++ data_path) ;; retS None
         else
           let* temp_df := read_csv data_path in
           if has_column "Country/Region" temp_df then
             let* country := liftS (getitem "Country/Region" temp_df) in
             let* lowered := liftS (str_lower country) in
             let temp_df :=
               frame_filter (map (fun c => cell_eqb c (CStr "india")) lowered) temp_df in
             if frame_empty temp_df then
               without_data "No data found for Country/Region 'India'."
             else load_india temp_df
           else
             without_data
               "Column 'Country/Region' not found in CSV. Cannot filter for India.")
        (fun e => without_data ("Error loading data: " ++ str_exn e))
  end.

(** ** [initialize_model] *)

Definition model_files_dir : string :=
  path_join (path_join project_root "model") "model_files".
Definition model_path : string := path_join model_files_dir "covid_model.joblib".

(** [model = COVIDPredictionModel(); model.train_models(current_df);
    joblib.dump(model, model_path)] *)
Definition retrain (current_df : nat) (omega : Entropy) : App unit :=
  on_store (set_self init) ;;
  set_model EngineModel ;;
  let* _ := on_store (train_models (Some current_df) omega) in
  joblib_dump model_path.

Definition initialize_model (omega : Entropy) : App unit :=
  try_exceptS
    (let* present := path_exists model_files_dir in
     (if negb present then makedirs model_files_dir else retS tt) ;;
     let* current_df := load_data in
     match current_df with
     | None => printS "Failed to load data, cannot initialize model."
     | Some df =>
         let* present := path_exists model_path in
         if present then
           try_exceptS
             (let* loaded := joblib_load model_path in
              on_store (set_self loaded) ;;
              set_model EngineModel)
             (fun load_exc =>
                printS ("Failed to load existing model: " ++ str_exn load_exc
                          ++ ". Retraining...") ;;
                retrain df omega)
         else
           printS "No existing model found. Training new model..." ;;
           retrain df omega
     end)
    (fun e =>
       printS ("Error initializing model: " ++ str_exn e) ;;
       set_model NoModel).

(** ** [get_predictions] *)

(** The JSON body of a response. *)
Inductive Json :=
| JForecast (dates predictions lower_bound upper_bound : list Cell)
| JStates (states : list Cell)
| JSeries (dates confirmed deaths cured : list Cell)
| JComparison (result : list (string * (list Cell * list Cell)))
| JError (error : string).

Definition Response : Type := Json * Z.

(** The route, for the query parameters [state] and [days]. The engine's
    methods return a frame or raise, so the test for a result of [None] has
    one outcome. *)
Definition get_predictions (state days : option string) (omega_train omega : Entropy)
    : App Response :=
  try_exceptS
    (let* days :=
       match days with
       | None => retS 30%Z
       | Some text =>
           match int_of_str text with
           | Some n => retS n
           | None =>
               liftS (Raised (ValueError ("invalid literal for int() with base 10: "
                                            ++ repr_str text)))
           end
       end in
     let* ref := get_model in
     (match ref with NoModel => initialize_model omega_train | EngineModel => retS tt end) ;;
     let* ref := get_model in
     match ref with
     | NoModel => retS (JError "Failed to initialize model", 500%Z)
     | EngineModel =>
         let* df := load_data in
         match df with
         | None => retS (JError "Failed to load data", 500%Z)
         | Some _ =>
             let* predictions :=
               if truthy state then
                 on_store (get_state_predictions df (default "" state) days omega)
               else
                 let* both := on_store (predict df days omega) in
                 retS (prophet_forecast both) in
             let* ds := liftS (getitem "ds" predictions) in
             let* dates := liftS (strftime_list ds) in
             let* yhat := liftS (getitem "yhat" predictions) in
             let* yhat_lower := liftS (getitem "yhat_lower" predictions) in
             let* yhat_upper := liftS (getitem "yhat_upper" predictions) in
             retS (JForecast dates (series_cells yhat) (series_cells yhat_lower)
                     (series_cells yhat_upper), 200%Z)
         end
     end)
    (fun e =>
       printS ("Error in get_predictions: " ++ str_exn e) ;;
       retS (JError (str_exn e), 500%Z)).

(** ** [get_states] *)

(** [sorted(v)] for a list of values that are present: strings in the order
    of their characters, numbers and dates in theirs; values of different
    types cannot be compared. *)
Definition sorted_cells (v : list Cell) : result (list Cell) :=
  match strings_of v, numbers_of v, dates_of v with
  | Some xs, _, _ => Returned (map CStr (merge_sort string_le xs))
  | _, Some qs, _ => Returned (map CNum (merge_sort number_le qs))
  | _, _, Some ts => Returned (map CDate (merge_sort date_le ts))
  | None, None, None => Raised (TypeError (unorderable v))
  end.

Definition get_states : App Response :=
  let* current_df := load_data in
  match current_df with
  | None => retS (JError "Failed to load data", 500%Z)
  | Some df =>
      try_exceptS
        (let* has_region := on_store (has_columnM region_column df) in
         if negb has_region then
           printS "Column 'State/UnionTerritory' not found in DataFrame." ;;
           retS (JError "Data processing error: State column missing", 500%Z)
         else
           let* col := on_store (subscript current_df region_column) in
           let* states := liftS (sorted_cells (unique_keys (series_cells col))) in
           match states with
           | [] => retS (JError "No states found in data", 404%Z)
           | _ => retS (JStates states, 200%Z)
           end)
        (fun e =>
           printS ("Error getting states: " ++ str_exn e) ;;
           retS (JError (str_exn e), 500%Z))
  end.

(** ** [get_data] *)

(** [int(x)] for a value of an [object] column *)
Definition int_of_cell (c : Cell) : result Z :=
  match c with
  | CNum q => Returned (astype_int q)
  | CStr x =>
      match int_of_str x with
      | Some n => Returned n
      | None => Raised (ValueError ("invalid literal for int() with base 10: " ++ repr_str x))
      end
  | CDate t => Returned t
  | CNull =>
      Raised (TypeError
        "int() argument must be a string, a bytes-like object or a real number, not 'NoneType'")
  end.

Fixpoint ints_of_cells (v : list Cell) : result (list Cell) :=
  match v with
  | [] => Returned []
  | c :: v' =>
      match int_of_cell c, ints_of_cells v' with
      | Returned n, Returned rest => Returned (CNum (inject_Z n) :: rest)
      | Raised e, _ => Raised e
      | _, Raised e => Raised e
      end
  end.

(** [s.astype(int).tolist()] *)
Definition astype_int_list (s : Series) : result (list Cell) :=
  match s with
  | SNumeric v =>
      if forallb (fun o => bool_decide (is_Some o)) v
      then Returned (map (fun o => CNum (inject_Z (astype_int (default 0%Q o)))) v)
      else Raised (ValueError "Cannot convert non-finite values (NA or inf) to integer")
  | SDatetime v => Returned (map (fun o => CNum (inject_Z (default iNaT o))) v)
  | SObject v => ints_of_cells v
  end.

Definition totals_columns : list string := ["Confirmed"; "Deaths"; "Cured"].

Definition get_data (state start_date_str end_date_str : option string) : App Response :=
  let* current_df := load_data in
  match current_df with
  | None => retS (JError "Failed to load data", 500%Z)
  | Some df =>
      try_exceptS
        (let* copied := on_store (copy df) in
         let* filtered_df := on_store (read_frame copied) in
         let* filtered_df :=
           if truthy state then
             let* col := liftS (getitem region_column filtered_df) in
             retS (frame_filter (map (cell_eqb (CStr (default "" state))) (series_cells col))
                     filtered_df)
           else retS filtered_df in
         let* selected :=
           if truthy start_date_str && truthy end_date_str then
             let* parsed :=
               try_exceptS
                 (let* start_dt := liftS (parse_date (default "" start_date_str)) in
                  let* end_dt := liftS (parse_date (default "" end_date_str)) in
                  retS (Some (start_dt, end_dt)))
                 (fun date_parse_exc =>
                    printS ("Error parsing dates: " ++ str_exn date_parse_exc) ;;
                    retS None) in
             match parsed with
             | None => retS (inl (JError "Invalid date format", 400%Z))
             | Some (start_dt, end_dt) =>
                 let start_dt := Z.max start_dt MIN_DATE in
                 let end_dt := Z.min end_dt MAX_DATE in
                 let* date := liftS (getitem "Date" filtered_df) in
                 let* in_range := liftS (between start_dt end_dt date) in
                 retS (inr (frame_filter in_range filtered_df))
             end
           else retS (inr filtered_df) in
         match selected with
         | inl response => retS response
         | inr filtered_df =>
             if frame_empty filtered_df then retS (JSeries [] [] [] [], 200%Z)
             else
               let* daily_data := liftS (groupby_sum "Date" totals_columns filtered_df) in
               let* date := liftS (getitem "Date" daily_data) in
               let* dates := liftS (strftime_list date) in
               let* confirmed :=
                 liftS (rbind (getitem "Confirmed" daily_data) astype_int_list) in
               let* deaths := liftS (rbind (getitem "Deaths" daily_data) astype_int_list) in
               let* cured := liftS (rbind (getitem "Cured" daily_data) astype_int_list) in
               retS (JSeries dates confirmed deaths cured, 200%Z)
         end)
        (fun e =>
           printS ("Error in get_data: " ++ str_exn e) ;;
           retS (JError (str_exn e), 500%Z))
  end.

(** ** [get_state_comparison] *)

(** The loop over the states asked for; [result] is the dictionary so far. *)
Fixpoint compare_states (df : option nat) (states : list string)
    (result : list (string * (list Cell * list Cell)))
    : App (list (string * (list Cell * list Cell))) :=
  match states with
  | [] => retS result
  | state :: states' =>
      let* col := on_store (subscript df region_column) in
      let* state_data :=
        on_store (subscript_mask df (map (cell_eqb (CStr state)) (series_cells col))) in
      let* date := liftS (getitem "Date" state_data) in
      let* dates := liftS (strftime_list date) in
      let* confirmed := liftS (getitem "Confirmed" state_data) in
      compare_states df states' (alist_set state (dates, series_cells confirmed) result)
  end.

(** The route has no handler: what its statements raise, it raises. *)
Definition get_state_comparison (states : list string) : App Response :=
  let* df := load_data in
  let* result := compare_states df states [] in
  retS (JComparison result, 200%Z).

End Server.

(** ** Columns through a renaming *)

Lemma alist_get_rename {V} (c old new : string) (l : list (string * V)) :
  String.eqb c old = false -> String.eqb c new = false ->
  alist_get c (map (fun p => (if String.eqb (fst p) old then new else fst p, snd p)) l)
  = alist_get c l.
Proof.
  intros Hold Hnew. induction l as [|[k v] l IH]; [reflexivity|]. cbn [map alist_get fst snd].
  destruct (String.eqb k old) eqn:Hk.
  - apply String.eqb_eq in Hk as ->. by rewrite Hnew, Hold.
  - by rewrite IH.
Qed.

Lemma getitem_rename_other c old new d :
  String.eqb c old = false -> String.eqb c new = false ->
  getitem c (rename_column old new d) = getitem c d.
Proof.
  intros Hold Hnew. unfold getitem, rename_column. cbn [columns].
  by rewrite alist_get_rename.
Qed.

Lemma alist_get_renamed {V} (old new : string) (l : list (string * V)) :
  alist_get new l = None ->
  alist_get new (map (fun p => (if String.eqb (fst p) old then new else fst p, snd p)) l)
  = alist_get old l.
Proof.
  induction l as [|[k v] l IH]; [reflexivity|]. cbn [map alist_get fst snd].
  destruct (String.eqb new k) eqn:Hnk; [discriminate|]. intros Hl.
  rewrite (String.eqb_sym old k).
  destruct (String.eqb k old) eqn:Hk.
  - by rewrite String.eqb_refl.
  - rewrite Hnk. by apply IH.
Qed.

Lemma getitem_renamed old new d s :
  has_column new d = false ->
  getitem old d = Returned s ->
  getitem new (rename_column old new d) = Returned s.
Proof.
  unfold has_column, getitem, rename_column. cbn [columns]. intros Hnew Hold.
  rewrite alist_get_renamed; [|by destruct (alist_get new (columns d))].
  by destruct (alist_get old (columns d)).
Qed.

Lemma has_column_renamed old new d :
  has_column old d = true -> has_column new (rename_column old new d) = true.
Proof.
  unfold has_column, rename_column. cbn [columns].
  induction (columns d) as [|[k v] l IH]; [discriminate|]. cbn [map alist_get fst snd].
  rewrite (String.eqb_sym old k). destruct (String.eqb k old) eqn:Hk.
  - by rewrite String.eqb_refl.
  - intros Hl. destruct (String.eqb new k); [reflexivity | by apply IH].
Qed.

Lemma has_column_setitem_other c c' s d :
  String.eqb c c' = false -> has_column c (setitem c' s d) = has_column c d.
Proof. intros Hne. by rewrite !has_column_getitem, getitem_setitem, Hne. Qed.

Lemma has_column_frame_filter c m d :
  has_column c (frame_filter m d) = has_column c d.
Proof. rewrite !has_column_getitem, getitem_frame_filter. by destruct (getitem c d). Qed.

Lemma has_column_rename_other c old new d :
  String.eqb c old = false -> String.eqb c new = false ->
  has_column c (rename_column old new d) = has_column c d.
Proof. intros. by rewrite !has_column_getitem, getitem_rename_other. Qed.

(** ** What [load_data] caches *)

Definition is_india (c : Cell) : Prop := exists x, c = CStr x /\ lower x = "india".

(** A column of integers without a missing value. *)
Definition is_int_column (s : Series) : Prop :=
  exists zs, s = SNumeric (map (fun z => Some (inject_Z z)) zs).

(** A cleaned frame: the dates are present and within the range of the
    application, the three counts are integers, the region column is
    there, and every row is a row of India. *)
Record loaded (d : DataFrame) : Prop := mkLoaded {
  loaded_dates :
    exists ds, getitem "Date" d = Returned (SDatetime (map Some ds))
               /\ Forall (fun t => (MIN_DATE <= t <= MAX_DATE)%Z) ds;
  loaded_counts :
    forall col, col ∈ count_columns ->
      exists s, getitem col d = Returned s /\ is_int_column s;
  loaded_region : has_column region_column d = true;
  loaded_india :
    exists cells, getitem "Country/Region" d = Returned (SObject cells)
                  /\ Forall is_india cells
}.

Lemma lowered_india (v : list Cell) :
  Forall is_india
    (filter_mask
       (map (fun c => cell_eqb c (CStr "india"))
          (map (fun c => match c with CStr x => CStr (lower x) | _ => CNull end) v)) v).
Proof.
  induction v as [|c v IH]; cbn [map filter_mask]; [constructor|].
  destruct c as [q|x|t|]; cbn [cell_eqb]; try exact IH.
  destruct (String.eqb (lower x) "india") eqn:E; [|exact IH].
  constructor; [|exact IH]. exists x. split; [reflexivity | by apply String.eqb_eq].
Qed.

Section LoadData.
Context `{Pandas} `{Learners} `{Runtime}.

Notation "'let*' x ':=' m 'in' k" := (bindS m (fun x => k))
  (at level 10, x pattern, m at level 100, k at level 200).
Notation "m ';;' k" := (bindS m (fun _ => k))
  (at level 100, k at level 200, right associativity).

(** [s'] is [s] but for what was printed. *)
Definition printed (s s' : Server) : Prop :=
  model s' = model s /\ _df s' = _df s /\ files s' = files s /\ writable s' = writable s
  /\ frames (store s') = frames (store s) /\ self (store s') = self (store s).

(** [s'] has the engine, the model reference and the files of [s], and
    every frame of [s]. *)
Definition keeps (s s' : Server) : Prop :=
  model s' = model s /\ files s' = files s /\ writable s' = writable s
  /\ self (store s') = self (store s)
  /\ (forall l d, frames (store s) !! l = Some d -> frames (store s') !! l = Some d).

Lemma printed_refl s : printed s s.
Proof. by repeat split. Qed.

Lemma keeps_refl s : keeps s s.
Proof. by repeat split. Qed.

Lemma keeps_trans s1 s2 s3 : keeps s1 s2 -> keeps s2 s3 -> keeps s1 s3.
Proof.
  intros (? & ? & ? & ? & H12) (? & ? & ? & ? & H23).
  repeat split; try congruence. auto.
Qed.

Lemma printed_keeps s s' : printed s s' -> keeps s s'.
Proof.
  intros (? & ? & ? & ? & Hfr & ?). repeat split; try done. intros l d. by rewrite Hfr.
Qed.

Lemma printS_run line s :
  exists s', printS line s = (s', Returned tt) /\ printed s s'.
Proof. eexists. split; [reflexivity|]. by repeat split. Qed.

Lemma without_data_run {A} message s :
  exists s', without_data (A := A) message s = (s', Returned None)
             /\ _df s' = None /\ keeps s s'.
Proof. eexists. split; [reflexivity|]. by repeat split. Qed.

Lemma to_int_column_is_int c : is_int_column (to_int_column c).
Proof.
  unfold is_int_column, to_int_column, fillna.
  exists (map (fun o => astype_int (match o with Some x => x | None => 0%Q end))
            (to_numeric_coerce c)).
  by rewrite !map_map.
Qed.

Lemma coerce_counts_run cols : forall temp s,
  exists s' out,
    coerce_counts cols temp s = (s', Returned out)
    /\ printed s s'
    /\ (forall c, c ∉ cols -> getitem c out = getitem c temp)
    /\ (forall c, c ∈ cols -> has_column c temp = true ->
          exists col, getitem c out = Returned col /\ is_int_column col).
Proof.
  induction cols as [|col cols IH]; intros temp s.
  - exists s, temp. split; [reflexivity|]. split; [apply printed_refl|].
    split; [done|]. by intros c ?%elem_of_nil.
  - cbn [coerce_counts]. destruct (has_column col temp) eqn:Hcol.
    + rewrite has_column_getitem in Hcol.
      destruct (getitem col temp) as [c0|] eqn:Hc0; [|discriminate].
      cbv [bindS liftS].
      destruct (IH (setitem col (to_int_column c0) temp) s)
        as (s' & out & -> & Hpr & Hother & Hint).
      exists s', out. split; [reflexivity|]. split; [exact Hpr|]. split.
      * intros c [Hne Hc]%not_elem_of_cons. rewrite Hother by exact Hc.
        rewrite getitem_setitem. destruct (String.eqb c col) eqn:E; [|done].
        by apply String.eqb_eq in E.
      * intros c Hc Hhas. destruct (decide (c ∈ cols)) as [Hin|Hout].
        -- apply Hint; [exact Hin|]. rewrite has_column_getitem, getitem_setitem.
           destruct (String.eqb c col); [done|]. by rewrite <- has_column_getitem.
        -- apply elem_of_cons in Hc as [->|Hc]; [|done].
           rewrite Hother by exact Hout. rewrite getitem_setitem, String.eqb_refl.
           eexists. split; [reflexivity | apply to_int_column_is_int].
    + cbv [bindS printS on_store print]. cbn [store model _df files writable].
      match goal with
      | |- context [coerce_counts cols temp ?s1] =>
          destruct (IH temp s1) as (s' & out & -> & Hpr & Hother & Hint)
      end.
      exists s', out. split; [reflexivity|]. split.
      * destruct Hpr as (? & ? & ? & ? & ? & ?). by repeat split.
      * split.
        -- intros c [_ Hc]%not_elem_of_cons. by apply Hother.
        -- intros c [->|Hc]%elem_of_cons Hhas; [congruence | by apply Hint].
Qed.

Lemma required_present temp c :
  List.filter (fun col => negb (has_column col temp)) required_columns = [] ->
  c ∈ required_columns -> has_column c temp = true.
Proof.
  intros Hnone Hc. destruct (has_column c temp) eqn:Hhas; [reflexivity|].
  assert (Hin : In c (List.filter (fun col => negb (has_column col temp)) required_columns)).
  { apply filter_In. split; [by apply list_elem_of_In | by rewrite Hhas]. }
  rewrite Hnone in Hin. destruct Hin.
Qed.

Lemma between_range lo hi v :
  Forall (fun o => exists t, o = Some t /\ (lo <= t <= hi)%Z)
    (filter_mask (map (fun o => match o with
                                | Some t => (lo <=? t)%Z && (t <=? hi)%Z
                                | None => false
                                end) v) v).
Proof.
  induction v as [|[t|] v IH]; cbn [map filter_mask]; [constructor | | exact IH].
  destruct ((lo <=? t)%Z && (t <=? hi)%Z) eqn:E; [|exact IH].
  constructor; [|exact IH]. exists t. split; [done|].
  apply andb_true_iff in E as [?%Z.leb_le ?%Z.leb_le]. lia.
Qed.

Lemma in_range_dates lo hi (v : list (option Z)) :
  Forall (fun o => exists t, o = Some t /\ (lo <= t <= hi)%Z) v ->
  exists ds, v = map Some ds /\ Forall (fun t => (lo <= t <= hi)%Z) ds.
Proof.
  induction 1 as [|o v (t & -> & Ht) _ (ds & -> & Hds)]; [by exists []|].
  exists (t :: ds). split; [reflexivity | by constructor].
Qed.

(** The mask of the dates within the range of the application. *)
Definition in_range (dates : list (option Z)) : list bool :=
  map (fun o => match o with
                | Some t => (MIN_DATE <=? t)%Z && (t <=? MAX_DATE)%Z
                | None => false
                end) dates.

(** The frame [load_data] is left with before the counts are coerced, from
    the rows of India [temp] and their parsed dates [dates]. *)
Definition dated_india (temp : DataFrame) (dates : list (option Z)) : DataFrame :=
  let kept := filter_mask (kept_mask dates) dates in
  frame_filter (in_range kept)
    (setitem "Date" (SDatetime kept)
       (rename_column "Province/State" "State/UnionTerritory"
          (frame_filter (kept_mask dates) (setitem "Date" (SDatetime dates) temp)))).

Definition with_cured (d : DataFrame) : DataFrame :=
  if negb (has_column "Cured" d) && has_column "Recovered" d
  then rename_column "Recovered" "Cured" d else d.

(** [out] is what [load_data] makes of the rows of India [temp]. *)
Definition cleaned (temp out : DataFrame) : Prop :=
  exists obs,
    getitem "ObservationDate" temp = Returned obs
    /\ (forall c, c ∈ required_columns -> has_column c temp = true)
    /\ (forall c, c ∉ count_columns ->
          getitem c out = getitem c (with_cured (dated_india temp (datetime_values obs))))
    /\ (forall c, c ∈ count_columns ->
          exists col, getitem c out = Returned col /\ is_int_column col).

Lemma store_counts (d5 : DataFrame) (s0 : Server) :
  has_column "Confirmed" d5 = true -> has_column "Deaths" d5 = true ->
  has_column "Cured" d5 = true ->
  exists s' l out,
    (let* temp_df := coerce_counts count_columns d5 in
     let* l := on_store (new_frame temp_df) in
     set_df (Some l) ;;
     retS (Some l)) s0 = (s', Returned (Some l))
    /\ keeps s0 s' /\ _df s' = Some l
    /\ frames (store s0) !! l = None
    /\ frames (store s') !! l = Some out
    /\ (forall c, c ∉ count_columns -> getitem c out = getitem c d5)
    /\ (forall c, c ∈ count_columns ->
          exists col, getitem c out = Returned col /\ is_int_column col).
Proof.
  intros Hc1 Hc2 Hc3. unfold bindS at 1.
  destruct (coerce_counts_run count_columns d5 s0)
    as (s1 & out & -> & (Hm1 & Hdf1 & Hf1 & Hw1 & Hfr1 & Hself1) & Hother & Hint).
  cbv [bindS on_store new_frame set_df retS].
  cbn [store model _df files writable frames self stdout].
  eexists _, _, out. split; [reflexivity|].
  cbn [store model _df files writable frames self stdout]. split.
  { repeat split; try done. intros l d Hl. rewrite Hfr1. by apply lookup_insert_fresh. }
  split; [reflexivity|]. rewrite Hfr1. split.
  { apply not_elem_of_dom, is_fresh. }
  split; [apply lookup_insert_eq|]. split; [exact Hother|].
  intros c Hc. apply Hint; [exact Hc|].
  unfold count_columns in Hc.
  repeat (apply elem_of_cons in Hc as [->|Hc]); try done. by apply elem_of_nil in Hc.
Qed.

Lemma load_india_run temp s :
  exists s' r,
    load_india temp s = (s', Returned r)
    /\ keeps s s' /\ _df s' = r
    /\ (forall l, r = Some l ->
          frames (store s) !! l = None
          /\ exists out, frames (store s') !! l = Some out /\ cleaned temp out).
Proof.
  unfold load_india.
  destruct (bool_decide (List.filter _ required_columns = [])) eqn:Hmissing; cbn [negb].
  2:{ destruct (without_data_run (A := nat) (
        "Missing required columns after filtering for India: "
        ++ repr_names (List.filter (fun col => negb (has_column col temp)) required_columns)) s)
        as (s' & -> & Hdf & Hk).
      exists s', None. split; [reflexivity|]. split; [exact Hk|]. split; [exact Hdf|].
      by intros l [=]. }
  apply bool_decide_eq_true in Hmissing.
  assert (Hreq : forall c, c ∈ required_columns -> has_column c temp = true).
  { intros c. by apply required_present. }
  assert (Hobs : is_returned (getitem "ObservationDate" temp) = true).
  { rewrite <- has_column_getitem. apply Hreq. repeat constructor. }
  destruct (getitem "ObservationDate" temp) as [obs|] eqn:Hobs'; [|discriminate].
  clear Hobs.
  unfold bindS at 1. cbv [try_exceptS bindS liftS retS]. rewrite to_datetime_coerce_values.
  set (dates := datetime_values obs).
  destruct (dropna_datetime (setitem "Date" (SDatetime dates) temp) dates) as [Hdrop Hdate1].
  { by rewrite getitem_setitem. }
  rewrite Hdrop.
  rewrite getitem_rename_other by reflexivity. rewrite Hdate1.
  cbn [tz_localize_none]. rewrite getitem_setitem. cbn [String.eqb Ascii.eqb Bool.eqb].
  cbn [between]. fold (in_range (filter_mask (kept_mask dates) dates)).
  fold (dated_india temp dates).
  set (d4 := dated_india temp dates).
  assert (Hsame : forall c, String.eqb c "Date" = false ->
            String.eqb c "Province/State" = false ->
            String.eqb c "State/UnionTerritory" = false ->
            has_column c d4 = has_column c temp).
  { intros c H1' H2' H3'. subst d4. unfold dated_india.
    rewrite has_column_frame_filter, has_column_setitem_other by done.
    rewrite has_column_rename_other by done.
    by rewrite has_column_frame_filter, has_column_setitem_other. }
  assert (Hconfirmed : has_column "Confirmed" d4 = true).
  { rewrite Hsame by reflexivity. apply Hreq. repeat constructor. }
  assert (Hdeaths : has_column "Deaths" d4 = true).
  { rewrite Hsame by reflexivity. apply Hreq. repeat constructor. }
  assert (Hrecovered : has_column "Recovered" d4 = true).
  { rewrite Hsame by reflexivity. apply Hreq. repeat constructor. }
  assert (Hfinish : forall d5,
    with_cured d4 = d5 ->
    has_column "Confirmed" d5 = true -> has_column "Deaths" d5 = true ->
    has_column "Cured" d5 = true ->
    exists s' r,
      (let* temp_df := coerce_counts count_columns d5 in
       let* l := on_store (new_frame temp_df) in
       set_df (Some l) ;;
       retS (Some l)) s = (s', Returned r)
      /\ keeps s s' /\ _df s' = r
      /\ (forall l, r = Some l ->
            frames (store s) !! l = None
            /\ exists out, frames (store s') !! l = Some out /\ cleaned temp out)).
  { intros d5 Hd5 Hc1 Hc2 Hc3.
    destruct (store_counts d5 s Hc1 Hc2 Hc3)
      as (s' & l & out & Hrun & Hk & Hdf & Hfresh & Hout & Hother & Hint).
    exists s', (Some l). split; [exact Hrun|]. split; [exact Hk|]. split; [exact Hdf|].
    intros l' [= <-]. split; [exact Hfresh|]. exists out. split; [exact Hout|].
    exists obs. split; [exact Hobs'|]. split; [exact Hreq|]. split; [|exact Hint].
    intros c Hc. rewrite (Hother c Hc). by rewrite <- Hd5. }
  rewrite Hrecovered.
  destruct (has_column "Cured" d4) eqn:Hcured; cbn [negb andb].
  - apply (Hfinish d4); try done. unfold with_cured. by rewrite Hcured.
  - apply (Hfinish (rename_column "Recovered" "Cured" d4)).
    + unfold with_cured. by rewrite Hcured, Hrecovered.
    + by rewrite has_column_rename_other.
    + by rewrite has_column_rename_other.
    + by apply has_column_renamed.
Qed.

Lemma getitem_with_cured c d :
  String.eqb c "Recovered" = false -> String.eqb c "Cured" = false ->
  getitem c (with_cured d) = getitem c d.
Proof.
  intros Hr Hc. unfold with_cured.
  destruct (negb (has_column "Cured" d) && has_column "Recovered" d); [|reflexivity].
  by apply getitem_rename_other.
Qed.

(** Whether a parsed date is in the range of the application. *)
Definition date_in_range (o : option Z) : bool :=
  match o with
  | Some t => (MIN_DATE <=? t)%Z && (t <=? MAX_DATE)%Z
  | None => false
  end.

Lemma in_range_kept (dates : list (option Z)) :
  filter_mask (in_range (filter_mask (kept_mask dates) dates))
    (filter_mask (kept_mask dates) dates)
  = List.filter date_in_range dates.
Proof.
  induction dates as [|[t|] dates IH]; [reflexivity | |exact IH].
  cbn [kept_mask map filter_mask in_range List.filter date_in_range] in *.
  rewrite bool_decide_true by eauto. cbn [map filter_mask].
  fold (kept_mask dates). fold (in_range (filter_mask (kept_mask dates) dates)).
  by destruct ((MIN_DATE <=? t)%Z && (t <=? MAX_DATE)%Z); rewrite IH.
Qed.

Lemma getitem_dated_india_date temp dates :
  getitem "Date" (dated_india temp dates)
  = Returned (SDatetime (List.filter date_in_range dates)).
Proof.
  unfold dated_india. cbv zeta. rewrite getitem_frame_filter, getitem_setitem.
  rewrite String.eqb_refl. cbn [rbind series_filter]. by rewrite in_range_kept.
Qed.

Lemma getitem_dated_india temp dates c :
  String.eqb c "Date" = false -> String.eqb c "Province/State" = false ->
  String.eqb c "State/UnionTerritory" = false ->
  getitem c (dated_india temp dates)
  = rbind (getitem c temp) (fun s =>
      Returned (series_filter (in_range (filter_mask (kept_mask dates) dates))
                  (series_filter (kept_mask dates) s))).
Proof.
  intros H1' H2' H3'. unfold dated_india. cbv zeta.
  rewrite getitem_frame_filter, getitem_setitem, H1'.
  rewrite getitem_rename_other by done.
  rewrite getitem_frame_filter, getitem_setitem, H1'.
  by destruct (getitem c temp).
Qed.

Lemma date_in_range_dates (dates : list (option Z)) :
  exists ds, List.filter date_in_range dates = map Some ds
             /\ Forall (fun t => (MIN_DATE <= t <= MAX_DATE)%Z) ds.
Proof.
  induction dates as [|[t|] dates (ds & IH & Hds)]; cbn [List.filter date_in_range].
  - by exists [].
  - destruct ((MIN_DATE <=? t)%Z && (t <=? MAX_DATE)%Z) eqn:E; [|by exists ds].
    exists (t :: ds). cbn [map]. rewrite IH. split; [reflexivity|].
    constructor; [|exact Hds]. apply andb_true_iff in E as [?%Z.leb_le ?%Z.leb_le]. lia.
  - by exists ds.
Qed.

Lemma cleaned_loaded temp out cells :
  getitem "Country/Region" temp = Returned (SObject cells) ->
  Forall is_india cells ->
  cleaned temp out ->
  loaded out.
Proof.
  intros Hcountry Hindia (obs & Hobs & Hreq & Hother & Hint).
  assert (Hno : forall c, c ∈ ["Date"; "State/UnionTerritory"; "Country/Region"] ->
            c ∉ count_columns).
  { intros c Hc Hin. unfold count_columns in Hin.
    repeat (apply elem_of_cons in Hc as [->|Hc]);
      repeat (apply elem_of_cons in Hin as [Hin|Hin]; [discriminate|]);
      try by apply elem_of_nil in Hin. by apply elem_of_nil in Hc. }
  constructor.
  - destruct (date_in_range_dates (datetime_values obs)) as (ds & Hds & Hrange).
    exists ds. split; [|exact Hrange].
    rewrite Hother by (apply Hno; repeat constructor).
    rewrite getitem_with_cured by reflexivity.
    by rewrite getitem_dated_india_date, Hds.
  - exact Hint.
  - rewrite has_column_getitem, Hother by (apply Hno; repeat constructor).
    rewrite getitem_with_cured by reflexivity. rewrite <- has_column_getitem.
    unfold dated_india. rewrite has_column_frame_filter, has_column_setitem_other by done.
    apply has_column_renamed. rewrite has_column_frame_filter, has_column_setitem_other by done.
    apply Hreq. repeat constructor.
  - rewrite Hother by (apply Hno; repeat constructor).
    rewrite getitem_with_cured by reflexivity.
    rewrite getitem_dated_india by reflexivity. rewrite Hcountry. cbn [rbind series_filter].
    eexists. split; [reflexivity|]. by do 2 apply filter_mask_Forall.
Qed.

(** The rows of India of a table, from its [Country/Region] column. *)
Definition india_rows (table : DataFrame) (country : list Cell) : DataFrame :=
  frame_filter
    (map (fun c => cell_eqb c (CStr "india"))
       (map (fun c => match c with CStr x => CStr (lower x) | _ => CNull end) country))
    table.

Lemma india_rows_country table country :
  getitem "Country/Region" table = Returned (SObject country) ->
  exists cells, getitem "Country/Region" (india_rows table country) = Returned (SObject cells)
                /\ Forall is_india cells.
Proof.
  intros Hc. unfold india_rows. rewrite getitem_frame_filter, Hc. cbn [rbind series_filter].
  eexists. split; [reflexivity | apply lowered_india].
Qed.

(** One call of [load_data]: what it returns is what it leaves cached; a
    cached frame is returned as it is; a frame loaded now is new and is the
    cleaned table of the data file. *)
Definition load_post (s s' : Server) (r : option nat) : Prop :=
  keeps s s' /\ _df s' = r
  /\ (forall l, _df s = Some l -> r = Some l /\ s' = s)
  /\ (_df s = None -> forall l, r = Some l ->
        frames (store s) !! l = None
        /\ exists table country out,
             files s !! data_path = Some (CsvFile (Returned table))
             /\ getitem "Country/Region" table = Returned (SObject country)
             /\ frames (store s') !! l = Some out
             /\ cleaned (india_rows table country) out).

Lemma load_post_none s s' : _df s = None -> _df s' = None -> keeps s s' -> load_post s s' None.
Proof.
  intros Hs Hs' Hk. split; [exact Hk|]. split; [exact Hs'|]. split; [congruence|].
  by intros _ l [=].
Qed.

Lemma load_data_run s :
  exists s' r, load_data s = (s', Returned r) /\ load_post s s' r.
Proof.
  unfold load_data. unfold bindS at 1. cbv [get_df].
  destruct (_df s) as [l|] eqn:Hcache.
  { exists s, (Some l). split; [reflexivity|]. split; [apply keeps_refl|].
    split; [exact Hcache|]. split; [by intros ? [= <-] | congruence]. }
  assert (Hfail : forall s1 e, keeps s s1 ->
    exists s' r,
      without_data (A := nat) ("Error loading data: " ++ str_exn e) s1 = (s', Returned r)
      /\ load_post s s' r).
  { intros s1 e Hk. destruct (without_data_run (A := nat) ("Error loading data: " ++ str_exn e) s1)
      as (s' & -> & Hdf & Hk').
    exists s', None. split; [reflexivity|].
    apply load_post_none; [done | done | by apply (keeps_trans s s1)]. }
  assert (Hnone : forall s', _df s' = None -> keeps s s' ->
    exists s'' r,
      (s', Returned None) = (s'', @Returned (option nat) r) /\ load_post s s'' r).
  { intros s' Hdf Hk. exists s', None. split; [reflexivity|]. by apply load_post_none. }
  unfold try_exceptS. unfold bindS at 1. cbv [path_exists].
  destruct (files s !! data_path) as [entry|] eqn:Hfile.
  2:{ rewrite bool_decide_false by (by intros [? [=]]). cbn [negb].
      apply Hnone; [exact Hcache|]. by repeat split. }
  rewrite bool_decide_true by eauto. cbn [negb].
  unfold bindS at 1. unfold read_csv. rewrite Hfile.
  destruct entry as [|[table|e]|content]; try (apply Hfail; apply keeps_refl).
  destruct (has_column "Country/Region" table) eqn:Hhas.
  2:{ destruct (without_data_run (A := nat)
        "Column 'Country/Region' not found in CSV. Cannot filter for India." s)
        as (s' & -> & Hdf & Hk). by apply Hnone. }
  rewrite has_column_getitem in Hhas.
  destruct (getitem "Country/Region" table) as [country|] eqn:Hcountry; [|discriminate].
  unfold bindS at 1. unfold liftS at 1. unfold bindS at 1. unfold liftS at 1.
  unfold str_lower.
  destruct country as [v|v|v]; try (apply Hfail; apply keeps_refl).
  destruct (infers_strings v); [|apply Hfail; apply keeps_refl].
  fold (india_rows table v).
  destruct (frame_empty (india_rows table v)).
  { destruct (without_data_run (A := nat) "No data found for Country/Region 'India'." s)
      as (s' & -> & Hdf & Hk). by apply Hnone. }
  destruct (load_india_run (india_rows table v) s) as (s' & r & -> & Hk & Hdf & Hnew).
  exists s', r. split; [reflexivity|]. split; [exact Hk|]. split; [exact Hdf|].
  split; [congruence|]. intros _ l Hl. destruct (Hnew l Hl) as (Hfresh & out & Hout & Hclean).
  split; [exact Hfresh|]. by exists table, v, out.
Qed.

End LoadData.

(** ** Running [initialize_model] *)

Section Initialising.
Context `{Pandas} `{Learners} `{Runtime}.

(** The three estimators of an engine are fitted. *)
Definition fitted (e : COVIDPredictionModel) : Prop :=
  is_Some (scaler_params (scaler e))
  /\ is_Some (estimators_ (rf_model e))
  /\ is_Some (history (prophet_model e)).

Lemma train_models_dangling w l omega :
  frames w !! l = None ->
  exists x, train_models (Some l) omega w = (w, Raised x).
Proof.
  intros Hl. unfold train_models, bind at 1. unfold preprocess_data, bind at 1.
  unfold copy, bind at 1. unfold read_frame. rewrite Hl. by eexists.
Qed.

(** A training that returns has fitted the decomposition model on the
    aggregate of the input, and the scaler and the forest before that. *)
Lemma trained_of_returned e d omega e' held_out :
  trained_of e d omega = (e', Returned held_out) ->
  fitted e'
  /\ exists pdf, aggregate d = Returned pdf
                 /\ Prophet_fit (prophet_model e) pdf omega = Returned (prophet_model e').
Proof.
  unfold trained_of. destruct (preprocess_pipeline d) as [out|]; [|discriminate].
  destruct (ensemble_fit_cases e out omega) as (Hpm & _ & _ & Hfit).
  destruct (ensemble_fit e out omega) as [e1 [held|x]]; [|discriminate].
  cbn [fst snd] in Hpm, Hfit. destruct (Hfit held eq_refl) as [Hsc Hrf].
  unfold decomposition_fit. rewrite Hpm.
  destruct (aggregate d) as [pdf|]; [|discriminate]. cbn [rbind].
  destruct (Prophet_fit (prophet_model e) pdf omega) as [pm|] eqn:Hpf; [|discriminate].
  intros [= <- <-]. cbn [scaler rf_model prophet_model]. split.
  - apply Prophet_fit_returned in Hpf as [_ Hsome]. by repeat split.
  - by exists pdf.
Qed.

Lemma train_models_fitted w df omega held_out :
  snd (train_models df omega w) = Returned held_out ->
  fitted (self (fst (train_models df omega w))).
Proof.
  intros Hret. destruct df as [l|]; [|by rewrite train_models_None in Hret].
  destruct (frames w !! l) as [d|] eqn:Hd.
  2:{ destruct (train_models_dangling w l omega Hd) as [x Hx]. by rewrite Hx in Hret. }
  destruct (train_models_run w l d omega Hd) as (Hself & Hres & _).
  rewrite Hres in Hret. rewrite Hself.
  destruct (trained_of (self w) d omega) as [e' r] eqn:Htr. cbn [fst snd] in *. subst r.
  by destruct (trained_of_returned _ _ _ _ _ Htr).
Qed.

Lemma train_models_keeps w df omega l0 d0 :
  frames w !! l0 = Some d0 ->
  frames (fst (train_models df omega w)) !! l0 = Some d0.
Proof.
  intros Hl0. destruct df as [l|]; [|by rewrite train_models_None].
  destruct (frames w !! l) as [d|] eqn:Hd.
  - destruct (train_models_run w l d omega Hd) as (_ & _ & Hkeep). by apply Hkeep.
  - destruct (train_models_dangling w l omega Hd) as [x Hx]. by rewrite Hx.
Qed.

(** The store in which a new engine is trained. *)
Definition fresh_engine (s : Server) : World :=
  mkWorld (frames (store s)) init (stdout (store s)).

(** The engine [retrain] leaves in the global, when it returns. *)
Definition retrained (s : Server) (l : nat) (omega : Entropy) : COVIDPredictionModel :=
  self (fst (train_models (Some l) omega (fresh_engine s))).

Lemma retrain_run l omega s :
  exists s' r,
    retrain l omega s = (s', r)
    /\ _df s' = _df s /\ writable s' = writable s
    /\ (forall l0 d0, frames (store s) !! l0 = Some d0 -> frames (store s') !! l0 = Some d0)
    /\ match r with
       | Returned _ =>
           model s' = EngineModel
           /\ self (store s') = retrained s l omega
           /\ is_returned (snd (train_models (Some l) omega (fresh_engine s))) = true
           /\ files s' = <[model_path := JoblibFile (Returned (retrained s l omega))]> (files s)
       | Raised _ => files s' = files s
       end.
Proof.
  unfold retrain, retrained.
  cbv [bindS on_store set_self set_model]. cbn [store model _df files writable].
  fold (fresh_engine s).
  pose proof (train_models_keeps (fresh_engine s) (Some l) omega) as Hkeep.
  destruct (train_models (Some l) omega (fresh_engine s)) as [w [held|x]].
  - unfold joblib_dump. cbn [store model _df files writable fst snd] in *.
    destruct (writable s) eqn:Hw.
    + eexists _, _. split; [reflexivity|]. cbn [store model _df files writable].
      repeat split; try done; intros l0 d0 Hl0; by apply Hkeep.
    + eexists _, _. split; [reflexivity|]. cbn [store model _df files writable].
      repeat split; try done; intros l0 d0 Hl0; by apply Hkeep.
  - eexists _, _. split; [reflexivity|]. cbn [store model _df files writable fst] in *.
    repeat split; try done; intros l0 d0 Hl0; by apply Hkeep.
Qed.

(** What [retrain] leaves when it returns, in terms of the cached frame. *)
Lemma retrain_returned l omega s s' :
  retrain l omega s = (s', Returned tt) ->
  exists d held_out,
    frames (store s) !! l = Some d
    /\ trained_of init d omega = (self (store s'), Returned held_out)
    /\ model s' = EngineModel
    /\ files s' = <[model_path := JoblibFile (Returned (self (store s')))]> (files s).
Proof.
  intros Hrun. destruct (retrain_run l omega s) as (s2 & r & Hrun2 & _ & _ & _ & Hpost).
  rewrite Hrun in Hrun2. injection Hrun2 as <- <-.
  destruct Hpost as (Hm & Hself & Hret & Hfiles). unfold retrained in *.
  destruct (frames (store s) !! l) as [d|] eqn:Hd.
  2:{ destruct (train_models_dangling (fresh_engine s) l omega Hd) as [x Hx].
      by rewrite Hx in Hret. }
  destruct (train_models_run (fresh_engine s) l d omega Hd) as (Hself2 & Hres & _).
  rewrite Hres in Hret. rewrite Hself2 in Hself, Hfiles. cbn [fresh_engine self] in *.
  destruct (trained_of init d omega) as [e [held|x]] eqn:Htr; [|discriminate].
  cbn [fst] in *. exists d, held. rewrite Hself. by repeat split.
Qed.

(** How the engine of a server came to be: read from the model file, or
    trained on the cached frame and written to the model file. *)
Definition installed (s1 s' : Server) (l : nat) (omega : Entropy) : Prop :=
  model s' = EngineModel
  /\ ((exists e, files s1 !! model_path = Some (JoblibFile (Returned e))
                 /\ files s' = files s1 /\ self (store s') = e)
      \/ ((forall e, files s1 !! model_path <> Some (JoblibFile (Returned e)))
          /\ exists d held_out,
               frames (store s1) !! l = Some d
               /\ trained_of init d omega = (self (store s'), Returned held_out)
               /\ files s'
                  = <[model_path := JoblibFile (Returned (self (store s')))]> (files s1))).

Lemma retrain_after_print line l omega s1 :
  (forall e, files s1 !! model_path <> Some (JoblibFile (Returned e))) ->
  exists s' r,
    bindS (printS line) (fun _ => retrain l omega) s1 = (s', r)
    /\ _df s' = _df s1
    /\ (forall l0 d0, frames (store s1) !! l0 = Some d0 -> frames (store s') !! l0 = Some d0)
    /\ (r = Returned tt -> installed s1 s' l omega).
Proof.
  intros Hfile. unfold bindS.
  destruct (printS_run line s1) as (s2 & -> & Hm & Hdf & Hf & Hw & Hfr & Hself).
  destruct (retrain_run l omega s2) as (s' & r & Hrun & Hdf' & _ & Hkeep & _).
  rewrite Hrun. exists s', r. split; [reflexivity|]. split; [congruence|]. split.
  { intros l0 d0 Hl0. apply Hkeep. by rewrite Hfr. }
  intros ->. destruct (retrain_returned l omega s2 s' Hrun) as (d & held & Hd & Htr & Hmod & Hfs).
  split; [exact Hmod|]. right. split; [exact Hfile|].
  exists d, held. rewrite <- Hfr, <- Hf. by repeat split.
Qed.

(** The statements of [initialize_model] that follow a successful load. *)
Definition install (df : nat) (omega : Entropy) : App unit :=
  bindS (path_exists model_path) (fun present =>
    if present then
      try_exceptS
        (bindS (joblib_load model_path) (fun loaded =>
           bindS (on_store (set_self loaded)) (fun _ => set_model EngineModel)))
        (fun load_exc =>
           bindS (printS ("Failed to load existing model: " ++ str_exn load_exc
                            ++ ". Retraining..."))
             (fun _ => retrain df omega))
    else
      bindS (printS "No existing model found. Training new model...")
        (fun _ => retrain df omega)).

Lemma install_run l omega s1 :
  exists s' r,
    install l omega s1 = (s', r)
    /\ _df s' = _df s1
    /\ (forall l0 d0, frames (store s1) !! l0 = Some d0 -> frames (store s') !! l0 = Some d0)
    /\ (r = Returned tt -> installed s1 s' l omega).
Proof.
  unfold install. unfold bindS at 1. cbv [path_exists].
  destruct (files s1 !! model_path) as [entry|] eqn:Hfile.
  2:{ rewrite bool_decide_false by (by intros [? [=]]).
      apply retrain_after_print. congruence. }
  rewrite bool_decide_true by eauto.
  unfold try_exceptS. unfold bindS at 1. unfold joblib_load. rewrite Hfile.
  destruct entry as [|table|[e|x]]; try (apply retrain_after_print; congruence).
  cbv [bindS on_store set_self set_model]. cbn [store model _df files writable].
  eexists _, _. split; [reflexivity|]. cbn [store model _df files writable frames self].
  split; [reflexivity|]. split; [done|]. intros _. split; [reflexivity|]. left. by exists e.
Qed.

(** One call of [initialize_model]. It returns, whatever happens; the
    global then holds no model, or what it held (when no data could be
    loaded), or an engine installed for the data now cached. *)
Lemma initialize_model_run omega s :
  exists s',
    initialize_model omega s = (s', Returned tt)
    /\ (forall l0 d0, frames (store s) !! l0 = Some d0 -> frames (store s') !! l0 = Some d0)
    /\ (model s' = NoModel
        \/ (model s' = model s /\ _df s' = None)
        \/ exists s1 l,
             _df s' = Some l /\ installed s1 s' l omega
             /\ (forall l0 d0, frames (store s1) !! l0 = Some d0 ->
                   frames (store s') !! l0 = Some d0)
             /\ (files s1 = files s \/ files s1 = <[model_files_dir := Directory]> (files s))
             /\ (_df s = None -> exists s0,
                   _df s0 = None /\ files s0 = files s1
                   /\ load_data s0 = (s1, Returned (Some l)))).
Proof.
  assert (Hhandler : forall s2 e,
    (forall l0 d0, frames (store s) !! l0 = Some d0 -> frames (store s2) !! l0 = Some d0) ->
    exists s',
      bindS (printS ("Error initializing model: " ++ str_exn e))
        (fun _ => set_model NoModel) s2 = (s', Returned tt)
      /\ (forall l0 d0, frames (store s) !! l0 = Some d0 -> frames (store s') !! l0 = Some d0)
      /\ (model s' = NoModel
          \/ (model s' = model s /\ _df s' = None)
          \/ exists s1 l,
               _df s' = Some l /\ installed s1 s' l omega
               /\ (forall l0 d0, frames (store s1) !! l0 = Some d0 ->
                     frames (store s') !! l0 = Some d0)
               /\ (files s1 = files s \/ files s1 = <[model_files_dir := Directory]> (files s))
               /\ (_df s = None -> exists s0,
                     _df s0 = None /\ files s0 = files s1
                     /\ load_data s0 = (s1, Returned (Some l))))).
  { intros s2 e Hkeep. eexists. split; [reflexivity|].
    cbn [store model _df files writable frames self]. split; [exact Hkeep | by left]. }
  unfold initialize_model. unfold try_exceptS at 1.
  (* the directory *)
  unfold bindS at 1. unfold path_exists at 1.
  assert (Hdir : exists s0 r0,
    (if negb (bool_decide (is_Some (files s !! model_files_dir)))
     then makedirs model_files_dir else retS tt) s = (s0, r0)
    /\ store s0 = store s /\ model s0 = model s /\ _df s0 = _df s
    /\ (r0 = Returned tt ->
        files s0 = files s \/ files s0 = <[model_files_dir := Directory]> (files s))).
  { destruct (bool_decide (is_Some (files s !! model_files_dir))); cbn [negb].
    - exists s, (Returned tt). repeat split; by auto.
    - unfold makedirs. destruct (writable s).
      + eexists _, _. split; [reflexivity|]. cbn [store model _df files].
        repeat split; by auto.
      + eexists _, _. split; [reflexivity|]. by repeat split. }
  destruct Hdir as (s0 & r0 & Hdir & Hst0 & Hm0 & Hdf0 & Hfile0).
  unfold bindS at 1. rewrite Hdir.
  destruct r0 as [[]|e0].
  2:{ apply Hhandler. by rewrite Hst0. }
  specialize (Hfile0 eq_refl).
  (* the data *)
  unfold bindS at 1.
  destruct (load_data_run s0)
    as (s1 & r & Hload & (Hm1 & Hf1 & Hw1 & Hself1 & Hkeep1) & Hdf1 & Hcached & Hnew).
  rewrite Hload.
  assert (Hkeep01 : forall l0 d0, frames (store s) !! l0 = Some d0 ->
            frames (store s1) !! l0 = Some d0).
  { intros l0 d0 Hl0. apply Hkeep1. by rewrite Hst0. }
  destruct r as [l|].
  2:{ destruct (printS_run "Failed to load data, cannot initialize model." s1)
        as (s2 & -> & Hm2 & Hdf2 & Hf2 & Hw2 & Hfr2 & Hself2).
      exists s2. split; [reflexivity|]. split.
      { intros l0 d0 Hl0. rewrite Hfr2. by apply Hkeep01. }
      right. left. split; congruence. }
  fold (install l omega).
  destruct (install_run l omega s1) as (s' & r & -> & Hdf' & Hkeep' & Hinst).
  destruct r as [[]|e].
  2:{ apply Hhandler. intros l0 d0 Hl0. by apply Hkeep', Hkeep01. }
  exists s'. split; [reflexivity|]. split.
  { intros l0 d0 Hl0. by apply Hkeep', Hkeep01. }
  right. right. exists s1, l. split; [congruence|]. split; [by apply Hinst|].
  split; [exact Hkeep'|]. split; [by rewrite Hf1|].
  intros Hnone. exists s0. split; [congruence|]. split; [done | exact Hload].
Qed.

End Initialising.

(** ** Running [get_predictions] *)

Section Predicting.
Context `{Pandas} `{Learners} `{Runtime}.

(** The four columns of a forecast: one value per date of the grid, which
    ends with the days asked for. *)
Definition forecast_shape (fr : DataFrame) (days : Z) (grid : list Z)
    (yhat yhat_lower yhat_upper : list (option Q)) : Prop :=
  getitem "ds" fr = Returned (SDatetime (map Some grid))
  /\ getitem "yhat" fr = Returned (SNumeric yhat)
  /\ getitem "yhat_lower" fr = Returned (SNumeric yhat_lower)
  /\ getitem "yhat_upper" fr = Returned (SNumeric yhat_upper)
  /\ length yhat = length grid
  /\ length yhat_lower = length grid
  /\ length yhat_upper = length grid
  /\ (Z.to_nat days <= length grid)%nat.

Lemma forecast_frame_shape m days omega fr :
  rbind (make_future_dataframe m days) (fun future =>
    rbind (Prophet_predict m future omega) (getitems forecast_columns)) = Returned fr ->
  exists grid yhat yhat_lower yhat_upper, forecast_shape fr days grid yhat yhat_lower yhat_upper.
Proof.
  unfold make_future_dataframe, Prophet_predict.
  destruct (history m) as [[dates p]|]; [|discriminate].
  destruct (days + 1 <? 0)%Z; [discriminate|]. cbn [rbind].
  intros [= <-]. eexists _, _, _, _. unfold forecast_shape.
  repeat (split; [reflexivity|]). rewrite !length_map, length_app, length_map, length_seq.
  repeat split; lia.
Qed.

Lemma predict_dangling w l days omega :
  frames w !! l = None -> exists x, predict (Some l) days omega w = (w, Raised x).
Proof.
  intros Hl. unfold predict, bind at 1. unfold preprocess_data, bind at 1.
  unfold copy, bind at 1. unfold read_frame. rewrite Hl. by eexists.
Qed.

Lemma get_state_predictions_dangling w l state days omega :
  frames w !! l = None ->
  exists x, get_state_predictions (Some l) state days omega w = (w, Raised x).
Proof.
  intros Hl. unfold get_state_predictions, bind at 1. unfold subscript, getitemM, bind at 1.
  unfold read_frame. rewrite Hl. by eexists.
Qed.

(** The forecast either method returns has the four columns. *)
Lemma served_forecast_shape w l state days omega :
  (forall out, snd (predict (Some l) days omega w) = Returned out ->
     exists grid a b c, forecast_shape (prophet_forecast out) days grid a b c)
  /\ (forall fr, snd (get_state_predictions (Some l) state days omega w) = Returned fr ->
        exists grid a b c, forecast_shape fr days grid a b c).
Proof.
  destruct (frames w !! l) as [d|] eqn:Hd.
  2:{ destruct (predict_dangling w l days omega Hd) as [x ->].
      destruct (get_state_predictions_dangling w l state days omega Hd) as [y ->].
      split; intros ? [=]. }
  split.
  - intros out Hout. apply (predict_forecast w l d days omega out Hd) in Hout.
    unfold aggregate_forecast in Hout. by apply (forecast_frame_shape _ _ _ _ Hout).
  - intros fr Hfr.
    destruct (get_state_predictions_run w l d state days omega Hd) as (Hrun & _).
    rewrite Hrun in Hfr. unfold state_forecast in Hfr.
    destruct (getitem region_column d) as [col|]; [|discriminate]. cbn [rbind] in Hfr.
    destruct (prophet_frame _ _) as [pdf|]; [|discriminate]. cbn [rbind] in Hfr.
    unfold forecast_with in Hfr.
    destruct (Prophet_fit new_Prophet pdf omega) as [fitted|]; [|discriminate].
    cbn [rbind] in Hfr. by apply (forecast_frame_shape _ _ _ _ Hfr).
Qed.

Lemma served_keeps w l state days omega l0 d0 :
  frames w !! l0 = Some d0 ->
  frames (fst (predict (Some l) days omega w)) !! l0 = Some d0
  /\ frames (fst (get_state_predictions (Some l) state days omega w)) !! l0 = Some d0.
Proof.
  intros Hl0. destruct (frames w !! l) as [d|] eqn:Hd.
  - destruct (predict_run w l d days omega Hd) as (_ & _ & Hk1).
    destruct (get_state_predictions_run w l d state days omega Hd) as (_ & _ & Hk2).
    split; [by apply Hk1 | by apply Hk2].
  - destruct (predict_dangling w l days omega Hd) as [x ->].
    by destruct (get_state_predictions_dangling w l state days omega Hd) as [y ->].
Qed.

Lemma served_keeps_both w l state days omega :
  (forall l0 d0, frames w !! l0 = Some d0 ->
     frames (fst (predict (Some l) days omega w)) !! l0 = Some d0)
  /\ (forall l0 d0, frames w !! l0 = Some d0 ->
        frames (fst (get_state_predictions (Some l) state days omega w)) !! l0 = Some d0).
Proof. split; intros l0 d0 Hl0; by apply served_keeps. Qed.

Lemma served_self w l state days omega :
  self (fst (predict (Some l) days omega w)) = self w
  /\ self (fst (get_state_predictions (Some l) state days omega w)) = self w.
Proof.
  destruct (frames w !! l) as [d|] eqn:Hd.
  - destruct (predict_run w l d days omega Hd) as (_ & Hk1 & _).
    by destruct (get_state_predictions_run w l d state days omega Hd) as (_ & Hk2 & _).
  - destruct (predict_dangling w l days omega Hd) as [x ->].
    by destruct (get_state_predictions_dangling w l state days omega Hd) as [y ->].
Qed.

(** The number of days asked for. *)
Definition days_asked (days : option string) : option Z :=
  match days with
  | None => Some 30%Z
  | Some text => int_of_str text
  end.

(** The body of a response that carries a forecast. *)
Definition forecast_body (grid : list Z) (yhat yhat_lower yhat_upper : list (option Q))
    : Json :=
  JForecast (map (fun t => CStr (strftime_ymd t)) grid)
    (series_cells (SNumeric yhat)) (series_cells (SNumeric yhat_lower))
    (series_cells (SNumeric yhat_upper)).

(** The statements of [get_predictions] from the forecast on. *)
Definition respond (predictions : DataFrame) : App Response :=
  bindS (liftS (getitem "ds" predictions)) (fun ds =>
  bindS (liftS (strftime_list ds)) (fun dates =>
  bindS (liftS (getitem "yhat" predictions)) (fun yhat =>
  bindS (liftS (getitem "yhat_lower" predictions)) (fun yhat_lower =>
  bindS (liftS (getitem "yhat_upper" predictions)) (fun yhat_upper =>
  retS (JForecast dates (series_cells yhat) (series_cells yhat_lower)
          (series_cells yhat_upper), 200%Z)))))).

Lemma respond_run fr days grid a b c s :
  forecast_shape fr days grid a b c ->
  respond fr s = (s, Returned (forecast_body grid a b c, 200%Z)).
Proof.
  intros (Hds & Ha & Hb & Hc & _). unfold respond. cbv [bindS liftS retS].
  rewrite Hds, Ha, Hb, Hc. cbn [strftime_list]. by rewrite map_map.
Qed.

(** What a response is: an error with status 500, or a forecast with status
    200, served by an engine from cached data, whose four lists have one
    entry per date, the days asked for among them. *)
Definition answers (days : option string) (s' : Server) (resp : Response) : Prop :=
  (snd resp = 500%Z /\ exists msg, fst resp = JError msg)
  \/ (snd resp = 200%Z /\ model s' = EngineModel
      /\ exists n l grid a b c,
           days_asked days = Some n /\ _df s' = Some l
           /\ fst resp = forecast_body grid a b c
           /\ length a = length grid /\ length b = length grid /\ length c = length grid
           /\ (Z.to_nat n <= length grid)%nat).

(** The statements that follow the model check, in a server with an engine. *)
Definition serve (state : option string) (days : Z) (omega : Entropy) : App Response :=
  bindS load_data (fun df =>
    match df with
    | None => retS (JError "Failed to load data", 500%Z)
    | Some _ =>
        bindS
          (if truthy state then
             on_store (get_state_predictions df (default "" state) days omega)
           else
             bindS (on_store (predict df days omega)) (fun both =>
               retS (prophet_forecast both)))
          respond
    end).

Lemma serve_run state days n omega s :
  days_asked days = Some n ->
  model s = EngineModel ->
  exists s' r,
    serve state n omega s = (s', r)
    /\ model s' = EngineModel
    /\ self (store s') = self (store s)
    /\ (forall l0 d0, frames (store s) !! l0 = Some d0 -> frames (store s') !! l0 = Some d0)
    /\ (forall resp, r = Returned resp -> answers days s' resp).
Proof.
  intros Hdays Hmodel. unfold serve. unfold bindS at 1.
  destruct (load_data_run s)
    as (s1 & r & -> & (Hm1 & Hf1 & Hw1 & Hself1 & Hkeep1) & Hdf1 & _).
  destruct r as [l|].
  2:{ eexists _, _. split; [reflexivity|]. split; [congruence|]. split; [done|].
      split; [done|]. intros resp [= <-]. left. by eauto. }
  destruct (served_forecast_shape (store s1) l (default "" state) n omega) as [Hagg Hreg].
  destruct (served_keeps_both (store s1) l (default "" state) n omega) as [Hkagg Hkreg].
  destruct (served_self (store s1) l (default "" state) n omega) as [Hsagg Hsreg].
  unfold bindS at 1. destruct (truthy state).
  - unfold on_store.
    destruct (get_state_predictions (Some l) (default "" state) n omega (store s1))
      as [w [fr|x]]; cbn [fst snd] in *.
    + destruct (Hreg fr eq_refl) as (grid & a & b & c & Hshape).
      rewrite (respond_run fr n grid a b c _ Hshape).
      eexists _, _. split; [reflexivity|]. cbn [model store _df].
      split; [congruence|]. split; [congruence|]. split; [by auto|].
      intros resp [= <-]. right. cbn [fst snd model _df store].
      split; [reflexivity|]. split; [congruence|].
      destruct Hshape as (_ & _ & _ & _ & ? & ? & ? & ?).
      exists n, l, grid, a, b, c. by repeat split.
    + eexists _, _. split; [reflexivity|]. cbn [model store _df].
      split; [congruence|]. split; [congruence|]. split; [by auto | discriminate].
  - unfold bindS at 1. unfold on_store.
    destruct (predict (Some l) n omega (store s1)) as [w [out|x]]; cbn [fst snd] in *.
    + destruct (Hagg out eq_refl) as (grid & a & b & c & Hshape).
      unfold retS at 1. rewrite (respond_run _ n grid a b c _ Hshape).
      eexists _, _. split; [reflexivity|]. cbn [model store _df].
      split; [congruence|]. split; [congruence|]. split; [by auto|].
      intros resp [= <-]. right. cbn [fst snd model _df store].
      split; [reflexivity|]. split; [congruence|].
      destruct Hshape as (_ & _ & _ & _ & ? & ? & ? & ?).
      exists n, l, grid, a, b, c. by repeat split.
    + eexists _, _. split; [reflexivity|]. cbn [model store _df].
      split; [congruence|]. split; [congruence|]. split; [by auto | discriminate].
Qed.

Lemma get_predictions_run state days omega_train omega s :
  exists s' resp,
    get_predictions state days omega_train omega s = (s', Returned resp)
    /\ (forall l0 d0, frames (store s) !! l0 = Some d0 -> frames (store s') !! l0 = Some d0)
    /\ answers days s' resp.
Proof.
  assert (Hhandler : forall s2 e,
    (forall l0 d0, frames (store s) !! l0 = Some d0 -> frames (store s2) !! l0 = Some d0) ->
    exists s' resp,
      bindS (printS ("Error in get_predictions: " ++ str_exn e))
        (fun _ => retS (JError (str_exn e), 500%Z)) s2 = (s', Returned resp)
      /\ (forall l0 d0, frames (store s) !! l0 = Some d0 -> frames (store s') !! l0 = Some d0)
      /\ answers days s' resp).
  { intros s2 e Hkeep. eexists _, _. split; [reflexivity|].
    cbn [store frames]. split; [exact Hkeep|]. left. by eauto. }
  unfold get_predictions. unfold try_exceptS at 1. unfold bindS at 1.
  assert (Hdays : exists r,
    match days with
    | Some text =>
        match int_of_str text with
        | Some n => retS n
        | None =>
            liftS (Raised (ValueError ("invalid literal for int() with base 10: "
                                         ++ repr_str text)))
        end
    | None => retS 30%Z
    end s = (s, r) /\ forall n, r = Returned n -> days_asked days = Some n).
  { unfold days_asked. destruct days as [text|].
    - destruct (int_of_str text); eexists; (split; [reflexivity|]); by intros ? [= <-].
    - eexists. split; [reflexivity|]. by intros ? [= <-]. }
  destruct Hdays as (r & -> & Hdays). destruct r as [n|e]; [|by apply Hhandler].
  specialize (Hdays n eq_refl).
  unfold bindS at 1. unfold get_model at 1. unfold bindS at 1.
  assert (Hinit : exists s1,
    match model s with
    | NoModel => initialize_model omega_train
    | EngineModel => retS tt
    end s = (s1, Returned tt)
    /\ (forall l0 d0, frames (store s) !! l0 = Some d0 -> frames (store s1) !! l0 = Some d0)).
  { destruct (model s).
    - destruct (initialize_model_run omega_train s) as (s1 & -> & Hkeep & _). by exists s1.
    - by exists s. }
  destruct Hinit as (s1 & -> & Hkeep1).
  unfold bindS at 1. unfold get_model at 1.
  destruct (model s1) eqn:Hmodel.
  { eexists _, _. split; [reflexivity|]. split; [exact Hkeep1|]. left. by eauto. }
  change (bindS load_data _ s1) with (serve state n omega s1).
  destruct (serve_run state days n omega s1 Hdays Hmodel)
    as (s' & r & -> & Hm & _ & Hkeep & Hans).
  destruct r as [resp|e].
  - exists s', resp. split; [reflexivity|]. split; [by auto | by apply Hans].
  - apply Hhandler. by auto.
Qed.

(** The [except] clause of [get_predictions]. *)
Definition report (e : PyExn) : App Response :=
  bindS (printS ("Error in get_predictions: " ++ str_exn e))
    (fun _ => retS (JError (str_exn e), 500%Z)).

(** [get_predictions] in two steps: the engine is initialised if there is
    none, and the request is served if there is one then. *)
Lemma get_predictions_steps state days n omega_train omega s :
  days_asked days = Some n ->
  exists s1,
    match model s with
    | NoModel => initialize_model omega_train
    | EngineModel => retS tt
    end s = (s1, Returned tt)
    /\ get_predictions state days omega_train omega s
       = match model s1 with
         | NoModel => (s1, Returned (JError "Failed to initialize model", 500%Z))
         | EngineModel => try_exceptS (serve state n omega) report s1
         end.
Proof.
  intros Hdays.
  assert (Hinit : exists s1,
    match model s with
    | NoModel => initialize_model omega_train
    | EngineModel => retS tt
    end s = (s1, Returned tt)).
  { destruct (model s).
    - destruct (initialize_model_run omega_train s) as (s1 & -> & _). by exists s1.
    - by exists s. }
  destruct Hinit as (s1 & Hinit). exists s1. split; [exact Hinit|].
  unfold get_predictions. unfold try_exceptS at 1. unfold bindS at 1.
  assert (Hparse :
    match days with
    | Some text =>
        match int_of_str text with
        | Some n => retS n
        | None =>
            liftS (Raised (ValueError ("invalid literal for int() with base 10: "
                                         ++ repr_str text)))
        end
    | None => retS 30%Z
    end s = (s, Returned n)).
  { unfold days_asked in Hdays. destruct days as [text|].
    - by rewrite Hdays.
    - by injection Hdays as <-. }
  rewrite Hparse. unfold bindS at 1. unfold get_model at 1. unfold bindS at 1.
  rewrite Hinit. unfold bindS at 1. unfold get_model at 1.
  destruct (model s1); [reflexivity|].
  change (bindS load_data _ s1) with (serve state n omega s1).
  unfold try_exceptS, report. by destruct (serve state n omega s1) as [s' [resp|e]].
Qed.

(** Serving from a cache: the data are not read again. *)
Lemma serve_cached state n omega s l :
  _df s = Some l ->
  serve state n omega s
  = bindS
      (if truthy state then
         on_store (get_state_predictions (Some l) (default "" state) n omega)
       else
         bindS (on_store (predict (Some l) n omega)) (fun both =>
           retS (prophet_forecast both)))
      respond s.
Proof.
  intros Hdf. unfold serve. unfold bindS at 1. unfold load_data. unfold bindS at 1.
  unfold get_df. by rewrite Hdf.
Qed.

(** A region without a row in a frame that has the dates and the counts:
    the library refuses the empty series. *)
Lemma state_forecast_no_rows d col state days omega ks c1 c2 :
  getitem region_column d = Returned col ->
  no_observations state col ->
  getitem "Date" d = Returned (SDatetime ks) ->
  getitem "Confirmed" d = Returned c1 ->
  getitem "Deaths" d = Returned c2 ->
  state_forecast d state days omega = Raised too_few_rows.
Proof.
  intros Hcol Hno Hdate Hc1 Hc2. unfold state_forecast. rewrite Hcol. cbn [rbind].
  pose proof (region_mask_none state col Hno) as Hmask.
  set (m := region_mask state col) in *.
  assert (Hcase : exists d0,
            prophet_frame (frame_filter m d) (Some state) = aggregate d0
            /\ all_empty d0
            /\ (forall c s, getitem c d = Returned s ->
                  exists s0, getitem c d0 = Returned s0
                             /\ is_datetime64_any_dtype s0 = is_datetime64_any_dtype s)).
  { unfold prophet_frame. destruct (truthy (Some state)).
    - rewrite has_column_getitem, getitem_frame_filter, Hcol. cbn [rbind is_returned].
      eexists. split; [reflexivity|]. split.
      + apply all_empty_frame_filter. right. apply all_empty_frame_filter. by left.
      + intros c s Hs. rewrite !getitem_frame_filter, Hs. cbn [rbind].
        eexists. split; [reflexivity|]. by destruct s.
    - eexists. split; [reflexivity|]. split.
      + apply all_empty_frame_filter. by left.
      + intros c s Hs. rewrite getitem_frame_filter, Hs. cbn [rbind].
        eexists. split; [reflexivity|]. by destruct s. }
  destruct Hcase as (d0 & -> & Hempty & Hschema).
  destruct (empty_region_forecast d0 days omega Hempty) as (e & He & Hspecific).
  rewrite He. f_equal.
  destruct (Hschema _ _ Hdate) as (s0 & Hs0 & Hdt).
  destruct (Hschema _ _ Hc1) as (s1 & Hs1 & _).
  destruct (Hschema _ _ Hc2) as (s2 & Hs2 & _).
  destruct s0 as [ks0| |]; try discriminate.
  by apply (Hspecific ks0 s1 s2).
Qed.

End Predicting.

(** ** Properties of the service *)

Section Service.
Context `{Pandas} `{Learners} `{Runtime}.

(** X19: [load_data] never raises, and what it returns is what it leaves in
    the cache [_df]: a frame, or [None] after any failure. It touches
    neither the model, nor the files, nor a frame that existed. Once it has
    returned a frame, every later call returns that frame without reading
    the file again, whatever has become of the file. *)
Theorem load_data_caches s :
  exists s' r,
    load_data s = (s', Returned r)
    /\ _df s' = r
    /\ model s' = model s /\ files s' = files s /\ self (store s') = self (store s)
    /\ (forall l d, frames (store s) !! l = Some d -> frames (store s') !! l = Some d)
    /\ (forall l, r = Some l ->
          forall s2, _df s2 = Some l -> load_data s2 = (s2, Returned (Some l))).
Proof.
  destruct (load_data_run s) as (s' & r & Hrun & (Hm & Hf & _ & Hself & Hkeep) & Hdf & _).
  exists s', r. split; [exact Hrun|]. split; [exact Hdf|]. split; [exact Hm|].
  split; [exact Hf|]. split; [exact Hself|]. split; [exact Hkeep|].
  intros l _ s2 Hs2.
  destruct (load_data_run s2) as (s3 & r3 & Hrun3 & _ & _ & Hcached & _).
  destruct (Hcached l Hs2) as [-> ->]. exact Hrun3.
Qed.

(** X20: the frame a first successful [load_data] caches is a new frame made
    from the table of the data file: its [Date] column holds the parsed
    observation dates of the rows of India that parse and fall between
    22 January and 12 August 2020, in the order of the file; the columns
    [Confirmed], [Deaths] and [Cured] hold integers, without a missing
    value; the region column is there; and every row is a row of India. *)
Theorem load_data_cleans s s' l :
  _df s = None ->
  load_data s = (s', Returned (Some l)) ->
  frames (store s) !! l = None
  /\ exists table country obs out,
       files s !! data_path = Some (CsvFile (Returned table))
       /\ getitem "Country/Region" table = Returned (SObject country)
       /\ getitem "ObservationDate" (india_rows table country) = Returned obs
       /\ frames (store s') !! l = Some out
       /\ getitem "Date" out
          = Returned (SDatetime (List.filter date_in_range (datetime_values obs)))
       /\ loaded out.
Proof.
  intros Hcold Hrun.
  destruct (load_data_run s) as (s2 & r & Hrun2 & _ & _ & _ & Hnew).
  rewrite Hrun in Hrun2. injection Hrun2 as <- <-.
  destruct (Hnew Hcold l eq_refl) as (Hfresh & table & country & out & Hfile & Hc & Hout & Hcl).
  split; [exact Hfresh|].
  destruct (india_rows_country table country Hc) as (cells & Hcells & Hindia).
  pose proof (cleaned_loaded _ _ cells Hcells Hindia Hcl) as Hloaded.
  destruct Hcl as (obs & Hobs & _ & Hother & _).
  exists table, country, obs, out. split; [exact Hfile|]. split; [exact Hc|].
  split; [exact Hobs|]. split; [exact Hout|]. split; [|exact Hloaded].
  rewrite Hother.
  - rewrite getitem_with_cured by reflexivity. apply getitem_dated_india_date.
  - unfold count_columns. intros Hin.
    repeat (apply elem_of_cons in Hin as [Hin|Hin]; [discriminate|]).
    by apply elem_of_nil in Hin.
Qed.

Lemma model_file_kept s s1 e :
  files s1 = files s \/ files s1 = <[model_files_dir := Directory]> (files s) ->
  files s1 !! model_path = Some (JoblibFile (Returned e)) ->
  files s !! model_path = Some (JoblibFile (Returned e)).
Proof.
  intros [-> | ->]; [done|].
  destruct (decide (model_files_dir = model_path)) as [->|Hne].
  - by rewrite lookup_insert_eq.
  - by rewrite lookup_insert_ne.
Qed.

Lemma data_file_kept s s1 table :
  files s1 = files s \/ files s1 = <[model_files_dir := Directory]> (files s) ->
  files s1 !! data_path = Some (CsvFile (Returned table)) ->
  files s !! data_path = Some (CsvFile (Returned table)).
Proof.
  intros [-> | ->]; [done|].
  destruct (decide (model_files_dir = data_path)) as [->|Hne].
  - by rewrite lookup_insert_eq.
  - by rewrite lookup_insert_ne.
Qed.

(** X21: [initialize_model] never raises. Called without a model, it ends
    without one, or with an engine that serves cached data and is the very
    engine the model file holds: what is in memory and what is on disk
    agree. No frame that existed is changed. *)
Theorem initialize_model_outcome omega s :
  model s = NoModel ->
  exists s',
    initialize_model omega s = (s', Returned tt)
    /\ (forall l0 d0, frames (store s) !! l0 = Some d0 -> frames (store s') !! l0 = Some d0)
    /\ (model s' = NoModel
        \/ (model s' = EngineModel /\ is_Some (_df s')
            /\ files s' !! model_path = Some (JoblibFile (Returned (self (store s')))))).
Proof.
  intros Hnone.
  destruct (initialize_model_run omega s) as (s' & Hrun & Hkeep & Hcases).
  exists s'. split; [exact Hrun|]. split; [exact Hkeep|].
  destruct Hcases as [Hm | [[Hm _] | (s1 & l & Hdf & [Hm Hhow] & _)]];
    [by left | left; congruence | right].
  split; [exact Hm|]. split; [by eauto|].
  destruct Hhow as [(e & Hfile & -> & ->) | (_ & d & held & _ & _ & ->)];
    [exact Hfile | apply lookup_insert_eq].
Qed.

(** X22: without a readable model file, a model is installed only by a
    complete training: if [initialize_model] ends with an engine, that
    engine is the new engine trained on the cached frame, its scaler, forest
    and decomposition model are all fitted, and it has been written to the
    model file. An engine on which [train_models] raised half way is never
    left installed. *)
Theorem initialize_model_trains omega s s' :
  model s = NoModel ->
  (forall e, files s !! model_path <> Some (JoblibFile (Returned e))) ->
  initialize_model omega s = (s', Returned tt) ->
  model s' = EngineModel ->
  exists l d held_out,
    _df s' = Some l /\ frames (store s') !! l = Some d
    /\ trained_of init d omega = (self (store s'), Returned held_out)
    /\ fitted (self (store s'))
    /\ files s' !! model_path = Some (JoblibFile (Returned (self (store s')))).
Proof.
  intros Hnone Hnofile Hrun Hengine.
  destruct (initialize_model_run omega s) as (s2 & Hrun2 & _ & Hcases).
  rewrite Hrun in Hrun2. injection Hrun2 as <-.
  destruct Hcases as [Hm | [[Hm _] | (s1 & l & Hdf & [_ Hhow] & Hkeep & Hfiles & _)]];
    [congruence | congruence |].
  destruct Hhow as [(e & Hfile & _) | (_ & d & held & Hd & Htr & Hfs)].
  { by apply (model_file_kept s s1 e Hfiles), Hnofile in Hfile. }
  exists l, d, held. split; [exact Hdf|]. split; [by apply Hkeep|]. split; [exact Htr|].
  split; [by destruct (trained_of_returned _ _ _ _ _ Htr)|].
  rewrite Hfs. apply lookup_insert_eq.
Qed.

(** X23: a model file that can be read is used as it is. When the model
    directory and the file exist and the data load, [initialize_model]
    installs the stored engine and trains nothing: the result is the same
    for every state of the generator, the files are not touched, and the
    data that were loaded play no part in the engine. *)
Theorem initialize_model_prefers_file s s1 l e :
  is_Some (files s !! model_files_dir) ->
  files s !! model_path = Some (JoblibFile (Returned e)) ->
  load_data s = (s1, Returned (Some l)) ->
  exists s',
    (forall omega, initialize_model omega s = (s', Returned tt))
    /\ model s' = EngineModel /\ self (store s') = e
    /\ _df s' = Some l /\ files s' = files s
    /\ frames (store s') = frames (store s1).
Proof.
  intros Hdir Hfile Hload.
  destruct (load_data_run s) as (s2 & r & Hrun2 & (_ & Hf & _) & Hdf & _).
  rewrite Hload in Hrun2. injection Hrun2 as <- <-.
  eexists. split.
  - intros omega. unfold initialize_model, try_exceptS at 1.
    unfold bindS at 1. unfold path_exists at 1. rewrite bool_decide_true by exact Hdir.
    cbn [negb]. unfold bindS at 1. unfold retS at 1. unfold bindS at 1. rewrite Hload.
    unfold bindS at 1. unfold path_exists. rewrite Hf, Hfile.
    rewrite bool_decide_true by eauto.
    unfold try_exceptS, bindS at 1. unfold joblib_load. rewrite Hf, Hfile.
    cbv [bindS on_store set_self set_model]. cbn [store model _df files writable].
    reflexivity.
  - cbn [store model _df files writable self frames]. by repeat split.
Qed.

(** X24: [get_predictions] answers every request: it never raises. The answer
    is an error with status 500, or a forecast with status 200; a forecast is
    served by an installed engine from cached data, its dates are formatted
    dates, its four lists have the same length, and that length is at least
    the number of days asked for. *)
Theorem get_predictions_responds state days omega_train omega s :
  exists s' body status,
    get_predictions state days omega_train omega s = (s', Returned (body, status))
    /\ ((status = 500%Z /\ exists msg, body = JError msg)
        \/ (status = 200%Z /\ model s' = EngineModel /\ is_Some (_df s')
            /\ exists n grid predictions lower_bound upper_bound,
                 days_asked days = Some n
                 /\ body = JForecast (map (fun t => CStr (strftime_ymd t)) grid)
                             predictions lower_bound upper_bound
                 /\ length predictions = length grid
                 /\ length lower_bound = length grid
                 /\ length upper_bound = length grid
                 /\ (Z.to_nat n <= length grid)%nat)).
Proof.
  destruct (get_predictions_run state days omega_train omega s)
    as (s' & [body status] & Hrun & _ & Hans).
  exists s', body, status. split; [exact Hrun|].
  destruct Hans as [Herr | (Hst & Hm & n & l & grid & a & b & c & Hn & Hdf & Hb & Ha & Hbb & Hc & Hle)];
    [by left | right]. cbn [fst snd] in *.
  split; [exact Hst|]. split; [exact Hm|]. split; [by eauto|].
  exists n, grid, (series_cells (SNumeric a)), (series_cells (SNumeric b)),
    (series_cells (SNumeric c)).
  split; [exact Hn|]. split; [exact Hb|]. cbn [series_cells]. rewrite !length_map.
  by repeat split.
Qed.

(** X25: a request for a region that has no row in the cached data is answered
    with status 500 and the message by which the library refuses a series
    of fewer than two rows: not with an empty forecast, and not with a
    status that tells the client the region is unknown. The engine and
    the cache are left as they were. *)
Theorem get_predictions_unknown_region state days n omega_train omega s l d col :
  model s = EngineModel ->
  _df s = Some l ->
  frames (store s) !! l = Some d ->
  loaded d ->
  getitem region_column d = Returned col ->
  no_observations state col ->
  state <> "" ->
  days_asked days = Some n ->
  exists s',
    get_predictions (Some state) days omega_train omega s
    = (s', Returned (JError "Dataframe has less than 2 non-NaN rows.", 500%Z))
    /\ model s' = EngineModel /\ _df s' = Some l
    /\ self (store s') = self (store s).
Proof.
  intros Hmodel Hdf Hd Hloaded Hcol Hno Hstate Hdays.
  destruct (get_predictions_steps (Some state) days n omega_train omega s Hdays)
    as (s1 & Hinit & ->).
  rewrite Hmodel in Hinit. injection Hinit as <-. rewrite Hmodel.
  unfold try_exceptS. rewrite (serve_cached _ _ _ _ l Hdf).
  assert (Htruthy : truthy (Some state) = true).
  { cbn [truthy]. destruct (String.eqb state "") eqn:E; [|reflexivity].
    by apply String.eqb_eq in E. }
  rewrite Htruthy. change (default "" (Some state)) with state.
  unfold bindS at 1. unfold on_store.
  destruct (get_state_predictions_run (store s) l d state n omega Hd) as (Hres & Hself & _).
  destruct Hloaded as [(ds & Hdate & _) Hcounts _ _].
  destruct (Hcounts "Confirmed") as (c1 & Hc1 & _); [repeat constructor|].
  destruct (Hcounts "Deaths") as (c2 & Hc2 & _); [repeat constructor|].
  rewrite (state_forecast_no_rows d col state n omega _ c1 c2 Hcol Hno Hdate Hc1 Hc2) in Hres.
  destruct (get_state_predictions (Some l) state n omega (store s)) as [w r].
  cbn [fst snd] in *. subst r. unfold report. cbv [bindS printS on_store print retS].
  cbn [store model _df files writable].
  eexists. split; [reflexivity|]. cbn [model _df store self]. by repeat split.
Qed.

(** X26: without a data file that can be read, a server without a model
    answers every predictions request with status 500 and the message
    [Failed to initialize model], and still has no model afterwards: the
    next request tries again. *)
Theorem get_predictions_without_data state days n omega_train omega s :
  model s = NoModel ->
  _df s = None ->
  (forall table, files s !! data_path <> Some (CsvFile (Returned table))) ->
  days_asked days = Some n ->
  exists s',
    get_predictions state days omega_train omega s
    = (s', Returned (JError "Failed to initialize model", 500%Z))
    /\ model s' = NoModel.
Proof.
  intros Hmodel Hdf Hnodata Hdays.
  destruct (get_predictions_steps state days n omega_train omega s Hdays)
    as (s1 & Hinit & ->).
  rewrite Hmodel in Hinit.
  destruct (initialize_model_run omega_train s) as (s2 & Hrun & _ & Hcases).
  rewrite Hinit in Hrun. injection Hrun as <-.
  assert (Hm1 : model s1 = NoModel).
  { destruct Hcases as [Hm | [[Hm _] | (s0 & l & _ & _ & _ & Hfiles & Hload)]];
      [done | congruence |].
    destruct (Hload Hdf) as (s00 & Hdf0 & Hf0 & Hrun0).
    destruct (load_data_run s00) as (s3 & r & Hrun3 & _ & _ & _ & Hnew).
    rewrite Hrun0 in Hrun3. injection Hrun3 as <- <-.
    destruct (Hnew Hdf0 l eq_refl) as (_ & table & _ & _ & Hfile & _).
    rewrite Hf0 in Hfile. by apply (data_file_kept s s0 table Hfiles), Hnodata in Hfile. }
  rewrite Hm1. by exists s1.
Qed.

Lemma map_Some_inj {A} (l1 l2 : list A) : map Some l1 = map Some l2 -> l1 = l2.
Proof.
  revert l2. induction l1 as [|x l1 IH]; intros [|y l2]; try done.
  cbn [map]. intros [= -> Hl]. f_equal. by apply IH.
Qed.

(** X27: the first aggregate forecast of a server that starts without a model,
    without cached data and without a readable model file. If the request
    is answered with status 200, the engine was trained for it on the
    cleaned table, and the dates of the answer are the dates of that table,
    each once and in ascending order, followed by exactly the number of
    days asked for, at one-day steps from the last date of the table. *)
Theorem get_predictions_cold_start state days n omega_train omega s s' body :
  model s = NoModel ->
  _df s = None ->
  (forall e, files s !! model_path <> Some (JoblibFile (Returned e))) ->
  truthy state = false ->
  days_asked days = Some n ->
  get_predictions state days omega_train omega s = (s', Returned (body, 200%Z)) ->
  exists l out ks ds t_last future predictions lower_bound upper_bound,
    _df s' = Some l /\ frames (store s') !! l = Some out /\ loaded out
    /\ getitem "Date" out = Returned (SDatetime ks)
    /\ body = JForecast (map (fun t => CStr (strftime_ymd t)) (ds ++ future))
                predictions lower_bound upper_bound
    /\ Sorted Z.lt ds
    /\ (forall t, t ∈ ds <-> Some t ∈ ks)
    /\ last ds = Some t_last
    /\ length future = Z.to_nat n
    /\ (forall k t, future !! k = Some t ->
          t = (t_last + (Z.of_nat k + 1) * ns_per_day)%Z).
Proof.
  intros Hmodel Hcold Hnofile Hstate Hdays Hrun.
  destruct (get_predictions_steps state days n omega_train omega s Hdays)
    as (s1 & Hinit & Hsteps).
  rewrite Hsteps in Hrun. clear Hsteps. rewrite Hmodel in Hinit.
  destruct (initialize_model_run omega_train s) as (s2 & Hrun2 & _ & Hcases).
  rewrite Hinit in Hrun2. injection Hrun2 as <-.
  destruct (model s1) eqn:Hm1; [discriminate|].
  destruct Hcases as [Hm | [[Hm _] | (s0 & l & Hdf1 & [_ Hhow] & Hkeep & Hfiles & Hload)]];
    [congruence | congruence |].
  destruct Hhow as [(e & Hfile & _) | (_ & d & held & Hd & Htr & _)].
  { by apply (model_file_kept s s0 e Hfiles), Hnofile in Hfile. }
  (* the frame the engine was trained on is the cleaned table *)
  destruct (Hload Hcold) as (s00 & Hdf0 & _ & Hrun0).
  destruct (load_data_run s00) as (s3 & r & Hrun3 & _ & _ & _ & Hnew).
  rewrite Hrun0 in Hrun3. injection Hrun3 as <- <-.
  destruct (Hnew Hdf0 l eq_refl) as (_ & table & country & out & _ & Hc & Hout & Hcl).
  rewrite Hd in Hout. injection Hout as ->.
  destruct (india_rows_country table country Hc) as (cells & Hcells & Hindia).
  pose proof (cleaned_loaded _ _ cells Hcells Hindia Hcl) as Hloaded.
  destruct (loaded_dates out Hloaded) as (ds0 & Hdate & _).
  apply Hkeep in Hd.
  (* the request is served by that engine *)
  unfold try_exceptS in Hrun. rewrite (serve_cached _ _ _ _ l Hdf1), Hstate in Hrun.
  unfold bindS at 1 in Hrun. unfold bindS at 1 in Hrun. unfold on_store in Hrun.
  pose proof (predict_forecast (store s1) l out n omega) as Hforecast.
  destruct (served_forecast_shape (store s1) l "" n omega) as [Hshape _].
  destruct (served_keeps_both (store s1) l "" n omega) as [Hkept _].
  destruct (predict (Some l) n omega (store s1)) as [w [both|x]]; cbn [fst snd] in *.
  2:{ unfold report in Hrun. cbv [bindS printS on_store print retS] in Hrun. discriminate. }
  specialize (Hforecast both Hd eq_refl).
  destruct (Hshape both eq_refl) as (grid & a & b & c & Hsh).
  unfold retS at 1 in Hrun. rewrite (respond_run _ n grid a b c _ Hsh) in Hrun.
  injection Hrun as <- <-.
  destruct (trained_of_returned _ _ _ _ _ Htr) as (_ & pdf & Hagg & Hfit).
  unfold aggregate_forecast in Hforecast.
  destruct (fitted_forecast_dates out _ _ pdf _ n omega_train omega _ Hdate Hagg Hfit Hforecast)
    as (ds & t_last & future & Hds & _ & Hlt & Hmem & _ & Hlast & Hlen & Hstep).
  destruct Hsh as (Hgrid & _). rewrite Hds in Hgrid. injection Hgrid as Hgrid.
  apply map_Some_inj in Hgrid as <-.
  exists l, out, (map Some ds0), ds, t_last, future.
  eexists _, _, _. cbn [_df store]. split; [exact Hdf1|]. split; [by apply Hkept|].
  split; [exact Hloaded|]. split; [exact Hdate|]. split; [reflexivity|].
  split; [exact Hlt|]. split; [exact Hmem|]. split; [exact Hlast|].
  split; [exact Hlen | exact Hstep].
Qed.

End Service.

(** ** The regions [get_states] lists *)

#[global] Instance string_le_total : Total string_le.
Proof. intros a b. apply String.leb_total. Qed.

Lemma unique_fold_subset keys : forall seen u,
  u ∈ foldl unique_step seen keys -> u ∈ seen \/ u ∈ keys.
Proof.
  induction keys as [|k keys IH]; intros seen u; cbn [foldl]; [by left|].
  intros [Hu | Hu]%IH; [|right; by right].
  unfold unique_step in Hu. destruct (cell_isna k || existsb (cell_eqb k) seen); [by left|].
  apply elem_of_app in Hu as [Hu | Hu%list_elem_of_singleton]; [by left|].
  subst u. right. by left.
Qed.

Lemma unique_keys_subset keys u : u ∈ unique_keys keys -> u ∈ keys.
Proof.
  intros [Hu | Hu]%unique_fold_subset; [by apply elem_of_nil in Hu | done].
Qed.

Lemma unique_keys_present keys : Forall (fun u => cell_isna u = false) (unique_keys keys).
Proof. by destruct (unique_fold_spec keys [] Distinct_nil ltac:(constructor)) as (_ & ? & _). Qed.

Lemma strings_of_names (v : list Cell) :
  Forall (fun c => exists x, c = CStr x) v ->
  exists xs, v = map CStr xs /\ strings_of v = Some xs.
Proof.
  induction 1 as [|c v [x ->] _ (xs & -> & IH)]; [by exists []|].
  exists (x :: xs). split; [reflexivity|]. unfold strings_of in *. cbn. by rewrite IH.
Qed.

Lemma Distinct_names (xs : list string) : Distinct (map CStr xs) -> NoDup xs.
Proof.
  induction xs as [|x xs IH]; [constructor|]. cbn [map].
  inversion 1 as [|? ? Hx Hxs]; subst. constructor; [|by apply IH].
  intros Hin. rewrite Forall_forall in Hx.
  specialize (Hx (CStr x)). cbn [cell_eqb] in Hx. rewrite String.eqb_refl in Hx.
  assert (true = false); [|done]. apply Hx. apply list_elem_of_fmap. by exists x.
Qed.

(** The names among the values of a region column. *)
Definition names_or_missing (cells : list Cell) : Prop :=
  Forall (fun c => c = CNull \/ exists x, c = CStr x) cells.

Section States.
Context `{Pandas} `{Learners} `{Runtime}.

Lemma sorted_names cells :
  names_or_missing cells ->
  exists names,
    sorted_cells (unique_keys cells) = Returned (map CStr names)
    /\ Sorted string_le names /\ NoDup names
    /\ (forall x, x ∈ names <-> CStr x ∈ cells).
Proof.
  intros Hcells. destruct (unique_keys_spec cells) as [Hdistinct Hcover].
  pose proof (unique_keys_present cells) as Hpresent.
  assert (Hnames : Forall (fun c => exists x, c = CStr x) (unique_keys cells)).
  { apply Forall_forall. intros u Hu. rewrite Forall_forall in Hpresent.
    specialize (Hpresent u Hu). apply unique_keys_subset in Hu.
    unfold names_or_missing in Hcells. rewrite Forall_forall in Hcells.
    destruct (Hcells u Hu) as [-> | Hx]; [discriminate | exact Hx]. }
  destruct (strings_of_names _ Hnames) as (xs & HU & Hxs).
  exists (merge_sort string_le xs). split.
  { unfold sorted_cells. by rewrite Hxs. }
  split; [apply (Sorted_merge_sort string_le)|].
  assert (Hperm : merge_sort string_le xs ≡ₚ xs) by apply merge_sort_Permutation.
  rewrite HU in Hdistinct. split.
  { rewrite Hperm. by apply Distinct_names. }
  intros x. rewrite Hperm. split.
  - intros Hx. apply unique_keys_subset. rewrite HU. apply list_elem_of_fmap. by exists x.
  - intros Hx. destruct (Hcover (CStr x) Hx eq_refl) as (u & Hu & Heq).
    rewrite HU in Hu. apply list_elem_of_fmap in Hu as (x' & -> & Hx').
    cbn [cell_eqb] in Heq. by apply String.eqb_eq in Heq as <-.
Qed.

(** [get_states] answers, whatever the state of the server. *)
Lemma get_states_returns s :
  exists s' resp, get_states s = (s', Returned resp).
Proof.
  unfold get_states. unfold bindS at 1.
  destruct (load_data_run s) as (s1 & r & -> & _).
  destruct r as [l|]; [|by eexists _, _].
  unfold try_exceptS.
  match goal with |- context [match ?body s1 with _ => _ end] => destruct (body s1) as [s2 [resp|e]] end.
  - by eexists _, _.
  - by eexists _, _.
Qed.

(** The answer for a region column of names. *)
Definition states_answer (names : list string) : Response :=
  match names with
  | [] => (JError "No states found in data", 404%Z)
  | _ => (JStates (map CStr names), 200%Z)
  end.

Lemma get_states_cached s l d cells :
  _df s = Some l ->
  frames (store s) !! l = Some d ->
  getitem region_column d = Returned (SObject cells) ->
  names_or_missing cells ->
  exists s' names,
    get_states s = (s', Returned (states_answer names))
    /\ Sorted string_le names /\ NoDup names
    /\ (forall x, x ∈ names <-> CStr x ∈ cells).
Proof.
  intros Hdf Hd Hcol Hcells.
  destruct (sorted_names cells Hcells) as (names & Hsorted & Hs & Hn & Hmem).
  unfold get_states. unfold bindS at 1. unfold load_data, bindS at 1. unfold get_df.
  rewrite Hdf. unfold retS at 1. unfold try_exceptS. unfold bindS at 1.
  unfold on_store at 1. unfold has_columnM, bind, read_frame. rewrite Hd.
  unfold ret. rewrite has_column_getitem, Hcol. cbn [is_returned negb].
  unfold bindS at 1. unfold on_store at 1. unfold subscript, getitemM, bind, read_frame.
  cbn [store]. rewrite Hd. unfold lift. rewrite Hcol.
  unfold bindS at 1. unfold liftS. cbn [series_cells]. rewrite Hsorted.
  eexists _, names. split; [|split; [exact Hs|]; split; [exact Hn | exact Hmem]].
  unfold states_answer. by destruct names.
Qed.

End States.

(** ** The rows [get_state_comparison] returns *)

(** [s.dt.strftime('%Y-%m-%d').tolist()] on the values of a datetime column *)
Definition formatted (v : list (option Z)) : list Cell :=
  map (fun o => match o with Some t => CStr (strftime_ymd t) | None => CNull end) v.

(** The entry of one state: the dates and the counts of its rows, in the
    order of the rows. *)
Definition state_rows (col : Series) (ks : list (option Z)) (confirmed : Series)
    (state : string) : list Cell * list Cell :=
  (formatted (filter_mask (region_mask state col) ks),
   filter_mask (region_mask state col) (series_cells confirmed)).

Lemma alist_get_foldl_set {V} (f : string -> V) (states : list string) :
  forall (acc : list (string * V)) (k : string),
    alist_get k (foldl (fun acc st => alist_set st (f st) acc) acc states)
    = if bool_decide (k ∈ states) then Some (f k) else alist_get k acc.
Proof.
  induction states as [|st states IH]; intros acc k; cbn [foldl].
  - by rewrite bool_decide_false by apply not_elem_of_nil.
  - rewrite IH. destruct (decide (k ∈ states)) as [Hin|Hout].
    + rewrite !bool_decide_true; [done | by right | done].
    + rewrite (bool_decide_false _ Hout). rewrite alist_get_set.
      destruct (String.eqb k st) eqn:E.
      * apply String.eqb_eq in E as ->. by rewrite bool_decide_true by left.
      * rewrite bool_decide_false; [done|]. intros [->|?]%elem_of_cons; [|done].
        by rewrite String.eqb_refl in E.
Qed.

Section Comparison.
Context `{Pandas} `{Learners} `{Runtime}.

Lemma compare_states_run l d col ks confirmed states :
  getitem region_column d = Returned col ->
  getitem "Date" d = Returned (SDatetime ks) ->
  getitem "Confirmed" d = Returned confirmed ->
  forall acc s,
    frames (store s) !! l = Some d ->
    exists s',
      compare_states (Some l) states acc s
      = (s', Returned (foldl (fun acc st => alist_set st (state_rows col ks confirmed st) acc)
                         acc states))
      /\ store s' = store s /\ model s' = model s /\ _df s' = _df s /\ files s' = files s.
Proof.
  intros Hcol Hdate Hconf. induction states as [|st states IH]; intros acc s Hd.
  - by exists s.
  - cbn [compare_states foldl]. unfold bindS at 1. unfold on_store at 1.
    unfold subscript, getitemM, bind, read_frame. rewrite Hd. unfold lift. rewrite Hcol.
    unfold bindS at 1. unfold on_store at 1. unfold subscript_mask, bind, read_frame.
    cbn [store]. rewrite Hd. unfold ret.
    unfold bindS at 1. unfold liftS at 1. rewrite getitem_frame_filter, Hdate.
    cbn [rbind series_filter]. unfold bindS at 1. unfold liftS at 1. cbn [strftime_list].
    unfold bindS at 1. unfold liftS at 1. rewrite getitem_frame_filter, Hconf.
    cbn [rbind]. rewrite series_cells_filter.
    match goal with
    | |- context [compare_states (Some l) states ?acc' ?s1] =>
        destruct (IH acc' s1) as (s' & Hrun & Hst & Hm & Hdf & Hf); [exact Hd|]
    end.
    exists s'. split; [exact Hrun|]. by repeat split.
Qed.

Lemma compare_states_none state states acc s :
  exists s', compare_states None (state :: states) acc s
             = (s', Raised (TypeError none_subscript_msg)).
Proof. by eexists. Qed.

End Comparison.

(** ** The totals [get_data] returns *)

Section Totals.
Context `{Pandas} `{Learners} `{Runtime}.














End Totals.

(** ** Properties of the other routes *)

Section Routes.
Context `{Pandas} `{Learners} `{Runtime}.

(** X28: [get_states] never raises. When the region column of the cached data
    holds names and missing values, the answer lists the names that occur,
    each once and in ascending order, with status 200; when no name occurs,
    it is an error with status 404. *)
Theorem get_states_sorted s :
  exists s' resp,
    get_states s = (s', Returned resp)
    /\ forall l d cells,
         _df s = Some l ->
         frames (store s) !! l = Some d ->
         getitem region_column d = Returned (SObject cells) ->
         names_or_missing cells ->
         exists names,
           resp = states_answer names
           /\ Sorted string_le names /\ NoDup names
           /\ (forall x, x ∈ names <-> CStr x ∈ cells).
Proof.
  destruct (get_states_returns s) as (s' & resp & Hrun).
  exists s', resp. split; [exact Hrun|].
  intros l d cells Hdf Hd Hcol Hcells.
  destruct (get_states_cached s l d cells Hdf Hd Hcol Hcells)
    as (s2 & names & Hrun2 & Hs & Hn & Hmem).
  rewrite Hrun in Hrun2. injection Hrun2 as _ ->.
  exists names. split; [reflexivity|]. split; [exact Hs|]. split; [exact Hn | exact Hmem].
Qed.


(** X30: [get_state_comparison] has no handler. From cached data it answers with
    one entry for each state asked for, holding the dates and the confirmed
    counts of the rows of that state in the order of the rows (none for a
    state without rows), and no entry for another state. When the data
    cannot be loaded and a state is asked for, it raises the [TypeError] of
    subscripting [None] instead of answering. *)
Theorem get_state_comparison_rows states s :
  (forall l d col ks confirmed,
     _df s = Some l ->
     frames (store s) !! l = Some d ->
     getitem region_column d = Returned col ->
     getitem "Date" d = Returned (SDatetime ks) ->
     getitem "Confirmed" d = Returned confirmed ->
     exists s' result,
       get_state_comparison states s = (s', Returned (JComparison result, 200%Z))
       /\ forall state,
            alist_get state result
            = if bool_decide (state ∈ states)
              then Some (state_rows col ks confirmed state) else None)
  /\ (snd (load_data s) = Returned None -> states <> [] ->
      snd (get_state_comparison states s) = Raised (TypeError none_subscript_msg)).
Proof.
  split.
  - intros l d col ks confirmed Hdf Hd Hcol Hdate Hconf.
    unfold get_state_comparison. unfold bindS at 1. unfold load_data, bindS at 1.
    unfold get_df. rewrite Hdf. unfold retS at 1. unfold bindS at 1.
    destruct (compare_states_run l d col ks confirmed states Hcol Hdate Hconf [] s Hd)
      as (s' & -> & _).
    eexists _, _. split; [reflexivity|]. intros state.
    by rewrite alist_get_foldl_set.
  - intros Hnone Hstates. unfold get_state_comparison. unfold bindS at 1.
    destruct (load_data s) as [s1 r]. cbn [snd] in Hnone. subst r.
    destruct states as [|state states]; [done|].
    unfold bindS. by destruct (compare_states_none state states [] s1) as [s2 ->].
Qed.

End Routes.

(** ** A deployment, for the examples *)

(** A POSIX runtime: decimal literals, paths joined by a slash. *)
Definition posix : Runtime := {|
  int_of_str := Reference.natural;
  repr_str := fun s => ("'" ++ s ++ "'")%string;
  int64_wrap := fun _ => iNaT;
  project_root := "/srv/app";
  path_join := fun a b => (a ++ "/" ++ b)%string;
  wrong_format := fun _ => PyException "Error tokenizing data";
  infers_strings :=
    forallb (fun c => match c with CStr _ | CNull => true | _ => false end);
  parse_date :=
    fun s => match Reference.ref_parse_datetime s with
             | Some t => Returned t
             | None => Raised (ValueError ("Unknown string format: " ++ s))
             end;
  unorderable := fun _ => "'<' not supported between instances of 'str' and 'float'"
|}.

(** Seven rows of a data file: two regions of India on two days, a row of
    another country, a row before the range of the application and a row
    whose date cannot be read. *)
Definition covid_table : DataFrame := mkFrame 7
  [ ("ObservationDate",
     SObject [CStr "2020-03-01"; CStr "2020-03-02"; CStr "2020-03-01"; CStr "2020-03-02";
              CStr "2020-03-01"; CStr "2019-12-31"; CStr "unknown"]);
    ("Province/State",
     SObject [CStr "Kerala"; CStr "Kerala"; CStr "Goa"; CStr "Goa";
              CStr "Hubei"; CStr "Kerala"; CStr "Goa"]);
    ("Country/Region",
     SObject [CStr "India"; CStr "India"; CStr "india"; CStr "INDIA";
              CStr "Mainland China"; CStr "India"; CStr "India"]);
    ("Confirmed", SNumeric [Some 1%Q; Some 3%Q; Some 10%Q; Some 12%Q;
                            Some 100%Q; Some 0%Q; Some 5%Q]);
    ("Deaths", SNumeric [Some 0%Q; Some 0%Q; Some 1%Q; Some 1%Q;
                         Some 9%Q; Some 0%Q; Some 0%Q]);
    ("Recovered", SObject [CStr "0"; CStr "1"; CStr "2"; CNull;
                           CStr "50"; CStr "0"; CStr "0"]) ].

Definition Deployment : Type := Server (H0 := Example.L).

(** A server that has just started, beside its data file. *)
Definition cold : Deployment :=
  mkServer (H0 := Example.L) (mkWorld (H0 := Example.L) ∅ (init (H0 := Example.L)) [])
    NoModel None
    {[ data_path (H1 := posix) := CsvFile (H0 := Example.L) (Returned covid_table) ]} true.

Definition seed : Entropy (Learners := Example.L) := 0%nat.

(** The same server after its engine has been initialised. *)
Definition warm : Deployment :=
  fst (initialize_model (H := Example.P) (H1 := posix) seed cold).

(** A server that starts again beside the files that [warm] has left. *)
Definition restarted : Deployment :=
  mkServer (H0 := Example.L) (mkWorld (H0 := Example.L) ∅ (init (H0 := Example.L)) [])
    NoModel None (files warm) true.

(** A server without any file. *)
Definition bare : Deployment :=
  mkServer (H0 := Example.L) (mkWorld (H0 := Example.L) ∅ (init (H0 := Example.L)) [])
    NoModel None ∅ true.

(** What [load_data] makes of [covid_table]. *)
Definition india_2020 : DataFrame := mkFrame 4
  [ ("ObservationDate",
     SObject [CStr "2020-03-01"; CStr "2020-03-02"; CStr "2020-03-01"; CStr "2020-03-02"]);
    ("State/UnionTerritory", SObject [CStr "Kerala"; CStr "Kerala"; CStr "Goa"; CStr "Goa"]);
    ("Country/Region", SObject [CStr "India"; CStr "India"; CStr "india"; CStr "INDIA"]);
    ("Confirmed", SNumeric [Some 1%Q; Some 3%Q; Some 10%Q; Some 12%Q]);
    ("Deaths", SNumeric [Some 0%Q; Some 0%Q; Some 1%Q; Some 1%Q]);
    ("Cured", SNumeric [Some 0%Q; Some 1%Q; Some 2%Q; Some 0%Q]);
    ("Date", SDatetime [Some 1583020800000000000%Z; Some 1583107200000000000%Z;
                        Some 1583020800000000000%Z; Some 1583107200000000000%Z]) ].

Example cold_load :
  snd (load_data (H := Example.P) (H1 := posix) cold) = Returned (Some 0%nat)
  /\ frames (store (fst (load_data (H := Example.P) (H1 := posix) cold))) !! 0%nat
     = Some india_2020.
Proof. split; vm_compute; reflexivity. Qed.

Example cold_request :
  snd (get_predictions (H := Example.P) (H1 := posix) None (Some "2") seed seed cold)
  = Returned
      (JForecast
         [CStr "2020-03-01"; CStr "2020-03-02"; CStr "2020-03-03"; CStr "2020-03-04"]
         [CNum 15; CNum 15; CNum 15; CNum 15]
         [CNum 14; CNum 14; CNum 14; CNum 14]
         [CNum 16; CNum 16; CNum 16; CNum 16], 200%Z).
Proof. vm_compute. reflexivity. Qed.

Lemma loaded_india_2020 : loaded india_2020.
Proof.
  constructor.
  - exists [1583020800000000000; 1583107200000000000;
            1583020800000000000; 1583107200000000000]%Z.
    split; [reflexivity|]. repeat constructor; vm_compute; discriminate.
  - intros col Hcol. unfold count_columns in Hcol.
    repeat (apply elem_of_cons in Hcol as [->|Hcol]); [| | |by apply elem_of_nil in Hcol];
      (eexists; split; [reflexivity|]).
    + by exists [1; 3; 10; 12]%Z.
    + by exists [0; 0; 1; 1]%Z.
    + by exists [0; 1; 2; 0]%Z.
  - reflexivity.
  - eexists. split; [reflexivity|]. repeat constructor; by eexists.
Qed.

(** A run from its result; a path without an entry; the engine in a file. *)
Lemma run_eq {A B} (p : A * B) (b : B) : snd p = b -> p = (fst p, b).
Proof. destruct p as [a b']. cbn [fst snd]. by intros ->. Qed.

Lemma no_entry {V} (m : gmap string V) (k : string) :
  bool_decide (is_Some (m !! k)) = false -> forall v, m !! k <> Some v.
Proof. intros Hk v Hv. apply bool_decide_eq_false in Hk. apply Hk. by exists v. Qed.

Definition stored_engine (x : option (Entry (H0 := Example.L)))
    : COVIDPredictionModel (H0 := Example.L) :=
  match x with
  | Some (JoblibFile (Returned e)) => e
  | _ => init (H0 := Example.L)
  end.

Definition holds_engine (x : option (Entry (H0 := Example.L))) : bool :=
  match x with
  | Some (JoblibFile (Returned _)) => true
  | _ => false
  end.

Lemma holds_stored_engine x :
  holds_engine x = true -> x = Some (JoblibFile (Returned (stored_engine x))).
Proof. by destruct x as [[|?|[?|?]]|]. Qed.

Lemma load_data_cleans_witness :
  exists out,
    frames (store (fst (load_data (H := Example.P) (H1 := posix) cold))) !! 0%nat = Some out
    /\ loaded out.
Proof.
  destruct (load_data_cleans (H := Example.P) (H1 := posix) cold
              (fst (load_data (H := Example.P) (H1 := posix) cold)) 0%nat)
    as (_ & table & country & obs & out & _ & _ & _ & Hout & _ & Hloaded).
  - reflexivity.
  - apply run_eq. vm_compute. reflexivity.
  - exists out. split; [exact Hout | exact Hloaded].
Defined.

Lemma initialize_model_outcome_witness :
  exists s',
    initialize_model (H := Example.P) (H1 := posix) seed cold = (s', Returned tt)
    /\ (model s' = NoModel
        \/ (model s' = EngineModel /\ is_Some (_df s')
            /\ files s' !! model_path (H1 := posix)
               = Some (JoblibFile (Returned (self (store s')))))).
Proof.
  destruct (initialize_model_outcome (H := Example.P) (H1 := posix) seed cold eq_refl)
    as (s' & Hrun & _ & Hcases).
  exists s'. split; [exact Hrun | exact Hcases].
Defined.

Lemma initialize_model_trains_witness :
  fitted (self (store warm))
  /\ files warm !! model_path (H1 := posix) = Some (JoblibFile (Returned (self (store warm)))).
Proof.
  unfold warm.
  destruct (initialize_model_trains (H := Example.P) (H1 := posix) seed cold
              (fst (initialize_model (H := Example.P) (H1 := posix) seed cold)))
    as (l & d & held & _ & _ & _ & Hfitted & Hfile).
  - reflexivity.
  - intros x. apply no_entry. vm_compute. reflexivity.
  - apply run_eq. vm_compute. reflexivity.
  - vm_compute. reflexivity.
  - split; [exact Hfitted | exact Hfile].
Defined.

Lemma initialize_model_prefers_file_witness :
  exists s',
    (forall omega, initialize_model (H := Example.P) (H1 := posix) omega restarted
                   = (s', Returned tt))
    /\ model s' = EngineModel
    /\ self (store s') = stored_engine (files restarted !! model_path (H1 := posix)).
Proof.
  destruct (initialize_model_prefers_file (H := Example.P) (H1 := posix) restarted
              (fst (load_data (H := Example.P) (H1 := posix) restarted)) 0%nat
              (stored_engine (files restarted !! model_path (H1 := posix))))
    as (s' & Hrun & Hm & Hself & _).
  - apply (bool_decide_eq_true_1 (is_Some _)). vm_compute. reflexivity.
  - apply holds_stored_engine. vm_compute. reflexivity.
  - apply run_eq. vm_compute. reflexivity.
  - exists s'. split; [exact Hrun|]. split; [exact Hm | exact Hself].
Defined.

Lemma get_predictions_unknown_region_witness :
  exists s',
    get_predictions (H := Example.P) (H1 := posix) (Some "Ladakh") (Some "7") seed seed warm
    = (s', Returned (JError "Dataframe has less than 2 non-NaN rows.", 500%Z)).
Proof.
  destruct (get_predictions_unknown_region (H := Example.P) (H1 := posix)
              "Ladakh" (Some "7") 7 seed seed warm 0%nat india_2020
              (SObject [CStr "Kerala"; CStr "Kerala"; CStr "Goa"; CStr "Goa"]))
    as (s' & Hrun & _).
  - vm_compute. reflexivity.
  - vm_compute. reflexivity.
  - vm_compute. reflexivity.
  - exact loaded_india_2020.
  - reflexivity.
  - repeat constructor.
  - discriminate.
  - vm_compute. reflexivity.
  - exists s'. exact Hrun.
Defined.

Lemma get_predictions_without_data_witness :
  exists s',
    get_predictions (H := Example.P) (H1 := posix) (Some "Goa") None seed seed bare
    = (s', Returned (JError "Failed to initialize model", 500%Z))
    /\ model s' = NoModel.
Proof.
  destruct (get_predictions_without_data (H := Example.P) (H1 := posix)
              (Some "Goa") None 30 seed seed bare) as (s' & Hrun & Hm).
  - reflexivity.
  - reflexivity.
  - intros x. apply no_entry. vm_compute. reflexivity.
  - reflexivity.
  - exists s'. split; [exact Hrun | exact Hm].
Defined.

(** The answer of [cold] to a first request for two days. *)
Definition first_answer : Json :=
  fst (returned
         (snd (get_predictions (H := Example.P) (H1 := posix) None (Some "2") seed seed cold))
         (JError "", 0%Z)).

Lemma get_predictions_cold_start_witness :
  exists ds future predictions lower_bound upper_bound,
    first_answer
    = JForecast (map (fun t => CStr (strftime_ymd t)) (ds ++ future))
        predictions lower_bound upper_bound
    /\ Sorted Z.lt ds
    /\ length future = 2%nat.
Proof.
  destruct (get_predictions_cold_start (H := Example.P) (H1 := posix)
              None (Some "2") 2 seed seed cold
              (fst (get_predictions (H := Example.P) (H1 := posix) None (Some "2")
                      seed seed cold))
              first_answer)
    as (l & out & ks & ds & t_last & future & p & lo & hi
        & _ & _ & _ & _ & Hbody & Hlt & _ & _ & Hlen & _).
  - reflexivity.
  - reflexivity.
  - intros x. apply no_entry. vm_compute. reflexivity.
  - reflexivity.
  - vm_compute. reflexivity.
  - apply run_eq. vm_compute. reflexivity.
  - exists ds, future, p, lo, hi. split; [exact Hbody|]. split; [exact Hlt | exact Hlen].
Defined.

Example warm_states :
  snd (get_states (H := Example.P) (H1 := posix) warm)
  = Returned (JStates [CStr "Goa"; CStr "Kerala"], 200%Z).
Proof. vm_compute. reflexivity. Qed.

Lemma get_states_sorted_witness :
  exists names,
    snd (get_states (H := Example.P) (H1 := posix) warm) = Returned (states_answer names)
    /\ Sorted string_le names
    /\ (forall x, x ∈ names
          <-> CStr x ∈ [CStr "Kerala"; CStr "Kerala"; CStr "Goa"; CStr "Goa"]).
Proof.
  destruct (get_states_sorted (H := Example.P) (H1 := posix) warm)
    as (s' & resp & Hrun & Hspec).
  destruct (Hspec 0%nat india_2020 [CStr "Kerala"; CStr "Kerala"; CStr "Goa"; CStr "Goa"])
    as (names & -> & Hsorted & _ & Hmem).
  - vm_compute. reflexivity.
  - vm_compute. reflexivity.
  - reflexivity.
  - unfold names_or_missing. repeat (apply Forall_cons; split; [right; by eexists|]).
    constructor.
  - exists names. rewrite Hrun. split; [reflexivity|]. split; [exact Hsorted | exact Hmem].
Defined.

Example warm_data :
  snd (get_data (H := Example.P) (H1 := posix) (Some "Goa")
         (Some "2020-03-02") (Some "2020-12-31") warm)
  = Returned (JSeries [CStr "2020-03-02"] [CNum 12] [CNum 1] [CNum 0], 200%Z)
  /\ snd (get_data (H := Example.P) (H1 := posix) (Some "Ladakh") None None warm)
     = Returned (JSeries [] [] [] [], 200%Z)
  /\ snd (get_data (H := Example.P) (H1 := posix) None (Some "March") (Some "April") warm)
     = Returned (JError "Invalid date format", 400%Z).
Proof. split; [|split]; vm_compute; reflexivity. Qed.



Example warm_comparison :
  snd (get_state_comparison (H := Example.P) (H1 := posix) ["Goa"; "Ladakh"] warm)
  = Returned
      (JComparison
         [ ("Goa", ([CStr "2020-03-01"; CStr "2020-03-02"], [CNum 10; CNum 12]));
           ("Ladakh", ([], [])) ], 200%Z)
  /\ snd (get_state_comparison (H := Example.P) (H1 := posix) ["Goa"] bare)
     = Raised (TypeError none_subscript_msg).
Proof. split; vm_compute; reflexivity. Qed.

Lemma get_state_comparison_rows_witness :
  (exists s' result,
     get_state_comparison (H := Example.P) (H1 := posix) ["Goa"; "Ladakh"] warm
     = (s', Returned (JComparison result, 200%Z))
     /\ alist_get "Goa" result
        = Some (state_rows
                  (SObject [CStr "Kerala"; CStr "Kerala"; CStr "Goa"; CStr "Goa"])
                  [Some 1583020800000000000%Z; Some 1583107200000000000%Z;
                   Some 1583020800000000000%Z; Some 1583107200000000000%Z]
                  (SNumeric [Some 1%Q; Some 3%Q; Some 10%Q; Some 12%Q]) "Goa"))
  /\ snd (get_state_comparison (H := Example.P) (H1 := posix) ["Goa"] bare)
     = Raised (TypeError none_subscript_msg).
Proof.
  split.
  - destruct (get_state_comparison_rows (H := Example.P) (H1 := posix) ["Goa"; "Ladakh"] warm)
      as [Hrows _].
    destruct (Hrows 0%nat india_2020
                (SObject [CStr "Kerala"; CStr "Kerala"; CStr "Goa"; CStr "Goa"])
                [Some 1583020800000000000%Z; Some 1583107200000000000%Z;
                 Some 1583020800000000000%Z; Some 1583107200000000000%Z]
                (SNumeric [Some 1%Q; Some 3%Q; Some 10%Q; Some 12%Q]))
      as (s' & result & Hrun & Hget).
    + vm_compute. reflexivity.
    + vm_compute. reflexivity.
    + reflexivity.
    + reflexivity.
    + reflexivity.
    + exists s', result. split; [exact Hrun|]. rewrite (Hget "Goa").
      rewrite bool_decide_true; [reflexivity | by left].
  - destruct (get_state_comparison_rows (H := Example.P) (H1 := posix) ["Goa"] bare)
      as [_ Hraise].
    apply Hraise; [vm_compute; reflexivity | discriminate].
Defined.
